(* ===== verification/_CoqProject ===== *)
-Q . S2P
Prelude.v
JsValue.v
Dates.v
GeoDistance.v
Store.v
Http.v
Documents.v
Mileage.v
Loops.v
Payroll.v
Csv.v
WeeklyReport.v
Cleanup.v
Routes.v
Priority.v
Middleware.v
Server.v
Answers.v
Bootstrap.v
Client.v
Session.v
Safety.v
ExportView.v
Dashboard.v
Tasks.v
Contacts.v
SmartRoutes.v
Pwa.v
Forms.v
Reports.v
Benefits.v
