(* ===== verification/Prelude.v ===== *)
(** * FieldForce Pro: a verification development of [src/server.js], [src/app.js]
    and [src/test-connection.js]

    ** The program

    FieldForce Pro is an Express server over five MongoDB collections
    (employees, tasks, locations, emergencies, logs) and a browser client.
    The server's routes are thin handlers over Mongoose queries; around them
    a logging middleware writes a log for every answered non-GET request. The
    core the specification describes is the benefits pipeline: the haversine
    distance ([calculateDistance]), the mileage total of consecutive GPS
    fixes ([calculateTotalMileage] and [GET /api/mileage/:employee_id]), the
    timesheet and time-savings figures, the weekly report and CSV export,
    and the cleanup that deletes the exported window.

    ** Files, in dependency order

    - [Prelude]: the [result] type of a handler's [try] block, [reduce_sum]
      (the handlers' [reduce]), a stable insertion sort (a query's [.sort]),
      the tactic [qlra], hint databases [ff] and [ff_rw], and the generic
      lemmas on sums, filters and sorting.
    - [JsValue]: JavaScript values ([json]), truthiness, [x || d],
      [Number.prototype.toFixed], numbers that may be NaN ([option Q] with
      [js_add]), template-literal conversion, and Mongoose's casts to String,
      Number and Boolean.
    - [Dates]: [new Date(string)] for the ISO forms, [setHours] in a fixed
      host offset, the report window, [toISOString] and moment's week label.
    - [GeoDistance]: [calculateDistance] over an abstract [Math] library
      ([Class MathLib]) with the laws it needs ([Class MathLaws]), and a
      concrete test library [TestMath] that satisfies them.
    - [Store]: the schemas as records, the store of the five collections,
      ObjectIds, the query casts and the window queries. A [Number] path
      that may be left unset is a [NumField]: unset, [null] or a number.
    - [Http]: requests, responses, the state-and-exception monad [M] of a
      handler body, [run_route] (the [catch] that answers [{ error }]), and
      the combinators [readonly] and [mono] with which the server's
      invariants are proved.
    - [Documents]: [Model.create(obj)]: path casts, defaults, validation
      errors, the fresh [_id] and the unique indexes.
    - [Mileage], [Payroll], [Csv], [WeeklyReport], [Cleanup]: the benefits
      pipeline, one file per component of the specification.
    - [Loops]: the mileage loop as the code writes it, with its index
      [i], its test [i < locations.length], its reads [locations[i-1]] and
      [locations[i]], and a fuel bound on the number of tests.
    - [Routes]: the CRUD routes (register, login with Mongoose's filter casting,
      tasks, locations, emergency, task progress, logs, ping).
      [findByIdAndUpdate]'s filter is an [IdFilter]: an [undefined] id is
      dropped from it, and the first task is updated.
    - [Priority]: the aggregation pipeline of
      [GET /api/prioritized-tasks/:employee_id]: match, [ai_score], sort,
      limit 5.
    - [Middleware]: the logging middleware and its two tables.
    - [Server]: the router ([handler], [get_route], [post_route]) as
      Express matches: [HEAD] runs the [GET] routes, literal segments
      match without case, and one trailing slash is allowed. Then [serve]
      (route, then middleware), [serve_all] and [reachable]; the invariants of every
      reachable store and the scenarios that show the findings.
    - [Answers]: the shape of every answer ([json_answer]), proved with a
      postcondition calculus ([returns]) on the handler monad.
    - [Bootstrap]: the middleware chain in front of the routes (the two
      [cors] layers, [app_handle]), the start of the server ([MONGODB_URI]
      check, [PORT || 3000]) and the run of [test-connection.js].
    - [Client]: the requests [src/app.js] builds and what it displays, with
      the JSON wire ([json_wire]) between the two, and the network
      ([Net]): [fetch] delivers the answer, or rejects before or after the
      server ran ([fetch_net]), into a [catch].
    - [Session]: the client's life as a state machine ([handle] on an
      [Event]): login, logout, reload with [checkAuth], location tracking
      with the browser's watches, timers and pending position requests,
      and [updateLocation] against the server; [session_reachable] is the
      set of sessions a first visit leads to.
    - [Safety]: [triggerEmergency], [sendEmergencyAlert] with [trim()] on
      the UTF-8 bytes of the message, and [callNumber], against the server's
      emergency route and its two logs.
    - [ExportView]: [escapeCSV] and the download buttons' [onclick] source,
      read as the HTML tokenizer and the JavaScript engine read it.
    - [Dashboard]: [updateDashboardMetrics] up to its first throw,
      [calculatePerformance], [calculateRouteSavings] and [switchTab].
    - [Tasks]: the task list ([loadTasks], [displayTasks] with its filter,
      cards and [TypeError]s), [addTask], [openTaskModal] and
      [updateProgress], with [parseFloat] of the hours field.
    - [Contacts]: [loadEmergencyContacts], [displayEmergencyContacts] and
      what each Call button dials, read through the HTML attribute and the
      string literal.
    - [SmartRoutes]: [loadAIPriority] and [displayPriorityTasks], the
      ranked cards of the AI-priority tab.
    - [Pwa]: the service worker registration, the [beforeinstallprompt]
      banner and [installPWA], as a step relation.
    - [Forms]: [setDefaultDates] (with [getDate], [getDay] and [setDate] in
      local time) and [handleRegister], with the registration followed
      through the server to the next login.
    - [Reports]: [generateWeeklyReport] and [exportData] with what they
      display, against the server's report route.
    - [Benefits]: [calculateMileage], [calculateTimesheet] and
      [cleanupData] whole: the date guard, the [confirm] dialog,
      [showLoading] around the [try] and [catch], and the panels written,
      on any network. The read of [this.currentEmployee.id] in the URL
      ([fetch_employee]) throws into the [catch] before any request when
      no employee is set.

    ** What the theorems show

    - Cleanup: it refuses without confirmation. Confirmed, it deletes
      exactly the window's completed tasks, locations and logs, and leaves
      every other collection and the id counter as they were. It answers
      the counts matched before the deletes. What it deletes is what the
      report of the same window exported, and it is idempotent.
    - Mileage: the loop equals the sum over consecutive pairs (equivalence
      with a reference definition); the index loop terminates after exactly
      [max 1 n] tests of its condition, never reads out of range and gives
      the same total (termination, with the fuel bound shown exact); it is
      additive, is never negative when
      every fix has coordinates, and is NaN when a coordinate path was
      never set (a [null] coordinate reads as 0); the route's
      answers for one fix, for bad dates and for other employees' fixes.
    - Distance: zero on a point, symmetric, non-negative, for every Math
      library satisfying the laws.
    - Payroll: the regular/overtime split, the efficiency guard, the
      specification's two examples, and the [|| 25] and [|| 1] fallbacks.
    - Priority: the route answers the top five by score; the score refines
      the tie-break order of the specification (overdue, due within a day,
      priority 3, priority 2, the rest) for any draws in [[0, 1)].
    - Session: every reachable session keeps its tracking handles and its
      storage consistent (rule induction over [session_reachable]); a
      reload gives the employee back through [localStorage]; each hourly
      tick with a position stores one more fix (progress).
    - Safety: an alert with a message [trim()] does not empty is stored as
      one more emergency with two logs, the page says it is sent and the
      phone dials the primary contact (progress of the emergency path).
    - Export view: the download handler carries a text back through
      [escapeCSV] and the two string literals when the text has no double
      quote, ampersand, backslash or carriage return.
    - Dashboard: the completion rate is a whole percentage from 0 to 100.
    - Dates: [civil_from_days] and [days_from_civil] are inverse, and the
      server's [new Date(string)] reads back every instant [toISOString]
      prints for the years 0 to 9999 ([pad_spec]: [padStart] of the decimal
      numeral gives [w] digits that read back as the number). The lemma
      serves the client's dates sent as [toISOString] texts.
    - Client: the dashboard's earnings request reaches the server as the
      exact instants of [firstDay] and [lastDay]. [lastDay] is the local
      midnight that starts the month's last day, so the rest of that day
      lies outside the mileage window.
    - Forms: the default report week is a Monday to Sunday; a registration
      that answers [ok] is followed by a login that answers the registered
      employee.
    - Reports: the report tab shows the server's summary of the window the
      week fields name; an unreadable date ends in the error notice; on a
      UTC host the default week reaches the server as Monday 00:00 to
      Sunday 23:59:59.999 ([default_week_report_window]).
    - Bootstrap: a preflight never reaches the routes and answers 204 with
      the origin only when listed; the server listens exactly when
      [MONGODB_URI] is set; the connection test exits 0 exactly when it
      connects.
    - Answers: every answer is a JSON object or array with the status
      200, 400, 401 or 500, except the text of [/api/ping] and Express's
      404 (a type of the responses, which the client's [response.json()]
      relies on).
    - Tasks: an array of tasks shows the cards of the tasks the filter
      keeps; a progress update made from a card reaches its task on the
      server (progress of the task path).
    - Contacts: a Call button dials the phone its card shows when the phone
      has no quote, ampersand, backslash or line break; the server's four
      contacts are shown, and the first is the number an alert dials.
    - Smart routes: the answer of the priority route is shown ranked 1, 2,
      ... in the route's order with each score to one decimal.
    - Pwa: in every reachable state no install prompt was ever shown
      (invariant by rule induction over [pwa_reachable]).
    - Export view: a click on a button downloads exactly its text when the
      text has nothing the readings treat specially, and nothing for a CSV
      the server exports.
    - Benefits: on every network the loading class never outlives an
      action that set it and each action writes only its own panel; a
      request that gets no answer ends in the action's own error notice
      (and an alert dials nobody); the cleanup tab deletes the week through
      the server exactly when the dialog is accepted, and shows the
      route's counts.
    - Server: every reachable store has unique ids and emails; no sequence of
      requests loses an employee or an emergency; GET requests never write.
    - Findings: the client never sends the employee's id (its requests go to
      [/api/.../undefined]); the week's end is lost west of UTC; the report's
      mileage mixes employees (one fix each gives 0 miles per employee
      and the distance between them in the report); the earnings window
      leaves out the month's last day; a login without credentials returns the first
      active employee with the password; every login's password is logged
      in clear in the details of the middleware's log; a refused
      cleanup still writes a log; a fix logged between export and cleanup is
      lost; the emergency route logs twice and stores every alert without
      [employee_id]; a task-progress body without [task_id] updates the
      first task; a [HEAD] request runs a [GET] route and is logged; after
      a successful progress update the list reload
      fails and replaces the success notice; the CSV record count and the week
      label are wrong in the cases shown; an undated task ranks as overdue,
      and the priority jitter is one draw per request; restarting tracking
      and logging out leaks a watch and a timer, which report "Active"
      after the logout; a reload restores the session without tracking;
      the tracked fixes are stored without an employee; the download
      buttons never work; the dashboard stops at the tasks figure; the
      Smart Routes tab fails with its header alone; the Install button
      never prompts and the browser's own offer is suppressed; the
      second [cors()] answers every simple request with
      [Access-Control-Allow-Origin: *], whatever the origin list says; on
      a Sunday the default report week is the next week, and east of UTC
      every default date is one day early; the page sets
      [backup_confirmed: true] after a dialog alone, with no export; a
      cleanup whose answer is lost reports an error over a deleted week.

    ** Modelling choices

    - Numbers are exact rationals: double rounding is not modelled, so the
      theorems hold for the exact values the code approximates. NaN is
      modelled where the code can produce it: a coordinate path that was
      never set reads [undefined], whose ToNumber is NaN ([null] gives 0).
    - [toFixed] follows ECMA-262 for [|x| < 10^21], enough for any mileage
      or pay. [TestMath] (Taylor polynomials, and 40 Newton steps for the
      square root on values rounded to 15 decimals, which keeps the
      evaluation small) only serves the concrete examples and witnesses; no
      general theorem depends on it.
    - Dates are milliseconds in [Z] with TimeClip; the host's time zone is a
      fixed offset [tza] (no daylight saving time). [new Date(string)] reads
      the ISO date-only and UTC date-time forms; other formats are Invalid Date.
    - MongoDB returns unsorted finds in insertion order and sorts stably; it
      does not promise either, and the theorems about order name it.
    - Error messages of Mongoose keep their structure but not the rendering
      of the offending value; 12-byte ObjectId strings are not modelled.
    - The random numbers of the AI priority route are inputs: the two
      [Math.random()] of a request and MongoDB's [$rand] of each document
      ([Priority.Randomness]), given to the server per request.
    - The page is modelled through the values the handlers write: the
      screen, the safety status, the last notification and the dashboard's
      figures; the markup itself is not under [src/]. The session lets any
      event happen in any state, so its invariants also cover states the
      markup would not offer.
    - Express's router is modelled from its documented matching (no
      [strict], no [caseSensitive]): [HEAD] falls back to the [GET] route,
      and a route without a handler gives the 404 text.
    - The [cors] package is modelled from its documented behaviour (origin
      list, wildcard default, credentials header, 204 preflight); helmet's
      headers, the body parser, the static files (not in the repository),
      dotenv and the network are not modelled; [mongoose.connect]'s outcome
      is an input of the connection test.
    - A [fetch] that rejects is modelled for the actions of [Benefits] and
      for [sendEmergencyAlert]: a [Net] may lose any request before or
      after the server ran. The other actions (login, registration,
      dashboard, lists, tracking) run against a server that always
      answers, so their [catch] branches are not taken.
    - Fuel: the code's loops run over arrays and strings ([for],
      [forEach], [filter], [split], [trim], [parseFloat]'s scan), and the
      model's are structural recursions on those lists. The one loop
      written with an index, the mileage total, is also modelled as the
      code writes it ([Loops.mileage_for]), with fuel. The fuel it needs
      is [max 1 n] for [n] fixes: that much is enough, and less runs out.
    - Not modelled: the markup and styles around the texts the display
      functions write, the Blob and anchor of [downloadCSV] (the model
      keeps the file it saves), [closeModals], the loading class outside
      [Benefits], the form resets, the [console] lines of the [catch]
      branches, the [setupEventListeners] wiring of the report and modal
      buttons (their handlers are modelled), and [/sw.js], which is not
      in the repository. *)

From Stdlib Require Import QArith Qround Qminmax Lqa ZArith Lia List String Ascii Bool.
From Stdlib Require Import Morphisms Setoid Permutation Sorted.
Import ListNotations.

(** ** Scope, notations and the result type

    A route handler of [src/server.js] runs inside [try { ... } catch (error)].
    A value of [result A] is either the value the [try] block computed or
    the message of the exception it threw. *)

Declare Scope ff_scope.
Delimit Scope ff_scope with ff.

Inductive result (A : Type) : Type :=
| Ok (a : A)
| Throw (msg : string).
Arguments Ok {A} a.
Arguments Throw {A} msg.

Definition bind {A B : Type} (c : result A) (k : A -> result B) : result B :=
  match c with
  | Ok a => k a
  | Throw m => Throw m
  end.

Notation "'let*' x ':=' c 'in' k" := (bind c (fun x => k))
  (at level 10, x name, c at level 100, k at level 200) : ff_scope.

Open Scope ff_scope.

(** JavaScript's [<] on numbers, as a boolean. *)
Definition Qltb (x y : Q) : bool := negb (Qle_bool y x).

(** [xs.reduce((sum, x) => sum + f(x), 0)], as the handlers write it. *)
Definition reduce_sum {A : Type} (f : A -> Q) (l : list A) : Q :=
  fold_left (fun s x => s + f x) l 0.

(** A stable insertion sort by a boolean order [le]: [.sort(...)] of a query.
    Elements the order does not separate keep their natural order. *)
Fixpoint insert_stable {A : Type} (le : A -> A -> bool) (x : A) (l : list A) : list A :=
  match l with
  | [] => [x]
  | y :: r => if le y x then y :: insert_stable le x r else x :: l
  end.

Definition sort_stable {A : Type} (le : A -> A -> bool) (l : list A) : list A :=
  fold_left (fun acc x => insert_stable le x acc) l [].

(** A string that starts with the given bytes: the UTF-8 texts of the
    sources, byte for byte. *)
Fixpoint bytes (l : list nat) (s : string) : string :=
  match l with
  | nil => s
  | cons n r => String (ascii_of_nat n) (bytes r s)
  end.

(** [le] as a relation, for [Sorted]. *)
Definition le_rel {A : Type} (le : A -> A -> bool) (a b : A) : Prop := le a b = true.

(** ** Tactics and hint databases *)

(** [lra] does not read [x / 2] as a linear term: unfold the division by a
    constant into a product first. *)
Ltac qlra := unfold Qdiv in *; cbn [Qinv Qnum Qden] in *; lra.

Create HintDb ff.
Create Rewrite HintDb ff_rw.

(** ** Comparisons on [Q] *)

Lemma Qltb_iff x y : Qltb x y = true <-> x < y.
Proof.
  unfold Qltb. rewrite negb_true_iff.
  split; intro H.
  - apply Qnot_le_lt. intro H'. apply Qle_bool_iff in H'. congruence.
  - destruct (Qle_bool y x) eqn:E; [|reflexivity].
    apply Qle_bool_iff in E. exfalso. apply (Qlt_not_le _ _ H E).
Qed.

Lemma Qltb_false x y : Qltb x y = false <-> y <= x.
Proof.
  unfold Qltb. rewrite negb_false_iff. apply Qle_bool_iff.
Qed.

#[export] Instance Qltb_proper : Proper (Qeq ==> Qeq ==> eq) Qltb.
Proof. intros x x' Hx y y' Hy. unfold Qltb. rewrite Hx, Hy. reflexivity. Qed.

(** Case analysis on a comparison [x < y] of the code. *)
Ltac qcase_ltb x y :=
  let E := fresh "E" in
  destruct (Qltb x y) eqn:E;
  [apply Qltb_iff in E | apply Qltb_false in E].

Lemma Qsquare_nonneg (w : Q) : 0 <= w * w.
Proof.
  destruct (Qlt_le_dec w 0) as [H|H].
  - setoid_replace (w * w) with ((- w) * (- w)) by ring.
    apply Qmult_le_0_compat; lra.
  - apply Qmult_le_0_compat; assumption.
Qed.

(** ** [reduce_sum] *)

Section Reduce.
Context {A : Type}.

Lemma fold_sum_shift (f : A -> Q) l s :
  fold_left (fun s x => s + f x) l s == s + fold_left (fun s x => s + f x) l 0.
Proof.
  revert s. induction l as [|a l IH]; intro s; simpl.
  - ring.
  - rewrite (IH (s + f a)), (IH (0 + f a)). ring.
Qed.

Lemma reduce_sum_nil (f : A -> Q) : reduce_sum f [] == 0.
Proof. reflexivity. Qed.

Lemma reduce_sum_cons (f : A -> Q) a l : reduce_sum f (a :: l) == f a + reduce_sum f l.
Proof. unfold reduce_sum. simpl. rewrite fold_sum_shift. ring. Qed.

Lemma reduce_sum_app (f : A -> Q) l1 l2 :
  reduce_sum f (l1 ++ l2) == reduce_sum f l1 + reduce_sum f l2.
Proof.
  induction l1 as [|a l1 IH]; simpl.
  - rewrite reduce_sum_nil. ring.
  - rewrite !reduce_sum_cons, IH. ring.
Qed.

Lemma reduce_sum_nonneg (f : A -> Q) l :
  (forall x, In x l -> 0 <= f x) -> 0 <= reduce_sum f l.
Proof.
  induction l as [|a l IH]; intro H.
  - apply Qle_refl.
  - rewrite reduce_sum_cons.
    assert (0 <= f a) by (apply H; left; reflexivity).
    assert (0 <= reduce_sum f l) by (apply IH; intros; apply H; right; assumption).
    lra.
Qed.

(** Every element adds the same [c]: the sum is [c] times the count. *)
Lemma reduce_sum_const (f : A -> Q) c l :
  (forall x, In x l -> f x == c) -> reduce_sum f l == inject_Z (Z.of_nat (List.length l)) * c.
Proof.
  induction l as [|a l IH]; intro H.
  - rewrite reduce_sum_nil. reflexivity.
  - rewrite reduce_sum_cons, (H a (or_introl eq_refl)).
    rewrite IH by (intros; apply H; right; assumption).
    change (List.length (a :: l)) with (S (List.length l)).
    rewrite Nat2Z.inj_succ, <- Z.add_1_r, inject_Z_plus. ring.
Qed.
End Reduce.

(** ** Lists filtered by a predicate of the code *)

Section Filters.
Context {A : Type}.

Lemma filter_length_le (p : A -> bool) (l : list A) :
  (List.length (filter p l) <= List.length l)%nat.
Proof.
  induction l as [|a l IH]; simpl; [reflexivity|].
  destruct (p a); simpl; lia.
Qed.

Lemma filter_and (p q : A -> bool) (l : list A) :
  filter (fun x => p x && q x) l = filter q (filter p l).
Proof.
  induction l as [|a l IH]; simpl; [reflexivity|].
  destruct (p a) eqn:Ep, (q a) eqn:Eq; simpl; rewrite ?Eq, ?IH; reflexivity.
Qed.

(** A list is what a filter drops followed by what it keeps, up to order. *)
Lemma filter_perm_split (p : A -> bool) (l : list A) :
  Permutation l (filter (fun x => negb (p x)) l ++ filter p l).
Proof.
  induction l as [|a l IH]; simpl; [reflexivity|].
  destruct (p a); simpl.
  - eapply perm_trans; [apply perm_skip, IH|]. apply Permutation_middle.
  - constructor. exact IH.
Qed.

Lemma filter_idem (p : A -> bool) (l : list A) : filter p (filter p l) = filter p l.
Proof.
  induction l as [|a l IH]; simpl; [reflexivity|].
  destruct (p a) eqn:E; simpl; rewrite ?E, IH; reflexivity.
Qed.

Lemma NoDup_snoc (x : A) (l : list A) : NoDup l -> ~ In x l -> NoDup (l ++ [x]).
Proof.
  intros Hl Hx. apply (Permutation_NoDup (l := x :: l)); [apply Permutation_cons_append|].
  constructor; assumption.
Qed.

Lemma NoDup_map_filter {B : Type} (f : A -> B) (p : A -> bool) (l : list A) :
  NoDup (map f l) -> NoDup (map f (filter p l)).
Proof.
  induction l as [|a l IH]; simpl; [tauto|]. intro H. inversion H as [|? ? Hn Hd]; subst.
  destruct (p a); simpl; [|apply IH; assumption].
  constructor; [|apply IH; assumption].
  intro Hin. apply Hn. apply in_map_iff in Hin as [y [<- Hy]].
  apply in_map. apply filter_In in Hy. tauto.
Qed.

Lemma existsb_false_notin (f : A -> bool) x l : existsb f l = false -> f x = true -> ~ In x l.
Proof.
  intros H Hx Hin. assert (existsb f l = true) by (apply existsb_exists; eauto). congruence.
Qed.

Lemma filter_none (p : A -> bool) (l : list A) :
  (forall x, In x l -> p x = false) -> filter p l = [].
Proof.
  induction l as [|a l IH]; intro H; simpl; [reflexivity|].
  rewrite (H a (or_introl eq_refl)). apply IH. intros; apply H; right; assumption.
Qed.
End Filters.

(** ** The stable sort *)

Section StableSort.
Context {A : Type} (le : A -> A -> bool).
Hypothesis le_total : forall a b, le a b = false -> le b a = true.

Lemma insert_stable_perm x l : Permutation (insert_stable le x l) (x :: l).
Proof.
  induction l as [|y r IH]; simpl; [reflexivity|].
  destruct (le y x); [|reflexivity].
  rewrite IH. apply perm_swap.
Qed.

Lemma insert_stable_hd y x r :
  le_rel le y x -> HdRel (le_rel le) y r -> HdRel (le_rel le) y (insert_stable le x r).
Proof.
  intros Hyx Hr. destruct r as [|z r]; simpl; [constructor; assumption|].
  destruct (le z x); constructor; [|assumption].
  inversion Hr; assumption.
Qed.

Lemma insert_stable_sorted x l : Sorted (le_rel le) l -> Sorted (le_rel le) (insert_stable le x l).
Proof.
  induction l as [|y r IH]; intro Hs; simpl; [repeat constructor|].
  inversion Hs as [|? ? Hr Hhd]; subst.
  destruct (le y x) eqn:E.
  - constructor; [apply IH; assumption|].
    apply insert_stable_hd; assumption.
  - constructor; [assumption|]. constructor. apply le_total. assumption.
Qed.

Lemma fold_insert_stable l acc :
  Sorted (le_rel le) acc ->
  Sorted (le_rel le) (fold_left (fun acc x => insert_stable le x acc) l acc) /\
  Permutation (fold_left (fun acc x => insert_stable le x acc) l acc) (acc ++ l).
Proof.
  revert acc. induction l as [|x l IH]; intros acc Hs; simpl.
  - rewrite app_nil_r. split; [assumption | reflexivity].
  - destruct (IH (insert_stable le x acc)) as [H1 H2]; [apply insert_stable_sorted; assumption|].
    split; [assumption|]. rewrite H2, insert_stable_perm.
    apply Permutation_cons_app. reflexivity.
Qed.

(** The sort returns the same elements, in order. *)
Lemma sort_stable_spec l : Sorted (le_rel le) (sort_stable le l) /\ Permutation (sort_stable le l) l.
Proof. apply (fold_insert_stable l []). constructor. Qed.

Lemma sort_stable_length l : List.length (sort_stable le l) = List.length l.
Proof. apply Permutation_length, sort_stable_spec. Qed.
End StableSort.

(** The first [k] elements of a list sorted by a transitive relation come
    before each of the others. *)
Lemma sorted_split {A : Type} (R : A -> A -> Prop) (HT : Transitive R) k l :
  Sorted R l ->
  Sorted R (firstn k l) /\ forall x y, In x (firstn k l) -> In y (skipn k l) -> R x y.
Proof.
  intro Hs. apply Sorted_StronglySorted in Hs; [|exact HT].
  rewrite <- (firstn_skipn k l) in Hs.
  induction (firstn k l) as [|a r IH]; simpl in *; [split; [constructor|tauto]|].
  inversion Hs as [|? ? Hr Hall]; subst.
  destruct (IH Hr) as [Hsr Hx]. rewrite Forall_forall in Hall. split.
  - apply StronglySorted_Sorted. constructor; [now apply Sorted_StronglySorted|].
    apply Forall_forall. intros; apply Hall, in_or_app; auto.
  - intros x y [<-|Hx'] Hy; [apply Hall, in_or_app; auto|auto].
Qed.

(** ** Strings *)

Lemma list_ascii_of_string_app (a b : string) :
  list_ascii_of_string (a ++ b) = (list_ascii_of_string a ++ list_ascii_of_string b)%list.
Proof. induction a as [|c a IH]; simpl; [reflexivity | now rewrite IH]. Qed.

Lemma length_list_ascii_of_string s : List.length (list_ascii_of_string s) = String.length s.
Proof. induction s; simpl; congruence. Qed.

Lemma string_app_assoc (a b c : string) : (a ++ (b ++ c) = (a ++ b) ++ c)%string.
Proof. induction a as [|x a IH]; simpl; [reflexivity|]. rewrite IH. reflexivity. Qed.

Lemma string_app_nil_r (a : string) : (a ++ "")%string = a.
Proof. induction a as [|x a IH]; simpl; [reflexivity|]. rewrite IH. reflexivity. Qed.

#[export] Hint Resolve Qle_refl filter_length_le Qsquare_nonneg : ff.
#[export] Hint Rewrite @reduce_sum_nil @reduce_sum_cons @reduce_sum_app : ff_rw.
