(* ===== verification/JsValue.v ===== *)
(** * JavaScript values used by the handlers of [src/server.js]

    - [json]: the JSON-like values that flow in request bodies, documents and
      response bodies, with property access [jget];
    - [truthy]: ECMAScript ToBoolean, used by [if (!backup_confirmed)];
    - [js_or_num]: the idiom [x || d] on a numeric document field;
    - [toFixed]: [Number.prototype.toFixed] on the exact value of a number,
      and the currency rendering [`$${x.toFixed(2)}`] of the handlers.

    Numbers are modelled by their exact value in [Q] (see the root header for
    what this leaves out: rounding of double arithmetic, infinities). NaN is
    [None] where the code's arithmetic can produce it ([js_add], [to_number]). *)

From Stdlib Require Import QArith Qround Lqa ZArith Lia List String Ascii Bool.
From Stdlib Require Import DecimalString DecimalN Morphisms Setoid.
From S2P Require Import Prelude.
Import ListNotations.
Local Open Scope string_scope.

(** ** JSON-like values *)

Inductive json : Type :=
| JUndefined
| JNull
| JBool (b : bool)
| JNum (q : Q)
| JStr (s : string)
| JDate (t : option Z)          (** a [Date]; [None] is an Invalid Date *)
| JArr (items : list json)
| JObj (fields : list (string * json)).

(** Property access [o[k]]: the first binding of [k], [undefined] when absent. *)
Definition jget (o : json) (k : string) : json :=
  match o with
  | JObj fs =>
      match find (fun kv => String.eqb (fst kv) k) fs with
      | Some (_, v) => v
      | None => JUndefined
      end
  | _ => JUndefined
  end.

(** ECMAScript ToBoolean. JSON bodies carry no NaN, so [0] is the only falsy
    number. *)
Definition truthy (v : json) : bool :=
  match v with
  | JUndefined | JNull => false
  | JBool b => b
  | JNum q => negb (Qeq_bool q 0)
  | JStr s => negb (String.eqb s "")
  | JDate _ | JArr _ | JObj _ => true
  end.

(** [field || d] on a numeric field of a document: [undefined], [null] and [0]
    are falsy, so each of them yields [d]. A field is [None] when it is
    [undefined] or [null]. *)
Definition js_or_num (v : option Q) (d : Q) : Q :=
  match v with
  | Some x => if Qeq_bool x 0 then d else x
  | None => d
  end.

(** ** [Number.prototype.toFixed]

    ECMA-262, Number.prototype.toFixed ( fractionDigits ), steps 8 to 12, for a
    finite [x] with [x < 10^21]: when [x < 0] the result is ["-"] followed by
    the rendering of [-x]; otherwise let [n] be an integer for which
    [n / 10^f - x] is as close to zero as possible, the larger one when there
    are two; [m] is the decimal digits of [n], left-padded with zeros to
    [f + 1] digits, with a ["."] inserted before the last [f] digits. *)

(** The [n] of step 10.a for [x >= 0]: round half up. *)
Definition round_half_up (x : Q) : Z := Qfloor (x + (1 # 2)).

(** [k] zero digits: the padding string [z] of step 10.d. *)
Fixpoint zeros (k : nat) : string :=
  match k with
  | O => ""
  | S k' => String "0" (zeros k')
  end.

(** Steps 10.b to 11: digits of [n] with the decimal point inserted. *)
Definition fixed_digits (n : N) (f : nat) : string :=
  let m := NilEmpty.string_of_uint (N.to_uint n) in
  if Nat.eqb f 0 then m
  else
    let k := String.length m in
    let m' := if Nat.leb k f then zeros (f + 1 - k) ++ m else m in
    let k' := String.length m' in
    substring 0 (k' - f) m' ++ "." ++ substring (k' - f) f m'.

Definition toFixed (x : Q) (f : nat) : string :=
  let scale := inject_Z (10 ^ Z.of_nat f) in
  if Qltb x 0 then "-" ++ fixed_digits (Z.to_N (round_half_up (- x * scale))) f
  else fixed_digits (Z.to_N (round_half_up (x * scale))) f.

(** The handlers' currency rendering [`$${x.toFixed(2)}`]. *)
Definition money (x : Q) : string := "$" ++ toFixed x 2.

(** ** Numbers that may be NaN

    Arithmetic on a missing field ([undefined - 40]) gives NaN, and NaN
    absorbs every later sum. [option Q] is such a number, [None] being NaN;
    [js_eq] compares two of them by value. *)

Definition js_add (a b : option Q) : option Q :=
  match a, b with
  | Some x, Some y => Some (x + y)
  | _, _ => None
  end.

Definition js_mul (a b : option Q) : option Q :=
  match a, b with
  | Some x, Some y => Some (x * y)
  | _, _ => None
  end.

Definition js_eq (a b : option Q) : Prop :=
  match a, b with
  | Some x, Some y => x == y
  | None, None => True
  | _, _ => False
  end.

(** The sum of a list of numbers, NaN as soon as one of them is. *)
Definition js_sum (l : list (option Q)) : option Q := fold_right js_add (Some 0) l.

(** [NaN.toFixed(f)] is ["NaN"]. *)
Definition toFixed_js (a : option Q) (f : nat) : string :=
  match a with
  | Some x => toFixed x f
  | None => "NaN"
  end.

(** ** Conversions of body values

    The body of a request is JSON, so its values are [undefined] (absent),
    [null], booleans, numbers, strings, arrays and objects. *)

(** A decimal numeral [[-]digits[.digits]], the form [Number(s)] reads back
    from what [toFixed] and the client print. Other numerals (exponents,
    hexadecimal, surrounding blanks) are not read. *)
Fixpoint read_digits (acc : Z) (scale : positive) (frac : bool) (cs : list ascii)
  : option (Z * positive) :=
  match cs with
  | [] => Some (acc, scale)
  | c :: r =>
      if Ascii.eqb c "." then
        if frac then None else read_digits acc scale true r
      else
        let n := (Z.of_nat (nat_of_ascii c) - 48)%Z in
        if (0 <=? n)%Z && (n <? 10)%Z
        then read_digits (acc * 10 + n)%Z (if frac then scale * 10 else scale)%positive frac r
        else None
  end.

Definition parse_decimal (s : string) : option Q :=
  let cs := list_ascii_of_string s in
  let '(neg, body) := match cs with
                      | c :: r => if Ascii.eqb c "-" then (true, r) else (false, cs)
                      | [] => (false, [])
                      end in
  if existsb (fun c => negb (Ascii.eqb c ".")) body then
    match read_digits 0 1 false body with
    | Some (n, d) => Some (if neg then Qmake (- n) d else Qmake n d)
    | None => None
    end
  else None.

(** ECMAScript ToNumber of a query-string value; [None] is NaN. Leading and
    trailing white space and the hexadecimal and exponent forms are not
    read. *)
Definition to_number (v : json) : option Q :=
  match v with
  | JUndefined => None
  | JNull => Some 0
  | JBool b => Some (if b then 1 else 0)
  | JNum q => Some q
  | JStr s | JArr [JStr s] => if String.eqb s "" then Some 0 else parse_decimal s
  | JArr [] => Some 0
  | JDate t => option_map inject_Z t
  | JArr _ | JObj _ => None
  end%Q.

Section Conversions.
(** The host's [Number.prototype.toString]. *)
Variable number_to_string : Q -> string.

(** [String(v)], as a template literal [`${v}`] converts [v]. An array is
    [join(",")] of its elements, [undefined] and [null] elements giving the
    empty string. The values of a parsed JSON body hold no [Date]; a Date
    is only given a placeholder. *)
Fixpoint js_string (v : json) : string :=
  match v with
  | JUndefined => "undefined"
  | JNull => "null"
  | JBool b => if b then "true" else "false"
  | JNum q => number_to_string q
  | JStr s => s
  | JDate _ => "[date]"
  | JArr items =>
      concat "," (map (fun x => match x with
                                | JUndefined | JNull => ""
                                | _ => js_string x
                                end) items)
  | JObj _ => "[object Object]"
  end.

(** Mongoose's cast of a body value to a [String] path: [None] when the
    value is [undefined] or [null], [Throw] when it cannot be cast. *)
Definition cast_string (path : string) (v : json) : result (option string) :=
  match v with
  | JUndefined | JNull => Ok None
  | JStr s => Ok (Some s)
  | JNum q => Ok (Some (number_to_string q))
  | JBool b => Ok (Some (if b then "true" else "false"))
  | _ => Throw ("Cast to string failed at path " ++ path)
  end.
End Conversions.

(** Mongoose's cast to a [Number] path: numbers pass, numeric strings are
    read, [""] is [null], booleans are [0] and [1]. *)
Definition cast_number (path : string) (v : json) : result (option Q) :=
  match v with
  | JUndefined | JNull => Ok None
  | JNum q => Ok (Some q)
  | JBool b => Ok (Some (if b then 1 else 0))
  | JStr s =>
      if String.eqb s "" then Ok None
      else match parse_decimal s with
           | Some q => Ok (Some q)
           | None => Throw ("Cast to Number failed for value " ++ s ++ " at path " ++ path)
           end
  | _ => Throw ("Cast to Number failed at path " ++ path)
  end.

(** Mongoose's cast to a [Boolean] path. *)
Definition cast_bool (path : string) (v : json) : result (option bool) :=
  match v with
  | JUndefined | JNull => Ok None
  | JBool b => Ok (Some b)
  | JNum q => if Qeq_bool q 1 then Ok (Some true)
              else if Qeq_bool q 0 then Ok (Some false)
              else Throw ("Cast to Boolean failed at path " ++ path)
  | JStr s => if String.eqb s "true" || String.eqb s "1" || String.eqb s "yes" then Ok (Some true)
              else if String.eqb s "false" || String.eqb s "0" || String.eqb s "no" then Ok (Some false)
              else Throw ("Cast to Boolean failed at path " ++ path)
  | _ => Throw ("Cast to Boolean failed at path " ++ path)
  end.

(** ** Lemmas *)

#[export] Instance round_half_up_proper : Proper (Qeq ==> eq) round_half_up.
Proof. intros x y H. unfold round_half_up. rewrite H. reflexivity. Qed.

(** [toFixed] depends on the value of a number only, not on its representation
    as a fraction. *)
#[export] Instance toFixed_proper : Proper (Qeq ==> eq ==> eq) toFixed.
Proof.
  intros x y H f f' <-. unfold toFixed. rewrite H.
  destruct (Qltb y 0); [f_equal|]; do 2 f_equal; apply round_half_up_proper;
    rewrite H; reflexivity.
Qed.

#[export] Instance money_proper : Proper (Qeq ==> eq) money.
Proof. intros x y H. unfold money. rewrite H. reflexivity. Qed.

#[export] Instance js_eq_equiv : Equivalence js_eq.
Proof.
  split.
  - intros [x|]; simpl; [reflexivity | exact I].
  - intros [x|] [y|]; simpl; auto. intro H. symmetry. exact H.
  - intros [x|] [y|] [z|]; simpl; try tauto. intros H1 H2. rewrite H1. exact H2.
Qed.

#[export] Instance js_add_proper : Proper (js_eq ==> js_eq ==> js_eq) js_add.
Proof.
  intros [x|] [x'|] Hx [y|] [y'|] Hy; simpl in *; try tauto. rewrite Hx, Hy. reflexivity.
Qed.

#[export] Instance js_mul_proper : Proper (js_eq ==> js_eq ==> js_eq) js_mul.
Proof.
  intros [x|] [x'|] Hx [y|] [y'|] Hy; simpl in *; try tauto. rewrite Hx, Hy. reflexivity.
Qed.

#[export] Instance toFixed_js_proper : Proper (js_eq ==> eq ==> eq) toFixed_js.
Proof. intros [x|] [y|] H f f' <-; simpl in *; try tauto. rewrite H. reflexivity. Qed.

Lemma js_add_assoc a b c : js_eq (js_add a (js_add b c)) (js_add (js_add a b) c).
Proof. destruct a, b, c; simpl; try exact I. ring. Qed.

Lemma js_add_0_l a : js_eq (js_add (Some 0) a) a.
Proof. destruct a; simpl; [ring | exact I]. Qed.

Lemma js_add_0_r a : js_eq (js_add a (Some 0)) a.
Proof. destruct a; simpl; [ring | exact I]. Qed.

Lemma js_eq_None a : js_eq a None -> a = None.
Proof. destruct a; simpl; tauto. Qed.

Lemma js_eq_Some a q : js_eq a (Some q) -> exists q', a = Some q' /\ q' == q.
Proof. destruct a as [q'|]; simpl; [eauto | tauto]. Qed.

Lemma js_sum_app l1 l2 : js_eq (js_sum (l1 ++ l2)) (js_add (js_sum l1) (js_sum l2)).
Proof.
  induction l1 as [|a l1 IH]; simpl.
  - symmetry. apply js_add_0_l.
  - rewrite IH. apply js_add_assoc.
Qed.

(** One NaN makes the whole sum NaN. *)
Lemma js_sum_NaN l : In None l -> js_sum l = None.
Proof.
  induction l as [|a l IH]; simpl; [tauto|].
  intros [E|H]; [subst a; reflexivity|]. rewrite (IH H). destruct a; reflexivity.
Qed.

(** A sum of non-negative numbers is a non-negative number. *)
Lemma js_sum_nonneg l :
  (forall a, In a l -> exists q, a = Some q /\ 0 <= q) -> exists q, js_sum l = Some q /\ 0 <= q.
Proof.
  induction l as [|a l IH]; intro H; simpl; [exists 0; split; [reflexivity | apply Qle_refl]|].
  destruct (H a (or_introl eq_refl)) as [x [-> Hx]].
  destruct IH as [y [-> Hy]]; [intros; apply H; right; assumption|].
  exists (x + y). split; [reflexivity | lra].
Qed.

Lemma js_or_num_default v d :
  (v = None \/ exists x, v = Some x /\ x == 0) -> js_or_num v d = d.
Proof.
  intros [-> | (x & -> & Hx)]; simpl; [reflexivity|].
  rewrite (Qeq_eq_bool _ _ Hx). reflexivity.
Qed.

Lemma js_or_num_value x d : ~ x == 0 -> js_or_num (Some x) d = x.
Proof.
  intro Hx. simpl. destruct (Qeq_bool x 0) eqn:E; [|reflexivity].
  apply Qeq_bool_iff in E. contradiction.
Qed.

(** [x || d] never yields [0] when the default is not [0]. *)
Lemma js_or_num_nonzero v d : ~ d == 0 -> ~ js_or_num v d == 0.
Proof.
  intro Hd. destruct v as [x|]; simpl; [|assumption].
  destruct (Qeq_bool x 0) eqn:E; [assumption|]. apply Qeq_bool_neq. assumption.
Qed.

Lemma js_or_num_nonneg v d : 0 <= d -> (forall x, v = Some x -> 0 <= x) -> 0 <= js_or_num v d.
Proof.
  intros Hd Hv. destruct v as [x|]; simpl; [|assumption].
  destruct (Qeq_bool x 0); [assumption|]. apply Hv. reflexivity.
Qed.

#[export] Hint Resolve js_or_num_nonneg : ff.
