(* ===== verification/Dates.v ===== *)
(** * JavaScript dates as the handlers use them

    A [Date] is its time value: milliseconds since the epoch, in [Z], or NaN
    (an Invalid Date), so [option Z]. This file models:
    - [new Date(v)] for the values a request carries ([newDate]): strings in
      the ECMAScript date-only form [YYYY-MM-DD] (read as UTC) and the UTC
      date-time form [YYYY-MM-DDTHH:mm:ss.sssZ] that [toISOString] prints;
    - [setHours(h, m, s, ms)] ([setHours]), which works in local time: the host's
      time zone is a fixed offset [tza] in milliseconds (daylight saving time
      is not modelled);
    - the normalisation [endDate.setHours(23, 59, 59, 999)] of
      [src/server.js] lines 431-432 and 493-494 ([end_of_day]);
    - the inclusive window [{ $gte: start, $lte: end }] of the queries
      ([in_window]). *)

From Stdlib Require Import QArith ZArith Lia List String Ascii Bool DecimalString DecimalN.
From Stdlib Require DecimalFacts.
From S2P Require Import Prelude JsValue.
Import ListNotations.
Local Open Scope Z_scope.

(** ** Time values (ECMA-262, 21.4.1) *)

Definition msPerDay : Z := 86400000.

Definition Day (t : Z) : Z := t / msPerDay.

Definition MakeTime (h m s ms : Z) : Z := h * 3600000 + m * 60000 + s * 1000 + ms.

Definition MakeDate (day time : Z) : Z := day * msPerDay + time.

(** TimeClip: a time value beyond 8.64e15 ms from the epoch is NaN. *)
Definition TimeClip (t : Z) : option Z :=
  if Z.abs t <=? 8640000000000000 then Some t else None.

(** Days from 1970-01-01 to the given proleptic Gregorian date, [month] from 1
    to 12: the day number [MakeDay] computes. *)
Definition days_from_civil (y month d : Z) : Z :=
  let y' := if month <=? 2 then y - 1 else y in
  let era := y' / 400 in
  let yoe := y' - era * 400 in
  let mp := (month + 9) mod 12 in
  let doy := (153 * mp + 2) / 5 + d - 1 in
  let doe := yoe * 365 + yoe / 4 - yoe / 100 + doy in
  era * 146097 + doe - 719468.

(** MakeDay(year, month, date) with a 0-based month, as [Date] uses it. *)
Definition MakeDay (year month date : Z) : Z :=
  let ym := year + month / 12 in
  let mn := month mod 12 in
  days_from_civil ym (mn + 1) 1 + date - 1.

(** ** Local time

    LocalTime(t) = t + offset and UTC(t) = t - offset for the host's fixed
    offset [tza]. *)

Definition LocalTime (tza t : Z) : Z := t + tza.
Definition UTC (tza t : Z) : Z := t - tza.

(** [Date.prototype.setHours(hour, min, sec, ms)] (ECMA-262, 21.4.4.22) on a
    Date whose time value is [tv]. *)
Definition setHours (tza : Z) (tv : option Z) (h m s ms : Z) : option Z :=
  match tv with
  | None => None
  | Some t =>
      let lt := LocalTime tza t in
      let date := MakeDate (Day lt) (MakeTime h m s ms) in
      TimeClip (UTC tza date)
  end.

(** [endDate.setHours(23, 59, 59, 999)]. *)
Definition end_of_day (tza : Z) (tv : option Z) : option Z :=
  setHours tza tv 23 59 59 999.

(** [{ $gte: start, $lte: end }] on a time value. *)
Definition in_window (start end_ t : Z) : bool := (start <=? t) && (t <=? end_).

(** ** [Date.parse] on the ISO forms *)

Definition digit (c : ascii) : option Z :=
  let n := Z.of_nat (nat_of_ascii c) - 48 in
  if (0 <=? n) && (n <? 10) then Some n else None.

(** A fixed-width run of decimal digits. *)
Fixpoint digits_value (acc : Z) (cs : list ascii) : option Z :=
  match cs with
  | [] => Some acc
  | c :: r =>
      match digit c with
      | Some d => digits_value (acc * 10 + d) r
      | None => None
      end
  end.

Definition is_char (c : ascii) (expected : ascii) : bool := Ascii.eqb c expected.

(** The date-only form [YYYY-MM-DD], read as UTC midnight. Node's date parser
    accepts a month from 1 to 12 and a day from 1 to 31 and lets [MakeDay]
    carry a day beyond the month's end into the next month. *)
Definition parse_date_only (cs : list ascii) : option Z :=
  match cs with
  | [y1; y2; y3; y4; dash1; m1; m2; dash2; d1; d2] =>
      if is_char dash1 "-" && is_char dash2 "-" then
        match digits_value 0 [y1; y2; y3; y4], digits_value 0 [m1; m2],
              digits_value 0 [d1; d2] with
        | Some y, Some mo, Some d =>
            if (1 <=? mo) && (mo <=? 12) && (1 <=? d) && (d <=? 31)
            then TimeClip (MakeDate (MakeDay y (mo - 1) d) 0)
            else None
        | _, _, _ => None
        end
      else None
  | _ => None
  end.

(** The UTC date-time form [YYYY-MM-DDTHH:mm:ss.sssZ]. *)
Definition parse_date_time_utc (cs : list ascii) : option Z :=
  match cs with
  | y1 :: y2 :: y3 :: y4 :: dash1 :: m1 :: m2 :: dash2 :: d1 :: d2 ::
    tee :: h1 :: h2 :: col1 :: mi1 :: mi2 :: col2 :: s1 :: s2 :: dot ::
    ms1 :: ms2 :: ms3 :: zed :: [] =>
      if is_char tee "T" && is_char col1 ":" && is_char col2 ":" &&
         is_char dot "." && is_char zed "Z" then
        match parse_date_only [y1; y2; y3; y4; dash1; m1; m2; dash2; d1; d2],
              digits_value 0 [h1; h2], digits_value 0 [mi1; mi2],
              digits_value 0 [s1; s2], digits_value 0 [ms1; ms2; ms3] with
        | Some t, Some h, Some mi, Some s, Some ms =>
            if (h <=? 23) && (mi <=? 59) && (s <=? 59)
            then TimeClip (t + MakeTime h mi s ms)
            else None
        | _, _, _, _, _ => None
        end
      else None
  | _ => None
  end.

Definition date_parse (s : string) : option Z :=
  let cs := list_ascii_of_string s in
  match parse_date_only cs with
  | Some t => Some t
  | None => parse_date_time_utc cs
  end.

(** [new Date(v)] for the values a query string or a JSON body carries:
    [undefined] is NaN, [null] is the epoch, a number is its integral part,
    a string is parsed. (Arrays and objects, which would be converted to a
    string first, are not modelled and read as NaN.) *)
Definition newDate (v : json) : option Z :=
  match v with
  | JUndefined => None
  | JNull => Some 0
  | JBool b => Some (if b then 1 else 0)
  | JNum q => TimeClip (Z.quot (Qnum q) (Zpos (Qden q)))
  | JStr s => date_parse s
  | JDate t => t
  | JArr _ | JObj _ => None
  end.

(** ** Calendar fields of a time value *)

(** The proleptic Gregorian date (year, month 1-12, day 1-31) of a day
    number: the inverse of [days_from_civil]. *)
Definition civil_from_days (days : Z) : Z * Z * Z :=
  let z := days + 719468 in
  let era := z / 146097 in
  let doe := z - era * 146097 in
  let yoe := (doe - doe / 1460 + doe / 36524 - doe / 146096) / 365 in
  let y := yoe + era * 400 in
  let doy := doe - (365 * yoe + yoe / 4 - yoe / 100) in
  let mp := (5 * doy + 2) / 153 in
  let d := doy - (153 * mp + 2) / 5 + 1 in
  let m := if mp <? 10 then mp + 3 else mp - 9 in
  (if m <=? 2 then y + 1 else y, m, d).

(** WeekDay(t): 0 is Sunday; 1970-01-01 was a Thursday. *)
Definition WeekDay (t : Z) : Z := (Day t + 4) mod 7.

Definition is_leap (y : Z) : bool :=
  ((y mod 4 =? 0) && negb (y mod 100 =? 0)) || (y mod 400 =? 0).

(** Day of the year, from 1. *)
Definition day_of_year (days : Z) : Z :=
  let '(y, _, _) := civil_from_days days in
  days - days_from_civil y 1 1 + 1.

(** ** Rendering *)

Local Open Scope string_scope.

(** The decimal digits of [n >= 0], left-padded with zeros to [w] digits. *)
Definition pad (w : nat) (n : Z) : string :=
  let s := NilEmpty.string_of_uint (N.to_uint (Z.to_N n)) in
  let k := String.length s in
  (if Nat.leb w k then "" else zeros (w - k)) ++ s.

(** [Date.prototype.toISOString] for the years 0 to 9999:
    [YYYY-MM-DDTHH:mm:ss.sssZ]. *)
Definition toISOString (t : Z) : string :=
  let '(y, m, d) := civil_from_days (Day t) in
  let ms := t mod msPerDay in
  pad 4 y ++ "-" ++ pad 2 m ++ "-" ++ pad 2 d ++ "T" ++
  pad 2 (ms / 3600000) ++ ":" ++ pad 2 (ms / 60000 mod 60) ++ ":" ++
  pad 2 (ms / 1000 mod 60) ++ "." ++ pad 3 (ms mod 1000) ++ "Z".

(** The date part [YYYY-MM-DD] of [toISOString] for a day number. *)
Definition date_string (days : Z) : string :=
  let '(y, m, d) := civil_from_days days in
  (pad 4 y ++ "-" ++ pad 2 m ++ "-" ++ pad 2 d)%string.

(** The big-endian value of a decimal numeral. *)
Fixpoint uval (acc : Z) (d : Decimal.uint) : Z :=
  match d with
  | Decimal.Nil => acc
  | Decimal.D0 d => uval (acc * 10 + 0) d
  | Decimal.D1 d => uval (acc * 10 + 1) d
  | Decimal.D2 d => uval (acc * 10 + 2) d
  | Decimal.D3 d => uval (acc * 10 + 3) d
  | Decimal.D4 d => uval (acc * 10 + 4) d
  | Decimal.D5 d => uval (acc * 10 + 5) d
  | Decimal.D6 d => uval (acc * 10 + 6) d
  | Decimal.D7 d => uval (acc * 10 + 7) d
  | Decimal.D8 d => uval (acc * 10 + 8) d
  | Decimal.D9 d => uval (acc * 10 + 9) d
  end.

(** ** moment's [format('WW-YYYY')]

    moment formats in local time. [WW] is the ISO 8601 week number, padded to
    two digits: the week (Monday to Sunday) that holds the Thursday of the
    date's week, counted in the year of that Thursday. [YYYY] is the calendar
    year of the date, not the year of the ISO week ([GGGG]). *)

Definition iso_weekday (days : Z) : Z := ((days + 4) mod 7 + 6) mod 7 + 1.

Definition iso_week (days : Z) : Z :=
  let thursday := days - iso_weekday days + 4 in
  (day_of_year thursday - 1) / 7 + 1.

Definition week_number (tza t : Z) : string :=
  let days := Day (LocalTime tza t) in
  let '(y, _, _) := civil_from_days days in
  "Week-" ++ pad 2 (iso_week days) ++ "-" ++ pad 4 y.

(** ** Theorems *)

Lemma Day_of_midnight_plus (d r : Z) : 0 <= r < msPerDay -> Day (d * msPerDay + r) = d.
Proof.
  intro Hr. unfold Day. symmetry. apply Z.div_unique with r; [left; assumption | ring].
Qed.

Lemma TimeClip_in_range (t : Z) : Z.abs t <= 8640000000000000 -> TimeClip t = Some t.
Proof. intro H. unfold TimeClip. apply Z.leb_le in H. rewrite H. reflexivity. Qed.

Local Open Scope Z_scope.

Lemma digits_value_uint acc d :
  digits_value acc (list_ascii_of_string (NilEmpty.string_of_uint d)) = Some (uval acc d).
Proof.
  revert acc. induction d; intro acc; [reflexivity|..]; simpl.
  all: rewrite IHd; reflexivity.
Qed.

Lemma uval_acc_pos d p : uval (Zpos p) d = Zpos (Pos.of_uint_acc d p).
Proof.
  revert p. induction d; intro p; [reflexivity|..]; cbn [uval Pos.of_uint_acc]; rewrite <- IHd;
    f_equal; lia.
Qed.

Lemma uval_of_uint d : uval 0 d = Z.of_N (N.of_uint d).
Proof.
  unfold N.of_uint. induction d; simpl; try exact IHd; try reflexivity;
    rewrite <- uval_acc_pos; reflexivity.
Qed.

Lemma uval_to_uint n : uval 0 (N.to_uint n) = Z.of_N n.
Proof. rewrite uval_of_uint, DecimalN.Unsigned.of_to. reflexivity. Qed.

Lemma string_of_uint_length d : String.length (NilEmpty.string_of_uint d) = Decimal.nb_digits d.
Proof. induction d; simpl; congruence. Qed.

Lemma uval_bounds acc d :
  0 <= acc -> acc * 10 ^ Z.of_nat (Decimal.nb_digits d) <= uval acc d < (acc + 1) * 10 ^ Z.of_nat (Decimal.nb_digits d).
Proof.
  revert acc. induction d; intros acc Hacc; cbn [uval Decimal.nb_digits];
    [simpl; lia | ..]; rewrite Nat2Z.inj_succ, Z.pow_succ_r by lia;
    match goal with |- context [uval ?a d] => specialize (IHd a ltac:(lia)) end;
    pose proof (Z.pow_pos_nonneg 10 (Z.of_nat (Decimal.nb_digits d)) ltac:(lia) ltac:(lia)); nia.
Qed.

Lemma to_uint_digits n : N.to_uint n = Decimal.zero \/
  exists k d, (1 <= k <= 9) /\ uval 0 (N.to_uint n) = uval k d /\
              Decimal.nb_digits (N.to_uint n) = S (Decimal.nb_digits d).
Proof.
  assert (Hn : N.to_uint n = Decimal.unorm (N.to_uint n)).
  { rewrite <- DecimalN.Unsigned.to_of, DecimalN.Unsigned.of_to. reflexivity. }
  rewrite Hn. unfold Decimal.unorm.
  destruct (Decimal.nzhead (N.to_uint n)) eqn:E; [left; reflexivity|..]; right;
    try (exfalso; exact (DecimalFacts.nzhead_nonzero _ _ E)); eexists; exists u;
    (split; [|split; [simpl; reflexivity | reflexivity]]); lia.
Qed.

(** The decimal digits of [n < 10^w] are at most [w]. *)
Lemma to_uint_length n w :
  (1 <= w)%nat -> Z.of_N n < 10 ^ Z.of_nat w -> (Decimal.nb_digits (N.to_uint n) <= w)%nat.
Proof.
  intros Hw Hn. destruct (to_uint_digits n) as [->|(k & d & Hk & Hv & Hl)]; [simpl; lia|].
  rewrite Hl. rewrite uval_to_uint in Hv.
  destruct (uval_bounds k d ltac:(lia)) as [Hlo _].
  destruct (Nat.le_gt_cases (S (Decimal.nb_digits d)) w) as [|Hgt]; [assumption|exfalso].
  assert (Hp : 10 ^ Z.of_nat w <= 10 ^ Z.of_nat (Decimal.nb_digits d)) by (apply Z.pow_le_mono_r; lia).
  nia.
Qed.

Lemma digits_value_zeros acc k rest :
  digits_value acc (list_ascii_of_string (zeros k) ++ rest) = digits_value (acc * 10 ^ Z.of_nat k) rest.
Proof.
  revert acc. induction k as [|k IH]; intro acc; simpl; [f_equal; lia|].
  rewrite IH. change (Z.pow_pos 10 (Pos.of_succ_nat k)) with (10 ^ Z.of_nat (S k)).
  rewrite Nat2Z.inj_succ, Z.pow_succ_r by lia. f_equal. lia.
Qed.

Lemma zeros_length k : String.length (zeros k) = k.
Proof. induction k; simpl; congruence. Qed.

(** [String(n).padStart(w, '0')] for [n < 10^w]: [w] digits that read back as [n]. *)
Lemma pad_spec w n :
  (1 <= w)%nat -> 0 <= n < 10 ^ Z.of_nat w ->
  List.length (list_ascii_of_string (pad w n)) = w /\ digits_value 0 (list_ascii_of_string (pad w n)) = Some n.
Proof.
  intros Hw Hn. unfold pad.
  pose proof (to_uint_length (Z.to_N n) w Hw ltac:(rewrite Z2N.id; lia)) as Hl.
  rewrite <- string_of_uint_length in Hl.
  set (s := NilEmpty.string_of_uint (N.to_uint (Z.to_N n))) in *.
  assert (Hv : digits_value 0 (list_ascii_of_string s) = Some n).
  { unfold s. rewrite digits_value_uint, uval_to_uint, Z2N.id by lia. reflexivity. }
  destruct (Nat.leb_spec w (String.length s)) as [Hle|Hgt];
    rewrite list_ascii_of_string_app, length_app, !length_list_ascii_of_string.
  - simpl. split; [lia | exact Hv].
  - rewrite zeros_length, digits_value_zeros. split; [lia|]. rewrite Z.mul_0_l. exact Hv.
Qed.

Lemma pad4_chars n : 0 <= n < 10000 ->
  exists c1 c2 c3 c4, list_ascii_of_string (pad 4 n) = [c1; c2; c3; c4] /\
                      digits_value 0 [c1; c2; c3; c4] = Some n.
Proof.
  intro H. destruct (pad_spec 4 n ltac:(lia) ltac:(simpl; lia)) as [Hl Hv].
  destruct (list_ascii_of_string (pad 4 n)) as [|c1 [|c2 [|c3 [|c4 [|]]]]]; try discriminate Hl.
  exists c1, c2, c3, c4. split; [reflexivity | exact Hv].
Qed.

Lemma pad3_chars n : 0 <= n < 1000 ->
  exists c1 c2 c3, list_ascii_of_string (pad 3 n) = [c1; c2; c3] /\
                   digits_value 0 [c1; c2; c3] = Some n.
Proof.
  intro H. destruct (pad_spec 3 n ltac:(lia) ltac:(simpl; lia)) as [Hl Hv].
  destruct (list_ascii_of_string (pad 3 n)) as [|c1 [|c2 [|c3 [|]]]]; try discriminate Hl.
  exists c1, c2, c3. split; [reflexivity | exact Hv].
Qed.

Lemma pad2_chars n : 0 <= n < 100 ->
  exists c1 c2, list_ascii_of_string (pad 2 n) = [c1; c2] /\ digits_value 0 [c1; c2] = Some n.
Proof.
  intro H. destruct (pad_spec 2 n ltac:(lia) ltac:(simpl; lia)) as [Hl Hv].
  destruct (list_ascii_of_string (pad 2 n)) as [|c1 [|c2 [|]]]; try discriminate Hl.
  exists c1, c2. split; [reflexivity | exact Hv].
Qed.

Lemma doy_range (doe : Z) : 0 <= doe < 146097 ->
  let yoe := (doe - doe / 1460 + doe / 36524 - doe / 146096) / 365 in
  0 <= yoe < 400 /\ 0 <= doe - (365 * yoe + yoe / 4 - yoe / 100) < 366.
Proof.
  intros H yoe.
  pose proof (Z.div_mod doe 1460 ltac:(lia)). pose proof (Z.mod_pos_bound doe 1460 ltac:(lia)).
  pose proof (Z.div_mod doe 36524 ltac:(lia)). pose proof (Z.mod_pos_bound doe 36524 ltac:(lia)).
  pose proof (Z.div_mod doe 146096 ltac:(lia)). pose proof (Z.mod_pos_bound doe 146096 ltac:(lia)).
  set (n := doe - doe / 1460 + doe / 36524 - doe / 146096) in yoe.
  pose proof (Z.div_mod n 365 ltac:(lia)). pose proof (Z.mod_pos_bound n 365 ltac:(lia)).
  subst yoe. set (yoe := n / 365) in *.
  pose proof (Z.div_mod yoe 4 ltac:(lia)). pose proof (Z.mod_pos_bound yoe 4 ltac:(lia)).
  pose proof (Z.div_mod yoe 100 ltac:(lia)). pose proof (Z.mod_pos_bound yoe 100 ltac:(lia)).
  lia.
Qed.

Lemma civil_from_days_spec (z : Z) :
  let '(y, m, d) := civil_from_days z in
  1 <= m <= 12 /\ 1 <= d <= 31 /\ days_from_civil y m d = z.
Proof.
  unfold civil_from_days.
  set (e := (z + 719468) / 146097).
  pose proof (Z.div_mod (z + 719468) 146097 ltac:(lia)).
  pose proof (Z.mod_pos_bound (z + 719468) 146097 ltac:(lia)).
  set (doe := z + 719468 - e * 146097).
  assert (Hdoe : 0 <= doe < 146097) by (unfold doe; lia).
  destruct (doy_range doe Hdoe) as [Hy Hd]. cbv zeta in Hy, Hd.
  set (yoe := (doe - doe / 1460 + doe / 36524 - doe / 146096) / 365) in *.
  set (doy := doe - (365 * yoe + yoe / 4 - yoe / 100)) in *.
  pose proof (Z.div_mod (5 * doy + 2) 153 ltac:(lia)). pose proof (Z.mod_pos_bound (5 * doy + 2) 153 ltac:(lia)).
  set (mp := (5 * doy + 2) / 153) in *.
  pose proof (Z.div_mod (153 * mp + 2) 5 ltac:(lia)). pose proof (Z.mod_pos_bound (153 * mp + 2) 5 ltac:(lia)).
  unfold days_from_civil.
  destruct (mp <? 10) eqn:Emp; [apply Z.ltb_lt in Emp | apply Z.ltb_ge in Emp].
  - replace (mp + 3 <=? 2) with false by (symmetry; apply Z.leb_gt; lia).
    replace ((mp + 3 + 9) mod 12) with mp by (apply (Z.mod_unique_pos _ _ 1); lia).
    replace ((yoe + e * 400) / 400) with e by (apply (Z.div_unique_pos _ _ _ yoe); lia).
    replace (yoe + e * 400 - e * 400) with yoe by lia. lia.
  - replace (mp - 9 <=? 2) with true by (symmetry; apply Z.leb_le; lia).
    replace ((mp - 9 + 9) mod 12) with mp by (apply (Z.mod_unique_pos _ _ 0); lia).
    replace (yoe + e * 400 + 1 - 1) with (yoe + e * 400) by lia.
    replace ((yoe + e * 400) / 400) with e by (apply (Z.div_unique_pos _ _ _ yoe); lia).
    replace (yoe + e * 400 - e * 400) with yoe by lia. lia.
Qed.

(** MakeDay on a 1-based month in range is the day number of the date. *)
Lemma MakeDay_civil y m d : 1 <= m <= 12 -> MakeDay y (m - 1) d = days_from_civil y m d.
Proof.
  intro Hm. unfold MakeDay.
  replace ((m - 1) / 12) with 0 by (symmetry; apply Z.div_small; lia).
  replace ((m - 1) mod 12) with (m - 1) by (symmetry; apply Z.mod_small; lia).
  rewrite Z.add_0_r. replace (m - 1 + 1) with m by lia.
  unfold days_from_civil. lia.
Qed.

(** The quotients and remainders [days_from_civil] takes, for [lia]. *)
Ltac civil_facts y' m :=
  let yoe := constr:(y' - y' / 400 * 400) in
  let mp := constr:((m + 9) mod 12) in
  pose proof (Z.div_mod y' 400 ltac:(lia)); pose proof (Z.mod_pos_bound y' 400 ltac:(lia));
  pose proof (Z.div_mod yoe 4 ltac:(lia)); pose proof (Z.mod_pos_bound yoe 4 ltac:(lia));
  pose proof (Z.div_mod yoe 100 ltac:(lia)); pose proof (Z.mod_pos_bound yoe 100 ltac:(lia));
  pose proof (Z.div_mod (m + 9) 12 ltac:(lia)); pose proof (Z.mod_pos_bound (m + 9) 12 ltac:(lia));
  pose proof (Z.div_mod (153 * mp + 2) 5 ltac:(lia)); pose proof (Z.mod_pos_bound (153 * mp + 2) 5 ltac:(lia)).

Ltac civil_lia y m :=
  unfold days_from_civil in *; cbv zeta in *;
  destruct (m <=? 2) eqn:?; [civil_facts (y - 1) m | civil_facts y m]; lia.

Lemma days_from_civil_bounds y m d :
  0 <= y <= 9999 -> 1 <= m <= 12 -> 1 <= d <= 31 ->
  -719528 <= days_from_civil y m d <= 2932896.
Proof. intros Hy Hm Hd. civil_lia y m. Qed.

(** The day numbers of the years 0 to 9999. *)
Lemma civil_year_bounds z :
  -719528 <= z <= 2932896 -> let '(y, _, _) := civil_from_days z in 0 <= y <= 9999.
Proof.
  intro Hz. pose proof (civil_from_days_spec z) as Hc.
  destruct (civil_from_days z) as [[y m] d]. destruct Hc as (Hm & Hd & Hdays).
  rewrite <- Hdays in Hz. civil_lia y m.
Qed.

(** The ten characters of a date string parse back to the day's UTC midnight. *)
Lemma date_string_chars d :
  (let '(y, _, _) := civil_from_days d in 0 <= y <= 9999) ->
  exists c1 c2 c3 c4 c5 c6 c7 c8 c9 c10,
    list_ascii_of_string (date_string d) = [c1; c2; c3; c4; c5; c6; c7; c8; c9; c10] /\
    parse_date_only [c1; c2; c3; c4; c5; c6; c7; c8; c9; c10] = Some (d * msPerDay).
Proof.
  pose proof (civil_from_days_spec d) as Hc. unfold date_string.
  destruct (civil_from_days d) as [[y m] dd]. intro Hy. destruct Hc as (Hm & Hd & Hdays).
  destruct (pad4_chars y ltac:(lia)) as (y1 & y2 & y3 & y4 & Ey & Vy).
  destruct (pad2_chars m ltac:(lia)) as (m1 & m2 & Em & Vm).
  destruct (pad2_chars dd ltac:(lia)) as (d1 & d2 & Ed & Vd).
  rewrite !list_ascii_of_string_app, Ey, Em, Ed. cbn [list_ascii_of_string app].
  do 10 eexists. split; [reflexivity|].
  unfold parse_date_only, is_char. rewrite Ascii.eqb_refl. cbn [andb].
  rewrite Vy, Vm, Vd.
  replace ((1 <=? m) && (m <=? 12) && (1 <=? dd) && (dd <=? 31)) with true
    by (symmetry; repeat rewrite andb_true_iff; rewrite !Z.leb_le; lia).
  pose proof (days_from_civil_bounds y m dd Hy Hm Hd).
  rewrite MakeDay_civil, Hdays by lia. unfold MakeDate. rewrite Z.add_0_r.
  apply TimeClip_in_range. unfold msPerDay. lia.
Qed.

Lemma date_string_roundtrip d :
  (let '(y, _, _) := civil_from_days d in 0 <= y <= 9999) ->
  date_parse (date_string d) = Some (d * msPerDay).
Proof.
  intro Hy. destruct (date_string_chars d Hy) as (c1 & c2 & c3 & c4 & c5 & c6 & c7 & c8 & c9 & c10 & E & P).
  unfold date_parse. rewrite E, P. reflexivity.
Qed.

Lemma toISOString_date t :
  toISOString t =
  (date_string (Day t) ++ "T" ++ pad 2 (t mod msPerDay / 3600000) ++ ":" ++
   pad 2 (t mod msPerDay / 60000 mod 60) ++ ":" ++ pad 2 (t mod msPerDay / 1000 mod 60) ++ "." ++
   pad 3 (t mod msPerDay mod 1000) ++ "Z")%string.
Proof.
  unfold toISOString, date_string. destruct (civil_from_days (Day t)) as [[y m] d].
  rewrite !string_app_assoc. reflexivity.
Qed.

(** [toISOString] and the server's [new Date(string)] are inverse: for the
    years 0 to 9999 the parse of the printed text is the same instant. *)
Lemma date_parse_toISOString (t : Z) :
  (let '(y, _, _) := civil_from_days (Day t) in 0 <= y <= 9999) ->
  date_parse (toISOString t) = Some t.
Proof.
  intro Hy. destruct (date_string_chars (Day t) Hy) as (c1 & c2 & c3 & c4 & c5 & c6 & c7 & c8 & c9 & c10 & E & P).
  pose proof (Z.div_mod t msPerDay ltac:(unfold msPerDay; lia)).
  pose proof (Z.mod_pos_bound t msPerDay ltac:(unfold msPerDay; lia)).
  rewrite toISOString_date. set (ms := t mod msPerDay) in *. unfold msPerDay in *.
  pose proof (Z.div_mod ms 3600000 ltac:(lia)). pose proof (Z.mod_pos_bound ms 3600000 ltac:(lia)).
  pose proof (Z.div_mod ms 60000 ltac:(lia)). pose proof (Z.mod_pos_bound ms 60000 ltac:(lia)).
  pose proof (Z.div_mod (ms / 60000) 60 ltac:(lia)). pose proof (Z.mod_pos_bound (ms / 60000) 60 ltac:(lia)).
  pose proof (Z.div_mod ms 1000 ltac:(lia)). pose proof (Z.mod_pos_bound ms 1000 ltac:(lia)).
  pose proof (Z.div_mod (ms / 1000) 60 ltac:(lia)). pose proof (Z.mod_pos_bound (ms / 1000) 60 ltac:(lia)).
  destruct (pad2_chars (ms / 3600000) ltac:(lia)) as (h1 & h2 & Eh & Vh).
  destruct (pad2_chars (ms / 60000 mod 60) ltac:(lia)) as (i1 & i2 & Ei & Vi).
  destruct (pad2_chars (ms / 1000 mod 60) ltac:(lia)) as (s1 & s2 & Es & Vs).
  destruct (pad3_chars (ms mod 1000) ltac:(lia)) as (u1 & u2 & u3 & Eu & Vu).
  unfold date_parse. rewrite !list_ascii_of_string_app, E, Eh, Ei, Es, Eu.
  cbn [list_ascii_of_string app]. cbn [parse_date_only]. cbn [parse_date_time_utc].
  unfold is_char. rewrite !Ascii.eqb_refl. cbn [andb]. rewrite P, Vh, Vi, Vs, Vu.
  replace ((ms / 3600000 <=? 23) && (ms / 60000 mod 60 <=? 59) && (ms / 1000 mod 60 <=? 59)) with true
    by (symmetry; repeat rewrite andb_true_iff; rewrite !Z.leb_le; lia).
  assert (Hday : -719528 <= Day t <= 2932896).
  { pose proof (civil_from_days_spec (Day t)) as Hc. destruct (civil_from_days (Day t)) as [[y m] d].
    destruct Hc as (Hm & Hd & <-). apply days_from_civil_bounds; assumption. }
  unfold Day, MakeTime, msPerDay in *. rewrite TimeClip_in_range by lia. f_equal. lia.
Qed.

(** On a host whose local time is UTC, [setHours(23, 59, 59, 999)]
    moves a date to the last millisecond of its day, so the window
    [startDate, endDate] holds every instant of the end date. *)
Theorem end_of_day_utc (d r : Z) :
  0 <= r < msPerDay ->
  Z.abs (d * msPerDay + 86399999) <= 8640000000000000 ->
  end_of_day 0 (Some (d * msPerDay + r)) = Some (d * msPerDay + 86399999) /\
  (forall u, d * msPerDay <= u < (d + 1) * msPerDay -> u <= d * msPerDay + 86399999).
Proof.
  intros Hr Hclip. split.
  - unfold end_of_day, setHours, LocalTime, UTC, MakeDate, MakeTime.
    rewrite Z.add_0_r, Day_of_midnight_plus by assumption.
    rewrite <- TimeClip_in_range by assumption. f_equal. unfold msPerDay in *. lia.
  - unfold msPerDay. lia.
Qed.

(** C15. On a host west of UTC (offset [tza] between minus one day and 0),
    the end date of the window, a UTC midnight as [new Date('YYYY-MM-DD')]
    gives, is moved to the end of the previous local day, [tza] ms before
    the end of the UTC midnight hour: a record at local noon of the end date
    falls outside the window. *)
Theorem end_of_day_west (d tza : Z) :
  - msPerDay < tza < 0 ->
  Z.abs (d * msPerDay - tza - 1) <= 8640000000000000 ->
  end_of_day tza (Some (d * msPerDay)) = Some (d * msPerDay - tza - 1) /\
  d * msPerDay - tza - 1 < d * msPerDay - tza + 43200000.
Proof.
  intros Htza Hclip. split; [|lia].
  unfold end_of_day, setHours, LocalTime, UTC, MakeDate, MakeTime.
  replace (d * msPerDay + tza) with ((d - 1) * msPerDay + (tza + msPerDay)) by ring.
  rewrite Day_of_midnight_plus by (unfold msPerDay in *; lia).
  rewrite <- TimeClip_in_range by assumption. f_equal. unfold msPerDay. ring.
Qed.

(** Moment's [WW-YYYY] label pairs the ISO week with the calendar
    year, so the week of 2024-12-30 (ISO week 1 of 2025) gets the label of
    the week of 2024-01-01: two weekly reports a year apart share
    [Week-01-2024]. *)
Theorem week_number_collision :
  option_map (week_number 0) (date_parse "2024-12-30") =
  option_map (week_number 0) (date_parse "2024-01-01") /\
  date_parse "2024-12-30" <> date_parse "2024-01-01".
Proof. split; vm_compute; [reflexivity | discriminate]. Qed.

(** ** Witnesses *)

Lemma end_of_day_utc_witness :
  end_of_day 0 (Some (19729 * msPerDay + 36000000)) = Some (19729 * msPerDay + 86399999) /\
  (forall u, 19729 * msPerDay <= u < (19729 + 1) * msPerDay -> u <= 19729 * msPerDay + 86399999).
Proof. apply end_of_day_utc; unfold msPerDay; lia. Defined.

Lemma end_of_day_west_witness :
  end_of_day (-18000000) (Some (19729 * msPerDay)) = Some (19729 * msPerDay + 18000000 - 1) /\
  19729 * msPerDay + 18000000 - 1 < 19729 * msPerDay + 18000000 + 43200000.
Proof.
  replace (19729 * msPerDay + 18000000 - 1) with (19729 * msPerDay - -18000000 - 1) by ring.
  replace (19729 * msPerDay + 18000000 + 43200000) with (19729 * msPerDay - -18000000 + 43200000) by ring.
  apply end_of_day_west; unfold msPerDay; lia.
Defined.

