(* ===== verification/GeoDistance.v ===== *)
(** * GeoDistance: [calculateDistance] of [src/server.js] (lines 545-556)

    The haversine distance in miles between two points given in degrees.
    [Math.sin], [Math.cos], [Math.sqrt], [Math.atan2] and [Math.PI] are the
    host's: ECMA-262 leaves them implementation-approximated. They are the
    fields of the class [MathLib], and [MathLaws] states what the theorems
    need of them: the special values ECMA-262 prescribes ([sin(+0) = +0],
    [sqrt(+0) = +0], [sqrt(1) = 1], [atan2(+0, x) = +0] for [x > 0]), the
    oddness of [sin], that [sqrt] is non-negative and that [atan2] is
    non-negative on the first quadrant, and that each function depends on the
    value of its argument only ([Proper]).

    [TestMath] is a concrete instance with polynomial approximations, used to
    evaluate examples and to show that the laws can be met. *)

From Stdlib Require Import QArith Qabs Qround Lqa ZArith List Morphisms Setoid.
From S2P Require Import Prelude.
Import ListNotations.

Class MathLib : Type := {
  Math_sin : Q -> Q;
  Math_cos : Q -> Q;
  Math_sqrt : Q -> Q;
  Math_atan2 : Q -> Q -> Q;
  Math_PI : Q
}.

Class MathLaws (M : MathLib) : Prop := {
  sin_proper :: Proper (Qeq ==> Qeq) Math_sin;
  cos_proper :: Proper (Qeq ==> Qeq) Math_cos;
  sqrt_proper :: Proper (Qeq ==> Qeq) Math_sqrt;
  atan2_proper :: Proper (Qeq ==> Qeq ==> Qeq) Math_atan2;
  sin_odd : forall x, Math_sin (- x) == - Math_sin x;
  sin_zero : Math_sin 0 == 0;
  sqrt_zero : Math_sqrt 0 == 0;
  sqrt_one : Math_sqrt 1 == 1;
  atan2_zero_one : Math_atan2 0 1 == 0;
  sqrt_nonneg : forall x, 0 <= Math_sqrt x;
  atan2_nonneg : forall y x, 0 <= y -> 0 <= x -> 0 <= Math_atan2 y x
}.

(** The object literals [{ lat: ..., lng: ... }] the callers build. *)
Record Point : Type := mkPoint { lat : Q; lng : Q }.

Definition point_eq (p q : Point) : Prop := lat p == lat q /\ lng p == lng q.

(** Earth's radius in km and the km-to-mile factor of the code. *)
Definition earth_radius_km : Q := 6371.
Definition km_to_miles : Q := 621371 # 1000000.

Section Haversine.
Context `{M : MathLib}.

(** The haversine term [a] of line 549. *)
Definition haversine_a (loc1 loc2 : Point) : Q :=
  let dLat := (lat loc2 - lat loc1) * Math_PI / 180 in
  let dLon := (lng loc2 - lng loc1) * Math_PI / 180 in
  Math_sin (dLat / 2) * Math_sin (dLat / 2) +
  Math_cos (lat loc1 * Math_PI / 180) * Math_cos (lat loc2 * Math_PI / 180) *
  Math_sin (dLon / 2) * Math_sin (dLon / 2).

Definition calculateDistance (loc1 loc2 : Point) : Q :=
  let a := haversine_a loc1 loc2 in
  let c := 2 * Math_atan2 (Math_sqrt a) (Math_sqrt (1 - a)) in
  let distanceKm := earth_radius_km * c in
  distanceKm * km_to_miles.
End Haversine.

(** ** A concrete host library for examples *)

Definition poly_sin (x : Q) : Q := x - x ^ 3 / 6 + x ^ 5 / 120 - x ^ 7 / 5040.
Definition poly_cos (x : Q) : Q := 1 - x ^ 2 / 2 + x ^ 4 / 24 - x ^ 6 / 720.

(** Rounding down to 15 decimals keeps the iterates small. *)
Definition approx (q : Q) : Q := inject_Z (Qfloor (q * inject_Z (10 ^ 15))) / inject_Z (10 ^ 15).

Fixpoint newton (n : nat) (x s : Q) : Q :=
  match n with
  | O => s
  | S n' => newton n' x (approx ((s + x / s) / 2))
  end.

Definition newton_sqrt (x : Q) : Q :=
  if Qle_bool x 0 then 0 else newton 40 (approx x) (approx ((x + 1) / 2)).

Definition poly_atan (z : Q) : Q := z - z ^ 3 / 3 + z ^ 5 / 5.

Definition approx_atan2 (y x : Q) : Q :=
  if Qltb 0 x then poly_atan (y / x)
  else if Qle_bool 0 y then (355 # 113) / 2 else - ((355 # 113) / 2).

#[export] Instance TestMath : MathLib := {
  Math_sin := poly_sin;
  Math_cos := poly_cos;
  Math_sqrt := newton_sqrt;
  Math_atan2 := approx_atan2;
  Math_PI := 355 # 113
}.

(** Two points of Manhattan, for the examples. *)
Definition times_square : Point := mkPoint (40758 # 1000) (- (73985 # 1000)).
Definition empire_state : Point := mkPoint (40748 # 1000) (- (73986 # 1000)).

(** ** Lemmas *)

Section HaversineLaws.
Context `{M : MathLib} `{L : !MathLaws M}.

#[export] Instance haversine_a_proper :
  Proper (point_eq ==> point_eq ==> Qeq) haversine_a.
Proof.
  intros [a1 o1] [b1 p1] [Ha Ho] [a2 o2] [b2 p2] [Hb Hp]; simpl in *.
  unfold haversine_a; simpl. rewrite Ha, Ho, Hb, Hp. reflexivity.
Qed.

#[export] Instance calculateDistance_proper :
  Proper (point_eq ==> point_eq ==> Qeq) calculateDistance.
Proof.
  intros p p' Hp q q' Hq. unfold calculateDistance.
  rewrite (haversine_a_proper p p' Hp q q' Hq). reflexivity.
Qed.

Lemma haversine_a_sym p q : haversine_a q p == haversine_a p q.
Proof.
  unfold haversine_a.
  assert (Hd : forall u v : Q, (u - v) * Math_PI / 180 / 2 == - ((v - u) * Math_PI / 180 / 2))
    by (intros; field).
  rewrite (Hd (lat p) (lat q)), (Hd (lng p) (lng q)), !sin_odd. ring.
Qed.

Lemma haversine_a_self p : haversine_a p p == 0.
Proof.
  unfold haversine_a.
  assert (H0 : forall u : Q, (u - u) * Math_PI / 180 / 2 == 0) by (intros; field).
  rewrite !H0, sin_zero. ring.
Qed.
End HaversineLaws.

(** ** The laws hold for [TestMath] *)

#[export] Instance approx_proper : Proper (Qeq ==> eq) approx.
Proof. intros q q' H. unfold approx. rewrite (Qfloor_comp _ _ (Qmult_comp _ _ H _ _ (Qeq_refl _))). reflexivity. Qed.

Lemma approx_nonneg q : 0 <= q -> 0 <= approx q.
Proof.
  intro Hq. unfold approx. apply Qle_shift_div_l; [reflexivity|]. rewrite Qmult_0_l.
  change 0 with (inject_Z 0). rewrite <- Zle_Qle.
  change 0%Z with (Qfloor 0). apply Qfloor_resp_le.
  apply Qmult_le_0_compat; [assumption | discriminate].
Qed.

Lemma newton_nonneg n x s : 0 <= x -> 0 <= s -> 0 <= newton n x s.
Proof.
  revert s. induction n as [|n IH]; intros s Hx Hs; simpl; [assumption|].
  apply IH; [assumption|]. apply approx_nonneg.
  assert (0 <= x / s) by (apply Qmult_le_0_compat; [assumption | apply Qinv_le_0_compat; assumption]).
  remember (x / s) as t. qlra.
Qed.

Lemma poly_atan_nonneg z : 0 <= z -> 0 <= poly_atan z.
Proof.
  intro Hz. unfold poly_atan.
  setoid_replace (z - z ^ 3 / 3 + z ^ 5 / 5)
    with (z * ((1 # 5) * ((z * z - (5 # 6)) * (z * z - (5 # 6))) + (31 # 36))) by field.
  apply Qmult_le_0_compat; [assumption|].
  pose proof (Qsquare_nonneg (z * z - (5 # 6))).
  lra.
Qed.

#[export] Instance TestMath_laws : MathLaws TestMath.
Proof.
  constructor; simpl.
  - intros x y H. unfold poly_sin. rewrite H. reflexivity.
  - intros x y H. unfold poly_cos. rewrite H. reflexivity.
  - intros x y H. unfold newton_sqrt.
    rewrite (approx_proper _ _ H), (approx_proper ((x + 1) / 2) ((y + 1) / 2)) by (rewrite H; reflexivity).
    rewrite H. reflexivity.
  - intros y y' Hy x x' Hx. unfold approx_atan2.
    rewrite <- (Qltb_proper _ _ (Qeq_refl 0) _ _ Hx), <- (Qleb_comp _ _ (Qeq_refl 0) _ _ Hy).
    destruct (Qltb 0 x); [unfold poly_atan; rewrite Hx, Hy|]; reflexivity.
  - intro x. unfold poly_sin. field.
  - reflexivity.
  - reflexivity.
  - reflexivity.
  - reflexivity.
  - intro x. unfold newton_sqrt. destruct (Qle_bool x 0) eqn:E; [apply Qle_refl|].
    assert (~ x <= 0) by (intro H; apply Qle_bool_iff in H; congruence).
    assert (0 < x) by (apply Qnot_le_lt; assumption).
    apply newton_nonneg; apply approx_nonneg; qlra.
  - intros y x Hy Hx. unfold approx_atan2. qcase_ltb 0 x.
    + apply poly_atan_nonneg. apply Qle_shift_div_l; lra.
    + rewrite (proj2 (Qle_bool_iff 0 y) Hy). compute. discriminate.
Qed.

(** ** Properties of [calculateDistance] *)

Section DistanceTheorems.
Context `{M : MathLib} `{L : !MathLaws M}.

(** The distance from a point to itself is zero. *)
Theorem calculateDistance_self (p : Point) : calculateDistance p p == 0.
Proof.
  unfold calculateDistance. rewrite haversine_a_self.
  setoid_replace (1 - 0) with 1 by ring.
  rewrite sqrt_zero, sqrt_one, atan2_zero_one. ring.
Qed.

(** The distance is symmetric: swapping the two points gives the same
    value, whatever the host's [sin] rounding as long as it is odd. *)
Theorem calculateDistance_sym (p q : Point) : calculateDistance p q == calculateDistance q p.
Proof. unfold calculateDistance. rewrite (haversine_a_sym p q). reflexivity. Qed.

Lemma distance_nonneg (p q : Point) : 0 <= calculateDistance p q.
Proof.
  unfold calculateDistance, earth_radius_km, km_to_miles.
  pose proof (atan2_nonneg _ _ (sqrt_nonneg (haversine_a p q))
                (sqrt_nonneg (1 - haversine_a p q))).
  apply Qmult_le_0_compat; [|discriminate].
  apply Qmult_le_0_compat; [discriminate|]. lra.
Qed.

End DistanceTheorems.

#[export] Hint Resolve distance_nonneg : ff.


Lemma calculateDistance_self_witness :
  calculateDistance (M := TestMath) times_square times_square == 0.
Proof. exact (calculateDistance_self (L := TestMath_laws) times_square). Defined.

Lemma calculateDistance_sym_witness :
  calculateDistance (M := TestMath) times_square empire_state ==
  calculateDistance (M := TestMath) empire_state times_square.
Proof. exact (calculateDistance_sym (L := TestMath_laws) times_square empire_state). Defined.

