(* ===== verification/Store.v ===== *)
(** * Store: the MongoDB collections of [src/server.js] (schemas, lines 37-102)

    Each Mongoose model is a collection, modelled as the list of its documents
    in natural (insertion) order, which is the order [find] returns without a
    [sort]. A document is a record with the schema's fields; a field that may
    be [undefined] or [null] is an [option]; the coordinates of a fix, where
    [undefined] and [null] read differently, are a [NumField]. [Store] holds the five
    collections and the counter that gives fresh ObjectIds.

    Mongoose casts query values before it sends a query: an Invalid Date or a
    string that is not an ObjectId makes the query reject with a CastError.
    [cast_date] and [cast_oid] model these casts, and the queries the handlers
    issue are the functions of the Section [Queries]. *)

From Stdlib Require Import QArith ZArith Lia List String Ascii Bool.
From S2P Require Import Prelude JsValue Dates.
Import ListNotations.
Local Open Scope string_scope.

(** An ObjectId in its canonical form: 24 lower-case hexadecimal digits. *)
Definition ObjectId := string.

Definition is_hex (c : ascii) : bool :=
  let n := nat_of_ascii c in
  (Nat.leb 48 n && Nat.leb n 57) || (Nat.leb 97 n && Nat.leb n 102) ||
  (Nat.leb 65 n && Nat.leb n 70).

Definition lower_hex (c : ascii) : ascii :=
  let n := nat_of_ascii c in
  if Nat.leb 65 n && Nat.leb n 70 then ascii_of_nat (n + 32) else c.

(** [ObjectId] cast of a string: 24 hexadecimal digits, in either case. *)
Definition cast_oid (s : string) : option ObjectId :=
  let cs := list_ascii_of_string s in
  if Nat.eqb (List.length cs) 24 && forallb is_hex cs
  then Some (string_of_list_ascii (map lower_hex cs))
  else None.

(** The [n]-th ObjectId the store hands out. *)
Fixpoint hex_digits (k : nat) (n : N) : list ascii :=
  match k with
  | O => []
  | S k' =>
      let d := N.to_nat (N.modulo n 16) in
      hex_digits k' (N.div n 16) ++
      [ascii_of_nat (if Nat.ltb d 10 then 48 + d else 87 + d)]
  end.

Definition oid_of_N (n : N) : ObjectId := string_of_list_ascii (hex_digits 24 n).

(** ** Documents *)

(** The nested [{ lat: Number, lng: Number }] of emergencies and logs. *)
Record LatLng : Type := mkLatLng { ll_lat : option Q; ll_lng : option Q }.

Record Employee : Type := mkEmployee {
  emp_id : ObjectId;
  emp_name : option string;
  emp_email : option string;
  emp_password : option string;
  emp_role : option string;        (** default ['employee'] *)
  hourlyRate : option Q;           (** default [25] *)
  isActive : option bool;          (** default [true] *)
  createdAt : option Z             (** default [Date.now] *)
}.

Record Task : Type := mkTask {
  task_id : ObjectId;
  task_employee_id : option ObjectId;
  title : option string;
  task_description : option string;
  customer_name : option string;
  customer_phone : option string;
  address : option string;
  priority : option Q;             (** default [1] *)
  due_date : option Z;
  status : option string;          (** default ['pending'] *)
  estimated_hours : option Q;
  actual_hours : option Q;
  task_created_at : option Z       (** default [Date.now] *)
}.

(** A [Number] path of a stored document as the code reads it back: a
    path never set is [undefined], a path set to [null] (or to [""], which
    Mongoose casts to [null]) is [null], otherwise a number. *)
Inductive NumField : Type := NAbsent | NNull | NNum (q : Q).

Record Location : Type := mkLocation {
  loc_id : ObjectId;
  loc_employee_id : option ObjectId;
  latitude : NumField;             (** the schema does not require it *)
  longitude : NumField;
  accuracy : option Q;
  battery_level : option Q;
  loc_timestamp : option Z         (** default [Date.now] *)
}.

Record Emergency : Type := mkEmergency {
  em_id : ObjectId;
  em_employee_id : option ObjectId;
  em_employee_name : option string;
  emergency_type : option string;
  em_location : option LatLng;
  message : option string;
  em_status : option string;       (** default ['active'] *)
  em_responded_by : option ObjectId;
  em_created_at : option Z         (** default [Date.now] *)
}.

Record Log : Type := mkLog {
  log_id : ObjectId;
  log_employee_id : option ObjectId;
  log_employee_name : option string;
  action_type : option string;
  log_description : option string;
  log_task_id : option ObjectId;
  task_title : option string;
  log_location : option LatLng;
  log_timestamp : option Z;        (** default [Date.now] *)
  ip_address : option string;
  device_info : option string;
  details : json
}.

Record Store : Type := mkStore {
  employees : list Employee;
  tasks : list Task;
  locations : list Location;
  emergencies : list Emergency;
  logs : list Log;
  next_oid : N
}.

Definition empty_store : Store := mkStore [] [] [] [] [] 1.

(** ** Casts *)

Definition cast_date (path : string) (d : option Z) : result Z :=
  match d with
  | Some t => Ok t
  | None => Throw ("Cast to date failed for value Invalid Date at path " ++ path)
  end.

Definition cast_oid_param (path : string) (s : string) : result ObjectId :=
  match cast_oid s with
  | Some o => Ok o
  | None => Throw ("Cast to ObjectId failed for value " ++ s ++ " at path " ++ path)
  end.

(** Equality of an optional ObjectId field with a queried id. *)
Definition oid_is (f : option ObjectId) (o : ObjectId) : bool :=
  match f with
  | Some x => String.eqb x o
  | None => false
  end.

Definition is_completed (t : Task) : bool :=
  match status t with Some st => String.eqb st "completed" | None => false end.

(** A Date path matches [{ $gte: s, $lte: e }] only when it holds a date. *)
Definition opt_in_window (s e : Z) (o : option Z) : bool :=
  match o with Some t => in_window s e t | None => false end.

(** MongoDB orders a missing or null date before every date. *)
Definition opt_leb (a b : option Z) : bool :=
  match a, b with
  | None, _ => true
  | Some _, None => false
  | Some x, Some y => (x <=? y)%Z
  end.

(** ** Creation: [Model.create(doc)] appends with a fresh ObjectId *)

Definition fresh_oid (db : Store) : ObjectId * Store :=
  (oid_of_N (next_oid db),
   mkStore (employees db) (tasks db) (locations db) (emergencies db) (logs db)
           (N.succ (next_oid db))).

Definition add_log (l : Log) (db : Store) : Store :=
  mkStore (employees db) (tasks db) (locations db) (emergencies db) (logs db ++ [l])
          (next_oid db).

Definition add_task (t : Task) (db : Store) : Store :=
  mkStore (employees db) (tasks db ++ [t]) (locations db) (emergencies db) (logs db)
          (next_oid db).

Definition add_location (l : Location) (db : Store) : Store :=
  mkStore (employees db) (tasks db) (locations db ++ [l]) (emergencies db) (logs db)
          (next_oid db).

Definition add_emergency (e : Emergency) (db : Store) : Store :=
  mkStore (employees db) (tasks db) (locations db) (emergencies db ++ [e]) (logs db)
          (next_oid db).

Definition add_employee (e : Employee) (db : Store) : Store :=
  mkStore (employees db ++ [e]) (tasks db) (locations db) (emergencies db) (logs db)
          (next_oid db).

(** ** Queries over a window [{ $gte: start, $lte: end }] *)

Section Queries.
Variable db : Store.

Definition task_in_window (s e : Z) (t : Task) : bool := opt_in_window s e (task_created_at t).
Definition loc_in_window (s e : Z) (l : Location) : bool := opt_in_window s e (loc_timestamp l).
Definition log_in_window (s e : Z) (l : Log) : bool := opt_in_window s e (log_timestamp l).
Definition em_in_window (s e : Z) (m : Emergency) : bool := opt_in_window s e (em_created_at m).

(** [Task.find({ created_at: { $gte, $lte } })] *)
Definition find_tasks_window (s e : Z) : list Task := filter (task_in_window s e) (tasks db).

Definition find_locations_window (s e : Z) : list Location :=
  filter (loc_in_window s e) (locations db).

Definition find_logs_window (s e : Z) : list Log := filter (log_in_window s e) (logs db).

Definition find_emergencies_window (s e : Z) : list Emergency :=
  filter (em_in_window s e) (emergencies db).

(** [Employee.find({ isActive: true })] *)
Definition find_active_employees : list Employee :=
  filter (fun e => match isActive e with Some true => true | _ => false end) (employees db).

(** [Employee.findById(id)] *)
Definition find_employee_by_id (o : ObjectId) : option Employee :=
  find (fun e => String.eqb (emp_id e) o) (employees db).
End Queries.

(** ** Lemmas *)

Lemma opt_leb_total a b : opt_leb a b = false -> opt_leb b a = true.
Proof.
  destruct a as [x|], b as [y|]; simpl; try discriminate; [|reflexivity].
  intro H. apply Z.leb_gt in H. apply Z.leb_le. lia.
Qed.
