(* ===== verification/Http.v ===== *)
(** * Http: responses and the shape of an Express route handler

    A handler of [src/server.js] is [async (req, res) => { try { ... }
    catch (error) { res.status(c).json({ error: error.message }) } ]]. It
    reads and writes the store, may throw, and answers with one response.
    [M] is the state-and-exception monad of such a body: the store is
    threaded through, and a throw keeps the writes made before it (MongoDB has
    no rollback). [run_route c body] runs [body] and turns a throw into the
    status [c] with [{ error: message }]. *)

From Stdlib Require Import QArith ZArith List String Morphisms RelationClasses.
From S2P Require Import Prelude JsValue Store.
Import ListNotations.
Local Open Scope string_scope.

(** What a handler reads of [req]. *)
Record Request : Type := mkRequest {
  req_method : string;
  req_path : string;                (** [req.path], without the query string *)
  req_query : json;                 (** [req.query] *)
  req_body : json;                  (** [req.body]; [{}] when the request has none *)
  req_ip : option string;           (** [req.ip || req.connection.remoteAddress] *)
  req_user_agent : option string;   (** [req.get('User-Agent')] *)
  req_time : Z                      (** [Date.now()] while the request is served *)
}.

Record Response : Type := mkResponse { res_status : Z; res_body : json }.

(** [res.json(obj)] *)
Definition res_json (body : json) : Response := mkResponse 200 body.

(** [res.status(c).json({ error: msg })] *)
Definition res_error (c : Z) (msg : string) : Response :=
  mkResponse c (JObj [("error", JStr msg)]).

Definition M (A : Type) : Type := Store -> result A * Store.

Definition mret {A : Type} (a : A) : M A := fun db => (Ok a, db).

Definition mbind {A B : Type} (c : M A) (k : A -> M B) : M B :=
  fun db =>
    match c db with
    | (Ok a, db') => k a db'
    | (Throw m, db') => (Throw m, db')
    end.

Definition mthrow {A : Type} (msg : string) : M A := fun db => (Throw msg, db).

(** Lift a pure computation that may throw (a cast). *)
Definition mlift {A : Type} (r : result A) : M A := fun db => (r, db).

(** Read the store (a query) and write it (a create or a delete). *)
Definition mget : M Store := fun db => (Ok db, db).
Definition mput (db : Store) : M unit := fun _ => (Ok tt, db).

(** [try { c } catch (error) { console.error(...) }]: the error is dropped,
    the writes made before it stay. *)
Definition mcatch (c : M unit) : M unit :=
  fun db => match c db with (_, db') => (Ok tt, db') end.

Notation "x <-- c ;; k" := (mbind c (fun x => k))
  (at level 61, c at next level, right associativity) : ff_scope.

Definition run_route (code : Z) (body : M Response) (db : Store) : Store * Response :=
  match body db with
  | (Ok r, db') => (db', r)
  | (Throw m, db') => (db', res_error code m)
  end.

(** A computation moves the store along a relation [R]: [R] relates the
    store before it to the store after it, whether it returns or throws. *)
Definition mono {A : Type} (R : Store -> Store -> Prop) (c : M A) : Prop :=
  forall db, R db (snd (c db)).

(** A computation that never writes. *)
Definition readonly {A : Type} (c : M A) : Prop := forall db, snd (c db) = db.

Create HintDb mono.

Lemma mbind_ok {A B : Type} (c : M A) (k : A -> M B) db a db' :
  c db = (Ok a, db') -> mbind c k db = k a db'.
Proof. unfold mbind. intros ->. reflexivity. Qed.

Lemma mbind_throw {A B : Type} (c : M A) (k : A -> M B) db m db' :
  c db = (Throw m, db') -> mbind c k db = (Throw m, db').
Proof. unfold mbind. intros ->. reflexivity. Qed.

Lemma run_route_store code body db : fst (run_route code body db) = snd (body db).
Proof. unfold run_route. destruct (body db) as [[r|m] db']; reflexivity. Qed.

Lemma run_route_readonly code body db : readonly body -> fst (run_route code body db) = db.
Proof. intro H. rewrite run_route_store. apply H. Qed.

Lemma readonly_ret {A : Type} (a : A) : readonly (mret a).
Proof. intro. reflexivity. Qed.

Lemma readonly_get : readonly mget.
Proof. intro. reflexivity. Qed.

Lemma readonly_lift {A : Type} (r : result A) : readonly (mlift r).
Proof. intro. reflexivity. Qed.

Lemma readonly_bind {A B : Type} (c : M A) (k : A -> M B) :
  readonly c -> (forall a, readonly (k a)) -> readonly (mbind c k).
Proof.
  intros Hc Hk db. unfold mbind. specialize (Hc db).
  destruct (c db) as [[a|m] db'] eqn:E; simpl in *; [rewrite Hk|]; exact Hc.
Qed.

Section Mono.
Context (R : Store -> Store -> Prop) {HR : PreOrder R}.

Lemma mono_readonly {A : Type} (c : M A) : readonly c -> mono R c.
Proof. intros Hc db. rewrite Hc. reflexivity. Qed.

Lemma mono_bind {A B : Type} (c : M A) (k : A -> M B) :
  mono R c -> (forall a, mono R (k a)) -> mono R (mbind c k).
Proof.
  intros Hc Hk db. unfold mbind. specialize (Hc db).
  destruct (c db) as [[a|m] db'] eqn:E; simpl in *; [|exact Hc].
  transitivity db'; [exact Hc | apply Hk].
Qed.

(** [db <-- mget ;; _ <-- mput (f db) ;; k db]: a write computed from the
    store read. *)
Lemma mono_modify {B : Type} (f : Store -> Store) (k : Store -> unit -> M B) :
  (forall db, R db (f db)) -> (forall db u, mono R (k db u)) ->
  mono R (mbind mget (fun db => mbind (mput (f db)) (k db))).
Proof.
  intros Hf Hk db. unfold mbind, mget, mput. simpl.
  transitivity (f db); [apply Hf | apply Hk].
Qed.

Lemma mono_catch (c : M unit) : mono R c -> mono R (mcatch c).
Proof. intros Hc db. unfold mcatch. specialize (Hc db). destruct (c db). exact Hc. Qed.

Lemma mono_if {A : Type} (b : bool) (c1 c2 : M A) :
  mono R c1 -> mono R c2 -> mono R (if b then c1 else c2).
Proof. destruct b; auto. Qed.

Lemma mono_run_route code body db : mono R body -> R db (fst (run_route code body db)).
Proof. intro Hb. rewrite run_route_store. apply Hb. Qed.
End Mono.

#[export] Hint Resolve readonly_ret readonly_get readonly_lift readonly_bind : mono.

(** Prove that an unfolded handler body never writes. *)
Ltac ro :=
  repeat match goal with
  | |- readonly (mbind _ _) => apply readonly_bind; [|intro]
  | |- readonly (mret _) => apply readonly_ret
  | |- readonly mget => apply readonly_get
  | |- readonly (mlift _) => apply readonly_lift
  | |- readonly (let '(_, _) := ?p in _) => destruct p
  | |- readonly (match ?x with _ => _ end) => destruct x
  | |- readonly (if ?b then _ else _) => destruct b
  end.
