(* ===== verification/Documents.v ===== *)
(** * Documents: [Model.create(obj)] on the schemas of [src/server.js] (lines 38-102)

    Every create of the server ([Employee.create(req.body)],
    [Task.create(req.body)], [Location.create(req.body)],
    [Emergency.create(req.body)], [Log.create(logData)]) hands a plain object
    to Mongoose, which
    - keeps the schema's paths only (strict mode) and casts each of them
      ([cast_string], [cast_number], [cast_bool], [cast_date_value],
      [cast_oid_value], [cast_latlng]; a Mixed path keeps the value);
    - applies a path's default when its value is [undefined] ([with_default]);
    - fails with a ValidationError that lists every path that does not cast,
      in schema order ([vfield], [validation]);
    - gives the document an [_id]: the object's own [_id] when it has one,
      else a fresh ObjectId;
    - inserts it, which fails with an E11000 error when a unique index
      ([_id], and [email] for employees) already holds the key.

    The error texts keep Mongoose's structure ([<Model> validation failed:
    <path>: Cast to <Type> failed ...]) but not its rendering of the
    offending value. *)

From Stdlib Require Import QArith ZArith Lia List String Ascii Bool.
From S2P Require Import Prelude JsValue Dates Store Http.
Import ListNotations.
Local Open Scope string_scope.
Local Open Scope list_scope.

(** ** Casts of the path types not in [JsValue] *)

(** Date path: [null], [undefined] and [""] are [null]; numbers and strings go
    through [new Date(v)]; an Invalid Date or a boolean does not cast. *)
Definition cast_date_value (path : string) (v : json) : result (option Z) :=
  match v with
  | JUndefined | JNull => Ok None
  | JStr "" => Ok None
  | JNum _ | JStr _ | JDate _ =>
      match newDate v with
      | Some t => Ok (Some t)
      | None => Throw ("Cast to Date failed at path " ++ path)
      end
  | _ => Throw ("Cast to Date failed at path " ++ path)
  end.

(** ObjectId path: a string of 24 hexadecimal digits. *)
Definition cast_oid_value (path : string) (v : json) : result (option ObjectId) :=
  match v with
  | JUndefined | JNull => Ok None
  | JStr s =>
      match cast_oid s with
      | Some o => Ok (Some o)
      | None => Throw ("Cast to ObjectId failed for value " ++ s ++ " at path " ++ path)
      end
  | _ => Throw ("Cast to ObjectId failed at path " ++ path)
  end.

(** The nested path [{ lat: Number, lng: Number }]. *)
Definition cast_latlng (path : string) (v : json) : result (option LatLng) :=
  match v with
  | JUndefined | JNull => Ok None
  | JObj _ =>
      match cast_number (path ++ ".lat") (jget v "lat"), cast_number (path ++ ".lng") (jget v "lng") with
      | Ok a, Ok b => Ok (Some (mkLatLng a b))
      | Throw m, Ok _ | Ok _, Throw m => Throw m
      | Throw m, Throw m' => Throw (m ++ ", " ++ m')
      end
  | _ => Throw ("Cast to Embedded failed at path " ++ path)
  end.

(** A default applies when the value is [undefined], not when it is [null]. *)
Definition with_default {A : Type} (d : A) (v : json) (r : result (option A)) : result (option A) :=
  match v with
  | JUndefined => Ok (Some d)
  | _ => r
  end.

(** ** Validation: every path is cast, the errors are collected in order *)

(** One path: its cast value, or its error followed by those of the paths
    after it, which are cast as if this one were unset ([unset]). *)
Definition vfield_with {A B : Type} (unset : A) (path : string) (r : result A) (k : A -> result B)
  : result B :=
  match r with
  | Ok a => k a
  | Throw m =>
      match k unset with
      | Ok _ => Throw (path ++ ": " ++ m)
      | Throw m' => Throw (path ++ ": " ++ m ++ ", " ++ m')
      end
  end.

Definition vfield {A B : Type} (path : string) (r : result (option A)) (k : option A -> result B)
  : result B := vfield_with None path r k.

Definition validation {A : Type} (model : string) (r : result A) : result A :=
  match r with
  | Ok a => Ok a
  | Throw m => Throw (model ++ " validation failed: " ++ m)
  end.

(** The [_id] path: the object's own, else [fresh]; a [null] one is refused
    when the document is saved. *)
Definition id_field {B : Type} (fresh : ObjectId) (obj : json) (k : ObjectId -> result B) : result B :=
  vfield "_id" (with_default fresh (jget obj "_id") (cast_oid_value "_id" (jget obj "_id")))
    (fun o => match o with
              | Some i => k i
              | None => Throw "document must have an _id before saving"
              end).

(** ** The five schemas *)

Section Schemas.
(** The host's [Number.prototype.toString], used by the String casts. *)
Variable number_to_string : Q -> string.
(** [Date.now()] at the time of the create. *)
Variable now : Z.

Definition str (path : string) (obj : json) : result (option string) :=
  cast_string number_to_string path (jget obj path).

Definition employee_of (fresh : ObjectId) (obj : json) : result Employee :=
  validation "Employee" (id_field fresh obj (fun id =>
    vfield "name" (str "name" obj) (fun name =>
    vfield "email" (str "email" obj) (fun email =>
    vfield "password" (str "password" obj) (fun password =>
    vfield "role" (with_default "employee" (jget obj "role") (str "role" obj)) (fun role =>
    vfield "hourlyRate" (with_default 25 (jget obj "hourlyRate")
                           (cast_number "hourlyRate" (jget obj "hourlyRate"))) (fun rate =>
    vfield "isActive" (with_default true (jget obj "isActive")
                         (cast_bool "isActive" (jget obj "isActive"))) (fun active =>
    vfield "createdAt" (with_default now (jget obj "createdAt")
                          (cast_date_value "createdAt" (jget obj "createdAt"))) (fun created =>
    Ok (mkEmployee id name email password role rate active created))))))))))%Q.

Definition task_of (fresh : ObjectId) (obj : json) : result Task :=
  validation "Task" (id_field fresh obj (fun id =>
    vfield "employee_id" (cast_oid_value "employee_id" (jget obj "employee_id")) (fun emp =>
    vfield "title" (str "title" obj) (fun ttl =>
    vfield "description" (str "description" obj) (fun descr =>
    vfield "customer_name" (str "customer_name" obj) (fun cname =>
    vfield "customer_phone" (str "customer_phone" obj) (fun cphone =>
    vfield "address" (str "address" obj) (fun addr =>
    vfield "priority" (with_default 1 (jget obj "priority")
                         (cast_number "priority" (jget obj "priority"))) (fun prio =>
    vfield "due_date" (cast_date_value "due_date" (jget obj "due_date")) (fun due =>
    vfield "status" (with_default "pending" (jget obj "status") (str "status" obj)) (fun st =>
    vfield "estimated_hours" (cast_number "estimated_hours" (jget obj "estimated_hours")) (fun est =>
    vfield "actual_hours" (cast_number "actual_hours" (jget obj "actual_hours")) (fun act =>
    vfield "created_at" (with_default now (jget obj "created_at")
                           (cast_date_value "created_at" (jget obj "created_at"))) (fun created =>
    Ok (mkTask id emp ttl descr cname cphone addr prio due st est act created)))))))))))))))%Q.

(** Mongoose's cast to a [Number] path, keeping apart the path left
    unset ([undefined]) and the path set to [null]. *)
Definition cast_number_field (path : string) (v : json) : result NumField :=
  match v with
  | JUndefined => Ok NAbsent
  | _ => let* o := cast_number path v in Ok (match o with Some q => NNum q | None => NNull end)
  end.

Definition location_of (fresh : ObjectId) (obj : json) : result Location :=
  validation "Location" (id_field fresh obj (fun id =>
    vfield "employee_id" (cast_oid_value "employee_id" (jget obj "employee_id")) (fun emp =>
    vfield_with NAbsent "latitude" (cast_number_field "latitude" (jget obj "latitude")) (fun lat =>
    vfield_with NAbsent "longitude" (cast_number_field "longitude" (jget obj "longitude")) (fun lng =>
    vfield "accuracy" (cast_number "accuracy" (jget obj "accuracy")) (fun acc =>
    vfield "battery_level" (cast_number "battery_level" (jget obj "battery_level")) (fun bat =>
    vfield "timestamp" (with_default now (jget obj "timestamp")
                          (cast_date_value "timestamp" (jget obj "timestamp"))) (fun ts =>
    Ok (mkLocation id emp lat lng acc bat ts))))))))).

Definition emergency_of (fresh : ObjectId) (obj : json) : result Emergency :=
  validation "Emergency" (id_field fresh obj (fun id =>
    vfield "employee_id" (cast_oid_value "employee_id" (jget obj "employee_id")) (fun emp =>
    vfield "employee_name" (str "employee_name" obj) (fun ename =>
    vfield "emergency_type" (str "emergency_type" obj) (fun ty =>
    vfield "location" (cast_latlng "location" (jget obj "location")) (fun loc =>
    vfield "message" (str "message" obj) (fun msg =>
    vfield "status" (with_default "active" (jget obj "status") (str "status" obj)) (fun st =>
    vfield "responded_by" (cast_oid_value "responded_by" (jget obj "responded_by")) (fun resp =>
    vfield "created_at" (with_default now (jget obj "created_at")
                           (cast_date_value "created_at" (jget obj "created_at"))) (fun created =>
    Ok (mkEmergency id emp ename ty loc msg st resp created))))))))))).

Definition log_of (fresh : ObjectId) (obj : json) : result Log :=
  validation "Log" (id_field fresh obj (fun id =>
    vfield "employee_id" (cast_oid_value "employee_id" (jget obj "employee_id")) (fun emp =>
    vfield "employee_name" (str "employee_name" obj) (fun ename =>
    vfield "action_type" (str "action_type" obj) (fun act =>
    vfield "description" (str "description" obj) (fun descr =>
    vfield "task_id" (cast_oid_value "task_id" (jget obj "task_id")) (fun tid =>
    vfield "task_title" (str "task_title" obj) (fun ttl =>
    vfield "location" (cast_latlng "location" (jget obj "location")) (fun loc =>
    vfield "timestamp" (with_default now (jget obj "timestamp")
                          (cast_date_value "timestamp" (jget obj "timestamp"))) (fun ts =>
    vfield "ip_address" (str "ip_address" obj) (fun ip =>
    vfield "device_info" (str "device_info" obj) (fun dev =>
    Ok (mkLog id emp ename act descr tid ttl loc ts ip dev (jget obj "details")))))))))))))).
End Schemas.

(** ** Inserting a document: the unique indexes

    Every collection has the unique index [_id_]; the schema's
    [email: { unique: true }] adds [email_1] on employees. The index is not
    sparse: an employee without an email is indexed under [null], so a second
    one collides with the first. *)

Definition dup_key (coll index : string) : string :=
  "E11000 duplicate key error collection: " ++ coll ++ " index: " ++ index.

Definition opt_str_eqb (a b : option string) : bool :=
  match a, b with
  | Some x, Some y => String.eqb x y
  | None, None => true
  | _, _ => false
  end.

Definition id_taken (id : ObjectId) (ids : list ObjectId) : bool := existsb (String.eqb id) ids.

(** The ObjectId a new document receives when the object has none. *)
Definition mfresh : M ObjectId := fun db => let '(o, db') := fresh_oid db in (Ok o, db').

Definition insert_employee (e : Employee) : M unit := fun db =>
  if id_taken (emp_id e) (map emp_id (employees db)) then (Throw (dup_key "employees" "_id_"), db)
  else if existsb (opt_str_eqb (emp_email e)) (map emp_email (employees db))
  then (Throw (dup_key "employees" "email_1"), db)
  else (Ok tt, add_employee e db).

Definition insert_task (t : Task) : M unit := fun db =>
  if id_taken (task_id t) (map task_id (tasks db)) then (Throw (dup_key "tasks" "_id_"), db)
  else (Ok tt, add_task t db).

Definition insert_location (l : Location) : M unit := fun db =>
  if id_taken (loc_id l) (map loc_id (locations db)) then (Throw (dup_key "locations" "_id_"), db)
  else (Ok tt, add_location l db).

Definition insert_emergency (m : Emergency) : M unit := fun db =>
  if id_taken (em_id m) (map em_id (emergencies db)) then (Throw (dup_key "emergencies" "_id_"), db)
  else (Ok tt, add_emergency m db).

Definition insert_log (l : Log) : M unit := fun db =>
  if id_taken (log_id l) (map log_id (logs db)) then (Throw (dup_key "logs" "_id_"), db)
  else (Ok tt, add_log l db).

Section Create.
Variable number_to_string : Q -> string.
Variable now : Z.

(** [await Employee.create(obj)] *)
Definition create_employee (obj : json) : M Employee :=
  fresh <-- mfresh ;;
  e <-- mlift (employee_of number_to_string now fresh obj) ;;
  _ <-- insert_employee e ;;
  mret e.

Definition create_task (obj : json) : M Task :=
  fresh <-- mfresh ;;
  t <-- mlift (task_of number_to_string now fresh obj) ;;
  _ <-- insert_task t ;;
  mret t.

Definition create_location (obj : json) : M Location :=
  fresh <-- mfresh ;;
  l <-- mlift (location_of now fresh obj) ;;
  _ <-- insert_location l ;;
  mret l.

Definition create_emergency (obj : json) : M Emergency :=
  fresh <-- mfresh ;;
  m <-- mlift (emergency_of number_to_string now fresh obj) ;;
  _ <-- insert_emergency m ;;
  mret m.

Definition create_log (obj : json) : M Log :=
  fresh <-- mfresh ;;
  l <-- mlift (log_of number_to_string now fresh obj) ;;
  _ <-- insert_log l ;;
  mret l.
End Create.

(** ** Lemmas *)

Lemma id_taken_false id ids : id_taken id ids = false -> ~ In id ids.
Proof. intro H. apply (existsb_false_notin _ id ids H), String.eqb_refl. Qed.

Lemma opt_str_eqb_refl o : opt_str_eqb o o = true.
Proof. destruct o; simpl; [apply String.eqb_refl | reflexivity]. Qed.

Lemma email_taken_false o os : existsb (opt_str_eqb o) os = false -> ~ In o os.
Proof. intro H. apply (existsb_false_notin _ o os H), opt_str_eqb_refl. Qed.
