(* ===== verification/Mileage.v ===== *)
(** * MileageAggregator: [GET /api/mileage/:employee_id] and [calculateTotalMileage]

    [src/server.js] sums [calculateDistance] over consecutive location fixes
    twice, with the same loop: inline in the mileage route (lines 333-340) and
    in [calculateTotalMileage] (lines 558-568), which the weekly report uses.
    [mileage_loop] is that loop, [total_miles] runs it on a list, and
    [leg_sum] is the reference definition it is proved equal to: the sum of
    the distances of the consecutive pairs. The route ([get_mileage]) queries
    the employee's fixes in the window sorted by timestamp
    ([sort_by_timestamp]) and renders the total and the reimbursement at
    0.67 per mile. A coordinate reads as ToNumber reads it ([coord_value]):
    [null] is 0 and an unset path ([undefined]) is NaN. *)

From Stdlib Require Import QArith Lqa ZArith Lia List String Sorted Permutation.
From Stdlib Require Import Morphisms Setoid.
From S2P Require Import Prelude JsValue Dates GeoDistance Store Http.
Import ListNotations.
Local Open Scope string_scope.
Local Open Scope list_scope.
Local Open Scope Q_scope.

(** The IRS rate of line 342. *)
Definition mileage_rate : Q := 67 # 100.

(** A coordinate in the arithmetic of [calculateDistance]: [null] is
    converted to 0 by ToNumber, [undefined] to NaN ([None]). *)
Definition coord_value (f : NumField) : option Q :=
  match f with
  | NNum q => Some q
  | NNull => Some 0
  | NAbsent => None
  end.

(** [{ lat: loc.latitude, lng: loc.longitude }]. A fix whose coordinate
    path was never set gives [undefined] there, and every arithmetic step
    of [calculateDistance] on it gives NaN: the point is then [None]. A
    fix stored with a [null] coordinate is read at 0. *)
Definition to_point (l : Location) : option Point :=
  match coord_value (latitude l), coord_value (longitude l) with
  | Some a, Some b => Some (mkPoint a b)
  | _, _ => None
  end.

Definition has_coords (l : Location) : bool :=
  match to_point l with Some _ => true | None => false end.

(** ** [.sort({ timestamp: 1 })]

    A stable insertion sort: fixes with equal timestamps keep their natural
    order (MongoDB leaves the order of ties unspecified; any order is a
    permutation of this one). *)

Definition sort_by_timestamp (l : list Location) : list Location :=
  sort_stable (fun a b => opt_leb (loc_timestamp a) (loc_timestamp b)) l.

Definition ts_le (a b : Location) : Prop := opt_leb (loc_timestamp a) (loc_timestamp b) = true.

Section Mileage.
Context `{ML : MathLib}.

(** [calculateDistance(...)] of two fixes: NaN when one lacks a coordinate. *)
Definition leg (p q : Location) : option Q :=
  match to_point p, to_point q with
  | Some a, Some b => Some (calculateDistance a b)
  | _, _ => None
  end.

(** [for (let i = 1; i < locations.length; i++) totalMiles += dist(i-1, i)],
    with [prev] the fix at [i - 1] and [rest] the fixes from [i] on. *)
Fixpoint mileage_loop (acc : option Q) (prev : Location) (rest : list Location) : option Q :=
  match rest with
  | [] => acc
  | cur :: rest' => mileage_loop (js_add acc (leg prev cur)) cur rest'
  end.

Definition total_miles (locs : list Location) : option Q :=
  match locs with
  | [] => Some 0
  | first :: rest => mileage_loop (Some 0) first rest
  end.

(** [calculateTotalMileage(locations)] returns [totalMiles.toFixed(2)]. *)
Definition calculateTotalMileage (locs : list Location) : string :=
  toFixed_js (total_miles locs) 2.

(** Reference definition: the sum of the legs between consecutive fixes. *)
Fixpoint consecutive_pairs (l : list Location) : list (Location * Location) :=
  match l with
  | x :: ((y :: _) as r) => (x, y) :: consecutive_pairs r
  | _ => []
  end.

Definition leg_sum (l : list Location) : option Q :=
  js_sum (map (fun pq => leg (fst pq) (snd pq)) (consecutive_pairs l)).

(** ** The route *)

(** The host's [Date.prototype.toLocaleDateString]. *)
Variable toLocaleDateString : Z -> string.

Definition mileage_query (oid : ObjectId) (s e : Z) (db : Store) : list Location :=
  sort_by_timestamp
    (filter (fun l => oid_is (loc_employee_id l) oid && loc_in_window s e l) (locations db)).

Definition mileage_body (totalMiles : option Q) (s e : Z) : json :=
  let reimbursement := toFixed_js (js_mul totalMiles (Some mileage_rate)) 2 in
  JObj [("totalMiles", JStr (toFixed_js totalMiles 2));
        ("reimbursement", JStr ("$" ++ reimbursement)%string);
        ("period", JStr (toLocaleDateString s ++ " to " ++ toLocaleDateString e)%string);
        ("message",
         JStr ("You've earned $" ++ reimbursement ++ " in mileage reimbursement!")%string)].

Definition get_mileage (employee_id : string) (startDate endDate : json) : M Response :=
  oid <-- mlift (cast_oid_param "employee_id" employee_id) ;;
  s <-- mlift (cast_date "timestamp" (newDate startDate)) ;;
  e <-- mlift (cast_date "timestamp" (newDate endDate)) ;;
  db <-- mget ;;
  mret (res_json (mileage_body (total_miles (mileage_query oid s e db)) s e)).

Definition mileage_route (db : Store) (employee_id : string) (startDate endDate : json)
  : Store * Response :=
  run_route 500 (get_mileage employee_id startDate endDate) db.
End Mileage.

(** A fix of no employee, for the examples. *)
Definition anonymous_fix : Location :=
  mkLocation "000000000000000000000009" None (NNum (40758 # 1000)) (NNum (- (73985 # 1000)))
    None None (Some 1704153600000%Z).

(** A fix posted without a latitude. *)
Definition fix_without_latitude : Location :=
  mkLocation "000000000000000000000010" (Some "65a1b2c3d4e5f60718293a4b") NAbsent
    (NNum (- (73985 # 1000))) None None (Some 1704153660000%Z).

Definition demo_employee_id : string := "65a1b2c3d4e5f60718293a4b".

(** ** The loop and its reference definition *)

Section MileageTheorems.
Context `{ML : MathLib}.

Lemma mileage_loop_acc acc p r : js_eq (mileage_loop acc p r) (js_add acc (leg_sum (p :: r))).
Proof.
  revert acc p. induction r as [|q r IH]; intros acc p; simpl.
  - symmetry. apply js_add_0_r.
  - rewrite IH. unfold leg_sum. simpl. symmetry. apply js_add_assoc.
Qed.

(** The loop computes the reference sum. *)
Lemma total_miles_leg_sum (l : list Location) : js_eq (total_miles l) (leg_sum l).
Proof.
  destruct l as [|p r]; simpl; [reflexivity|].
  rewrite mileage_loop_acc. apply js_add_0_l.
Qed.

(** C4. The accumulating loop of [calculateTotalMileage] computes the sum
    of the distances between consecutive fixes, NaN included. *)
Theorem total_miles_equiv (l : list Location) : js_eq (total_miles l) (leg_sum l).
Proof. exact (total_miles_leg_sum l). Qed.

Lemma consecutive_pairs_app l1 p l2 :
  consecutive_pairs (l1 ++ p :: l2) = (consecutive_pairs (l1 ++ [p]) ++ consecutive_pairs (p :: l2))%list.
Proof.
  induction l1 as [|a l1 IH]; [reflexivity|].
  destruct l1 as [|b l1]; [reflexivity|].
  change ((a :: b :: l1) ++ p :: l2) with (a :: (b :: l1) ++ p :: l2).
  change ((a :: b :: l1) ++ [p]) with (a :: (b :: l1) ++ [p]).
  simpl in *. rewrite IH. reflexivity.
Qed.

(** Mileage is additive: splitting a trip at a fix [p] splits its
    total into the totals of the two parts, both of which contain [p]. *)
Theorem total_miles_additive (l1 l2 : list Location) (p : Location) :
  js_eq (total_miles (l1 ++ p :: l2)%list) (js_add (total_miles (l1 ++ [p])%list) (total_miles (p :: l2))).
Proof.
  rewrite !total_miles_leg_sum. unfold leg_sum.
  rewrite consecutive_pairs_app, map_app. apply js_sum_app.
Qed.

Lemma consecutive_pairs_in p r l : In (p, r) (consecutive_pairs l) -> In p l /\ In r l.
Proof.
  induction l as [|a l IH]; simpl; [tauto|].
  destruct l as [|b l]; [tauto|]. intros [E|H].
  - inversion E; subst. simpl. auto.
  - destruct (IH H) as [H1 H2]. auto.
Qed.

(** Every fix of a list of two or more is in one of its consecutive pairs. *)
Lemma in_consecutive_pairs x l :
  (2 <= List.length l)%nat -> In x l ->
  exists pq, In pq (consecutive_pairs l) /\ (fst pq = x \/ snd pq = x).
Proof.
  induction l as [|a l IH]; intros Hlen Hin; [destruct Hin|].
  destruct l as [|b l]; simpl in Hlen; [lia|].
  destruct Hin as [->|Hin].
  - exists (x, b). simpl. auto.
  - destruct l as [|c l].
    + exists (a, b). simpl in Hin |- *. destruct Hin as [->|[]]. auto.
    + destruct (IH ltac:(simpl; lia) Hin) as [pq [Hpq Hx]].
      exists pq. split; [right; exact Hpq | exact Hx].
Qed.

(** C23. A fix whose latitude or longitude path was never set (the
    schema does not require them, so a fix posted without one is stored
    without it) reads [undefined] there, and among two or more fixes it
    makes the whole total NaN. A [null] coordinate does not: ToNumber
    reads it as 0 ([coord_value]). *)
Theorem total_miles_NaN (l : list Location) (x : Location) :
  (2 <= List.length l)%nat -> In x l -> (latitude x = NAbsent \/ longitude x = NAbsent) ->
  total_miles l = None.
Proof.
  intros Hlen Hin Habs.
  assert (Hx : has_coords x = false)
    by (unfold has_coords, to_point; destruct Habs as [-> | ->]; [|destruct (coord_value (latitude x))];
        reflexivity).
  apply js_eq_None. rewrite total_miles_leg_sum.
  unfold leg_sum. rewrite js_sum_NaN; [reflexivity|].
  destruct (in_consecutive_pairs x l Hlen Hin) as [[p q] [Hpq Hpx]].
  apply in_map_iff. exists (p, q). split; [|exact Hpq].
  unfold has_coords in Hx. unfold leg. simpl in *.
  destruct Hpx as [<-|<-]; destruct (to_point p), (to_point q); congruence.
Qed.

Section WithLaws.
Context `{L : !MathLaws ML}.

(** When every fix has both coordinates, the total mileage is a
    number and never negative. *)
Theorem total_miles_nonneg (l : list Location) :
  forallb has_coords l = true -> exists q, total_miles l = Some q /\ 0 <= q.
Proof.
  intro Hc. destruct (js_sum_nonneg (map (fun pq => leg (fst pq) (snd pq)) (consecutive_pairs l)))
    as [q [Hq Hq0]].
  - intros a Ha. apply in_map_iff in Ha as [[p r] [<- Hpr]].
    assert (Hp : In p l /\ In r l) by (apply consecutive_pairs_in; exact Hpr).
    rewrite forallb_forall in Hc. destruct Hp as [Hp Hr].
    pose proof (Hc p Hp) as Ep. pose proof (Hc r Hr) as Er. unfold has_coords in Ep, Er.
    unfold leg. simpl. destruct (to_point p), (to_point r); try discriminate.
    eexists; split; [reflexivity | apply distance_nonneg].
  - pose proof (total_miles_leg_sum l) as E. unfold leg_sum in E. rewrite Hq in E.
    destruct (js_eq_Some _ _ E) as [q' [-> Hq']]. exists q'. split; [reflexivity|]. rewrite Hq'. exact Hq0.
Qed.
End WithLaws.
End MileageTheorems.

(** ** The timestamp sort *)

(** [.sort({ timestamp: 1 })] returns the same fixes in ascending
    timestamp order. *)
Theorem sort_by_timestamp_spec (l : list Location) :
  Sorted ts_le (sort_by_timestamp l) /\ Permutation (sort_by_timestamp l) l.
Proof. apply sort_stable_spec. intros a b. apply opt_leb_total. Qed.

(** ** The route *)

Section RouteTheorems.
Context `{ML : MathLib}.
Variable toLocaleDateString : Z -> string.

(** With at most one fix of the employee in the window, the route
    answers [totalMiles: "0.00"] and [reimbursement: "$0.00"]. *)
Theorem mileage_route_single_fix (db : Store) (employee_id : string) (startDate endDate : json)
    (oid : ObjectId) (s e : Z) :
  cast_oid employee_id = Some oid ->
  newDate startDate = Some s ->
  newDate endDate = Some e ->
  (List.length (filter (fun l => oid_is (loc_employee_id l) oid && loc_in_window s e l)
                 (locations db)) <= 1)%nat ->
  let r := snd (mileage_route toLocaleDateString db employee_id startDate endDate) in
  res_status r = 200%Z /\ jget (res_body r) "totalMiles" = JStr "0.00" /\
  jget (res_body r) "reimbursement" = JStr "$0.00".
Proof.
  intros Hoid Hs He Hlen.
  unfold mileage_route, run_route, get_mileage, mbind, mlift, mget, mret,
    cast_oid_param, cast_date.
  rewrite Hoid, Hs, He. simpl.
  pose proof (sort_stable_length (fun a b => opt_leb (loc_timestamp a) (loc_timestamp b))
    (fun a b => opt_leb_total (loc_timestamp a) (loc_timestamp b))
    (filter (fun l => oid_is (loc_employee_id l) oid && loc_in_window s e l) (locations db))) as Hp.
  unfold mileage_query, sort_by_timestamp.
  destruct (sort_stable _ _) as [|x [|y r]]; simpl in Hp; [| |lia];
    repeat split; reflexivity.
Qed.

(** An unparsable start date makes the route answer 500 and leaves
    the store as it was. *)
Theorem mileage_route_invalid_start (db : Store) (employee_id : string) (startDate endDate : json)
    (oid : ObjectId) :
  cast_oid employee_id = Some oid ->
  newDate startDate = None ->
  mileage_route toLocaleDateString db employee_id startDate endDate =
  (db, res_error 500 "Cast to date failed for value Invalid Date at path timestamp").
Proof.
  intros Hoid Hs.
  unfold mileage_route, run_route, get_mileage, mbind, mlift, cast_oid_param, cast_date.
  rewrite Hoid, Hs. reflexivity.
Qed.

(** Fixes of other employees do not change the answer of the route. *)
Theorem mileage_route_other_employee (db : Store) (employee_id : string) (startDate endDate : json)
    (oid : ObjectId) (l : Location) :
  cast_oid employee_id = Some oid ->
  oid_is (loc_employee_id l) oid = false ->
  snd (mileage_route toLocaleDateString (add_location l db) employee_id startDate endDate) =
  snd (mileage_route toLocaleDateString db employee_id startDate endDate).
Proof.
  intros Hoid Hl.
  unfold mileage_route, run_route, get_mileage, mbind, mlift, mget, mret, cast_oid_param.
  rewrite Hoid.
  destruct (cast_date "timestamp" (newDate startDate)) as [s|m]; [|reflexivity].
  destruct (cast_date "timestamp" (newDate endDate)) as [e|m]; [|reflexivity].
  unfold mileage_query. simpl. rewrite filter_app. simpl. rewrite Hl, app_nil_r.
  reflexivity.
Qed.
End RouteTheorems.

(** ** Witnesses *)

Lemma mileage_route_single_fix_witness :
  let r := snd (mileage_route (ML := TestMath) (fun _ => "") empty_store demo_employee_id
                  (JStr "2024-01-01") (JStr "2024-01-31")) in
  res_status r = 200%Z /\ jget (res_body r) "totalMiles" = JStr "0.00" /\
  jget (res_body r) "reimbursement" = JStr "$0.00".
Proof.
  apply (mileage_route_single_fix _ _ _ _ _ demo_employee_id 1704067200000 1706659200000);
    vm_compute; try reflexivity; lia.
Defined.

Lemma mileage_route_invalid_start_witness :
  mileage_route (ML := TestMath) (fun _ => "") empty_store demo_employee_id
    (JStr "next tuesday") (JStr "2024-01-31") =
  (empty_store, res_error 500 "Cast to date failed for value Invalid Date at path timestamp").
Proof. apply (mileage_route_invalid_start _ _ _ _ _ demo_employee_id); reflexivity. Defined.

Lemma mileage_route_other_employee_witness :
  snd (mileage_route (ML := TestMath) (fun _ => "") (add_location anonymous_fix empty_store)
         demo_employee_id (JStr "2024-01-01") (JStr "2024-01-31")) =
  snd (mileage_route (ML := TestMath) (fun _ => "") empty_store
         demo_employee_id (JStr "2024-01-01") (JStr "2024-01-31")).
Proof. apply (mileage_route_other_employee _ _ _ _ _ demo_employee_id); reflexivity. Defined.

Lemma total_miles_nonneg_witness :
  forallb has_coords [anonymous_fix; anonymous_fix] = true /\
  exists q, total_miles (ML := TestMath) [anonymous_fix; anonymous_fix] = Some q /\ 0 <= q.
Proof.
  split; [reflexivity|].
  apply (total_miles_nonneg (L := TestMath_laws)). reflexivity.
Defined.

Lemma total_miles_NaN_witness :
  total_miles (ML := TestMath) [anonymous_fix; fix_without_latitude] = None.
Proof.
  apply (total_miles_NaN [anonymous_fix; fix_without_latitude] fix_without_latitude);
    [simpl; lia | right; left; reflexivity | left; reflexivity].
Defined.
