(* ===== verification/Loops.v ===== *)
(** * Loops: the index loop of the mileage total, as [src/server.js] writes it

    The mileage route (lines 333-340) and [calculateTotalMileage] (lines
    559-566) sum the legs with [for (let i = 1; i < locations.length; i++)].
    The loop reads [locations[i-1]] and [locations[i]]. [Mileage.mileage_loop]
    is that loop written over the list, without the index. [mileage_for] is
    the loop with its index, its test and its two element reads, and a
    [fuel] bound on the number of tests it may run. [None] means the fuel
    ran out.

    The theorem shows that the loop terminates after exactly
    [max 1 locations.length] tests. Less fuel runs out, and that much gives
    the result. Neither read is ever out of range, and the result is
    [Mileage.total_miles]. So the fuel chosen, the length of the list, is
    enough. *)

From Stdlib Require Import QArith ZArith Lia List String.
From S2P Require Import Prelude JsValue Dates GeoDistance Store Http Mileage.
Import ListNotations.
Local Open Scope list_scope.
Local Open Scope nat_scope.

Section Loops.
Context `{ML : MathLib}.

(** One test of [i < locations.length], then the body and [i++]. Reading a
    property of an element out of range would throw, since it is [undefined]. *)
Fixpoint mileage_for (fuel : nat) (locations : list Location) (i : nat) (totalMiles : option Q)
  : option (result (option Q)) :=
  match fuel with
  | O => None
  | S fuel' =>
      if i <? List.length locations then
        match nth_error locations (i - 1), nth_error locations i with
        | Some prev, Some cur => mileage_for fuel' locations (S i) (js_add totalMiles (leg prev cur))
        | _, _ => Some (Throw "Cannot read properties of undefined (reading 'latitude')")
        end
      else Some (Ok totalMiles)
  end.

(** [let totalMiles = 0;] and the loop from [i = 1]. *)
Definition total_miles_for (fuel : nat) (locations : list Location) : option (result (option Q)) :=
  mileage_for fuel locations 1 (Some 0%Q).

(** ** Lemmas *)

(** From the index just past [prev], the loop runs one test per remaining
    fix plus the last one: with more fuel than the fixes left it gives
    [mileage_loop], and with no more fuel it runs out. *)
Lemma mileage_for_from (pre rest : list Location) (prev : Location) (fuel : nat) (acc : option Q) :
  let locs := pre ++ prev :: rest in
  (List.length rest < fuel -> mileage_for fuel locs (S (List.length pre)) acc = Some (Ok (mileage_loop acc prev rest))) /\
  (fuel <= List.length rest -> mileage_for fuel locs (S (List.length pre)) acc = None).
Proof.
  revert pre prev fuel acc. induction rest as [|cur rest IH]; intros pre prev fuel acc locs.
  - destruct fuel as [|fuel]; cbn [List.length]; split; intro H; try lia; [reflexivity|].
    cbn [mileage_for]. unfold locs. rewrite length_app. cbn [List.length].
    replace (S (List.length pre) <? List.length pre + 1) with false by (symmetry; apply Nat.ltb_ge; lia).
    reflexivity.
  - destruct fuel as [|fuel]; cbn [List.length]; split; intro H; try lia; [reflexivity| |].
    all: cbn [mileage_for]; unfold locs; rewrite length_app; cbn [List.length].
    all: replace (S (List.length pre) <? List.length pre + S (S (List.length rest))) with true
           by (symmetry; apply Nat.ltb_lt; lia).
    all: rewrite Nat.sub_succ, Nat.sub_0_r, !nth_error_app2, Nat.sub_diag by lia.
    all: replace (S (List.length pre) - List.length pre) with 1 by lia; cbn [nth_error].
    all: replace (pre ++ prev :: cur :: rest) with ((pre ++ [prev]) ++ cur :: rest)
           by (rewrite <- app_assoc; reflexivity).
    all: replace (S (S (List.length pre))) with (S (List.length (pre ++ [prev])))
           by (rewrite length_app; cbn; lia).
    + apply (IH (pre ++ [prev]) cur fuel). lia.
    + apply (IH (pre ++ [prev]) cur fuel). lia.
Qed.

(** C5. The index loop of the mileage total terminates, and after exactly
    [max 1 locations.length] tests of [i < locations.length]: with that
    much fuel it returns, reads no element out of range, and gives
    [total_miles], the list loop the other theorems are about; with less
    it runs out. *)
Theorem total_miles_for_terminates (fuel : nat) (locations : list Location) :
  (Nat.max 1 (List.length locations) <= fuel ->
   total_miles_for fuel locations = Some (Ok (total_miles locations))) /\
  (fuel < Nat.max 1 (List.length locations) -> total_miles_for fuel locations = None).
Proof.
  unfold total_miles_for. destruct locations as [|first rest].
  - destruct fuel; cbn; split; intro; try lia; reflexivity.
  - destruct (mileage_for_from [] rest first fuel (Some 0%Q)) as [H1 H2]. cbn [List.length] in *.
    split; intro H; [apply H1 | apply H2]; lia.
Qed.
End Loops.

(** ** Witnesses *)

(** Three fixes take three tests: two legs and the final test. *)
Lemma total_miles_for_terminates_witness :
  let locs := [anonymous_fix; fix_without_latitude; anonymous_fix] in
  Nat.max 1 (List.length locs) <= 3 /\
  total_miles_for (ML := TestMath) 3 locs = Some (Ok (total_miles (ML := TestMath) locs)) /\
  2 < Nat.max 1 (List.length locs) /\ total_miles_for (ML := TestMath) 2 locs = None.
Proof.
  intro locs. destruct (total_miles_for_terminates (ML := TestMath) 3 locs) as [H3 _].
  destruct (total_miles_for_terminates (ML := TestMath) 2 locs) as [_ H2].
  split; [cbn; lia|]. split; [apply H3; cbn; lia|]. split; [cbn; lia | apply H2; cbn; lia].
Defined.
