(* ===== verification/Payroll.v ===== *)
(** * TimesheetCalculator and TimeSavingsEstimator

    [GET /api/timesheet/:employee_id] ([src/server.js] lines 355-383) and
    [GET /api/time-savings/:employee_id] (lines 385-407). Each route queries
    the employee's completed tasks, computes its figures ([timesheet],
    [time_savings]) and renders them with [toFixed] ([timesheet_body],
    [time_savings_body]). The hourly rate is [employee?.hourlyRate || 25]
    ([timesheet_rate]); a task's hours are [actual_hours || 0] and its
    estimate [estimated_hours || 1]. *)

From Stdlib Require Import QArith Qminmax Lqa ZArith Lia List String.
From Stdlib Require Import Morphisms Setoid.
From S2P Require Import Prelude JsValue Dates Store Http.
Import ListNotations.
Local Open Scope string_scope.
Local Open Scope list_scope.
Local Open Scope Q_scope.

(** ** Timesheet *)

Record Timesheet : Type := mkTimesheet {
  ts_totalHours : Q;
  ts_regularHours : Q;
  ts_overtime : Q;
  ts_regularPay : Q;
  ts_overtimePay : Q;
  ts_totalPay : Q
}.

(** [task.actual_hours || 0] *)
Definition task_hours (t : Task) : Q := js_or_num (actual_hours t) 0.

(** [task.estimated_hours || 1] *)
Definition task_estimate (t : Task) : Q := js_or_num (estimated_hours t) 1.

(** [employee?.hourlyRate || 25] *)
Definition timesheet_rate (employee : option Employee) : Q :=
  js_or_num (match employee with Some emp => hourlyRate emp | None => None end) 25.

Definition timesheet (ts : list Task) (rate : Q) : Timesheet :=
  let totalHours := reduce_sum task_hours ts in
  let overtime := Qmax 0 (totalHours - 40) in
  let regularHours := Qmin totalHours 40 in
  mkTimesheet totalHours regularHours overtime
    (regularHours * rate) (overtime * rate * (3 # 2))
    (regularHours * rate + overtime * rate * (3 # 2)).

Section Routes.
(** The host's [Date.prototype.toLocaleDateString] and [Number.prototype.toString]. *)
Variable toLocaleDateString : Z -> string.
Variable number_to_string : Q -> string.

Definition timesheet_body (t : Timesheet) (s e : Z) : json :=
  JObj [("totalHours", JStr (toFixed (ts_totalHours t) 1));
        ("regularHours", JStr (toFixed (ts_regularHours t) 1));
        ("overtime", JStr (toFixed (ts_overtime t) 1));
        ("regularPay", JStr (money (ts_regularPay t)));
        ("overtimePay", JStr (money (ts_overtimePay t)));
        ("totalPay", JStr (money (ts_totalPay t)));
        ("period", JStr (toLocaleDateString s ++ " to " ++ toLocaleDateString e)%string)].

(** [Task.find({ employee_id, status: 'completed', created_at: { $gte, $lte } })] *)
Definition timesheet_query (oid : ObjectId) (s e : Z) (db : Store) : list Task :=
  filter (fun t => oid_is (task_employee_id t) oid && is_completed t && task_in_window s e t)
    (tasks db).

Definition get_timesheet (employee_id : string) (startDate endDate : json) : M Response :=
  oid <-- mlift (cast_oid_param "employee_id" employee_id) ;;
  s <-- mlift (cast_date "created_at" (newDate startDate)) ;;
  e <-- mlift (cast_date "created_at" (newDate endDate)) ;;
  db <-- mget ;;
  let rate := timesheet_rate (find_employee_by_id db oid) in
  mret (res_json (timesheet_body (timesheet (timesheet_query oid s e db) rate) s e)).

Definition timesheet_route (db : Store) (employee_id : string) (startDate endDate : json)
  : Store * Response :=
  run_route 500 (get_timesheet employee_id startDate endDate) db.

(** ** Time savings *)

Record TimeSavings : Type := mkTimeSavings {
  sv_estimatedTime : Q;
  sv_actualTime : Q;
  sv_timeSaved : Q
}.

Definition time_savings (ts : list Task) : TimeSavings :=
  let estimatedTime := reduce_sum task_estimate ts in
  let actualTime := reduce_sum task_hours ts in
  mkTimeSavings estimatedTime actualTime (Qmax 0 (estimatedTime - actualTime)).

(** [actualTime > 0 ? ((estimatedTime / actualTime) * 100).toFixed(1) : '0'] *)
Definition efficiency (sv : TimeSavings) : string :=
  if Qltb 0 (sv_actualTime sv)
  then toFixed (sv_estimatedTime sv / sv_actualTime sv * 100) 1
  else "0".

Definition time_savings_body (sv : TimeSavings) : json :=
  JObj [("timeSaved", JStr (toFixed (sv_timeSaved sv) 1));
        ("efficiency", JStr (efficiency sv));
        ("message",
         JStr (if Qltb 0 (sv_timeSaved sv)
               then "You saved " ++ number_to_string (sv_timeSaved sv) ++
                    " hours thanks to optimized routing!"
               else "Keep tracking for time savings insights!")%string);
        ("tip", JStr "AI routing helps you finish faster and earn more")].

(** [Task.find({ employee_id, status: 'completed' })] *)
Definition time_savings_query (oid : ObjectId) (db : Store) : list Task :=
  filter (fun t => oid_is (task_employee_id t) oid && is_completed t) (tasks db).

Definition get_time_savings (employee_id : string) : M Response :=
  oid <-- mlift (cast_oid_param "employee_id" employee_id) ;;
  db <-- mget ;;
  mret (res_json (time_savings_body (time_savings (time_savings_query oid db)))).

Definition time_savings_route (db : Store) (employee_id : string) : Store * Response :=
  run_route 500 (get_time_savings employee_id) db.
End Routes.

(** ** Sample data for the examples *)

Definition demo_emp_id : ObjectId := "65a1b2c3d4e5f60718293a4b".

Definition demo_task (id : ObjectId) (st : string) (est act : option Q) (created : Z) : Task :=
  mkTask id (Some demo_emp_id) (Some "Inspection") None (Some "ACME") None (Some "1 Main St")
    (Some 1) None (Some st) est act (Some created).

Definition demo_employee (rate : option Q) : Employee :=
  mkEmployee demo_emp_id (Some "Ana") (Some "ana@example.com") None (Some "employee") rate
    (Some true) (Some 0%Z).

Definition payroll_demo_store (rate : option Q) (ts : list Task) : Store :=
  mkStore [demo_employee rate] ts [] [] [] 100.

(** 2024-01-02T00:00:00Z and 2024-01-03T00:00:00Z. *)
Definition jan2 : Z := 1704153600000.
Definition jan3 : Z := 1704240000000.

(** Two completed tasks of 40 and 5 hours. *)
Definition ts45 : list Task :=
  [demo_task "000000000000000000000001" "completed" None (Some 40) jan2;
   demo_task "000000000000000000000002" "completed" None (Some 5) jan3].

(** ** Theorems *)

Lemma Qmin_40_cases h :
  (h <= 40 /\ Qmin h 40 == h /\ Qmax 0 (h - 40) == 0) \/
  (40 <= h /\ Qmin h 40 == 40 /\ Qmax 0 (h - 40) == h - 40).
Proof.
  destruct (Qlt_le_dec h 40) as [H|H]; [left|right]; repeat split; try lra.
  - apply Q.min_l. lra.
  - apply Q.max_l. lra.
  - apply Q.min_r. assumption.
  - apply Q.max_r. lra.
Qed.

(** C8. The timesheet splits the hours into regular hours (at most 40) and
    overtime (never negative) that add up to the total, pays overtime at
    1.5 times the rate, and its total pay is the sum of the two pays. *)
Theorem timesheet_split (ts : list Task) (rate : Q) :
  let t := timesheet ts rate in
  ts_regularHours t + ts_overtime t == ts_totalHours t /\
  ts_regularHours t <= 40 /\ 0 <= ts_overtime t /\
  ts_totalPay t == ts_regularPay t + ts_overtimePay t /\
  (ts_totalHours t <= 40 -> ts_totalPay t == ts_totalHours t * rate) /\
  (40 <= ts_totalHours t ->
     ts_totalPay t == 40 * rate + (ts_totalHours t - 40) * rate * (3 # 2)).
Proof.
  simpl. set (h := reduce_sum task_hours ts).
  destruct (Qmin_40_cases h) as [(H & Hmin & Hmax) | (H & Hmin & Hmax)];
    rewrite Hmin, Hmax; repeat split; intros; try reflexivity; try lra;
    setoid_replace h with 40 by lra; ring.
Qed.

Section RouteTheorems.
Variable toLocaleDateString : Z -> string.
Variable number_to_string : Q -> string.

(** An employee whose [hourlyRate] is stored as [0] is paid at the
    default rate of 25 per hour: [employee?.hourlyRate || 25] treats [0] as
    missing. *)
Theorem timesheet_zero_rate_paid_default (db : Store) (employee_id : string)
    (startDate endDate : json) (oid : ObjectId) (s e : Z) (emp : Employee) :
  cast_oid employee_id = Some oid ->
  newDate startDate = Some s ->
  newDate endDate = Some e ->
  find_employee_by_id db oid = Some emp ->
  hourlyRate emp = Some 0 ->
  jget (res_body (snd (timesheet_route toLocaleDateString db employee_id startDate endDate)))
    "regularPay" =
  JStr (money (Qmin (reduce_sum task_hours (timesheet_query oid s e db)) 40 * 25)).
Proof.
  intros Hoid Hs He Hemp Hrate.
  unfold timesheet_route, run_route, get_timesheet, mbind, mlift, mget, mret,
    cast_oid_param, cast_date.
  rewrite Hoid, Hs, He. simpl. rewrite Hemp. unfold timesheet_rate. rewrite Hrate.
  reflexivity.
Qed.
End RouteTheorems.

Lemma efficiency_no_hours sv : sv_actualTime sv == 0 -> efficiency sv = "0".
Proof.
  intro H. unfold efficiency. rewrite (Qltb_proper 0 0 (Qeq_refl 0) _ _ H). reflexivity.
Qed.

Section SavingsTheorems.
Variable number_to_string : Q -> string.

(** C9. The efficiency guard: when none of the employee's completed tasks
    has hours recorded, the route answers 200 with [efficiency: "0"]
    instead of dividing by zero. *)
Theorem time_savings_no_hours (db : Store) (employee_id : string) (oid : ObjectId) :
  cast_oid employee_id = Some oid ->
  (forall t, In t (time_savings_query oid db) -> actual_hours t = None \/ actual_hours t = Some 0) ->
  let r := snd (time_savings_route number_to_string db employee_id) in
  res_status r = 200%Z /\ jget (res_body r) "efficiency" = JStr "0".
Proof.
  intros Hoid Hts.
  unfold time_savings_route, run_route, get_time_savings, mbind, mlift, mget, mret,
    cast_oid_param.
  rewrite Hoid. simpl. split; [reflexivity|].
  rewrite efficiency_no_hours; [reflexivity|]. simpl.
  rewrite (reduce_sum_const task_hours 0); [ring|].
  intros t Ht. unfold task_hours. rewrite js_or_num_default; [reflexivity|].
  destruct (Hts t Ht) as [-> | ->]; [left; reflexivity | right; exists 0; split; reflexivity].
Qed.

(** With hours recorded, the route reports the hours saved,
    [max(0, estimated - actual)], and the efficiency
    [estimated / actual * 100], each to one decimal. *)
Theorem time_savings_route_spec (db : Store) (employee_id : string) (oid : ObjectId) :
  cast_oid employee_id = Some oid ->
  0 < reduce_sum task_hours (time_savings_query oid db) ->
  let est := reduce_sum task_estimate (time_savings_query oid db) in
  let act := reduce_sum task_hours (time_savings_query oid db) in
  let r := snd (time_savings_route number_to_string db employee_id) in
  res_status r = 200%Z /\
  jget (res_body r) "timeSaved" = JStr (toFixed (Qmax 0 (est - act)) 1) /\
  jget (res_body r) "efficiency" = JStr (toFixed (est / act * 100) 1).
Proof.
  intros Hoid Hpos.
  unfold time_savings_route, run_route, get_time_savings, mbind, mlift, mget, mret,
    cast_oid_param.
  rewrite Hoid. simpl. repeat split.
  unfold efficiency. simpl. apply Qltb_iff in Hpos. rewrite Hpos. reflexivity.
Qed.

(** A completed task with no hours recorded and no estimate, or an
    estimate of [0], counts as one hour saved: [estimated_hours || 1]
    replaces an explicit [0] estimate too. *)
Theorem time_savings_unrecorded_tasks (ts : list Task) :
  (forall t, In t ts ->
     (actual_hours t = None \/ actual_hours t = Some 0) /\
     (estimated_hours t = None \/ estimated_hours t = Some 0)) ->
  sv_timeSaved (time_savings ts) == inject_Z (Z.of_nat (List.length ts)).
Proof.
  intro H. simpl.
  rewrite (reduce_sum_const task_estimate 1), (reduce_sum_const task_hours 0).
  - set (n := inject_Z (Z.of_nat (List.length ts))).
    assert (0 <= n) by (unfold n; change 0 with (inject_Z 0); rewrite <- Zle_Qle; lia).
    rewrite Q.max_r; [ring | lra].
  - intros t Ht. unfold task_hours. rewrite js_or_num_default; [reflexivity|].
    destruct (proj1 (H t Ht)) as [-> | ->]; [left; reflexivity | right; exists 0; split; reflexivity].
  - intros t Ht. unfold task_estimate. rewrite js_or_num_default; [reflexivity|].
    destruct (proj2 (H t Ht)) as [-> | ->]; [left; reflexivity | right; exists 0; split; reflexivity].
Qed.
End SavingsTheorems.

(** The timesheet of the specification's example: 45 hours at 20 per
    hour are 40 regular hours paid $800.00 and 5 overtime hours paid
    $150.00, $950.00 in all. *)
Theorem timesheet_route_45h (toLocaleDateString : Z -> string) :
  let r := snd (timesheet_route toLocaleDateString (payroll_demo_store (Some 20) ts45)
                  demo_emp_id (JStr "2024-01-01") (JStr "2024-01-31")) in
  res_status r = 200%Z /\
  jget (res_body r) "totalHours" = JStr "45.0" /\
  jget (res_body r) "regularHours" = JStr "40.0" /\
  jget (res_body r) "overtime" = JStr "5.0" /\
  jget (res_body r) "regularPay" = JStr "$800.00" /\
  jget (res_body r) "overtimePay" = JStr "$150.00" /\
  jget (res_body r) "totalPay" = JStr "$950.00".
Proof. vm_compute. repeat split. Qed.

(** ** Witnesses *)

Lemma timesheet_zero_rate_paid_default_witness :
  jget (res_body (snd (timesheet_route (fun _ => "") (payroll_demo_store (Some 0) ts45)
                         demo_emp_id (JStr "2024-01-01") (JStr "2024-01-31"))))
    "regularPay" =
  JStr (money (Qmin (reduce_sum task_hours
                       (timesheet_query demo_emp_id 1704067200000 1706659200000
                          (payroll_demo_store (Some 0) ts45))) 40 * 25)).
Proof.
  apply (timesheet_zero_rate_paid_default _ _ _ _ _ _ _ _ (demo_employee (Some 0)));
    reflexivity.
Defined.

Lemma time_savings_no_hours_witness :
  let r := snd (time_savings_route (fun _ => "")
                  (payroll_demo_store None
                     [demo_task "000000000000000000000001" "completed" (Some 3) None jan2])
                  demo_emp_id) in
  res_status r = 200%Z /\ jget (res_body r) "efficiency" = JStr "0".
Proof.
  apply (time_savings_no_hours _ _ _ demo_emp_id); [reflexivity|].
  intros t [<- | []]. left. reflexivity.
Defined.

Lemma time_savings_route_spec_witness :
  let db := payroll_demo_store None
              [demo_task "000000000000000000000001" "completed" (Some 10) (Some 8) jan2] in
  let est := reduce_sum task_estimate (time_savings_query demo_emp_id db) in
  let act := reduce_sum task_hours (time_savings_query demo_emp_id db) in
  let r := snd (time_savings_route (fun _ => "") db demo_emp_id) in
  res_status r = 200%Z /\
  jget (res_body r) "timeSaved" = JStr (toFixed (Qmax 0 (est - act)) 1) /\
  jget (res_body r) "efficiency" = JStr (toFixed (est / act * 100) 1).
Proof. apply time_savings_route_spec; vm_compute; reflexivity. Defined.

Lemma time_savings_unrecorded_tasks_witness :
  sv_timeSaved (time_savings [demo_task "000000000000000000000001" "completed" (Some 0) (Some 0) jan2])
  == 1.
Proof.
  apply (time_savings_unrecorded_tasks [demo_task "000000000000000000000001" "completed" (Some 0) (Some 0) jan2]).
  intros t [<- | []]. split; right; reflexivity.
Defined.
