(* ===== verification/Csv.v ===== *)
(** * Serializer: [generateCsv] of [src/server.js] (lines 570-600)

    [generateCsv(data, type)] picks the field list of the record type
    ([csv_fields]) and returns [new Parser({ fields }).parse(data)].
    The json2csv [Parser] is a library the repository calls; its output is
    modelled from the specification (section 6, Serializer): a header row of
    the quoted field names, then one row per record, rows separated by a
    line feed. A cell is empty for [undefined] and [null], a number is
    printed by [Number.prototype.toString], a boolean as [true] or [false],
    a string or a Date (its ISO string) between double quotes with inner
    double quotes doubled.

    [*_json] give each document as the object json2csv reads: its fields
    under their JavaScript names, [_id] included. *)

From Stdlib Require Import QArith ZArith Lia List String Ascii Bool.
From S2P Require Import Prelude JsValue Dates Store.
Import ListNotations.
Local Open Scope string_scope.
Local Open Scope list_scope.

(** ** Field lists *)

Definition csv_fields (type : string) : list string :=
  if String.eqb type "tasks" then
    ["_id"; "title"; "customer_name"; "customer_phone"; "address"; "priority"; "due_date";
     "status"; "estimated_hours"; "actual_hours"; "created_at"]
  else if String.eqb type "locations" then
    ["_id"; "employee_id"; "latitude"; "longitude"; "timestamp"]
  else if String.eqb type "logs" then
    ["_id"; "employee_name"; "action_type"; "description"; "timestamp"; "ip_address"]
  else if String.eqb type "employees" then
    ["_id"; "name"; "email"; "role"; "hourlyRate"; "createdAt"]
  else if String.eqb type "emergencies" then
    ["_id"; "employee_name"; "emergency_type"; "message"; "status"; "created_at"]
  else if String.eqb type "weekly_summary" then
    ["week_number"; "total_employees"; "total_tasks"; "completed_tasks"; "total_locations";
     "total_logs"; "emergencies"; "total_mileage"]
  else [].

(** ** Documents as objects *)

Definition opt_str (o : option string) : json := match o with Some s => JStr s | None => JUndefined end.
Definition opt_num (o : option Q) : json := match o with Some q => JNum q | None => JUndefined end.
Definition num_field_json (f : NumField) : json :=
  match f with NNum q => JNum q | NNull => JNull | NAbsent => JUndefined end.
Definition opt_date (o : option Z) : json := match o with Some t => JDate (Some t) | None => JUndefined end.

Definition latlng_json (o : option LatLng) : json :=
  match o with
  | Some ll => JObj [("lat", opt_num (ll_lat ll)); ("lng", opt_num (ll_lng ll))]
  | None => JUndefined
  end.

Definition task_json (t : Task) : json :=
  JObj [("_id", JStr (task_id t)); ("employee_id", opt_str (task_employee_id t));
        ("title", opt_str (title t)); ("description", opt_str (task_description t));
        ("customer_name", opt_str (customer_name t)); ("customer_phone", opt_str (customer_phone t));
        ("address", opt_str (address t)); ("priority", opt_num (priority t));
        ("due_date", opt_date (due_date t)); ("status", opt_str (status t));
        ("estimated_hours", opt_num (estimated_hours t)); ("actual_hours", opt_num (actual_hours t));
        ("created_at", opt_date (task_created_at t))].

Definition location_json (l : Location) : json :=
  JObj [("_id", JStr (loc_id l)); ("employee_id", opt_str (loc_employee_id l));
        ("latitude", num_field_json (latitude l)); ("longitude", num_field_json (longitude l));
        ("accuracy", opt_num (accuracy l)); ("battery_level", opt_num (battery_level l));
        ("timestamp", opt_date (loc_timestamp l))].

Definition log_json (l : Log) : json :=
  JObj [("_id", JStr (log_id l)); ("employee_id", opt_str (log_employee_id l));
        ("employee_name", opt_str (log_employee_name l)); ("action_type", opt_str (action_type l));
        ("description", opt_str (log_description l)); ("task_id", opt_str (log_task_id l));
        ("task_title", opt_str (task_title l)); ("location", latlng_json (log_location l));
        ("timestamp", opt_date (log_timestamp l));
        ("ip_address", opt_str (ip_address l)); ("device_info", opt_str (device_info l));
        ("details", details l)].

Definition employee_json (e : Employee) : json :=
  JObj [("_id", JStr (emp_id e)); ("name", opt_str (emp_name e)); ("email", opt_str (emp_email e));
        ("password", opt_str (emp_password e)); ("role", opt_str (emp_role e));
        ("hourlyRate", opt_num (hourlyRate e));
        ("isActive", match isActive e with Some b => JBool b | None => JNull end);
        ("createdAt", opt_date (createdAt e))].

Definition emergency_json (m : Emergency) : json :=
  JObj [("_id", JStr (em_id m)); ("employee_id", opt_str (em_employee_id m));
        ("employee_name", opt_str (em_employee_name m));
        ("emergency_type", opt_str (emergency_type m)); ("location", latlng_json (em_location m));
        ("message", opt_str (message m));
        ("status", opt_str (em_status m)); ("responded_by", opt_str (em_responded_by m));
        ("created_at", opt_date (em_created_at m))].

(** ** The parser *)

Definition dquote : ascii := ascii_of_nat 34.
Definition newline : ascii := ascii_of_nat 10.

(** Double every double quote of [s]. *)
Fixpoint escape_quotes (s : string) : string :=
  match s with
  | EmptyString => EmptyString
  | String c r =>
      if Ascii.eqb c dquote then String dquote (String dquote (escape_quotes r))
      else String c (escape_quotes r)
  end.

Definition quoted (s : string) : string := String dquote (escape_quotes s ++ String dquote "").

Section Parser.
(** The host's [Number.prototype.toString]. *)
Variable number_to_string : Q -> string.

Definition csv_cell (v : json) : string :=
  match v with
  | JUndefined | JNull => ""
  | JBool b => if b then "true" else "false"
  | JNum q => number_to_string q
  | JStr s => quoted s
  | JDate (Some t) => quoted (toISOString t)
  | JDate None => ""
  | JArr _ | JObj _ => ""   (** no field of the six lists holds an object *)
  end.

Definition csv_row (fields : list string) (row : json) : string :=
  concat "," (map (fun f => csv_cell (jget row f)) fields).

Definition csv_header (fields : list string) : string := concat "," (map quoted fields).

(** [new Parser({ fields }).parse(data)] *)
Definition csv_parse (fields : list string) (rows : list json) : string :=
  concat (String newline "") (csv_header fields :: map (csv_row fields) rows).

(** [generateCsv(data, type)] *)
Definition generateCsv (rows : list json) (type : string) : string :=
  csv_parse (csv_fields type) rows.
End Parser.

(** ** What the client reads back

    [displayExportResults] of [src/app.js] (line 725) shows
    [files.tasks.split('\n').length - 1] as the number of records. *)

Fixpoint count_char (c : ascii) (s : string) : nat :=
  match s with
  | EmptyString => 0
  | String c' r => (if Ascii.eqb c c' then 1 else 0) + count_char c r
  end.

(** [s.split('\n').length - 1]: the number of line feeds. *)
Definition client_record_count (s : string) : nat := count_char newline s.

(** A log whose description holds a line feed, as an emergency message
    typed on two lines produces. *)
Definition two_line_log : Log :=
  mkLog "000000000000000000000021" None (Some "Ana") (Some "emergency_triggered")
    (Some ("EMERGENCY: medical - fell" ++ String newline "at the site")%string) None None None
    (Some 1704153600000%Z) None None JNull.

(** ** Theorems *)

Lemma count_char_app c s1 s2 : count_char c (s1 ++ s2)%string = (count_char c s1 + count_char c s2)%nat.
Proof. induction s1 as [|c' s1 IH]; simpl; [reflexivity|]. rewrite IH. lia. Qed.

Lemma count_concat c sep x l :
  count_char c (concat sep (x :: l)) =
  (count_char c x + fold_right (fun y acc => count_char c sep + count_char c y + acc) 0 l)%nat.
Proof.
  revert x. induction l as [|y l IH]; intro x.
  - simpl. lia.
  - change (concat sep (x :: y :: l)) with (x ++ sep ++ concat sep (y :: l))%string.
    rewrite !count_char_app, IH. simpl. lia.
Qed.

Lemma csv_header_no_newline type : count_char newline (csv_header (csv_fields type)) = 0%nat.
Proof.
  unfold csv_fields. repeat match goal with |- context [if ?b then _ else _] => destruct b end;
    reflexivity.
Qed.

Section CsvTheorems.
Variable number_to_string : Q -> string.

(** The client's record count [split('\n').length - 1] of an export
    is the number of records when no cell holds a line feed; an empty
    collection exports its header row alone. *)
Theorem generateCsv_record_count (rows : list json) (type : string) :
  (forall r, In r rows -> count_char newline (csv_row number_to_string (csv_fields type) r) = 0%nat) ->
  client_record_count (generateCsv number_to_string rows type) = List.length rows /\
  generateCsv number_to_string [] type = csv_header (csv_fields type).
Proof.
  intro Hrows. split; [|reflexivity].
  unfold client_record_count, generateCsv, csv_parse.
  rewrite count_concat, csv_header_no_newline. simpl.
  induction rows as [|r rows IH]; simpl; [reflexivity|].
  rewrite (Hrows r (or_introl eq_refl)), IH by (intros; apply Hrows; right; assumption).
  reflexivity.
Qed.
End CsvTheorems.

(** A record whose cell holds a line feed is counted twice: the
    client reports 2 records for an export of one log. *)
Theorem client_record_count_multiline (number_to_string : Q -> string) :
  client_record_count (generateCsv number_to_string [log_json two_line_log] "logs") = 2%nat.
Proof. vm_compute. reflexivity. Qed.

(** ** Witnesses *)

Lemma generateCsv_record_count_witness :
  client_record_count (generateCsv (fun _ => "0") [] "tasks") = List.length (@nil json) /\
  generateCsv (fun _ => "0") [] "tasks" = csv_header (csv_fields "tasks").
Proof. apply generateCsv_record_count. intros r []. Defined.
