(* ===== verification/WeeklyReport.v ===== *)
(** * WeeklyReportBuilder: [GET /api/export/weekly-report] ([src/server.js] lines 426-482)

    The route reads [week_start] and [week_end] from the query string, moves
    the end to the last millisecond of its (local) day, reads the five
    collections over the window at once ([Promise.all]), serialises each to
    CSV, and answers the summary and the files. [report_window] is the
    window both this route and the cleanup route compute from the same two
    inputs; [report_data] is what the five queries return. *)

From Stdlib Require Import QArith ZArith Lia List String Bool.
From S2P Require Import Prelude JsValue Dates GeoDistance Store Http Mileage Csv.
Import ListNotations.
Local Open Scope string_scope.
Local Open Scope list_scope.

Record ReportData : Type := mkReportData {
  rd_tasks : list Task;
  rd_locations : list Location;
  rd_logs : list Log;
  rd_employees : list Employee;
  rd_emergencies : list Emergency
}.

Definition count (n : nat) : json := JNum (inject_Z (Z.of_nat n)).

Section Report.
Context `{ML : MathLib}.
(** The host's time-zone offset and [Number.prototype.toString]. *)
Variable tza : Z.
Variable number_to_string : Q -> string.

(** [startDate = new Date(week_start)]; [endDate = new Date(week_end)]
    then [endDate.setHours(23, 59, 59, 999)]. *)
Definition window_dates (week_start week_end : json) : option Z * option Z :=
  (newDate week_start, end_of_day tza (newDate week_end)).

Definition report_window (week_start week_end : json) : option (Z * Z) :=
  match window_dates week_start week_end with
  | (Some s, Some e) => Some (s, e)
  | _ => None
  end.

(** The five queries of the [Promise.all]. *)
Definition report_data (db : Store) (s e : Z) : ReportData :=
  mkReportData (find_tasks_window db s e) (find_locations_window db s e)
    (find_logs_window db s e) (find_active_employees db) (find_emergencies_window db s e).

Definition weekly_summary (d : ReportData) (s e now : Z) : json :=
  JObj [("week_number", JStr (week_number tza s));
        ("week_start", JDate (Some s)); ("week_end", JDate (Some e));
        ("total_employees", count (List.length (rd_employees d)));
        ("total_tasks", count (List.length (rd_tasks d)));
        ("completed_tasks", count (List.length (filter is_completed (rd_tasks d))));
        ("total_locations", count (List.length (rd_locations d)));
        ("total_logs", count (List.length (rd_logs d)));
        ("emergencies", count (List.length (rd_emergencies d)));
        ("total_mileage", JStr (calculateTotalMileage (rd_locations d)));
        ("generated_at", JDate (Some now))].

Definition report_files (d : ReportData) (summary : json) : json :=
  let csv := generateCsv number_to_string in
  JObj [("tasks", JStr (csv (map task_json (rd_tasks d)) "tasks"));
        ("locations", JStr (csv (map location_json (rd_locations d)) "locations"));
        ("logs", JStr (csv (map log_json (rd_logs d)) "logs"));
        ("employees", JStr (csv (map employee_json (rd_employees d)) "employees"));
        ("emergencies", JStr (csv (map emergency_json (rd_emergencies d)) "emergencies"));
        ("summary", JStr (csv [summary] "weekly_summary"))].

(** [now] is [new Date()] when the summary is built. Mongoose casts the
    dates of the first query first: a bad date rejects the [Promise.all]. *)
Definition get_weekly_report (now : Z) (week_start week_end : json) : M Response :=
  let '(startDate, endDate) := window_dates week_start week_end in
  s <-- mlift (cast_date "created_at" startDate) ;;
  e <-- mlift (cast_date "created_at" endDate) ;;
  db <-- mget ;;
  let d := report_data db s e in
  let summary := weekly_summary d s e now in
  mret (res_json (JObj [("weekly_report", summary);
                        ("files", report_files d summary);
                        ("message", JStr "Weekly report generated successfully")])).

Definition weekly_report_route (db : Store) (now : Z) (week_start week_end : json)
  : Store * Response :=
  run_route 500 (get_weekly_report now week_start week_end) db.
End Report.

(** ** Sample data: two employees' fixes, interleaved in natural order *)

Definition employee_a : ObjectId := "65a1b2c3d4e5f60718293a4b".
Definition employee_b : ObjectId := "65a1b2c3d4e5f60718293a4c".

(** Employee A stays at Times Square, employee B at the Empire State
    Building, on 2024-01-02 between 00:00 and 00:02 UTC. *)
Definition fix_a1 : Location :=
  mkLocation "000000000000000000000011" (Some employee_a) (NNum (40758 # 1000)) (NNum (- (73985 # 1000)))
    None None (Some 1704153600000%Z).
Definition fix_b1 : Location :=
  mkLocation "000000000000000000000012" (Some employee_b) (NNum (40748 # 1000)) (NNum (- (73986 # 1000)))
    None None (Some 1704153660000%Z).
Definition fix_a2 : Location :=
  mkLocation "000000000000000000000013" (Some employee_a) (NNum (40758 # 1000)) (NNum (- (73985 # 1000)))
    None None (Some 1704153720000%Z).

Definition two_employees_store : Store := mkStore [] [] [fix_a1; fix_b1; fix_a2] [] [] 100.

(** The same week with one fix of each employee. *)
Definition one_fix_each_store : Store := mkStore [] [] [fix_a1; fix_b1] [] [] 100.

(** ** Theorems *)

Section ReportTheorems.
Context `{ML : MathLib}.
Variable tza : Z.
Variable number_to_string : Q -> string.

(** The weekly report never writes the store. *)
Theorem weekly_report_readonly (db : Store) (now : Z) (week_start week_end : json) :
  fst (weekly_report_route tza number_to_string db now week_start week_end) = db.
Proof.
  unfold weekly_report_route, run_route, get_weekly_report.
  destruct (window_dates tza week_start week_end) as [[s|] [e|]]; reflexivity.
Qed.

(** On a valid window the report answers 200 with the summary of the
    five queries over [startDate, endDate]: the counts of their results,
    the completed tasks among the tasks, and the mileage of all the
    window's fixes. *)
Theorem weekly_report_summary (db : Store) (now : Z) (week_start week_end : json) (s e : Z) :
  report_window tza week_start week_end = Some (s, e) ->
  let r := snd (weekly_report_route tza number_to_string db now week_start week_end) in
  res_status r = 200%Z /\
  jget (res_body r) "weekly_report" = weekly_summary tza (report_data db s e) s e now /\
  (List.length (filter is_completed (find_tasks_window db s e)) <=
   List.length (find_tasks_window db s e))%nat.
Proof.
  intro Hw. unfold report_window in Hw.
  unfold weekly_report_route, run_route, get_weekly_report.
  destruct (window_dates tza week_start week_end) as [[s'|] [e'|]]; try discriminate.
  injection Hw as <- <-. split; [reflexivity|]. split; [reflexivity|].
  apply filter_length_le.
Qed.
(** An employee's fixes among two fixes of two different employees: at
    most one, so the employee's own mileage is 0. *)
Lemma mileage_query_one_each (db : Store) (s e : Z) (a b : Location) (oa ob o : ObjectId) :
  find_locations_window db s e = [a; b] ->
  loc_employee_id a = Some oa -> loc_employee_id b = Some ob -> oa <> ob ->
  total_miles (mileage_query o s e db) = Some 0%Q.
Proof.
  intros Hw Ha Hb Hab. unfold mileage_query.
  rewrite (filter_ext (fun l => oid_is (loc_employee_id l) o && loc_in_window s e l)
             (fun l => loc_in_window s e l && oid_is (loc_employee_id l) o))
    by (intro; apply andb_comm).
  rewrite filter_and. unfold find_locations_window in Hw. rewrite Hw. cbn [filter].
  unfold oid_is. rewrite Ha, Hb.
  destruct (String.eqb oa o) eqn:Ea, (String.eqb ob o) eqn:Eb; try reflexivity.
  apply String.eqb_eq in Ea, Eb. congruence.
Qed.

(** C22. The report's [total_mileage] sums legs across employees. When the
    week's fixes are one fix of each of two employees, each employee's
    own mileage over the same window is 0 (one fix, no leg), yet the
    report's [total_mileage] is the distance between the two employees'
    fixes: [calculateTotalMileage] runs over all the window's fixes in
    their natural order, without grouping them by employee. *)
Theorem weekly_report_mixes_employees (db : Store) (now : Z) (week_start week_end : json) (s e : Z)
    (a b : Location) (oa ob : ObjectId) :
  report_window tza week_start week_end = Some (s, e) ->
  find_locations_window db s e = [a; b] ->
  loc_employee_id a = Some oa -> loc_employee_id b = Some ob -> oa <> ob ->
  (exists m, jget (jget (res_body (snd (weekly_report_route tza number_to_string db now week_start week_end)))
                       "weekly_report") "total_mileage" = JStr (toFixed_js m 2) /\
             js_eq m (leg a b)) /\
  (forall o, total_miles (mileage_query o s e db) = Some 0%Q).
Proof.
  intros Hw Hl Ha Hb Hab. split; [|intro o; exact (mileage_query_one_each db s e a b oa ob o Hl Ha Hb Hab)].
  destruct (weekly_report_summary db now week_start week_end s e Hw) as (_ & Hr & _).
  rewrite Hr. exists (total_miles [a; b]). split.
  - unfold weekly_summary, report_data, calculateTotalMileage. cbn [rd_locations]. rewrite Hl. reflexivity.
  - apply js_add_0_l.
Qed.
End ReportTheorems.

(** ** Witnesses *)

Lemma weekly_report_summary_witness :
  let r := snd (weekly_report_route (ML := TestMath) 0 (fun _ => "") two_employees_store 0
                  (JStr "2024-01-01") (JStr "2024-01-07")) in
  res_status r = 200%Z /\
  jget (res_body r) "weekly_report" =
    weekly_summary 0 (report_data two_employees_store 1704067200000 1704671999999)
      1704067200000 1704671999999 0 /\
  (List.length (filter is_completed (find_tasks_window two_employees_store 1704067200000 1704671999999)) <=
   List.length (find_tasks_window two_employees_store 1704067200000 1704671999999))%nat.
Proof. apply weekly_report_summary. vm_compute. reflexivity. Defined.

Lemma weekly_report_mixes_employees_witness :
  report_window 0 (JStr "2024-01-01") (JStr "2024-01-07") = Some (1704067200000, 1704671999999)%Z /\
  find_locations_window one_fix_each_store 1704067200000 1704671999999 = [fix_a1; fix_b1] /\
  (exists m, jget (jget (res_body (snd (weekly_report_route (ML := TestMath) 0 (fun _ => "") one_fix_each_store 0
                                         (JStr "2024-01-01") (JStr "2024-01-07"))))
                       "weekly_report") "total_mileage" = JStr (toFixed_js m 2) /\
             js_eq m (leg (ML := TestMath) fix_a1 fix_b1)) /\
  (forall o, total_miles (ML := TestMath) (mileage_query o 1704067200000 1704671999999 one_fix_each_store) = Some 0%Q).
Proof.
  split; [reflexivity|]. split; [reflexivity|].
  apply (weekly_report_mixes_employees (ML := TestMath) 0 (fun _ => "") one_fix_each_store 0
           (JStr "2024-01-01") (JStr "2024-01-07") 1704067200000 1704671999999 fix_a1 fix_b1 employee_a employee_b);
    [reflexivity | reflexivity | reflexivity | reflexivity | discriminate].
Defined.
