(* ===== verification/Cleanup.v ===== *)
(** * CleanupCoordinator: [POST /api/cleanup/weekly-data] ([src/server.js] lines 484-521)

    The route refuses with 400 unless [backup_confirmed] is truthy. It then
    computes the same window as the weekly report and deletes, with three
    [deleteMany], the completed tasks, all the locations and all the logs of
    the window; it answers the three deleted counts. Employees and
    emergencies are never deleted. [cleanup_store] is the store after the
    three deletes; [cleanup_weekly_data] is the route's body. *)

From Stdlib Require Import QArith ZArith Lia List String Bool Permutation.
From S2P Require Import Prelude JsValue Dates GeoDistance Store Http Mileage Csv WeeklyReport.
Import ListNotations.
Local Open Scope string_scope.
Local Open Scope list_scope.

(** [Task.deleteMany({ created_at: { $gte, $lte }, status: 'completed' })] *)
Definition task_deleted (s e : Z) (t : Task) : bool := task_in_window s e t && is_completed t.

Definition cleanup_store (db : Store) (s e : Z) : Store :=
  mkStore (employees db)
    (filter (fun t => negb (task_deleted s e t)) (tasks db))
    (filter (fun l => negb (loc_in_window s e l)) (locations db))
    (emergencies db)
    (filter (fun l => negb (log_in_window s e l)) (logs db))
    (next_oid db).

Definition cleanup_counts (db : Store) (s e : Z) : json :=
  JObj [("tasks", count (List.length (filter (task_deleted s e) (tasks db))));
        ("locations", count (List.length (filter (loc_in_window s e) (locations db))));
        ("logs", count (List.length (filter (log_in_window s e) (logs db))))].

Section Cleanup.
Variable tza : Z.

Definition cleanup_weekly_data (body : json) : M Response :=
  if negb (truthy (jget body "backup_confirmed"))
  then mret (res_error 400 "Backup confirmation required")
  else
    let '(startDate, endDate) := window_dates tza (jget body "week_start") (jget body "week_end") in
    s <-- mlift (cast_date "created_at" startDate) ;;
    e <-- mlift (cast_date "created_at" endDate) ;;
    db <-- mget ;;
    _ <-- mput (cleanup_store db s e) ;;
    mret (res_json (JObj [("message", JStr "Weekly data cleanup completed");
                          ("deleted", cleanup_counts db s e)])).

Definition cleanup_route (db : Store) (body : json) : Store * Response :=
  run_route 500 (cleanup_weekly_data body) db.
End Cleanup.

(** A confirmed cleanup request for the week starting 2024-01-01. *)
Definition confirmed_body (week_end : string) : json :=
  JObj [("week_start", JStr "2024-01-01"); ("week_end", JStr week_end); ("backup_confirmed", JBool true)].

(** ** Theorems *)

Section CleanupTheorems.
Variable tza : Z.

(** C2. Without a truthy [backup_confirmed] the route answers 400 with
    [Backup confirmation required] and deletes nothing. *)
Theorem cleanup_requires_confirmation (db : Store) (body : json) :
  truthy (jget body "backup_confirmed") = false ->
  cleanup_route tza db body = (db, res_error 400 "Backup confirmation required").
Proof. intro H. unfold cleanup_route, run_route, cleanup_weekly_data. rewrite H. reflexivity. Qed.

(** The route on a confirmed body whose two dates parse. *)
Lemma cleanup_route_window (db : Store) (body : json) (s e : Z) :
  truthy (jget body "backup_confirmed") = true ->
  report_window tza (jget body "week_start") (jget body "week_end") = Some (s, e) ->
  cleanup_route tza db body =
  (cleanup_store db s e,
   res_json (JObj [("message", JStr "Weekly data cleanup completed");
                   ("deleted", cleanup_counts db s e)])).
Proof.
  intros Hc Hw. unfold report_window in Hw.
  unfold cleanup_route, run_route, cleanup_weekly_data. rewrite Hc. simpl negb. cbv iota.
  destruct (window_dates tza (jget body "week_start") (jget body "week_end"))
    as [[s'|] [e'|]]; try discriminate.
  injection Hw as <- <-. reflexivity.
Qed.

(** C3. With the confirmation and a valid window, the route runs the three
    [deleteMany] of lines 492-494 and nothing else. The tasks left are
    those not both created in the window and [completed]. The locations
    and logs left are those whose [timestamp] is outside the window.
    Employees, emergencies and the id counter are untouched. The answer is
    200 with the number of documents each filter matched, counted on the
    store before the deletes. *)
Theorem cleanup_confirmed (db : Store) (body : json) (s e : Z) :
  truthy (jget body "backup_confirmed") = true ->
  report_window tza (jget body "week_start") (jget body "week_end") = Some (s, e) ->
  let '(db', resp) := cleanup_route tza db body in
  let task_hit t := opt_in_window s e (task_created_at t) && is_completed t in
  let loc_hit l := opt_in_window s e (loc_timestamp l) in
  let log_hit l := opt_in_window s e (log_timestamp l) in
  tasks db' = filter (fun t => negb (task_hit t)) (tasks db) /\
  locations db' = filter (fun l => negb (loc_hit l)) (locations db) /\
  logs db' = filter (fun l => negb (log_hit l)) (logs db) /\
  employees db' = employees db /\ emergencies db' = emergencies db /\ next_oid db' = next_oid db /\
  resp = res_json (JObj [("message", JStr "Weekly data cleanup completed");
                         ("deleted", JObj [("tasks", count (List.length (filter task_hit (tasks db))));
                                           ("locations", count (List.length (filter loc_hit (locations db))));
                                           ("logs", count (List.length (filter log_hit (logs db))))])]).
Proof.
  intros Hc Hw. rewrite (cleanup_route_window db body s e Hc Hw). cbv zeta.
  repeat split.
Qed.

(** C1. Backup before delete, for a report and a cleanup on the same store
    and the same two dates: the store's tasks are the tasks the cleanup
    keeps plus the completed tasks the report exported, its locations are
    those kept plus those exported, and its logs likewise. So every
    document the cleanup deletes is in the export. *)
Theorem cleanup_deletes_only_exported (db : Store) (s e : Z) :
  let db' := cleanup_store db s e in
  let d := report_data db s e in
  Permutation (tasks db) (tasks db' ++ filter is_completed (rd_tasks d)) /\
  Permutation (locations db) (locations db' ++ rd_locations d) /\
  Permutation (logs db) (logs db' ++ rd_logs d) /\
  employees db' = employees db /\ emergencies db' = emergencies db.
Proof.
  simpl. unfold find_tasks_window, find_locations_window, find_logs_window.
  rewrite <- filter_and. fold (task_deleted s e).
  repeat split; apply filter_perm_split.
Qed.

(** A confirmed cleanup whose start or end date does not parse
    answers 500 and deletes nothing: the deletes fail on the date cast. *)
Theorem cleanup_invalid_window (db : Store) (body : json) :
  truthy (jget body "backup_confirmed") = true ->
  report_window tza (jget body "week_start") (jget body "week_end") = None ->
  fst (cleanup_route tza db body) = db /\ res_status (snd (cleanup_route tza db body)) = 500%Z.
Proof.
  intros Hc Hw. unfold report_window in Hw.
  unfold cleanup_route, run_route, cleanup_weekly_data. rewrite Hc. simpl negb. cbv iota.
  destruct (window_dates tza (jget body "week_start") (jget body "week_end"))
    as [[s'|] [e'|]]; try discriminate; split; reflexivity.
Qed.

(** Cleanup is idempotent: a second cleanup of the same window
    deletes nothing more and reports zero deletions. *)
Theorem cleanup_idempotent (db : Store) (s e : Z) :
  cleanup_store (cleanup_store db s e) s e = cleanup_store db s e /\
  cleanup_counts (cleanup_store db s e) s e = JObj [("tasks", count 0); ("locations", count 0); ("logs", count 0)].
Proof.
  split.
  - unfold cleanup_store; simpl. rewrite !filter_idem. reflexivity.
  - unfold cleanup_counts, cleanup_store; simpl.
    rewrite !filter_none; [reflexivity| |  |];
      intros x Hx; apply filter_In in Hx; destruct Hx as [_ Hx];
      apply negb_true_iff in Hx; exact Hx.
Qed.
End CleanupTheorems.

(** ** Witnesses *)

Lemma cleanup_requires_confirmation_witness :
  cleanup_route 0 empty_store (JObj []) = (empty_store, res_error 400 "Backup confirmation required").
Proof. apply cleanup_requires_confirmation. reflexivity. Defined.

Lemma cleanup_confirmed_witness :
  truthy (jget (confirmed_body "2024-01-07") "backup_confirmed") = true /\
  report_window 0 (JStr "2024-01-01") (JStr "2024-01-07") = Some (1704067200000, 1704671999999)%Z /\
  let '(db', resp) := cleanup_route 0 two_employees_store (confirmed_body "2024-01-07") in
  let task_hit t := opt_in_window 1704067200000 1704671999999 (task_created_at t) && is_completed t in
  let loc_hit l := opt_in_window 1704067200000 1704671999999 (loc_timestamp l) in
  let log_hit l := opt_in_window 1704067200000 1704671999999 (log_timestamp l) in
  tasks db' = filter (fun t => negb (task_hit t)) (tasks two_employees_store) /\
  locations db' = filter (fun l => negb (loc_hit l)) (locations two_employees_store) /\
  logs db' = filter (fun l => negb (log_hit l)) (logs two_employees_store) /\
  employees db' = employees two_employees_store /\ emergencies db' = emergencies two_employees_store /\
  next_oid db' = next_oid two_employees_store /\
  resp = res_json (JObj [("message", JStr "Weekly data cleanup completed");
                         ("deleted", JObj [("tasks", count (List.length (filter task_hit (tasks two_employees_store))));
                                           ("locations", count (List.length (filter loc_hit (locations two_employees_store))));
                                           ("logs", count (List.length (filter log_hit (logs two_employees_store))))])]).
Proof.
  split; [reflexivity|]. split; [reflexivity|].
  exact (cleanup_confirmed 0 two_employees_store (confirmed_body "2024-01-07") 1704067200000 1704671999999
           eq_refl eq_refl).
Defined.

Lemma cleanup_invalid_window_witness :
  fst (cleanup_route 0 empty_store (confirmed_body "soon")) = empty_store /\
  res_status (snd (cleanup_route 0 empty_store (confirmed_body "soon"))) = 500%Z.
Proof. apply cleanup_invalid_window; reflexivity. Defined.
