(* ===== verification/Routes.v ===== *)
(** * Routes: the employee, task, location and emergency routes of [src/server.js]

    - [POST /api/register] (lines 173-180): [Employee.create(req.body)];
    - [POST /api/login] (lines 182-193): [Employee.findOne({ email, password,
      isActive: true })] on the body's values, as Mongoose casts them
      ([cast_conds]) and MongoDB matches them ([holds]);
    - [POST /api/tasks] and [GET /api/tasks/:employee_id] (lines 196-214),
      the latter sorted by priority descending, then due date ascending;
    - [POST /api/location] and [GET /api/location/:employee_id]
      (lines 270-288), the latter the 50 latest fixes;
    - [POST /api/emergency] (lines 291-313), which creates the emergency and
      a log of its own;
    - [GET /api/emergency-contacts] (lines 315-322) and [GET /ping]
      (lines 603-605);
    - [POST /api/task-progress] (lines 410-423):
      [Task.findByIdAndUpdate(task_id, { status: action,
      actual_hours: actual_hours || 0 })]. Its filter is an [IdFilter]: an
      [undefined] [task_id] leaves it empty, so the first task is updated.

    A filter value of a query is cast before the query runs: [undefined] is
    dropped from the filter (it constrains nothing), [null] matches a missing
    or null field, an array is read as [$in], an object of [$]-keys is a list
    of operators. The operators [$eq], [$ne], [$in], [$nin], [$gt], [$gte],
    [$lt], [$lte] are modelled; any other is a parameter [other_op] of the
    model (MongoDB's semantics for it). *)

From Stdlib Require Import QArith Qround ZArith Lia List String Ascii Bool Permutation Sorted.
From S2P Require Import Prelude JsValue Dates Store Http Documents Csv.
Import ListNotations.
Local Open Scope string_scope.
Local Open Scope list_scope.

(** ** Documents in responses: [res.json(doc)] adds the version key *)

Definition doc_json (j : json) : json :=
  match j with
  | JObj fs => JObj (fs ++ [("__v", JNum 0)])
  | _ => j
  end.

(** ** Query filters on a String or ObjectId path *)

Inductive cond : Type :=
| CEq (o : option string)
| CNe (o : option string)
| CIn (os : list (option string))
| CNin (os : list (option string))
| CCmp (op : string) (o : option string)     (** [$gt], [$gte], [$lt], [$lte] *)
| COther (op : string) (v : json).

Definition is_operator (k : string) : bool :=
  match k with String "$" _ => true | _ => false end.

Definition is_comparison (op : string) : bool :=
  String.eqb op "$gt" || String.eqb op "$gte" || String.eqb op "$lt" || String.eqb op "$lte".

Section Filters.
(** The cast of the path: [cast_string] for a String path,
    [cast_oid_value] for an ObjectId path. *)
Variable cast : string -> json -> result (option string).
(** MongoDB's semantics of the operators the model does not spell out. *)
Variable other_op : string -> json -> option string -> bool.

Fixpoint cast_list (path : string) (vs : list json) : result (list (option string)) :=
  match vs with
  | [] => Ok []
  | v :: r =>
      let* o := cast path v in
      let* os := cast_list path r in
      Ok (o :: os)
  end.

Definition cast_op (path : string) (kv : string * json) : result cond :=
  let '(op, v) := kv in
  if String.eqb op "$eq" then let* o := cast path v in Ok (CEq o)
  else if String.eqb op "$ne" then let* o := cast path v in Ok (CNe o)
  else if String.eqb op "$in" || String.eqb op "$nin" then
    match v with
    | JArr vs =>
        let* os := cast_list path vs in
        Ok (if String.eqb op "$in" then CIn os else CNin os)
    | _ => Throw ("Cast to string failed at path " ++ path)
    end
  else if is_comparison op then let* o := cast path v in Ok (CCmp op o)
  else Ok (COther op v).

Fixpoint cast_ops (path : string) (fs : list (string * json)) : result (list cond) :=
  match fs with
  | [] => Ok []
  | kv :: r =>
      let* c := cast_op path kv in
      let* cs := cast_ops path r in
      Ok (c :: cs)
  end.

(** The conditions a filter value puts on a path. *)
Definition cast_conds (path : string) (v : json) : result (list cond) :=
  match v with
  | JUndefined => Ok []
  | JArr vs => let* os := cast_list path vs in Ok [CIn os]
  | JObj (_ :: _ as fs) =>
      if forallb (fun kv => is_operator (fst kv)) fs then cast_ops path fs
      else Throw ("Cast to string failed at path " ++ path)
  | _ => let* o := cast path v in Ok [CEq o]
  end.

Definition cmp_holds (op : string) (f o : option string) : bool :=
  match f, o with
  | Some x, Some y =>
      match String.compare x y with
      | Lt => String.eqb op "$lt" || String.eqb op "$lte"
      | Eq => String.eqb op "$gte" || String.eqb op "$lte"
      | Gt => String.eqb op "$gt" || String.eqb op "$gte"
      end
  | None, None => String.eqb op "$gte" || String.eqb op "$lte"
  | _, _ => false
  end.

Definition holds (f : option string) (c : cond) : bool :=
  match c with
  | CEq o => opt_str_eqb f o
  | CNe o => negb (opt_str_eqb f o)
  | CIn os => existsb (opt_str_eqb f) os
  | CNin os => negb (existsb (opt_str_eqb f) os)
  | CCmp op o => cmp_holds op f o
  | COther op v => other_op op v f
  end.

Definition holds_all (cs : list cond) (f : option string) : bool := forallb (holds f) cs.
End Filters.

(** ** Sort orders of the list routes

    MongoDB orders a missing or null value before every number or date. *)

Definition num_cmp (a b : option Q) : comparison :=
  match a, b with
  | None, None => Eq
  | None, Some _ => Lt
  | Some _, None => Gt
  | Some x, Some y => Qcompare x y
  end.

Definition date_cmp (a b : option Z) : comparison :=
  match a, b with
  | None, None => Eq
  | None, Some _ => Lt
  | Some _, None => Gt
  | Some x, Some y => Z.compare x y
  end.

(** [.sort({ priority: -1, due_date: 1 })]: [a] may precede [b]. *)
Definition task_order (a b : Task) : bool :=
  match num_cmp (priority a) (priority b) with
  | Gt => true
  | Lt => false
  | Eq => match date_cmp (due_date a) (due_date b) with Gt => false | _ => true end
  end.

(** [.sort({ timestamp: -1 })] *)
Definition latest_first (a b : Location) : bool := opt_leb (loc_timestamp b) (loc_timestamp a).

(** [.sort({ timestamp: -1 })] on logs *)
Definition latest_log_first (a b : Log) : bool := opt_leb (log_timestamp b) (log_timestamp a).

(** A cursor's [limit] or [skip] must be an integer. *)
Definition cursor_int (what : string) (v : option Q) : result Z :=
  match v with
  | Some q => let r := Qred q in
              if Pos.eqb (Qden r) 1 then Ok (Qnum r) else Throw (what ++ " must be an integer")
  | None => Throw (what ++ " must be an integer")
  end.

(** [.skip(s).limit(n)]: MongoDB skips first; a limit of [0] is no limit and
    a negative one is read as its absolute value. *)
Definition page_of {A : Type} (skp lim : Z) (l : list A) : result (list A) :=
  if (skp <? 0)%Z then Throw "Skip value must be non-negative"
  else let rest := skipn (Z.to_nat skp) l in
       Ok (if (lim =? 0)%Z then rest else firstn (Z.to_nat (Z.abs lim)) rest).

(** [Math.ceil(total / limit)] in JSON: [null] when it is NaN or infinite. *)
Definition total_pages (total : nat) (limit : option Q) : json :=
  match limit with
  | Some l => if Qeq_bool l 0 then JNull
              else JNum (inject_Z (Qceiling (inject_Z (Z.of_nat total) / l)))
  | None => JNull
  end.

(** ** [Task.findByIdAndUpdate(task_id, { status: action, actual_hours: actual_hours || 0 })] *)

(** [findById(id)] queries [{ _id: id }]; [undefined] is turned into [null],
    which matches no document. *)
Definition cast_id_filter (model : string) (v : json) : result (option ObjectId) :=
  match v with
  | JUndefined | JNull => Ok None
  | JStr s =>
      match cast_oid s with
      | Some o => Ok (Some o)
      | None => Throw ("Cast to ObjectId failed for value " ++ s ++ " at path _id for model " ++ model)
      end
  | _ => Throw ("Cast to ObjectId failed at path _id for model " ++ model)
  end.

Definition set_progress (st : option (option string)) (hrs : option Q) (t : Task) : Task :=
  mkTask (task_id t) (task_employee_id t) (title t) (task_description t) (customer_name t)
    (customer_phone t) (address t) (priority t) (due_date t)
    (match st with Some s => s | None => status t end)
    (estimated_hours t) hrs (task_created_at t).

(** The first task with the id gets the update. *)
Fixpoint update_first (o : ObjectId) (st : option (option string)) (hrs : option Q) (ts : list Task)
  : list Task :=
  match ts with
  | [] => []
  | t :: r => if String.eqb (task_id t) o then set_progress st hrs t :: r
              else t :: update_first o st hrs r
  end.

(** The filter [{ _id: task_id }] of [findByIdAndUpdate]. Unlike
    [findById], which turns [undefined] into [null], it passes the id as it
    is; Mongoose drops a filter key whose value is [undefined] (as in the
    login's [findOne]), so the filter is empty and matches every task.
    [null] matches none. *)
Inductive IdFilter : Type := AnyDoc | NoDoc | DocId (o : ObjectId).

Definition cast_update_filter (model : string) (v : json) : result IdFilter :=
  match v with
  | JUndefined => Ok AnyDoc
  | _ => let* o := cast_id_filter model v in Ok (match o with Some o => DocId o | None => NoDoc end)
  end.

(** With the empty filter the first task in natural order is updated. *)
Definition update_head (st : option (option string)) (hrs : option Q) (ts : list Task) : list Task :=
  match ts with
  | [] => []
  | t :: r => set_progress st hrs t :: r
  end.

Definition update_task (f : IdFilter) (st : option (option string)) (hrs : option Q)
    (db : Store) : Store :=
  match f with
  | NoDoc => db
  | AnyDoc => mkStore (employees db) (update_head st hrs (tasks db)) (locations db)
                (emergencies db) (logs db) (next_oid db)
  | DocId o => mkStore (employees db) (update_first o st hrs (tasks db)) (locations db)
                 (emergencies db) (logs db) (next_oid db)
  end.

(** ** The handlers *)

Section Handlers.
Variable number_to_string : Q -> string.
Variable other_op : string -> json -> option string -> bool.
(** [Date.now()] when the request is served. *)
Variable now : Z.

Definition created (id : ObjectId) (msg : string) : Response :=
  res_json (JObj [("id", JStr id); ("message", JStr msg)]).

(** [POST /api/register] *)
Definition register (body : json) : M Response :=
  e <-- create_employee number_to_string now body ;;
  mret (created (emp_id e) "Employee registered successfully").

Definition login_match (ce cp : list cond) (e : Employee) : bool :=
  holds_all other_op ce (emp_email e) && holds_all other_op cp (emp_password e) &&
  match isActive e with Some true => true | _ => false end.

(** [POST /api/login] *)
Definition login (body : json) : M Response :=
  ce <-- mlift (cast_conds (cast_string number_to_string) "email" (jget body "email")) ;;
  cp <-- mlift (cast_conds (cast_string number_to_string) "password" (jget body "password")) ;;
  db <-- mget ;;
  match find (login_match ce cp) (employees db) with
  | None => mret (res_error 401 "Invalid credentials or inactive account")
  | Some e => mret (res_json (doc_json (employee_json e)))
  end.

(** [POST /api/tasks] *)
Definition post_task (body : json) : M Response :=
  t <-- create_task number_to_string now body ;;
  mret (created (task_id t) "Task created successfully").

(** [GET /api/tasks/:employee_id] *)
Definition get_tasks (employee_id : string) : M Response :=
  oid <-- mlift (cast_oid_param "employee_id" employee_id) ;;
  db <-- mget ;;
  let ts := filter (fun t => oid_is (task_employee_id t) oid) (tasks db) in
  mret (res_json (JArr (map (fun t => doc_json (task_json t)) (sort_stable task_order ts)))).

(** [POST /api/location] *)
Definition post_location (body : json) : M Response :=
  l <-- create_location now body ;;
  mret (created (loc_id l) "Location logged successfully").

(** [GET /api/location/:employee_id] *)
Definition get_locations (employee_id : string) : M Response :=
  oid <-- mlift (cast_oid_param "employee_id" employee_id) ;;
  db <-- mget ;;
  let ls := filter (fun l => oid_is (loc_employee_id l) oid) (locations db) in
  mret (res_json (JArr (map (fun l => doc_json (location_json l))
                            (firstn 50 (sort_stable latest_first ls))))).

(** The object of the route's own [Log.create]. *)
Definition emergency_log (body : json) : json :=
  JObj [("employee_id", jget body "employee_id");
        ("employee_name", jget body "employee_name");
        ("action_type", JStr "emergency_triggered");
        ("description", JStr ("EMERGENCY: " ++ js_string number_to_string (jget body "emergency_type")
                              ++ " - " ++ js_string number_to_string (jget body "message")));
        ("location", jget body "location");
        ("details", body)].

(** [POST /api/emergency] *)
Definition post_emergency (body : json) : M Response :=
  m <-- create_emergency number_to_string now body ;;
  _ <-- create_log number_to_string now (emergency_log body) ;;
  mret (res_json (JObj [("success", JBool true);
                        ("message", JStr "Emergency alert sent! Help is on the way.");
                        ("emergency", doc_json (emergency_json m))])).

Definition contact (name phone role : string) : json :=
  JObj [("name", JStr name); ("phone", JStr phone); ("role", JStr role)].

(** [GET /api/emergency-contacts] *)
Definition emergency_contacts : Response :=
  res_json (JArr [contact "Safety Manager" "+1234567890" "Primary Safety Contact";
                  contact "Medical Emergency" "911" "Emergency Services";
                  contact "Team Lead" "+1234567891" "Immediate Supervisor";
                  contact "HR Department" "+1234567892" "Human Resources"]).

(** [POST /api/task-progress] *)
Definition task_progress (body : json) : M Response :=
  id <-- mlift (cast_update_filter "Task" (jget body "task_id")) ;;
  st <-- mlift (match jget body "action" with
                | JUndefined => Ok None       (** an undefined key leaves the update *)
                | a => let* s := cast_string number_to_string "status" a in Ok (Some s)
                end) ;;
  hrs <-- mlift (let ah := jget body "actual_hours" in
                 cast_number "actual_hours" (if truthy ah then ah else JNum 0)) ;;
  db <-- mget ;;
  _ <-- mput (update_task id st hrs db) ;;
  mret (res_json (JObj [("message", JStr "Task progress updated successfully")])).

(** [GET /api/logs] (lines 524-542) *)
Definition get_logs (query : json) : M Response :=
  let page := match jget query "page" with JUndefined => JNum 1 | v => v end in
  let limit := match jget query "limit" with JUndefined => JNum 100 | v => v end in
  let employee_id := jget query "employee_id" in
  let action := jget query "action_type" in
  ce <-- mlift (if truthy employee_id then cast_conds cast_oid_value "employee_id" employee_id
                else Ok []) ;;
  ca <-- mlift (if truthy action
                then cast_conds (cast_string number_to_string) "action_type" action
                else Ok []) ;;
  lim <-- mlift (cursor_int "limit" (js_mul (to_number limit) (Some 1))) ;;
  skp <-- mlift (cursor_int "skip" (js_mul (js_add (to_number page) (Some (-1))) (to_number limit))) ;;
  db <-- mget ;;
  let matching := filter (fun l => holds_all other_op ce (log_employee_id l) &&
                                   holds_all other_op ca (action_type l)) (logs db) in
  ls <-- mlift (page_of skp lim (sort_stable latest_log_first matching)) ;;
  mret (res_json (JObj [("logs", JArr (map (fun l => doc_json (log_json l)) ls));
                        ("totalPages", total_pages (List.length matching) (to_number limit));
                        ("currentPage", page);
                        ("total", JNum (inject_Z (Z.of_nat (List.length matching))))])).
End Handlers.

(** [GET /ping]: [res.send('Backend OK ✅')]. *)
Definition ping : Response :=
  mkResponse 200 (JStr ("Backend OK " ++ String (ascii_of_nat 226) (String (ascii_of_nat 156)
                                           (String (ascii_of_nat 133) "")))).

(** ** Lemmas *)

Lemma update_head_ids st hrs ts : map task_id (update_head st hrs ts) = map task_id ts.
Proof. destruct ts; reflexivity. Qed.

Lemma update_first_ids o st hrs ts : map task_id (update_first o st hrs ts) = map task_id ts.
Proof.
  induction ts as [|t r IH]; simpl; [reflexivity|].
  destruct (String.eqb (task_id t) o); simpl; [reflexivity | rewrite IH; reflexivity].
Qed.
