(* ===== verification/Priority.v ===== *)
(** * Priority: [GET /api/prioritized-tasks/:employee_id] of [src/server.js]
    (lines 216-267)

    The route builds an aggregation pipeline: [$match] on the employee's
    pending tasks, [$addFields] with [days_until_due] and an [ai_score] given
    by a [$switch], [$sort] on the score descending and [$limit: 5]. The
    score draws on three sources of randomness, kept apart in [Randomness]:
    the two [Math.random()] of the [then] branches, evaluated in JavaScript
    once when the pipeline object is built (so one value per request), and
    MongoDB's [$rand], evaluated for each document. [new Date()] is the
    request's time. [$subtract] of a missing [due_date] is [null], and [$lt]
    compares in BSON order, where [null] comes before every number.
    MongoDB's [$sort] leaves the order of equal scores unspecified; the model
    keeps the natural order among them (a stable sort). *)

From Stdlib Require Import QArith Qround Lqa ZArith Lia List String Bool Permutation Sorted.
From Stdlib Require Import RelationClasses.
From S2P Require Import Prelude JsValue Store Http Csv Routes.
Import ListNotations.
Local Open Scope string_scope.
Local Open Scope list_scope.

(** The random numbers one request draws. *)
Record Randomness : Type := mkRandomness {
  random_p3 : Q;          (** [Math.random()] of the [priority = 3] branch *)
  random_p2 : Q;          (** [Math.random()] of the [priority = 2] branch *)
  mongo_rand : nat -> Q   (** [$rand] for the [n]-th matched document *)
}.

(** The randomness of a request is drawn in [[0, 1)]. *)
Definition rand_ok (x : Q) : Prop := 0 <= x /\ x < 1.

Definition randomness_ok (rnd : Randomness) : Prop :=
  rand_ok (random_p3 rnd) /\ rand_ok (random_p2 rnd) /\ forall n, rand_ok (mongo_rand rnd n).

(** A draw of zeros, for the examples. *)
Definition no_jitter : Randomness := mkRandomness 0 0 (fun _ => 0).

(** [1000 * 60 * 60 * 24] *)
Definition ms_per_day : Z := 1000 * 60 * 60 * 24.

(** [{ $subtract: ['$due_date', new Date()] }]: [null] without a due date. *)
Definition due_in (now : Z) (t : Task) : option Z :=
  match due_date t with Some d => Some (d - now)%Z | None => None end.

(** [{ $lt: [x, n] }] in BSON order: [null] is below every number. *)
Definition agg_lt (x : option Z) (n : Z) : bool :=
  match x with Some v => Z.ltb v n | None => true end.

(** [{ $eq: ['$priority', k] }] *)
Definition priority_is (t : Task) (k : Q) : bool :=
  match priority t with Some p => Qeq_bool p k | None => false end.

(** The [$switch] of [ai_score], for the [n]-th matched document. *)
Definition ai_score (rnd : Randomness) (now : Z) (n : nat) (t : Task) : Q :=
  if agg_lt (due_in now t) 0 then 1000
  else if agg_lt (due_in now t) 86400000 then 900
  else if priority_is t 3 then 800 + random_p3 rnd * 50
  else if priority_is t 2 then 600 + random_p2 rnd * 50
  else 400 + mongo_rand rnd n * 50.

(** [days_until_due]: [$divide] of [null] is [null]. *)
Definition days_until_due (now : Z) (t : Task) : json :=
  match due_in now t with
  | Some d => JNum (inject_Z d / inject_Z ms_per_day)
  | None => JNull
  end.

(** [{ $match: { employee_id: new ObjectId(id), status: 'pending' } }] *)
Definition is_pending_of (oid : ObjectId) (t : Task) : bool :=
  oid_is (task_employee_id t) oid &&
  match status t with Some s => String.eqb s "pending" | None => false end.

(** [$addFields] over the matched documents, numbered from [k]. *)
Fixpoint scored (rnd : Randomness) (now : Z) (k : nat) (ts : list Task) : list (Task * Q) :=
  match ts with
  | [] => []
  | t :: r => (t, ai_score rnd now k t) :: scored rnd now (S k) r
  end.

(** [{ $sort: { ai_score: -1 } }]: [a] may stay before [b] when its score is
    not lower. *)
Definition score_desc (a b : Task * Q) : bool := Qle_bool (snd b) (snd a).

(** The pipeline: match, score, sort, keep five. *)
Definition rank_tasks (rnd : Randomness) (now : Z) (oid : ObjectId) (db : Store) : list (Task * Q) :=
  firstn 5 (sort_stable score_desc (scored rnd now 0 (filter (is_pending_of oid) (tasks db)))).

(** A document of the result: the stored fields, then the two added ones. *)
Definition ranked_json (now : Z) (p : Task * Q) : json :=
  match doc_json (task_json (fst p)) with
  | JObj fs => JObj (fs ++ [("days_until_due", days_until_due now (fst p)); ("ai_score", JNum (snd p))])
  | j => j
  end.

(** [new mongoose.Types.ObjectId(id)] throws on a malformed id. *)
Definition new_object_id (s : string) : result ObjectId :=
  match cast_oid s with
  | Some o => Ok o
  | None => Throw "input must be a 24 character hex string, 12 byte Uint8Array, or an integer"
  end.

(** The route's body; its [catch] answers 400. *)
Definition get_prioritized (rnd : Randomness) (now : Z) (employee_id : string) : M Response :=
  oid <-- mlift (new_object_id employee_id) ;;
  db <-- mget ;;
  mret (res_json (JArr (map (ranked_json now) (rank_tasks rnd now oid db)))).

Definition prioritized_route (rnd : Randomness) (now : Z) (db : Store) (employee_id : string)
  : Store * Response :=
  run_route 400 (get_prioritized rnd now employee_id) db.

(** The order of the spec's tie-break list: overdue (or undated), due
    within a day, high priority, medium priority, the rest. *)
Definition tier (now : Z) (t : Task) : nat :=
  if agg_lt (due_in now t) 0 then 4
  else if agg_lt (due_in now t) 86400000 then 3
  else if priority_is t 3 then 2
  else if priority_is t 2 then 1
  else 0.

(** The lowest score of a tier; every score of the tier is below it plus 50. *)
Definition tier_floor (k : nat) : Q :=
  match k with
  | S (S (S (S _))) => 1000
  | S (S (S O)) => 900
  | S (S O) => 800
  | S O => 600
  | O => 400
  end.

(** Pending tasks of one employee, for the examples. *)
Definition pending_task (id : ObjectId) (prio : option Q) (due : option Z) : Task :=
  mkTask id (Some "65a1b2c3d4e5f60718293a4b") (Some "Site visit") None None None None
    prio due (Some "pending") None None (Some 1704067200000%Z).

(** 2024-01-01T00:00:00Z and ten days later. *)
Definition jan1_ms : Z := 1704067200000.
Definition jan11_ms : Z := 1704931200000.

(** ** Lemmas *)

Lemma no_jitter_ok : randomness_ok no_jitter.
Proof. unfold randomness_ok, rand_ok; simpl. repeat split; intros; discriminate. Qed.

Lemma tier_le_4 now t : (tier now t <= 4)%nat.
Proof.
  unfold tier.
  destruct (agg_lt (due_in now t) 0), (agg_lt (due_in now t) 86400000), (priority_is t 3),
    (priority_is t 2); lia.
Qed.

Lemma tier_floor_gap i j : (j < i)%nat -> (i <= 4)%nat -> tier_floor j + 50 <= tier_floor i.
Proof.
  intros Hji Hi. apply Qle_bool_imp_le.
  destruct i as [|[|[|[|[|i]]]]]; [lia| | | | |lia];
    destruct j as [|[|[|[|j]]]]; try lia; reflexivity.
Qed.

Lemma score_desc_total a b : score_desc a b = false -> score_desc b a = true.
Proof.
  unfold score_desc. intro H. apply Qle_bool_iff, Qlt_le_weak, Qnot_le_lt.
  intro H'. apply Qle_bool_iff in H'. congruence.
Qed.

#[export] Instance score_desc_trans : Transitive (le_rel score_desc).
Proof.
  unfold le_rel, score_desc. intros x y z H1 H2.
  apply Qle_bool_iff in H1, H2. apply Qle_bool_iff. eapply Qle_trans; eassumption.
Qed.

Lemma prioritized_route_readonly rnd now db id : fst (prioritized_route rnd now db id) = db.
Proof. unfold prioritized_route, get_prioritized. apply run_route_readonly. ro. Qed.

Section Scores.
Variable rnd : Randomness.
Hypothesis Hrnd : randomness_ok rnd.

Lemma ai_score_in_tier now n t :
  tier_floor (tier now t) <= ai_score rnd now n t < tier_floor (tier now t) + 50.
Proof.
  destruct Hrnd as [[H3 H3'] [[H2 H2'] Hm]]. destruct (Hm n) as [Hm0 Hm1].
  unfold tier, ai_score.
  destruct (agg_lt (due_in now t) 0); [simpl; lra|].
  destruct (agg_lt (due_in now t) 86400000); [simpl; lra|].
  destruct (priority_is t 3); [simpl; lra|].
  destruct (priority_is t 2); simpl; lra.
Qed.

(** C39. The score refines the tie-break order of the spec: a task of a
    higher tier (overdue, due within a day, priority 3, priority 2, the
    rest) scores strictly above a task of a lower tier, whatever the draws
    in [[0, 1)] and the documents' positions. *)
Theorem ai_score_refines_tier now n m a b :
  (tier now b < tier now a)%nat -> ai_score rnd now m b < ai_score rnd now n a.
Proof.
  intro Hlt. pose proof (ai_score_in_tier now n a). pose proof (ai_score_in_tier now m b).
  pose proof (tier_floor_gap _ _ Hlt (tier_le_4 now a)). lra.
Qed.

(** C40. A pending task without a due date scores 1000, the score of an
    overdue task: [$subtract] of the missing date is [null], and [null] is
    below 0 in BSON order. It outranks every task due now or later. *)
Theorem undated_task_scored_overdue now n m t u d :
  due_date t = None -> due_date u = Some d -> (now <= d)%Z ->
  ai_score rnd now n t = 1000 /\ ai_score rnd now m u < ai_score rnd now n t.
Proof.
  intros Ht Hu Hd.
  assert (Hs : ai_score rnd now n t = 1000) by (unfold ai_score, due_in; rewrite Ht; reflexivity).
  split; [exact Hs|].
  assert (Htu : (tier now u < tier now t)%nat).
  { unfold tier at 2, due_in. rewrite Ht. simpl.
    pose proof (tier_le_4 now u). unfold tier in *. unfold due_in in *. rewrite Hu in *.
    simpl. replace (d - now <? 0)%Z with false by lia.
    destruct (_ <? _)%Z, (priority_is u 3), (priority_is u 2); lia. }
  pose proof (ai_score_in_tier now n t). pose proof (ai_score_in_tier now m u).
  pose proof (tier_floor_gap _ _ Htu (tier_le_4 now t)). lra.
Qed.
End Scores.

(** C38. The route answers the top five: its documents, followed by the
    rest, are a permutation of the scored pending tasks of the employee;
    there are [min 5 n] of them, in descending score, and none scores below
    a task left out. *)
Theorem rank_tasks_top5 rnd now oid db :
  let s := scored rnd now 0 (filter (is_pending_of oid) (tasks db)) in
  let r := rank_tasks rnd now oid db in
  exists rest, Permutation (r ++ rest) s /\ List.length r = Nat.min 5 (List.length s) /\
    Sorted (le_rel score_desc) r /\ forall x y, In x r -> In y rest -> snd y <= snd x.
Proof.
  intros s r. exists (skipn 5 (sort_stable score_desc s)).
  destruct (sort_stable_spec score_desc score_desc_total s) as [Hs Hp].
  destruct (sorted_split _ score_desc_trans 5 _ Hs) as [Hr Hx].
  unfold r, rank_tasks. fold s.
  split; [rewrite firstn_skipn; exact Hp|].
  split; [rewrite length_firstn, (Permutation_length Hp); reflexivity|].
  split; [exact Hr|]. intros x y Hxi Hyi. apply Qle_bool_iff, (Hx x y Hxi Hyi).
Qed.

(** The jitter of the two priority branches is one [Math.random()] per
    request, not one per task: two tasks of the priority-3 tier get the same
    score, whatever their positions. *)
Theorem priority3_shared_jitter rnd now n m a b :
  tier now a = 2%nat -> tier now b = 2%nat -> ai_score rnd now n a = ai_score rnd now m b.
Proof.
  unfold tier, ai_score.
  destruct (agg_lt (due_in now a) 0), (agg_lt (due_in now a) 86400000), (priority_is a 3);
    try discriminate; [|destruct (priority_is a 2); discriminate].
  destruct (agg_lt (due_in now b) 0), (agg_lt (due_in now b) 86400000), (priority_is b 3);
    try discriminate; [|destruct (priority_is b 2); discriminate].
  reflexivity.
Qed.

(** A malformed id makes [new ObjectId] throw: the route answers 400 and
    reads nothing. *)
Lemma prioritized_invalid_id rnd now db id :
  cast_oid id = None ->
  prioritized_route rnd now db id =
  (db, res_error 400 "input must be a 24 character hex string, 12 byte Uint8Array, or an integer").
Proof. intro H. unfold prioritized_route, run_route, get_prioritized, mbind, mlift, new_object_id. rewrite H. reflexivity. Qed.

(** ** Witnesses *)

Lemma ai_score_refines_tier_witness :
  (tier jan1_ms (pending_task "000000000000000000000002" (Some 1%Q) (Some jan11_ms)) <
   tier jan1_ms (pending_task "000000000000000000000001" (Some 1%Q) None))%nat /\
  ai_score no_jitter jan1_ms 1 (pending_task "000000000000000000000002" (Some 1%Q) (Some jan11_ms)) <
  ai_score no_jitter jan1_ms 0 (pending_task "000000000000000000000001" (Some 1%Q) None).
Proof.
  split; [vm_compute; lia|].
  apply (ai_score_refines_tier no_jitter no_jitter_ok); vm_compute; lia.
Defined.

Lemma undated_task_scored_overdue_witness :
  ai_score no_jitter jan1_ms 0 (pending_task "000000000000000000000001" (Some 1%Q) None) = 1000 /\
  ai_score no_jitter jan1_ms 1 (pending_task "000000000000000000000002" (Some 3%Q) (Some jan11_ms)) <
  ai_score no_jitter jan1_ms 0 (pending_task "000000000000000000000001" (Some 1%Q) None).
Proof.
  apply (undated_task_scored_overdue no_jitter no_jitter_ok jan1_ms 0 1 _ _ jan11_ms);
    [reflexivity | reflexivity | vm_compute; discriminate].
Defined.

Lemma priority3_shared_jitter_witness :
  tier jan1_ms (pending_task "000000000000000000000001" (Some 3%Q) (Some jan11_ms)) = 2%nat /\
  tier jan1_ms (pending_task "000000000000000000000002" (Some 3%Q) (Some jan11_ms)) = 2%nat /\
  ai_score (mkRandomness (1 # 3) (1 # 7) (fun n => 1 # Pos.of_nat (S (S n)))) jan1_ms 0
    (pending_task "000000000000000000000001" (Some 3%Q) (Some jan11_ms)) =
  ai_score (mkRandomness (1 # 3) (1 # 7) (fun n => 1 # Pos.of_nat (S (S n)))) jan1_ms 1
    (pending_task "000000000000000000000002" (Some 3%Q) (Some jan11_ms)).
Proof.
  split; [reflexivity|]. split; [reflexivity|].
  apply priority3_shared_jitter; reflexivity.
Defined.
