(* ===== verification/Middleware.v ===== *)
(** * Middleware: the logging side channel of [src/server.js] (lines 104-170)

    The middleware replaces [res.send] by a function that, for a request whose
    method is not [GET] and whose path does not contain [/api/export], writes
    a [Log] before it sends the response ([log_request]). [res.json] goes
    through [res.send], so every answer of a route (an error answer too) is
    logged; the write happens after the route's own writes. The log's fields
    come from the request: the employee's name through
    [Employee.findById(req.body.employee_id)], the task's title through
    [Task.findById(req.body.task_id)], the action type and description from
    the tables [getActionType] and [getActionDescription]. Any error (a
    CastError of [findById], a ValidationError of [Log.create]) is caught and
    only printed: the request then leaves no log. *)

From Stdlib Require Import QArith ZArith Lia List String Ascii Bool.
From S2P Require Import Prelude JsValue Dates Store Http Documents Routes.
Import ListNotations.
Local Open Scope list_scope.
Local Open Scope string_scope.

(** [s.includes(pat)] *)
Definition includes (s pat : string) : bool :=
  match String.index 0 pat s with Some _ => true | None => false end.

(** [getActionType(path, method)] (lines 146-157). *)
Definition getActionType (path method : string) : string :=
  let key := method ++ ":" ++ path in
  if String.eqb key "POST:/api/login" then "user_login"
  else if String.eqb key "POST:/api/register" then "employee_registered"
  else if String.eqb key "POST:/api/tasks" then "task_created"
  else if String.eqb key "POST:/api/task-progress" then "task_updated"
  else if String.eqb key "POST:/api/location" then "location_logged"
  else if String.eqb key "POST:/api/emergency" then "emergency_triggered"
  else if String.eqb key "POST:/api/export" then "report_generated"
  else "system_action".

Section Logging.
Variable number_to_string : Q -> string.

Let str (v : json) : string := js_string number_to_string v.

(** [getActionDescription(path, method, body)] (lines 159-170). *)
Definition getActionDescription (path method : string) (body : json) : string :=
  let basePath := method ++ ":" ++ path in
  if String.eqb basePath "POST:/api/login" then "User logged in: " ++ str (jget body "email")
  else if String.eqb basePath "POST:/api/register" then
    "New employee registered: " ++ str (jget body "name")
  else if String.eqb basePath "POST:/api/tasks" then "Task created: " ++ str (jget body "title")
  else if String.eqb basePath "POST:/api/task-progress" then
    "Task " ++ str (jget body "action") ++ ": " ++ str (jget body "task_id")
  else if String.eqb basePath "POST:/api/location" then
    "Location updated: " ++ str (jget body "latitude") ++ ", " ++ str (jget body "longitude")
  else if String.eqb basePath "POST:/api/emergency" then
    "Emergency: " ++ str (jget body "emergency_type") ++ " - " ++ str (jget body "message")
  else "Action performed: " ++ basePath.

(** The condition of line 108. *)
Definition is_logged (r : Request) : bool :=
  negb (String.eqb (req_method r) "GET") && negb (includes (req_path r) "/api/export").

(** [employee?.name || 'Unknown'] *)
Definition name_or_unknown (e : option Employee) : string :=
  match e with
  | Some emp => match emp_name emp with
                | Some n => if String.eqb n "" then "Unknown" else n
                | None => "Unknown"
                end
  | None => "Unknown"
  end.

Definition find_task_by_id (db : Store) (o : ObjectId) : option Task :=
  find (fun t => String.eqb (task_id t) o) (tasks db).

(** [Model.findById(v)] for a truthy [v]. *)
Definition find_by_id {A : Type} (model : string) (get : Store -> ObjectId -> option A) (v : json)
  : M (option A) :=
  o <-- mlift (cast_id_filter model v) ;;
  db <-- mget ;;
  mret (match o with Some i => get db i | None => None end).

(** [req.get('User-Agent') || 'Unknown'] *)
Definition device_info_of (ua : option string) : string :=
  match ua with
  | Some s => if String.eqb s "" then "Unknown" else s
  | None => "Unknown"
  end.

(** The object [logData] the middleware hands to [Log.create]. *)
Definition logData (r : Request) (employeeName : string) (task : option (option Task)) : json :=
  let b := req_body r in
  JObj ([("employee_id", jget b "employee_id");
         ("employee_name", JStr employeeName);
         ("action_type", JStr (getActionType (req_path r) (req_method r)));
         ("description", JStr (getActionDescription (req_path r) (req_method r) b));
         ("ip_address", match req_ip r with Some ip => JStr ip | None => JUndefined end);
         ("device_info", JStr (device_info_of (req_user_agent r)));
         ("details", b)] ++
        match task with
        | Some t => [("task_id", jget b "task_id");
                     ("task_title", match t with
                                    | Some tk => match title tk with Some s => JStr s | None => JUndefined end
                                    | None => JUndefined
                                    end)]
        | None => []
        end ++
        (if truthy (jget b "latitude")
         then [("location", JObj [("lat", jget b "latitude"); ("lng", jget b "longitude")])]
         else []))%list.

(** The body of the replaced [res.send], before [originalSend]. *)
Definition log_request (r : Request) : M unit :=
  if is_logged r then
    mcatch (
      let b := req_body r in
      employeeName <-- (if truthy (jget b "employee_id")
                        then e <-- find_by_id "Employee" (fun db => find_employee_by_id db)
                                     (jget b "employee_id") ;;
                             mret (name_or_unknown e)
                        else mret "Unknown") ;;
      task <-- (if truthy (jget b "task_id")
                then t <-- find_by_id "Task" find_task_by_id (jget b "task_id") ;; mret (Some t)
                else mret None) ;;
      _ <-- create_log number_to_string (req_time r) (logData r employeeName task) ;;
      mret tt)
  else mret tt.
End Logging.
