(* ===== verification/Server.v ===== *)
(** * Server: the Express application of [src/server.js] as one step function

    [handler] routes a request by its method and the segments of its path to
    the handler of the model, as Express's router matches: [GET] and [HEAD]
    go to the [app.get] routes, literal segments are compared without case,
    one trailing slash is allowed, and [:employee_id] matches one non-empty
    segment, kept as written. A request no route takes gets Express's 404, which
    goes through [res.end] and is not logged. [serve] runs the handler and
    then the logging middleware, whose write follows the route's writes.
    [serve_all] runs a sequence of requests one after the other, the way the
    single-threaded server interleaves them at the granularity of requests,
    and [reachable] is the set of stores a sequence of requests can produce
    from the empty database. The scenarios at the end show the findings:
    a refused cleanup still logs, a login without credentials answers the
    first active employee, a task-progress body without [task_id] updates
    the first task, and an emergency writes two logs.

    [GET /api/prioritized-tasks/:employee_id] (lines 216-267) is
    [Priority.prioritized_route]; the parameter [rnd] of the server gives
    the random numbers each request draws. *)

From Stdlib Require Import QArith ZArith Lia List String Ascii Bool Permutation.
From Stdlib Require Import Morphisms RelationClasses.
From S2P Require Import Prelude JsValue Dates GeoDistance Store Http Documents Mileage Payroll Csv.
From S2P Require Import WeeklyReport Cleanup Routes Priority Middleware.
Import ListNotations.
Local Open Scope list_scope.
Local Open Scope string_scope.

(** [path.split('/')] *)
Fixpoint split_path_aux (cur : string) (s : string) : list string :=
  match s with
  | EmptyString => [cur]
  | String c r =>
      if Ascii.eqb c "/" then cur :: split_path_aux "" r
      else split_path_aux (cur ++ String c "") r
  end.

Definition split_path (s : string) : list string := split_path_aux "" s.

(** Express routes are not strict: one trailing slash is allowed
    ([\/?$] in the route's regular expression). *)
Definition route_segs (path : string) : list string :=
  let segs := split_path path in
  match rev segs with
  | "" :: (_ :: _ :: _) as r => rev r
  | _ => segs
  end.

(** Express routes match without regard to case (the [i] flag). In the
    regular expression's non-unicode mode only ASCII letters fold onto the
    ASCII letters of the routes, so the model lowers ASCII letters. *)
Definition lower_ascii (c : ascii) : ascii :=
  match c with
  | "A"%char => "a"%char
  | "B"%char => "b"%char
  | "C"%char => "c"%char
  | "D"%char => "d"%char
  | "E"%char => "e"%char
  | "F"%char => "f"%char
  | "G"%char => "g"%char
  | "H"%char => "h"%char
  | "I"%char => "i"%char
  | "J"%char => "j"%char
  | "K"%char => "k"%char
  | "L"%char => "l"%char
  | "M"%char => "m"%char
  | "N"%char => "n"%char
  | "O"%char => "o"%char
  | "P"%char => "p"%char
  | "Q"%char => "q"%char
  | "R"%char => "r"%char
  | "S"%char => "s"%char
  | "T"%char => "t"%char
  | "U"%char => "u"%char
  | "V"%char => "v"%char
  | "W"%char => "w"%char
  | "X"%char => "x"%char
  | "Y"%char => "y"%char
  | "Z"%char => "z"%char
  | _ => c
  end.

Definition lower (s : string) : string := string_of_list_ascii (map lower_ascii (list_ascii_of_string s)).

(** Express's final handler. *)
Definition not_found (r : Request) : Response :=
  mkResponse 404 (JStr ("Cannot " ++ req_method r ++ " " ++ req_path r)).

(** ** The routes, by method *)

Inductive GetRoute : Type :=
| GTasks (id : string)
| GPrioritized (id : string)
| GLocations (id : string)
| GContacts
| GMileage (id : string)
| GTimesheet (id : string)
| GTimeSavings (id : string)
| GWeeklyReport
| GLogs
| GPing.

Inductive PostRoute : Type :=
| PRegister
| PLogin
| PTask
| PLocation
| PEmergency
| PTaskProgress
| PCleanup.

Definition param (id : string) {A : Type} (k : string -> A) : option A :=
  if String.eqb id "" then None else Some (k id).

(** The [app.get] routes, in the order they are declared: the literal
    segments are compared lowered, the parameter keeps its case. *)
Definition get_route (segs : list string) : option GetRoute :=
  let id := nth 3 segs "" in
  match map lower segs with
  | [""; "api"; "tasks"; _] => param id GTasks
  | [""; "api"; "prioritized-tasks"; _] => param id GPrioritized
  | [""; "api"; "location"; _] => param id GLocations
  | [""; "api"; "emergency-contacts"] => Some GContacts
  | [""; "api"; "mileage"; _] => param id GMileage
  | [""; "api"; "timesheet"; _] => param id GTimesheet
  | [""; "api"; "time-savings"; _] => param id GTimeSavings
  | [""; "api"; "export"; "weekly-report"] => Some GWeeklyReport
  | [""; "api"; "logs"] => Some GLogs
  | [""; "ping"] => Some GPing
  | _ => None
  end.

(** The [app.post] routes. *)
Definition post_route (segs : list string) : option PostRoute :=
  match map lower segs with
  | [""; "api"; "register"] => Some PRegister
  | [""; "api"; "login"] => Some PLogin
  | [""; "api"; "tasks"] => Some PTask
  | [""; "api"; "location"] => Some PLocation
  | [""; "api"; "emergency"] => Some PEmergency
  | [""; "api"; "task-progress"] => Some PTaskProgress
  | [""; "api"; "cleanup"; "weekly-data"] => Some PCleanup
  | _ => None
  end.

Section Server.
Context `{ML : MathLib}.
(** The host's time zone offset, [toLocaleDateString] and [Number.prototype.toString]. *)
Variable tza : Z.
Variable toLocaleDateString : Z -> string.
Variable number_to_string : Q -> string.
Variable other_op : string -> json -> option string -> bool.
Variable rnd : Request -> Randomness.

Definition run_get (g : GetRoute) (r : Request) (db : Store) : Store * Response :=
  let q := req_query r in
  match g with
  | GTasks id => run_route 400 (get_tasks id) db
  | GPrioritized id => prioritized_route (rnd r) (req_time r) db id
  | GLocations id => run_route 400 (get_locations id) db
  | GContacts => (db, emergency_contacts)
  | GMileage id => mileage_route toLocaleDateString db id (jget q "startDate") (jget q "endDate")
  | GTimesheet id => timesheet_route toLocaleDateString db id (jget q "startDate") (jget q "endDate")
  | GTimeSavings id => time_savings_route number_to_string db id
  | GWeeklyReport =>
      weekly_report_route tza number_to_string db (req_time r) (jget q "week_start") (jget q "week_end")
  | GLogs => run_route 400 (get_logs number_to_string other_op q) db
  | GPing => (db, ping)
  end.

Definition run_post (p : PostRoute) (r : Request) (db : Store) : Store * Response :=
  let b := req_body r in
  let now := req_time r in
  match p with
  | PRegister => run_route 400 (register number_to_string now b) db
  | PLogin => run_route 400 (login number_to_string other_op b) db
  | PTask => run_route 400 (post_task number_to_string now b) db
  | PLocation => run_route 400 (post_location now b) db
  | PEmergency => run_route 500 (post_emergency number_to_string now b) db
  | PTaskProgress => run_route 400 (task_progress number_to_string b) db
  | PCleanup => cleanup_route tza db b
  end.

(** The handler Express picks for a request, if any. *)
Definition handler (r : Request) : option (Store -> Store * Response) :=
  let segs := route_segs (req_path r) in
  if String.eqb (req_method r) "GET" || String.eqb (req_method r) "HEAD"
  then option_map (fun g => run_get g r) (get_route segs)
  else if String.eqb (req_method r) "POST" then option_map (fun p => run_post p r) (post_route segs)
  else None.

(** One request: the route, then the middleware's log, then the answer. *)
Definition serve (r : Request) (db : Store) : Store * Response :=
  match handler r with
  | None => (db, not_found r)
  | Some h =>
      let '(db1, resp) := h db in
      (snd (log_request number_to_string r db1), resp)
  end.

(** Requests served one after the other. *)
Fixpoint serve_all (rs : list Request) (db : Store) : Store * list Response :=
  match rs with
  | [] => (db, [])
  | r :: rest =>
      let '(db1, resp) := serve r db in
      let '(db2, resps) := serve_all rest db1 in
      (db2, resp :: resps)
  end.

Inductive reachable : Store -> Prop :=
| reach_empty : reachable empty_store
| reach_serve r db : reachable db -> reachable (fst (serve r db)).
End Server.

(** ** Invariants of the store *)

(** Every collection's [_id]s are distinct, and so are the employees'
    emails (a missing email counting as [null]). *)
Definition store_wf (db : Store) : Prop :=
  NoDup (map emp_id (employees db)) /\ NoDup (map emp_email (employees db)) /\
  NoDup (map task_id (tasks db)) /\ NoDup (map loc_id (locations db)) /\
  NoDup (map em_id (emergencies db)) /\ NoDup (map log_id (logs db)).

(** The relation of the stores before and after a step that keeps [store_wf]. *)
Definition wf_kept (db db' : Store) : Prop := store_wf db -> store_wf db'.

(** Employees and emergencies are only ever appended to. *)
Definition append_only (db db' : Store) : Prop :=
  (exists l, employees db' = (employees db ++ l)%list) /\
  (exists l, emergencies db' = (emergencies db ++ l)%list).

(** The tasks are left as they are. *)
Definition same_tasks (db db' : Store) : Prop := tasks db' = tasks db.
Definition same_locations (db db' : Store) : Prop := locations db' = locations db.
Definition same_employees (db db' : Store) : Prop := employees db' = employees db.

(** ** Sample requests *)

Definition sample_request (m p : string) (q b : json) (now : Z) : Request :=
  mkRequest m p q b (Some "203.0.113.7") (Some "FieldForce/1.0") now.

Definition ana_id : ObjectId := "000000000000000000000001".

(** 2024-01-07T10:00:00Z, 10:05 and 10:10. *)
Definition jan7_1000 : Z := 1704621600000.
Definition jan7_1005 : Z := 1704621900000.
Definition jan7_1010 : Z := 1704622200000.

Definition emergency_request : Request :=
  sample_request "POST" "/api/emergency" (JObj [])
    (JObj [("employee_id", JStr ana_id); ("employee_name", JStr "Ana");
           ("emergency_type", JStr "medical"); ("message", JStr "fell from a ladder")])
    jan7_1000.

Definition week_query : json :=
  JObj [("week_start", JStr "2024-01-01"); ("week_end", JStr "2024-01-07")].

Definition export_request : Request :=
  sample_request "GET" "/api/export/weekly-report" week_query (JObj []) jan7_1000.

Definition ana_employee : Employee :=
  mkEmployee ana_id (Some "Ana") (Some "ana@example.com") (Some "hunter2") (Some "employee")
    (Some 25%Q) (Some true) (Some jan7_1000).

Definition ana_store : Store := mkStore [ana_employee] [] [] [] [] 2.

Definition progress_request : Request :=
  sample_request "POST" "/api/task-progress" (JObj [])
    (JObj [("task_id", JStr "000000000000000000000009"); ("action", JStr "completed")]) jan7_1000.

Definition login_request (b : json) : Request :=
  sample_request "POST" "/api/login" (JObj []) b jan7_1000.

(** The server with the test library, UTC as the host's zone, and fixed
    renderings for the host functions. *)
Definition test_serve : Request -> Store -> Store * Response :=
  serve (ML := TestMath) 0 (fun _ => "") (fun _ => "0") (fun _ _ _ => false) (fun _ => no_jitter).

(** ** Reading routes never write *)

Section ReadOnly.
Context `{ML : MathLib}.
Variables (tza : Z) (toLocaleDateString : Z -> string) (number_to_string : Q -> string).
Variable other_op : string -> json -> option string -> bool.
Variable rnd : Request -> Randomness.

Lemma run_get_readonly g r db :
  fst (run_get tza toLocaleDateString number_to_string other_op rnd g r db) = db.
Proof.
  destruct g; simpl; try reflexivity;
    unfold mileage_route, timesheet_route, time_savings_route, weekly_report_route,
      prioritized_route;
    apply run_route_readonly;
    unfold get_tasks, get_locations, get_logs, get_mileage, get_timesheet, get_time_savings,
      get_weekly_report, get_prioritized; ro.
Qed.

(** A GET request leaves the store as it was: the route only reads, and
    the middleware logs no GET. *)
Lemma serve_get_store (r : Request) (db : Store) :
  req_method r = "GET" -> fst (serve tza toLocaleDateString number_to_string other_op rnd r db) = db.
Proof.
  intro Hm. unfold serve, handler. rewrite Hm. simpl.
  destruct (get_route _) as [g|]; simpl; [|reflexivity].
  pose proof (run_get_readonly g r db) as Hg.
  destruct (run_get _ _ _ _ _ g r db) as [db1 resp]. simpl in *. subst db1.
  unfold log_request, is_logged. rewrite Hm. reflexivity.
Qed.

Lemma serve_get_pair (r : Request) (db : Store) :
  req_method r = "GET" ->
  serve tza toLocaleDateString number_to_string other_op rnd r db =
    (db, snd (serve tza toLocaleDateString number_to_string other_op rnd r db)).
Proof.
  intro Hm. pose proof (serve_get_store r db Hm) as Hs.
  destruct (serve _ _ _ _ _ r db). simpl in *. subst. reflexivity.
Qed.

Lemma login_readonly body : readonly (login number_to_string other_op body).
Proof. unfold login. ro. Qed.
End ReadOnly.

(** Replace the answer of a GET request in the goal by the same store and
    its response. *)
Ltac serve_get :=
  match goal with |- context [serve ?a ?b ?c ?d ?e ?r ?db] =>
    rewrite (serve_get_pair a b c d e r db eq_refl) end.

(** ** Every request moves the store along a preorder that its writes respect *)

Ltac mono_tac :=
  repeat match goal with
  | |- mono _ (mbind mget (fun db => mbind (mput _) _)) =>
      refine (mono_modify _ _ _ _ _); [intro | intros ? ?]
  | |- mono _ (mbind _ _) => refine (mono_bind _ _ _ _ _); [|intro]
  | |- mono _ (mret _) => refine (mono_readonly _ _ (readonly_ret _))
  | |- mono _ (mlift _) => refine (mono_readonly _ _ (readonly_lift _))
  | |- mono _ mget => refine (mono_readonly _ _ readonly_get)
  | |- mono _ (mcatch _) => refine (mono_catch _ _ _)
  | |- mono _ (if _ then _ else _) => refine (mono_if _ _ _ _ _ _)
  | |- mono _ (let '(_, _) := ?p in _) => destruct p
  | |- mono _ (match ?x with _ => _ end) => destruct x
  | |- _ => solve [eauto with mono]
  end.

Section ServeMono.
Context (R : Store -> Store -> Prop) {HR : PreOrder R}.
Hypothesis R_fresh : forall db, R db (snd (fresh_oid db)).
Hypothesis R_employee : forall e, mono R (insert_employee e).
Hypothesis R_task : forall t, mono R (insert_task t).
Hypothesis R_location : forall l, mono R (insert_location l).
Hypothesis R_emergency : forall m, mono R (insert_emergency m).
Hypothesis R_log : forall l, mono R (insert_log l).
Hypothesis R_update : forall id st hrs db, R db (update_task id st hrs db).
Hypothesis R_cleanup : forall db s e, R db (cleanup_store db s e).

Context `{ML : MathLib}.
Variables (tza : Z) (toLocaleDateString : Z -> string) (number_to_string : Q -> string).
Variable other_op : string -> json -> option string -> bool.
Variable rnd : Request -> Randomness.

Lemma mono_fresh : mono R mfresh.
Proof.
  intro db. unfold mfresh. pose proof (R_fresh db) as Hf.
  destruct (fresh_oid db) as [o db']. exact Hf.
Qed.

#[local] Hint Resolve mono_fresh R_employee R_task R_location R_emergency R_log : mono.

Lemma mono_create_employee now obj : mono R (create_employee number_to_string now obj).
Proof. unfold create_employee. mono_tac. Qed.

Lemma mono_create_task now obj : mono R (create_task number_to_string now obj).
Proof. unfold create_task. mono_tac. Qed.

Lemma mono_create_location now obj : mono R (create_location now obj).
Proof. unfold create_location. mono_tac. Qed.

Lemma mono_create_emergency now obj : mono R (create_emergency number_to_string now obj).
Proof. unfold create_emergency. mono_tac. Qed.

Lemma mono_create_log now obj : mono R (create_log number_to_string now obj).
Proof. unfold create_log. mono_tac. Qed.

#[local] Hint Resolve mono_create_employee mono_create_task mono_create_location
  mono_create_emergency mono_create_log R_update R_cleanup : mono.

Lemma mono_log_request r : mono R (log_request number_to_string r).
Proof. unfold log_request, find_by_id. cbv zeta. mono_tac. Qed.

Lemma mono_run_post p r db : R db (fst (run_post tza number_to_string other_op p r db)).
Proof.
  destruct p; simpl; try unfold cleanup_route; refine (mono_run_route _ _ _ _ _);
    unfold register, login, post_task, post_location, post_emergency, task_progress,
      cleanup_weekly_data; mono_tac.
Qed.

Lemma serve_mono r db :
  R db (fst (serve tza toLocaleDateString number_to_string other_op rnd r db)).
Proof.
  unfold serve, handler.
  destruct (String.eqb (req_method r) "GET" || String.eqb (req_method r) "HEAD").
  - destruct (get_route _) as [g|]; simpl; [|reflexivity].
    pose proof (run_get_readonly tza toLocaleDateString number_to_string other_op rnd g r db) as Hg.
    destruct (run_get _ _ _ _ _ g r db) as [db1 resp]. simpl in *. subst db1. apply mono_log_request.
  - destruct (String.eqb (req_method r) "POST"); [|reflexivity].
    destruct (post_route _) as [p|]; simpl; [|reflexivity].
    pose proof (mono_run_post p r db) as Hp.
    destruct (run_post _ _ _ p r db) as [db1 resp]. simpl in *.
    transitivity db1; [exact Hp | apply mono_log_request].
Qed.

Lemma serve_all_mono rs db :
  R db (fst (serve_all tza toLocaleDateString number_to_string other_op rnd rs db)).
Proof.
  revert db. induction rs as [|r rs IH]; intro db; simpl; [reflexivity|].
  pose proof (serve_mono r db) as Hs.
  destruct (serve _ _ _ _ _ r db) as [db1 resp]. specialize (IH db1).
  destruct (serve_all _ _ _ _ _ rs db1) as [db2 resps]. simpl in *.
  transitivity db1; assumption.
Qed.
End ServeMono.

(** ** The two preorders: unique keys kept, employees and emergencies kept *)

#[export] Instance wf_kept_preorder : PreOrder wf_kept.
Proof. split; [intros db H; exact H | intros x y z H1 H2 H; auto]. Qed.

#[export] Instance append_only_preorder : PreOrder append_only.
Proof.
  split.
  - intro db. split; exists []; rewrite app_nil_r; reflexivity.
  - intros x y z [[l1 E1] [m1 F1]] [[l2 E2] [m2 F2]].
    split; [exists (l1 ++ l2)%list | exists (m1 ++ m2)%list]; rewrite ?E2, ?F2, ?E1, ?F1, app_assoc; reflexivity.
Qed.

Ltac insert_cases :=
  intros ? Hwf; unfold insert_employee, insert_task, insert_location, insert_emergency, insert_log;
  repeat match goal with
  | |- context [if ?b then _ else _] => let E := fresh "E" in destruct b eqn:E; [exact Hwf|]
  end.

Lemma wf_inserts :
  (forall e, mono wf_kept (insert_employee e)) /\ (forall t, mono wf_kept (insert_task t)) /\
  (forall l, mono wf_kept (insert_location l)) /\ (forall m, mono wf_kept (insert_emergency m)) /\
  (forall l, mono wf_kept (insert_log l)).
Proof.
  refine (conj _ (conj _ (conj _ (conj _ _)))); intro; insert_cases; destruct Hwf as (? & ? & ? & ? & ? & ?);
    unfold store_wf; simpl; rewrite ?map_app; repeat split; try assumption;
    apply NoDup_snoc; auto using id_taken_false, email_taken_false.
Qed.

Lemma wf_update id st hrs db : wf_kept db (update_task id st hrs db).
Proof.
  destruct id as [| |o]; [|exact (fun H => H)|];
    intros (? & ? & ? & ? & ? & ?); unfold store_wf; simpl; rewrite ?update_head_ids, ?update_first_ids; tauto.
Qed.

Lemma wf_cleanup db s e : wf_kept db (cleanup_store db s e).
Proof.
  intros (? & ? & ? & ? & ? & ?). unfold store_wf, cleanup_store. simpl.
  repeat split; try assumption; apply NoDup_map_filter; assumption.
Qed.

Lemma append_inserts :
  (forall e, mono append_only (insert_employee e)) /\ (forall t, mono append_only (insert_task t)) /\
  (forall l, mono append_only (insert_location l)) /\ (forall m, mono append_only (insert_emergency m)) /\
  (forall l, mono append_only (insert_log l)).
Proof.
  refine (conj _ (conj _ (conj _ (conj _ _)))); intros ? db; unfold insert_employee, insert_task, insert_location,
    insert_emergency, insert_log;
    repeat match goal with |- context [if ?b then _ else _] => destruct b end;
    simpl; try reflexivity;
    split; first [exists []; rewrite app_nil_r; reflexivity | eexists; reflexivity].
Qed.

#[export] Instance same_tasks_preorder : PreOrder same_tasks.
Proof. split; [intro; reflexivity | intros x y z H1 H2; unfold same_tasks in *; congruence]. Qed.

(** The middleware's write never touches a task. *)
Lemma log_request_tasks number_to_string r db :
  tasks (snd (log_request number_to_string r db)) = tasks db.
Proof.
  apply (mono_log_request same_tasks); [intro; reflexivity|].
  intros l db'. unfold insert_log. destruct (id_taken _ _); reflexivity.
Qed.

#[export] Instance same_locations_preorder : PreOrder same_locations.
Proof. split; [intro; reflexivity | intros x y z H1 H2; unfold same_locations in *; congruence]. Qed.

(** The middleware's write never touches a location. *)
Lemma log_request_locations number_to_string r db :
  locations (snd (log_request number_to_string r db)) = locations db.
Proof.
  apply (mono_log_request same_locations); [intro; reflexivity|].
  intros l db'. unfold insert_log. destruct (id_taken _ _); reflexivity.
Qed.

#[export] Instance same_employees_preorder : PreOrder same_employees.
Proof. split; [intro; reflexivity | intros x y z H1 H2; unfold same_employees in *; congruence]. Qed.

(** The middleware's write never touches an employee. *)
Lemma log_request_employees number_to_string r db :
  employees (snd (log_request number_to_string r db)) = employees db.
Proof.
  apply (mono_log_request same_employees); [intro; reflexivity|].
  intros l db'. unfold insert_log. destruct (id_taken _ _); reflexivity.
Qed.

Lemma update_first_absent o st hrs ts : ~ In o (map task_id ts) -> update_first o st hrs ts = ts.
Proof.
  induction ts as [|t r IH]; simpl; [reflexivity|]. intro Hn.
  destruct (String.eqb (task_id t) o) eqn:E.
  - apply String.eqb_eq in E. exfalso. apply Hn. left. exact E.
  - rewrite IH; [reflexivity | tauto].
Qed.

(** ** Theorems *)

Section ServerTheorems.
Context `{ML : MathLib}.
Variables (tza : Z) (toLocaleDateString : Z -> string) (number_to_string : Q -> string).
Variable other_op : string -> json -> option string -> bool.
Variable rnd : Request -> Randomness.


(** C11. In every store a sequence of requests produces from the empty
    database, the [_id]s of each collection are distinct and no two
    employees share an email. *)
Theorem reachable_store_wf (db : Store) :
  reachable tza toLocaleDateString number_to_string other_op rnd db -> store_wf db.
Proof.
  destruct wf_inserts as (He & Ht & Hl & Hm & Hg).
  induction 1 as [|r db _ IH].
  - repeat constructor.
  - apply (serve_mono wf_kept (fun db H => H) He Ht Hl Hm Hg wf_update wf_cleanup); exact IH.
Qed.

(** C12. No sequence of requests removes or changes an employee or an
    emergency: both collections only grow at their end. *)
Theorem serve_all_append_only (rs : list Request) (db : Store) :
  append_only db (fst (serve_all tza toLocaleDateString number_to_string other_op rnd rs db)).
Proof.
  destruct append_inserts as (He & Ht & Hl & Hm & Hg).
  apply (serve_all_mono append_only); auto.
  - intro. split; exists []; rewrite app_nil_r; reflexivity.
  - intros [| |o] st hrs db'; simpl; split; exists []; rewrite app_nil_r; reflexivity.
  - intros. split; exists []; rewrite app_nil_r; reflexivity.
Qed.

(** A [GET] request never changes the store. *)
Theorem serve_get_readonly (r : Request) (db : Store) :
  req_method r = "GET" -> fst (serve tza toLocaleDateString number_to_string other_op rnd r db) = db.
Proof. exact (serve_get_store tza toLocaleDateString number_to_string other_op rnd r db). Qed.

Lemma serve_response r db :
  snd (serve tza toLocaleDateString number_to_string other_op rnd r db) = match handler tza toLocaleDateString number_to_string other_op rnd r with
                      | None => not_found r
                      | Some h => snd (h db)
                      end.
Proof.
  unfold serve. destruct (handler _ _ _ _ _ r) as [h|]; [|reflexivity].
  destruct (h db). reflexivity.
Qed.

(** C19. A login whose body carries neither an email nor a password matches
    every employee on those paths: the route answers with the first active
    employee's document, password included. *)
Theorem login_without_credentials (r : Request) (db : Store) (e : Employee) :
  req_method r = "POST" -> req_path r = "/api/login" ->
  jget (req_body r) "email" = JUndefined -> jget (req_body r) "password" = JUndefined ->
  find (fun x => match isActive x with Some true => true | _ => false end) (employees db) = Some e ->
  snd (serve tza toLocaleDateString number_to_string other_op rnd r db) = res_json (doc_json (employee_json e)).
Proof.
  intros Hm Hp He Hw Hf. rewrite serve_response. unfold handler. rewrite Hm, Hp. simpl.
  unfold run_route, login, mbind, mlift, mget, mret. rewrite He, Hw. simpl.
  unfold login_match. simpl. rewrite Hf. reflexivity.
Qed.

(** C18. A cleanup request without a truthy [backup_confirmed] is refused
    with 400 and deletes nothing, yet the logging middleware still appends
    one log to the store ([system_action], with the request's body as its
    details). *)
Theorem cleanup_refused_still_logs (r : Request) (db : Store) :
  req_method r = "POST" -> req_path r = "/api/cleanup/weekly-data" ->
  truthy (jget (req_body r) "backup_confirmed") = false ->
  jget (req_body r) "employee_id" = JUndefined ->
  truthy (jget (req_body r) "task_id") = false ->
  truthy (jget (req_body r) "latitude") = false ->
  id_taken (oid_of_N (next_oid db)) (map log_id (logs db)) = false ->
  let '(db', resp) := serve tza toLocaleDateString number_to_string other_op rnd r db in
  resp = res_error 400 "Backup confirmation required" /\
  tasks db' = tasks db /\ locations db' = locations db /\
  employees db' = employees db /\ emergencies db' = emergencies db /\
  exists l, logs db' = (logs db ++ [l])%list /\ action_type l = Some "system_action" /\
            details l = req_body r.
Proof.
  intros Hm Hp Hc He Ht Hl Hid.
  unfold serve, handler. rewrite Hm, Hp. simpl.
  unfold cleanup_route, run_route, cleanup_weekly_data. rewrite Hc. simpl.
  unfold log_request, is_logged. rewrite Hm, Hp. simpl.
  rewrite He, Ht. simpl.
  unfold mcatch, mbind, mret, create_log, mfresh, mlift. simpl.
  unfold log_of, logData. rewrite Hl, He. simpl.
  destruct (req_ip r); unfold mbind, mret, insert_log; simpl; rewrite Hid; simpl;
    rewrite Hp, Hm; repeat split; eexists; repeat split.
Qed.

(** [POST /api/task-progress] for a well-formed id that names no task
    answers that the progress was updated, and no task changes. *)
Theorem task_progress_unknown_task (r : Request) (db : Store) (s o a : string) :
  req_method r = "POST" -> req_path r = "/api/task-progress" ->
  jget (req_body r) "task_id" = JStr s -> cast_oid s = Some o ->
  ~ In o (map task_id (tasks db)) ->
  jget (req_body r) "action" = JStr a -> jget (req_body r) "actual_hours" = JUndefined ->
  let '(db', resp) := serve tza toLocaleDateString number_to_string other_op rnd r db in
  resp = res_json (JObj [("message", JStr "Task progress updated successfully")]) /\
  tasks db' = tasks db.
Proof.
  intros Hm Hp Ht Ho Hn Ha Hh.
  unfold serve, handler. rewrite Hm, Hp. simpl.
  unfold run_route, task_progress, mbind, mlift, mget, mput, mret, cast_update_filter, cast_id_filter.
  rewrite Ht, Ho, Ha, Hh. simpl. split; [reflexivity|].
  rewrite log_request_tasks. simpl. apply update_first_absent. exact Hn.
Qed.

(** [POST /api/task-progress] without a [task_id] updates a task anyway:
    the filter of [findByIdAndUpdate] is empty, so the first task in
    natural order gets the status and the hours, whoever it belongs to. *)
Theorem task_progress_without_id (r : Request) (db : Store) (t : Task) (rest : list Task) (a : string) :
  req_method r = "POST" -> req_path r = "/api/task-progress" ->
  jget (req_body r) "task_id" = JUndefined -> jget (req_body r) "action" = JStr a ->
  jget (req_body r) "actual_hours" = JUndefined -> tasks db = t :: rest ->
  let '(db', resp) := serve tza toLocaleDateString number_to_string other_op rnd r db in
  resp = res_json (JObj [("message", JStr "Task progress updated successfully")]) /\
  tasks db' = set_progress (Some (Some a)) (Some 0%Q) t :: rest.
Proof.
  intros Hm Hp Ht Ha Hh Hdb.
  unfold serve, handler. rewrite Hm, Hp. simpl.
  unfold run_route, task_progress, mbind, mlift, mget, mput, mret, cast_update_filter.
  rewrite Ht, Ha, Hh. simpl. split; [reflexivity|].
  rewrite log_request_tasks. simpl. rewrite Hdb. reflexivity.
Qed.

(** Express's routing as [handler] models it: case-insensitive literal
    segments, the parameter kept as written, one trailing slash allowed,
    and a [HEAD] request served by the [GET] route and logged by the
    middleware, whose test is [req.method !== 'GET']. *)
Example express_routing :
  get_route (route_segs "/API/Tasks/Ab1/") = Some (GTasks "Ab1") /\
  post_route (route_segs "/api/Login/") = Some PLogin /\
  get_route (route_segs "/api/tasks/x//") = None /\
  is_logged (sample_request "HEAD" "/api/tasks/x" (JObj []) (JObj []) jan7_1000) = true.
Proof. repeat split. Qed.

(** An emergency alert writes one emergency and two logs: the route's
    own [Log.create] and the middleware's. *)
Theorem emergency_logged_twice :
  let db' := fst (serve tza toLocaleDateString number_to_string other_op rnd
                    emergency_request empty_store) in
  List.length (emergencies db') = 1%nat /\
  map action_type (logs db') = [Some "emergency_triggered"; Some "emergency_triggered"].
Proof. vm_compute. split; reflexivity. Qed.

(** C36. The middleware keeps a login's whole body in the log it writes:
    for every login request with an email and a password, on every store
    whose next ObjectId is free, the served store has exactly one more
    log, whose [details] is the request body, password in clear. *)
Theorem login_password_logged (db : Store) (r : Request) (email password : string) :
  req_method r = "POST" -> req_path r = "/api/login" ->
  req_body r = JObj [("email", JStr email); ("password", JStr password)] ->
  id_taken (oid_of_N (next_oid db)) (map log_id (logs db)) = false ->
  exists l, logs (fst (serve tza toLocaleDateString number_to_string other_op rnd r db)) =
              (logs db ++ [l])%list /\
            details l = req_body r /\ jget (details l) "password" = JStr password.
Proof.
  intros Hm Hp Hb Hfree. unfold serve, handler. rewrite Hp, Hm. cbn -[run_post log_request].
  destruct (run_post tza number_to_string other_op PLogin r db) as [db1 resp] eqn:E.
  assert (Hdb : db1 = db).
  { replace db1 with (fst (run_post tza number_to_string other_op PLogin r db)) by (rewrite E; reflexivity).
    apply run_route_readonly, login_readonly. }
  subst db1. unfold log_request, is_logged. rewrite Hm, Hp. cbn -[create_log].
  rewrite Hb. cbn -[create_log].
  unfold create_log, mbind, mfresh, mlift, fresh_oid. cbn -[oid_of_N].
  unfold mcatch, logData. rewrite Hb, Hp, Hm.
  destruct (req_ip r) as [ip|]; cbn -[oid_of_N insert_log];
    unfold insert_log; cbn -[oid_of_N id_taken]; rewrite Hfree; cbn -[oid_of_N];
    eexists; (split; [reflexivity | split; reflexivity]).
Qed.
End ServerTheorems.

(** ** Witnesses *)

Section Witnesses.
Lemma reachable_store_wf_witness :
  store_wf (fst (test_serve emergency_request empty_store)).
Proof.
  apply (reachable_store_wf 0 (fun _ => "") (fun _ => "0") (fun _ _ _ => false)
           (fun _ => no_jitter)).
  apply reach_serve, reach_empty.
Defined.

Lemma serve_get_readonly_witness : fst (test_serve export_request empty_store) = empty_store.
Proof. apply serve_get_readonly. reflexivity. Defined.

Lemma login_without_credentials_witness :
  snd (test_serve (login_request (JObj [])) ana_store) = res_json (doc_json (employee_json ana_employee)).
Proof. apply login_without_credentials; reflexivity. Defined.

Lemma cleanup_refused_still_logs_witness :
  let '(db', resp) := test_serve (sample_request "POST" "/api/cleanup/weekly-data" (JObj []) (JObj [])
                                 jan7_1000) empty_store in
  resp = res_error 400 "Backup confirmation required" /\
  tasks db' = tasks empty_store /\ locations db' = locations empty_store /\
  employees db' = employees empty_store /\ emergencies db' = emergencies empty_store /\
  exists l, logs db' = (logs empty_store ++ [l])%list /\ action_type l = Some "system_action" /\
            details l = JObj [].
Proof. apply (cleanup_refused_still_logs (ML := TestMath)); reflexivity. Defined.

Lemma task_progress_unknown_task_witness :
  let '(db', resp) := test_serve progress_request empty_store in
  resp = res_json (JObj [("message", JStr "Task progress updated successfully")]) /\
  tasks db' = tasks empty_store.
Proof.
  refine (task_progress_unknown_task (ML := TestMath) 0 (fun _ => "") (fun _ => "0")
            (fun _ _ _ => false) (fun _ => no_jitter) progress_request empty_store
            "000000000000000000000009" "000000000000000000000009" "completed"
            eq_refl eq_refl eq_refl eq_refl _ eq_refl eq_refl).
  simpl. tauto.
Defined.
End Witnesses.

Lemma login_password_logged_witness :
  let r := login_request (JObj [("email", JStr "ana@example.com"); ("password", JStr "hunter2")]) in
  exists l, logs (fst (serve (ML := TestMath) 0 (fun _ => "") (fun _ => "0") (fun _ _ _ => false)
                          (fun _ => no_jitter) r empty_store)) = (logs empty_store ++ [l])%list /\
            details l = req_body r /\ jget (details l) "password" = JStr "hunter2".
Proof.
  apply (login_password_logged (ML := TestMath) 0 (fun _ => "") (fun _ => "0") (fun _ _ _ => false)
           (fun _ => no_jitter) empty_store _ "ana@example.com" "hunter2"); reflexivity.
Defined.
