(* ===== verification/Answers.v ===== *)
(** * Answers: the shape of every response of [src/server.js]

    Every route handler of the server ends in [res.json(...)] with a plain
    object or an array, or in its [catch] with
    [res.status(c).json({ error })]. The only other answers are those of
    [GET /api/ping], which sends text (line 604), and Express's 404 for a
    request no route takes. The statuses the code writes are 200
    ([res.json]), 400, 401 (the refused login, line 187) and 500.

    The client relies on this shape: it calls [response.json()] on every
    answer. This file states it as a type of the answers ([json_answer])
    and proves it for [serve] with a postcondition calculus ([returns]) on
    the handler monad [M] of [Http]. *)

From Stdlib Require Import QArith ZArith Lia List String Ascii Bool.
From S2P Require Import Prelude JsValue Dates GeoDistance Store Http Documents Mileage Payroll Csv.
From S2P Require Import WeeklyReport Cleanup Routes Priority Middleware Server.
Import ListNotations.
Local Open Scope list_scope.
Local Open Scope string_scope.

(** A body [response.json()] parses to an object or an array. *)
Definition json_body (v : json) : bool :=
  match v with JObj _ | JArr _ => true | _ => false end.

(** The statuses the routes write. *)
Definition route_status (c : Z) : bool := existsb (Z.eqb c) [200; 400; 401; 500]%Z.

Definition json_answer (resp : Response) : bool :=
  route_status (res_status resp) && json_body (res_body resp).

(** A handler body whose value, when it returns one, satisfies [P]. *)
Definition returns {A : Type} (P : A -> Prop) (c : M A) : Prop :=
  forall db, match fst (c db) with Ok a => P a | Throw _ => True end.

(** ** Lemmas *)

Section Returns.
Context {A : Type} (P : A -> Prop).

Lemma returns_ret (a : A) : P a -> returns P (mret a).
Proof. intros H db. exact H. Qed.

Lemma returns_bind {B : Type} (c : M B) (k : B -> M A) :
  (forall b, returns P (k b)) -> returns P (mbind c k).
Proof.
  intros Hk db. unfold mbind. destruct (c db) as [[b|m] db']; [apply Hk | exact I].
Qed.

Lemma returns_lift_throw m : returns P (mlift (Throw m)).
Proof. intro. exact I. Qed.

Lemma returns_lift_ok (a : A) : P a -> returns P (mlift (Ok a)).
Proof. intros H db. exact H. Qed.
End Returns.

Lemma run_route_answer code body db :
  route_status code = true -> returns (fun r => json_answer r = true) body ->
  json_answer (snd (run_route code body db)) = true.
Proof.
  intros Hc Hb. unfold run_route. specialize (Hb db).
  destruct (body db) as [[r|m] db']; simpl in *; [exact Hb|].
  unfold json_answer. simpl. rewrite Hc. reflexivity.
Qed.

(** Prove that an unfolded handler body answers a JSON object or array
    with a status of the routes. *)
Ltac answers :=
  repeat match goal with
  | |- returns _ (mbind _ _) => apply returns_bind; intro
  | |- returns _ (mret _) => apply returns_ret
  | |- returns _ (mlift (Throw _)) => apply returns_lift_throw
  | |- returns _ (let '(_, _) := ?p in _) => destruct p
  | |- returns _ (match ?x with _ => _ end) => destruct x
  | |- returns _ (if ?b then _ else _) => destruct b
  | |- json_answer _ = true => reflexivity
  end.

Section Shape.
Context `{ML : MathLib}.
Variables (tza : Z) (toLocaleDateString : Z -> string) (number_to_string : Q -> string).
Variable other_op : string -> json -> option string -> bool.
Variable rnd : Request -> Randomness.

(** C14. Every answer of the server has one of three shapes: a JSON object
    or array with the status 200, 400, 401 or 500 (every route, on every
    path of its [try] and [catch]); the text of [GET /api/ping]; or
    Express's 404 text for a request no route takes. A [HEAD] request runs
    the [GET] route (Node then sends the headers without the body). *)
Theorem serve_answer_shape (r : Request) (db : Store) :
  let resp := snd (serve tza toLocaleDateString number_to_string other_op rnd r db) in
  json_answer resp = true \/ resp = ping \/ (resp = not_found r /\ res_status resp = 404%Z).
Proof.
  intro resp. unfold resp. rewrite serve_response. unfold handler.
  destruct (String.eqb (req_method r) "GET" || String.eqb (req_method r) "HEAD").
  - destruct (get_route _) as [g|]; simpl; [|right; right; split; reflexivity].
    destruct g; simpl; try (right; left; reflexivity); try (left; reflexivity); left;
      unfold mileage_route, timesheet_route, time_savings_route, weekly_report_route, prioritized_route;
      apply run_route_answer; try reflexivity;
      unfold get_tasks, get_locations, get_logs, get_mileage, get_timesheet, get_time_savings,
        get_weekly_report, get_prioritized; answers.
  - destruct (String.eqb (req_method r) "POST"); [|right; right; split; reflexivity].
    destruct (post_route _) as [p|]; simpl; [left | right; right; split; reflexivity].
    destruct p; simpl; try unfold cleanup_route; apply run_route_answer; try reflexivity;
      unfold register, login, post_task, post_location, post_emergency, task_progress,
        cleanup_weekly_data; answers.
Qed.
End Shape.
