(* ===== verification/Bootstrap.v ===== *)
(** * Bootstrap: the setup of [src/server.js] and [src/test-connection.js]

    Before the routes, [server.js] installs (lines 12-23) [helmet()], a
    [cors] middleware with an origin list (the Vercel front end and
    [FRONTEND_URL]) and credentials, a second [cors()] with the defaults,
    the JSON body parser and the static files of [../public]. The [cors]
    package (expressjs/cors) sets [Access-Control-Allow-Origin] from its
    [origin] option: ['*'] by default, the request's origin when an origin
    list contains it, nothing otherwise (a [false] value is not written);
    [credentials: true] adds [Access-Control-Allow-Credentials: true]; an
    [OPTIONS] request is a preflight, which it answers itself with 204. A
    header set twice keeps the last value. [app_handle] is one request
    through the two [cors] layers and then [Server.serve]; helmet's headers,
    the body parser's content types and the static files are not modelled
    (the files are not under [src/]).

    The start (lines 26-35, 607-613) stops the process when [MONGODB_URI] is
    missing and listens on [PORT || 3000]. [test-connection.js] prints and
    exits according to the outcome of [mongoose.connect]. *)

From Stdlib Require Import QArith ZArith Lia List String Ascii Bool.
From S2P Require Import Prelude JsValue Dates GeoDistance Store Http Documents Csv Routes.
From S2P Require Import Priority Middleware Server.
Import ListNotations.
Local Open Scope list_scope.
Local Open Scope string_scope.

(** [process.env]: the three variables the code reads. *)
Record Env : Type := mkEnv {
  MONGODB_URI : option string;
  PORT : option string;
  FRONTEND_URL : option string
}.

(** ** CORS *)

(** The [origin] option: the default ['*'] or a list of allowed origins
    (an unset variable is [undefined], which allows nothing). *)
Inductive OriginOpt : Type := AnyOrigin | OriginList (l : list (option string)).

Record CorsOptions : Type := mkCors { cors_origin : OriginOpt; cors_credentials : bool }.

(** [cors({ origin: [...], credentials: true })] (lines 13-19) *)
Definition whitelist_cors (env : Env) : CorsOptions :=
  mkCors (OriginList [Some "https://fieldforce-pro.vercel.app"; FRONTEND_URL env]) true.

(** [cors()] (line 21) *)
Definition default_cors : CorsOptions := mkCors AnyOrigin false.

Definition Headers : Type := list (string * string).

(** [res.setHeader(k, v)]: the new value replaces the old one. *)
Definition set_header (k v : string) (hs : Headers) : Headers :=
  (k, v) :: filter (fun kv => negb (String.eqb (fst kv) k)) hs.

Definition header (k : string) (hs : Headers) : option string :=
  match find (fun kv => String.eqb (fst kv) k) hs with Some (_, v) => Some v | None => None end.

(** [isOriginAllowed(origin, list)] *)
Definition is_origin_allowed (origin : option string) (l : list (option string)) : bool :=
  existsb (fun a => match a, origin with
                    | Some a', Some o => String.eqb a' o
                    | _, _ => false
                    end) l.

(** [configureOrigin]: the value of [Access-Control-Allow-Origin], if any. *)
Definition configure_origin (opts : CorsOptions) (origin : option string) : option string :=
  match cors_origin opts with
  | AnyOrigin => Some "*"
  | OriginList l => if is_origin_allowed origin l then origin else None
  end.

(** What a middleware does: end the response, or pass it on. *)
Inductive MwResult : Type :=
| Ended (status : Z) (hs : Headers)
| Next (hs : Headers).

(** One [cors] layer. *)
Definition cors_mw (opts : CorsOptions) (method : string) (origin : option string) (hs : Headers)
  : MwResult :=
  let hs1 := match configure_origin opts origin with
             | Some v => set_header "Access-Control-Allow-Origin" v hs
             | None => hs
             end in
  let hs2 := if cors_credentials opts then set_header "Access-Control-Allow-Credentials" "true" hs1
             else hs1 in
  if String.eqb method "OPTIONS"
  then Ended 204 (set_header "Access-Control-Allow-Methods" "GET,HEAD,PUT,PATCH,POST,DELETE" hs2)
  else Next hs2.

(** Lines 13-21: the two layers in order. *)
Definition cors_chain (env : Env) (method : string) (origin : option string) : MwResult :=
  match cors_mw (whitelist_cors env) method origin [] with
  | Ended st hs => Ended st hs
  | Next hs => cors_mw default_cors method origin hs
  end.

Section App.
Context `{ML : MathLib}.
Variable tza : Z.
Variable toLocaleDateString : Z -> string.
Variable number_to_string : Q -> string.
Variable other_op : string -> json -> option string -> bool.
Variable rnd : Request -> Randomness.

(** A request from a page of [origin]: the CORS layers, then the routes. *)
Definition app_handle (env : Env) (origin : option string) (r : Request) (db : Store)
  : Store * Response * Headers :=
  match cors_chain env (req_method r) origin with
  | Ended st hs => (db, mkResponse st JUndefined, hs)
  | Next hs =>
      let '(db', resp) := serve tza toLocaleDateString number_to_string other_op rnd r db in
      (db', resp, hs)
  end.
End App.

(** ** Start *)

Inductive Startup : Type :=
| Exit (code : Z) (stderr : list string)
| Listen (port host : string) (stdout : list string).

(** [process.env.PORT || 3000] *)
Definition port_of (env : Env) : string :=
  match PORT env with Some p => if String.eqb p "" then "3000" else p | None => "3000" end.

(** Lines 26-35 and 607-613: the check of [MONGODB_URI], then [listen].
    [mongoose.connect] runs in the background. *)
Definition startup (env : Env) : Startup :=
  let missing := Exit 1 [bytes [226; 157; 140]%nat " MONGODB_URI not found in environment variables"] in
  match MONGODB_URI env with
  | Some u =>
      if String.eqb u "" then missing
      else Listen (port_of env) "0.0.0.0"
             [bytes [240; 159; 154; 128]%nat (" FieldForce Pro running on port " ++ port_of env)]
  | None => missing
  end.

(** ** [test-connection.js] *)

(** What [mongoose.connect] settles to: the connection's database name and
    host, or the error's message. *)
Inductive ConnectOutcome : Type :=
| Connected (name host : string)
| ConnectFailed (message : string).

(** The run: the lines of standard output, of standard error, and the exit
    code ([console.log(a, b)] joins its arguments with a space). *)
Definition test_connection (o : ConnectOutcome) : list string * list string * Z :=
  let intro := [bytes [240; 159; 148; 132]%nat " Attempting to connect to MongoDB...";
                "Using MongoDB URI from .env file" ++ String newline ""] in
  match o with
  | Connected name host =>
      ((intro ++ [bytes [226; 156; 133]%nat " MongoDB Connected Successfully!";
                 bytes [240; 159; 147; 129]%nat (" Database: " ++ name);
                 bytes [240; 159; 140; 144]%nat (" Host: " ++ host);
                 String newline (bytes [240; 159; 142; 137]%nat
                                   (" Your MongoDB setup is working!" ++ String newline ""))])%list,
       [], 0%Z)
  | ConnectFailed msg =>
      (intro,
       [bytes [226; 157; 140]%nat " MongoDB Connection Failed!";
        "Error: " ++ msg;
        String newline "Please check:";
        "1. Your password in .env file is correct";
        "2. Password special characters are URL encoded";
        "3. Network access is set to 0.0.0.0/0 in MongoDB Atlas" ++ String newline ""],
       1%Z)
  end.

(** The list of [cors({ origin: [...] })] in [server.js]. *)
Definition allowed_origins (env : Env) : list (option string) :=
  [Some "https://fieldforce-pro.vercel.app"; FRONTEND_URL env].

(** A page of a site outside the list. *)
Definition foreign_origin : option string := Some "https://attacker.example".

(** ** Lemmas *)

Lemma header_set_same k v hs : header k (set_header k v hs) = Some v.
Proof. unfold header, set_header. simpl. rewrite String.eqb_refl. reflexivity. Qed.

Lemma header_set_other k k' v hs : k <> k' -> header k (set_header k' v hs) = header k hs.
Proof.
  intro Hne. unfold header, set_header. simpl.
  destruct (String.eqb_spec k' k) as [<-|_]; [congruence|].
  induction hs as [|[a b] hs IH]; simpl; [reflexivity|].
  destruct (String.eqb_spec a k') as [->|Ha]; simpl.
  - destruct (String.eqb_spec k' k); [congruence|]. exact IH.
  - destruct (String.eqb a k); [reflexivity | exact IH].
Qed.

(** A simple request passes both layers; the second writes ['*'] over
    what the first wrote and keeps its credentials header. *)
Lemma cors_chain_simple env method origin :
  method <> "OPTIONS" ->
  exists hs, cors_chain env method origin = Next hs /\
             header "Access-Control-Allow-Origin" hs = Some "*" /\
             header "Access-Control-Allow-Credentials" hs = Some "true".
Proof.
  intro Hm. apply String.eqb_neq in Hm.
  unfold cors_chain, cors_mw. rewrite Hm. simpl. eexists. split; [reflexivity|].
  split; [apply header_set_same|].
  rewrite header_set_other by discriminate.
  apply header_set_same.
Qed.

Lemma cors_chain_preflight env origin :
  exists hs, cors_chain env "OPTIONS" origin = Ended 204 hs /\
             header "Access-Control-Allow-Origin" hs =
               (if is_origin_allowed origin (allowed_origins env) then origin else None) /\
             header "Access-Control-Allow-Credentials" hs = Some "true".
Proof.
  unfold cors_chain, cors_mw, configure_origin, whitelist_cors. simpl cors_origin. simpl cors_credentials.
  rewrite String.eqb_refl. eexists. split; [reflexivity|].
  rewrite !header_set_other by discriminate.
  split.
  - unfold allowed_origins. destruct (is_origin_allowed origin _); [|reflexivity].
    destruct origin as [o|]; [|reflexivity].
    apply header_set_same.
  - apply header_set_same.
Qed.

Lemma startup_cases env :
  (exists u, MONGODB_URI env = Some u /\ u <> "" /\
             startup env = Listen (port_of env) "0.0.0.0"
               [bytes [240; 159; 154; 128]%nat (" FieldForce Pro running on port " ++ port_of env)]) \/
  ((MONGODB_URI env = None \/ MONGODB_URI env = Some "") /\
   startup env = Exit 1 [bytes [226; 157; 140]%nat " MONGODB_URI not found in environment variables"]).
Proof.
  unfold startup. destruct (MONGODB_URI env) as [u|]; [|right; auto].
  destruct (String.eqb_spec u "") as [->|Hu]; [right; auto|left].
  exists u. auto.
Qed.

Section AppLaws.
Context `{ML : MathLib}.
Variables (tza : Z) (toLocaleDateString : Z -> string) (number_to_string : Q -> string).
Variable other_op : string -> json -> option string -> bool.
Variable rnd : Request -> Randomness.

(** C16. The origin list does not restrict simple requests: for every
    request that is not a preflight, from a page of any origin, listed or
    not, the routes run as without CORS and the answer carries
    [Access-Control-Allow-Origin: *] (the second [cors()] writes it over
    the first layer's decision), so any site can read every answer of the
    API, the logs and the weekly report included; the first layer's
    [Access-Control-Allow-Credentials: true] stays beside the wildcard. *)
Theorem cors_any_origin_reads (env : Env) (origin : option string) (r : Request) (db : Store) :
  req_method r <> "OPTIONS" ->
  exists hs, app_handle tza toLocaleDateString number_to_string other_op rnd env origin r db =
               (fst (serve tza toLocaleDateString number_to_string other_op rnd r db), snd (serve tza toLocaleDateString number_to_string other_op rnd r db), hs) /\
             header "Access-Control-Allow-Origin" hs = Some "*" /\
             header "Access-Control-Allow-Credentials" hs = Some "true".
Proof.
  intro Hm. destruct (cors_chain_simple env (req_method r) origin Hm) as (hs & Hc & Ho & Hcr).
  exists hs. unfold app_handle. rewrite Hc.
  destruct (serve tza toLocaleDateString number_to_string other_op rnd r db). auto.
Qed.

(** A preflight never reaches the routes: the first layer answers 204,
    with the request's origin as [Access-Control-Allow-Origin] when the
    list contains it and no such header otherwise. *)
Theorem cors_preflight_answer (env : Env) (origin : option string) (r : Request) (db : Store) :
  req_method r = "OPTIONS" ->
  exists hs, app_handle tza toLocaleDateString number_to_string other_op rnd env origin r db =
               (db, mkResponse 204 JUndefined, hs) /\
             header "Access-Control-Allow-Origin" hs =
               (if is_origin_allowed origin (allowed_origins env) then origin else None) /\
             header "Access-Control-Allow-Credentials" hs = Some "true".
Proof.
  intro Hm. destruct (cors_chain_preflight env origin) as (hs & Hc & Ho & Hcr).
  exists hs. unfold app_handle. rewrite Hm, Hc. auto.
Qed.
End AppLaws.

(** The server listens exactly when [MONGODB_URI] is set and not empty,
    and then on [PORT] or 3000, on every interface. *)
Theorem startup_listens_iff (env : Env) :
  (exists p h out, startup env = Listen p h out) <-> (exists u, MONGODB_URI env = Some u /\ u <> "").
Proof.
  destruct (startup_cases env) as [(u & Hu & Hne & Hs) | [Hu Hs]]; rewrite Hs; split.
  - eauto.
  - eauto.
  - intros (? & ? & ? & ?). discriminate.
  - intros (u & Hu' & Hne). destruct Hu as [Hu|Hu]; rewrite Hu in Hu'; congruence.
Qed.

(** [test-connection.js] exits with 0 exactly when the connection is
    made, writes to standard error only on failure, and always prints its
    two opening lines first. *)
Theorem test_connection_exit (o : ConnectOutcome) :
  let '(out, err, code) := test_connection o in
  (code = 0%Z <-> exists n h, o = Connected n h) /\
  (err = [] <-> code = 0%Z) /\
  firstn 2 out = [bytes [240; 159; 148; 132]%nat " Attempting to connect to MongoDB...";
                  "Using MongoDB URI from .env file" ++ String newline ""].
Proof.
  destruct o as [n h|m]; simpl; repeat split; eauto; intros H;
    try discriminate; try (destruct H as (? & ? & ?); discriminate).
Qed.

(** ** Witnesses *)

Lemma cors_any_origin_reads_witness :
  exists hs, app_handle (ML := TestMath) 0 (fun _ => "") (fun _ => "0") (fun _ _ _ => false)
               (fun _ => no_jitter) (mkEnv (Some "mongodb://db") None None) foreign_origin
               export_request ana_store =
             (fst (test_serve export_request ana_store), snd (test_serve export_request ana_store), hs) /\
             header "Access-Control-Allow-Origin" hs = Some "*" /\
             header "Access-Control-Allow-Credentials" hs = Some "true".
Proof. apply (cors_any_origin_reads (ML := TestMath)). discriminate. Defined.

Lemma cors_preflight_answer_witness :
  let r := mkRequest "OPTIONS" "/api/logs" (JObj []) (JObj []) None None jan7_1000 in
  exists hs, app_handle (ML := TestMath) 0 (fun _ => "") (fun _ => "0") (fun _ _ _ => false)
               (fun _ => no_jitter) (mkEnv (Some "mongodb://db") None None) foreign_origin r ana_store =
             (ana_store, mkResponse 204 JUndefined, hs) /\
             header "Access-Control-Allow-Origin" hs = None /\
             header "Access-Control-Allow-Credentials" hs = Some "true".
Proof. apply (cors_preflight_answer (ML := TestMath)). reflexivity. Defined.
