(* ===== verification/Client.v ===== *)
(** * Client: the browser application of [src/app.js] against the server

    The class [FieldForcePro] keeps the logged-in employee
    ([this.currentEmployee], the parsed body of the login answer), the last
    position ([this.lastLocation]) and the emergency type chosen. Each of its
    actions builds one request from that state and the form's values, sends
    it with [fetch], and renders the parsed answer. The model has, per action,
    the request it builds ([*_req]) and what it displays from the answer
    ([*_display], the interpolated text of its template). [fetch] runs a
    request on a server given as a step function and returns the store after
    it, [response.ok] and the parsed body. [fetch_net] is the same call
    through a network ([Net]) that may lose the request or its answer: the
    [fetch] then rejects, and the action's [catch] runs.

    A body crosses the wire as JSON ([json_wire]): [JSON.stringify] drops the
    [undefined] properties of an object, writes a Date as its ISO string and
    an [undefined] array element as [null]; [JSON.parse] reads that back.
    The values of the form fields reach the model as the actions'
    arguments; the session's state machine (login, tracking, reload) is in
    [Session], the dashboard's figures in [Dashboard].

    The theorems follow the requests to the server: after a login, every
    employee request names [undefined]. The earnings request's window ends
    at the local midnight that starts the month's last day, so the rest of
    that day is not counted. *)

From Stdlib Require Import QArith ZArith Lia List String Ascii Bool.
From S2P Require Import Prelude JsValue Dates GeoDistance Store Http Documents Mileage Payroll Csv.
From S2P Require Import WeeklyReport Cleanup Routes Priority Middleware Server.
Import ListNotations.
Local Open Scope list_scope.
Local Open Scope string_scope.

(** ** The wire *)

(** [JSON.parse(JSON.stringify(v))] for the values that cross it. *)
Fixpoint json_wire (v : json) : json :=
  match v with
  | JDate (Some t) => JStr (toISOString t)
  | JDate None => JNull
  | JArr items => JArr (map (fun x => match x with JUndefined => JNull | _ => json_wire x end) items)
  | JObj fs =>
      JObj (flat_map (fun '(k, x) => match x with
                                     | JUndefined => []
                                     | _ => [(k, json_wire x)]
                                     end) fs)
  | _ => v
  end.

(** [response.ok]: a status from 200 to 299. *)
Definition response_ok (r : Response) : bool := (200 <=? res_status r)%Z && (res_status r <? 300)%Z.

(** [fetch(request)] then [response.json()]. *)
Definition fetch (srv : Request -> Store -> Store * Response) (r : Request) (db : Store)
  : Store * (bool * json) :=
  let '(db', resp) := srv r db in (db', (response_ok resp, json_wire (res_body resp))).

(** A network between the page and the server: the store after the
    request, and the response if one reached the page. *)
Definition Net : Type := Request -> Store -> Store * option Response.

(** The network that always delivers. *)
Definition reliable (srv : Request -> Store -> Store * Response) : Net :=
  fun r db => let '(db', resp) := srv r db in (db', Some resp).

(** The network of a page that is offline: nothing reaches the server. *)
Definition offline : Net := fun _ db => (db, None).

(** A network that loses every answer after the server ran. *)
Definition lossy (srv : Request -> Store -> Store * Response) : Net := fun r db => (fst (srv r db), None).

(** [await fetch(...)] and [await response.json()]: [response.ok] and the
    parsed body, or the [TypeError] of a rejected [fetch]. *)
Definition fetch_net (net : Net) (r : Request) (db : Store) : Store * result (bool * json) :=
  let '(db', a) := net r db in
  match a with
  | Some resp => (db', Ok (response_ok resp, json_wire (res_body resp)))
  | None => (db', Throw "Failed to fetch")
  end.

(** [try { ... } catch (error) { ... }] on a computation that throws. *)
Definition catch {A : Type} (c : result A) (h : string -> A) : A :=
  match c with
  | Ok a => a
  | Throw m => h m
  end.

(** [obj.k]: [null] and [undefined] have no properties. *)
Definition prop (t : json) (k : string) : result json :=
  match t with
  | JNull => Throw ("Cannot read properties of null (reading '" ++ k ++ "')")
  | JUndefined => Throw ("Cannot read properties of undefined (reading '" ++ k ++ "')")
  | _ => Ok (jget t k)
  end.

(** ** The client's state *)

Record Client : Type := mkClient {
  currentEmployee : json;        (** [this.currentEmployee] *)
  lastLocation : json;           (** [this.lastLocation]: [{ lat, lng, accuracy }] or [undefined] *)
  currentEmergencyType : json    (** [this.currentEmergencyType] *)
}.

Section Actions.
(** The browser's [Number.prototype.toString]. *)
Variable number_to_string : Q -> string.
(** The client's address and [User-Agent], which the server reads. *)
Variable ip user_agent : option string.

Let str (v : json) : string := js_string number_to_string v.

Definition client_request (m path : string) (query body : json) (now : Z) : Request :=
  mkRequest m path query (json_wire body) ip user_agent now.

(** [`/api/<route>/${this.currentEmployee.id}`] *)
Definition employee_path (route : string) (c : Client) : string :=
  "/api/" ++ route ++ "/" ++ str (jget (currentEmployee c) "id").

(** [handleLogin] (lines 76-104): [{ email, password }] from the form. *)
Definition login_req (email password : string) (now : Z) : Request :=
  client_request "POST" "/api/login" (JObj []) (JObj [("email", JStr email); ("password", JStr password)]) now.

(** On [response.ok], [this.currentEmployee = await response.json()]. *)
Definition after_login (ok : bool) (body : json) (c : Client) : Client :=
  if ok then mkClient body (lastLocation c) (currentEmergencyType c) else c.

(** [handleRegister] (lines 106-135). *)
Definition register_req (name email password : string) (now : Z) : Request :=
  client_request "POST" "/api/register" (JObj [])
    (JObj [("name", JStr name); ("email", JStr email); ("password", JStr password)]) now.

(** [calculateCurrentEarnings] (lines 196-207): the month of [now] in local
    time, [new Date(y, m, 1)] and [new Date(y, m + 1, 0)]. *)
Definition month_bounds (tza now : Z) : Z * Z :=
  let '(y, m, _) := civil_from_days (Day (LocalTime tza now)) in
  (UTC tza (MakeDate (MakeDay y (m - 1) 1) 0), UTC tza (MakeDate (MakeDay y m 0) 0)).

Definition earnings_req (tza : Z) (c : Client) (now : Z) : Request :=
  let '(first, last) := month_bounds tza now in
  client_request "GET" (employee_path "mileage" c)
    (JObj [("startDate", JStr (toISOString first)); ("endDate", JStr (toISOString last))])
    (JObj []) now.

(** [data.reimbursement || '$0.00'] *)
Definition earnings_display (data : json) : string :=
  let v := jget data "reimbursement" in if truthy v then str v else "$0.00".

(** [calculateTimeSaved] (lines 209-217). *)
Definition time_saved_req (c : Client) (now : Z) : Request :=
  client_request "GET" (employee_path "time-savings" c) (JObj []) (JObj []) now.

(** [data.timeSaved + ' hours' || '0 hours'] *)
Definition time_saved_display (data : json) : string :=
  let s := str (jget data "timeSaved") ++ " hours" in
  if String.eqb s "" then "0 hours" else s.

(** [calculateMileage] (lines 388-417), from the two date inputs. *)
Definition mileage_req (c : Client) (startDate endDate : string) (now : Z) : Request :=
  client_request "GET" (employee_path "mileage" c)
    (JObj [("startDate", JStr startDate); ("endDate", JStr endDate)]) (JObj []) now.

Definition mileage_display (data : json) : list string :=
  ["$" ++ str (jget data "reimbursement");
   "You drove " ++ str (jget data "totalMiles") ++ " miles during this period";
   str (jget data "period")].

(** [calculateTimesheet] (lines 419-456). *)
Definition timesheet_req (c : Client) (startDate endDate : string) (now : Z) : Request :=
  client_request "GET" (employee_path "timesheet" c)
    (JObj [("startDate", JStr startDate); ("endDate", JStr endDate)]) (JObj []) now.

Definition timesheet_display (data : json) : list string :=
  [str (jget data "totalPay") ++ " Total Pay";
   str (jget data "regularHours") ++ "h"; str (jget data "overtime") ++ "h";
   str (jget data "regularPay"); str (jget data "overtimePay"); str (jget data "period")].

(** [updateLocation] (lines 607-631): the position's coordinates. *)
Definition location_req (c : Client) (lat lng accuracy : Q) (now : Z) : Request :=
  client_request "POST" "/api/location" (JObj [])
    (JObj [("employee_id", jget (currentEmployee c) "id");
           ("latitude", JNum lat); ("longitude", JNum lng); ("accuracy", JNum accuracy);
           ("battery_level", JNull)]) now.

(** [sendEmergencyAlert] (lines 497-535), once [message.trim()] is not empty. *)
Definition emergency_req (c : Client) (message : string) (now : Z) : Request :=
  client_request "POST" "/api/emergency" (JObj [])
    (JObj [("employee_id", jget (currentEmployee c) "id");
           ("employee_name", jget (currentEmployee c) "name");
           ("emergency_type", currentEmergencyType c);
           ("message", JStr message);
           ("location", lastLocation c)]) now.

(** [updateProgress] (lines 298-316); [hours] is the value of
    [parseFloat(...) || 0] as [JSON.stringify] writes it. *)
Definition progress_req (c : Client) (taskId action notes : string) (hours : json) (now : Z)
  : Request :=
  client_request "POST" "/api/task-progress" (JObj [])
    (JObj [("task_id", JStr taskId); ("employee_id", jget (currentEmployee c) "id");
           ("action", JStr action); ("notes", JStr notes);
           ("actual_hours", hours);
           ("location_lat", jget (lastLocation c) "lat");
           ("location_lng", jget (lastLocation c) "lng")]) now.

(** [generateWeeklyReport] and [exportData] (lines 640-714). *)
Definition report_req (weekStart weekEnd : string) (now : Z) : Request :=
  client_request "GET" "/api/export/weekly-report"
    (JObj [("week_start", JStr weekStart); ("week_end", JStr weekEnd)]) (JObj []) now.

(** [displayExportResults(files)] (lines 716-749): the three record counts. *)
Definition export_counts (files : json) : list nat :=
  map (fun k => client_record_count (str (jget files k))) ["tasks"; "locations"; "logs"].

(** [cleanupData] (lines 768-804), once the user confirmed the dialog. *)
Definition cleanup_req (weekStart weekEnd : string) (now : Z) : Request :=
  client_request "POST" "/api/cleanup/weekly-data" (JObj [])
    (JObj [("week_start", JStr weekStart); ("week_end", JStr weekEnd);
           ("backup_confirmed", JBool true)]) now.

Definition cleanup_display (ok : bool) (result : json) : string :=
  if ok then
    let d := jget result "deleted" in
    "Cleanup completed! Deleted: " ++ str (jget d "tasks") ++ " tasks, " ++
    str (jget d "locations") ++ " locations, " ++ str (jget d "logs") ++ " logs"
  else
    let e := jget result "error" in if truthy e then str e else "Cleanup failed".
End Actions.

(** A browser before any login. *)
Definition fresh_client : Client := mkClient JUndefined JUndefined JUndefined.

(** ** Lemmas *)

Lemma fetch_net_reliable srv r db :
  fetch_net (reliable srv) r db = let '(db', x) := fetch srv r db in (db', Ok x).
Proof. unfold fetch_net, reliable, fetch. destruct (srv r db). reflexivity. Qed.

(** A [fetch] that gets no answer rejects, with the store the network left. *)
Lemma fetch_net_lost net r db :
  snd (net r db) = None -> fetch_net net r db = (fst (net r db), Throw "Failed to fetch").
Proof. unfold fetch_net. destruct (net r db) as [db' [resp|]]; [discriminate | reflexivity]. Qed.

Lemma jget_cons_other k k' v fs : String.eqb k' k = false -> jget (JObj ((k', v) :: fs)) k = jget (JObj fs) k.
Proof. intro H. unfold jget. simpl. rewrite H. reflexivity. Qed.

(** A property the object does not have is not created by the wire. *)
Lemma json_wire_absent fs k : ~ In k (map fst fs) -> jget (json_wire (JObj fs)) k = JUndefined.
Proof.
  induction fs as [|[k' x] fs IH]; intro Hn; [reflexivity|].
  simpl in Hn. assert (Hk : String.eqb k' k = false) by (apply String.eqb_neq; tauto).
  assert (IH' : jget (json_wire (JObj fs)) k = JUndefined) by (apply IH; tauto).
  simpl in IH' |- *. destruct x; simpl; rewrite ?Hk; exact IH' || (unfold jget; simpl; rewrite Hk; exact IH').
Qed.

(** With distinct keys, a property of the sent object is the sent value of
    that property. *)
Lemma jget_wire fs k : NoDup (map fst fs) -> jget (json_wire (JObj fs)) k = json_wire (jget (JObj fs) k).
Proof.
  induction fs as [|[k' x] fs IH]; intro Hnd; [reflexivity|].
  simpl in Hnd. apply NoDup_cons_iff in Hnd as [Hn Hnd].
  destruct (String.eqb k' k) eqn:Hk.
  - apply String.eqb_eq in Hk. subst k'.
    assert (Ha : jget (json_wire (JObj fs)) k = JUndefined) by (apply json_wire_absent; exact Hn).
    unfold jget at 2. simpl. rewrite String.eqb_refl.
    destruct x; simpl in Ha |- *; try exact Ha; unfold jget; simpl; rewrite String.eqb_refl; reflexivity.
  - rewrite (jget_cons_other k k' x fs Hk), <- (IH Hnd).
    destruct x; simpl; try reflexivity; unfold jget; simpl; rewrite Hk; reflexivity.
Qed.

(** [JSON.parse(JSON.stringify(.))] is idempotent: what crossed the wire
    once crosses it again unchanged. *)
Lemma json_wire_idem : forall v : json, json_wire (json_wire v) = json_wire v.
Proof.
  fix json_wire_idem 1. intro v.
  destruct v as [| | | | |[t|]|items|fs]; try reflexivity.
  - simpl. f_equal. rewrite map_map. revert items. fix IHl 1. intros [|x r]; [reflexivity|].
    simpl. f_equal; [|apply IHl]. pose proof (json_wire_idem x) as Hx.
    destruct x as [| | | | |[t|]|l|l]; try reflexivity; exact Hx.
  - simpl. f_equal. revert fs. fix IHl 1. intros [|[k x] r]; [reflexivity|].
    cbn [flat_map]. rewrite flat_map_app, IHl. f_equal. pose proof (json_wire_idem x) as Hx.
    destruct x as [| | | | |[t|]|l|l]; try reflexivity; cbn [flat_map app];
      rewrite Hx; reflexivity.
Qed.

Section ClientTheorems.
Context `{ML : MathLib}.
Variables (tza : Z) (toLocaleDateString : Z -> string) (number_to_string : Q -> string).
Variable other_op : string -> json -> option string -> bool.
Variable rnd : Request -> Randomness.
Variables (ip user_agent : option string).

(** Every answer of the login route, an accepted login included, is an
    object without an [id] property. *)
Lemma login_answer_no_id (r : Request) (db : Store) :
  req_method r = "POST" -> req_path r = "/api/login" ->
  jget (json_wire (res_body (snd (serve tza toLocaleDateString number_to_string other_op rnd r db))))
    "id" = JUndefined.
Proof.
  intros Hm Hp. rewrite serve_response. unfold handler. rewrite Hm, Hp. simpl.
  unfold run_route, login, mbind, mlift, mget, mret.
  destruct (cast_conds _ "email" _) as [ce|m]; [|reflexivity].
  destruct (cast_conds _ "password" _) as [cp|m]; [|reflexivity].
  destruct (find _ _) as [e|]; [|reflexivity].
  apply json_wire_absent. simpl. intuition discriminate.
Qed.

(** C20. The client never names its employee: the login answer has no
    [id], so after any accepted login the mileage tab requests
    [/api/mileage/undefined], the server refuses it, and the tab shows
    [$undefined] as the reimbursement and [undefined] as the miles. *)
Theorem mileage_tab_after_login (db : Store) (email password startDate endDate : string)
    (now1 now2 : Z) (c : Client) :
  let srv := serve tza toLocaleDateString number_to_string other_op rnd in
  let '(db1, (ok, body)) := fetch srv (login_req ip user_agent email password now1) db in
  ok = true ->
  let '(_, (ok2, data)) :=
    fetch srv (mileage_req number_to_string ip user_agent (after_login ok body c)
                 startDate endDate now2) db1 in
  ok2 = false /\
  mileage_display number_to_string data =
    ["$undefined"; "You drove undefined miles during this period"; "undefined"].
Proof.
  intro srv. unfold fetch.
  destruct (srv (login_req ip user_agent email password now1) db) as [db1 resp] eqn:E1.
  intro Hok. unfold after_login. rewrite Hok.
  assert (Hid : jget (json_wire (res_body resp)) "id" = JUndefined).
  { replace resp with (snd (srv (login_req ip user_agent email password now1) db)) by (rewrite E1; reflexivity).
    apply login_answer_no_id; reflexivity. }
  unfold mileage_req, employee_path, client_request. simpl currentEmployee. rewrite Hid.
  unfold srv, serve, handler. simpl.
  split; reflexivity.
Qed.

(** C33. The dashboard's earnings request leaves out the month's last day.
    [calculateCurrentEarnings] sends [firstDay] and [lastDay] as
    [toISOString] texts. The server's [new Date(...)] reads back exactly
    those two instants, to the millisecond. [lastDay] is
    [new Date(y, m + 1, 0)], the local midnight that starts the day before
    the first of the next month. So every later instant of that last day
    lies outside the window [$gte: startDate, $lte: endDate] of the
    mileage route: a fix logged then is not paid this month. *)
Theorem earnings_window_misses_last_day (ctza now : Z) (c : Client) (first last : Z) :
  month_bounds ctza now = (first, last) ->
  (let '(y, _, _) := civil_from_days (Day first) in 0 <= y <= 9999)%Z ->
  (let '(y, _, _) := civil_from_days (Day last) in 0 <= y <= 9999)%Z ->
  let q := req_query (earnings_req number_to_string ip user_agent ctza c now) in
  newDate (jget q "startDate") = Some first /\ newDate (jget q "endDate") = Some last /\
  let '(y, m, _) := civil_from_days (Day (LocalTime ctza now)) in
  LocalTime ctza last = ((MakeDay y m 1 - 1) * msPerDay)%Z /\
  (forall t, (last < t < last + msPerDay)%Z ->
             Day (LocalTime ctza t) = (MakeDay y m 1 - 1)%Z /\ in_window first last t = false).
Proof.
  intros Hb Hf Hl q. unfold q, earnings_req. rewrite Hb. cbn [req_query client_request jget].
  split; [apply date_parse_toISOString, Hf|]. split; [apply date_parse_toISOString, Hl|].
  unfold month_bounds in Hb. destruct (civil_from_days (Day (LocalTime ctza now))) as [[y m] d].
  injection Hb as _ <-. unfold LocalTime, UTC, MakeDate.
  assert (Hd : MakeDay y m 0 = (MakeDay y m 1 - 1)%Z) by (unfold MakeDay; lia).
  rewrite Hd. split; [lia|]. intros t Ht. split.
  - unfold Day. symmetry. apply Z.div_unique with (r := (t + ctza - (MakeDay y m 1 - 1) * msPerDay)%Z);
      unfold msPerDay in *; lia.
  - unfold in_window. apply andb_false_intro2, Z.leb_gt. lia.
Qed.
End ClientTheorems.

(** ** Witnesses *)

Lemma mileage_tab_after_login_witness :
  let srv := test_serve in
  let '(db1, (ok, body)) := fetch srv (login_req None None "ana@example.com" "hunter2" jan7_1000) ana_store in
  ok = true /\
  let '(_, (ok2, data)) :=
    fetch srv (mileage_req (fun _ => "0") None None (after_login ok body fresh_client)
                 "2024-01-01" "2024-01-31" jan7_1005) db1 in
  ok2 = false /\
  mileage_display (fun _ => "0") data =
    ["$undefined"; "You drove undefined miles during this period"; "undefined"].
Proof.
  pose proof (mileage_tab_after_login (ML := TestMath) 0 (fun _ => "") (fun _ => "0")
                (fun _ _ _ => false) (fun _ => no_jitter) None None ana_store
                "ana@example.com" "hunter2" "2024-01-01" "2024-01-31" jan7_1000 jan7_1005
                fresh_client) as H.
  unfold test_serve. vm_compute in H |- *. split; [reflexivity | apply H; reflexivity].
Defined.

(** January 2024 on a UTC host: the window ends at 31 January 00:00. *)
Lemma earnings_window_misses_last_day_witness :
  month_bounds 0 jan7_1000 = (1704067200000, 1706659200000)%Z /\
  (let '(y, _, _) := civil_from_days (Day 1704067200000) in 0 <= y <= 9999)%Z /\
  (let '(y, _, _) := civil_from_days (Day 1706659200000) in 0 <= y <= 9999)%Z /\
  let q := req_query (earnings_req (fun _ => "0") None None 0 fresh_client jan7_1000) in
  newDate (jget q "startDate") = Some 1704067200000%Z /\ newDate (jget q "endDate") = Some 1706659200000%Z /\
  let '(y, m, _) := civil_from_days (Day (LocalTime 0 jan7_1000)) in
  LocalTime 0 1706659200000 = ((MakeDay y m 1 - 1) * msPerDay)%Z /\
  (forall t, (1706659200000 < t < 1706659200000 + msPerDay)%Z ->
             Day (LocalTime 0 t) = (MakeDay y m 1 - 1)%Z /\ in_window 1704067200000 1706659200000 t = false).
Proof.
  split; [reflexivity|]. split; [vm_compute; split; discriminate|]. split; [vm_compute; split; discriminate|].
  apply (earnings_window_misses_last_day (fun _ => "0") None None 0 jan7_1000 fresh_client); [reflexivity | |];
    vm_compute; split; discriminate.
Defined.
