(* ===== verification/Session.v ===== *)
(** * Session: the life of the client of [src/app.js] as a state machine

    The class [FieldForcePro] keeps, besides the employee and the last
    position ([Client.Client]), the handles of location tracking
    ([this.locationWatchId], [this.autoLocationInterval], [this.isTracking]).
    The browser keeps what outlives a handler: [localStorage], the active
    [watchPosition] watches and [setInterval] timers, and the
    [getCurrentPosition] calls not answered yet. A [Session] is both, with
    the parts of the page the handlers write and the model follows: the
    active screen, the safety status and the last notification.

    [handle] is one event: a form or button handler ([handleLogin],
    [logout], the [startTracking] button, the register and login links), a
    new page load ([new FieldForcePro()], whose [checkAuth] reads
    [localStorage]), or a browser callback (a watch's position, an answer to
    [getCurrentPosition], a tick of the hourly timer). A handler that sends a
    request runs it on the server [srv] and threads the store. The requests
    [showDashboard] starts ([updateDashboardMetrics], [loadTasks]) and
    [loadEmergencyContacts] are GET requests, which change neither the store
    nor the state this file follows. The model lets any event happen in any
    state, also those the page's markup would hide; the invariants hold a
    fortiori. *)

From Stdlib Require Import QArith ZArith Lia List String Ascii Bool.
From S2P Require Import Prelude JsValue Dates GeoDistance Store Http Documents Csv Routes.
From S2P Require Import Priority Middleware Server Client.
Import ListNotations.
Local Open Scope list_scope.
Local Open Scope string_scope.

(** ** Texts of the page *)

(** The texts of lines 588, 589, 603 and 615, byte for byte. *)
Definition status_active : string := bytes [239; 163; 191; 195; 188; 195; 188; 194; 162]%nat " Active".
Definition status_shared : string := status_active ++ "<br><small>Location shared</small>".
Definition status_inactive : string :=
  bytes [239; 163; 191; 195; 188; 195; 174; 194; 165]%nat " Inactive".
Definition tracking_on_msg : string :=
  bytes [239; 163; 191; 195; 188; 195; 172; 195; 167]%nat
    " Location tracking active - Safety features enabled!".

(** ** State *)

(** Which [getCurrentPosition] a pending answer belongs to: the immediate
    one of [startLocationTracking] or the one of the hourly timer. *)
Inductive FixKind : Type := FixNow | FixHourly.

Definition FixKind_eqb (a b : FixKind) : bool :=
  match a, b with FixNow, FixNow | FixHourly, FixHourly => true | _, _ => false end.

(** [position.coords] *)
Record Position : Type := mkPosition { pos_lat : Q; pos_lng : Q; pos_accuracy : Q }.

Record Browser : Type := mkBrowser {
  storage : option json;       (** [localStorage 'employee'], as [JSON.parse] reads it *)
  watches : list nat;          (** active [watchPosition] ids *)
  timers : list nat;           (** active [setInterval] ids *)
  pending : list FixKind;      (** [getCurrentPosition] calls not answered yet *)
  next_id : nat;               (** the next id the browser hands out *)
  has_geolocation : bool       (** [navigator.geolocation] *)
}.

Record Session : Type := mkSession {
  client : Client;                   (** [currentEmployee], [lastLocation], ... *)
  locationWatchId : option nat;      (** [null] or a watch id *)
  autoLocationInterval : option nat; (** [null] or a timer id *)
  isTracking : bool;
  screen : string;                   (** the [.screen] that is [active] *)
  safetyStatus : string;             (** [#safetyStatus] *)
  notice : option (string * string); (** the notification shown: message, type *)
  browser : Browser
}.

Inductive Event : Type :=
| Login (email password : string)    (** [loginForm] submit *)
| Logout                             (** [logoutBtn] *)
| Reload                             (** a new page over the same browser *)
| StartTracking                      (** [startTracking] button *)
| ShowScreen (id : string)           (** [showRegister] and [showLogin] links *)
| WatchFix (w : nat) (p : Position)  (** watch [w] reports a position *)
| CurrentFix (k : FixKind) (p : option Position)  (** a [getCurrentPosition] answers *)
| TimerTick (i : nat).               (** timer [i] fires *)

(** ** Small updates *)

Definition set_client (c : Client) (s : Session) : Session :=
  mkSession c (locationWatchId s) (autoLocationInterval s) (isTracking s) (screen s)
    (safetyStatus s) (notice s) (browser s).

Definition set_browser (b : Browser) (s : Session) : Session :=
  mkSession (client s) (locationWatchId s) (autoLocationInterval s) (isTracking s) (screen s)
    (safetyStatus s) (notice s) b.

Definition set_storage (st : option json) (b : Browser) : Browser :=
  mkBrowser st (watches b) (timers b) (pending b) (next_id b) (has_geolocation b).

(** [showScreen(screenId)] (lines 137-142) *)
Definition showScreen (id : string) (s : Session) : Session :=
  mkSession (client s) (locationWatchId s) (autoLocationInterval s) (isTracking s) id
    (safetyStatus s) (notice s) (browser s).

(** [showNotification(message, type)] (lines 844-868): it removes the one
    shown before. *)
Definition showNotification (msg typ : string) (s : Session) : Session :=
  mkSession (client s) (locationWatchId s) (autoLocationInterval s) (isTracking s) (screen s)
    (safetyStatus s) (Some (msg, typ)) (browser s).

Definition set_status (txt : string) (s : Session) : Session :=
  mkSession (client s) (locationWatchId s) (autoLocationInterval s) (isTracking s) (screen s)
    txt (notice s) (browser s).

Definition set_employee (e : json) (c : Client) : Client :=
  mkClient e (lastLocation c) (currentEmergencyType c).

Definition set_last_location (l : json) (c : Client) : Client :=
  mkClient (currentEmployee c) l (currentEmergencyType c).

(** [showDashboard()] (lines 144-149); its two requests are GET requests. *)
Definition showDashboard (s : Session) : Session := showScreen "dashboard" s.

(** Removing one occurrence, as [clearWatch] and the answer of a call do. *)
Fixpoint remove_nat (n : nat) (l : list nat) : list nat :=
  match l with
  | [] => []
  | m :: r => if Nat.eqb m n then r else m :: remove_nat n r
  end.

Fixpoint remove_kind (k : FixKind) (l : list FixKind) : list FixKind :=
  match l with
  | [] => []
  | k' :: r => if FixKind_eqb k' k then r else k' :: remove_kind k r
  end.

(** ** Handlers *)

(** [startLocationTracking()] (lines 542-590): one immediate
    [getCurrentPosition], a new watch and a new hourly timer, whose ids
    overwrite the ones the object held. *)
Definition startLocationTracking (s : Session) : Session :=
  let b := browser s in
  if negb (has_geolocation b)
  then showNotification "Geolocation is not supported by this browser." "error" s
  else
    let w := next_id b in
    let i := S (next_id b) in
    let b' := mkBrowser (storage b) (w :: watches b) (i :: timers b) (FixNow :: pending b)
                (S (S (next_id b))) true in
    showNotification tracking_on_msg "success"
      (mkSession (client s) (Some w) (Some i) true (screen s) status_active (notice s) b').

(** [stopLocationTracking()] (lines 592-605): each handle is cleared when
    it is truthy. *)
Definition stopLocationTracking (s : Session) : Session :=
  let b := browser s in
  let ws := match locationWatchId s with
            | Some w => if Nat.eqb w 0 then watches b else remove_nat w (watches b)
            | None => watches b
            end in
  let w' := match locationWatchId s with
            | Some w => if Nat.eqb w 0 then Some w else None
            | None => None
            end in
  let ts := match autoLocationInterval s with
            | Some i => if Nat.eqb i 0 then timers b else remove_nat i (timers b)
            | None => timers b
            end in
  let i' := match autoLocationInterval s with
            | Some i => if Nat.eqb i 0 then Some i else None
            | None => None
            end in
  showNotification "Location tracking stopped" "warning"
    (mkSession (client s) w' i' false (screen s) status_inactive (notice s)
       (mkBrowser (storage b) ws ts (pending b) (next_id b) (has_geolocation b))).

(** [logout()] (lines 151-157) *)
Definition logout (s : Session) : Session :=
  let s1 := set_client (set_employee JNull (client s)) s in
  let s2 := set_browser (set_storage None (browser s1)) s1 in
  showNotification "Logged out successfully" "success" (showScreen "loginScreen" (stopLocationTracking s2)).

(** [checkAuth()] (lines 159-165): a saved employee opens the dashboard. *)
Definition checkAuth (s : Session) : Session :=
  match storage (browser s) with
  | Some e => showDashboard (set_client (set_employee e (client s)) s)
  | None => s
  end.

(** [new FieldForcePro()] on a new page (lines 2-17): the constructor's
    nulls, then [init], whose [checkAuth] reads the storage. The browser
    drops the old page's watches, timers and pending calls. The page's
    markup (not under [src/]) opens on the login screen. *)
Definition page_load (b : Browser) : Session :=
  checkAuth (mkSession (mkClient JNull JNull JNull) None None false "loginScreen" "" None
               (mkBrowser (storage b) [] [] [] (next_id b) (has_geolocation b))).

Section Handlers.
(** The server the page talks to, the browser's [Number.prototype.toString],
    and the client's address and [User-Agent]. *)
Variable srv : Request -> Store -> Store * Response.
Variable number_to_string : Q -> string.
Variables (ip user_agent : option string).

(** [updateLocation(position, isAuto)] (lines 607-637): the position and the
    status first, then the request, whose body reads
    [this.currentEmployee.id]: a [TypeError], caught, when there is no
    employee. *)
Definition updateLocation (p : Position) (now : Z) (s : Session) (db : Store) : Session * Store :=
  let s1 := set_status status_shared
              (set_client (set_last_location (JObj [("lat", JNum (pos_lat p)); ("lng", JNum (pos_lng p));
                                                    ("accuracy", JNum (pos_accuracy p))]) (client s)) s) in
  match currentEmployee (client s1) with
  | JNull | JUndefined => (s1, db)
  | _ => (s1, fst (fetch srv (location_req ip user_agent (client s1) (pos_lat p) (pos_lng p)
                                 (pos_accuracy p) now) db))
  end.

(** [handleLogin(e)] (lines 76-104) *)
Definition handleLogin (email password : string) (now : Z) (s : Session) (db : Store) : Session * Store :=
  let '(db', (ok, body)) := fetch srv (login_req ip user_agent email password now) db in
  if ok then
    let s1 := set_client (set_employee body (client s)) s in
    let s2 := set_browser (set_storage (Some (json_wire body)) (browser s1)) s1 in
    (startLocationTracking (showNotification "Welcome to FieldForce Pro!" "success" (showDashboard s2)), db')
  else
    let err := jget body "error" in
    (showNotification (if truthy err then js_string number_to_string err else "Login failed") "error" s, db').

(** One event at time [now]. *)
Definition handle (ev : Event) (now : Z) (s : Session) (db : Store) : Session * Store :=
  match ev with
  | Login email password => handleLogin email password now s db
  | Logout => (logout s, db)
  | Reload => (page_load (browser s), db)
  | StartTracking => (startLocationTracking s, db)
  | ShowScreen id => (showScreen id s, db)
  | WatchFix w p =>
      if existsb (Nat.eqb w) (watches (browser s)) then updateLocation p now s db else (s, db)
  | CurrentFix k p =>
      let b := browser s in
      if existsb (FixKind_eqb k) (pending b) then
        let s1 := set_browser (mkBrowser (storage b) (watches b) (timers b) (remove_kind k (pending b))
                                 (next_id b) (has_geolocation b)) s in
        match p, k with
        | Some pos, _ => updateLocation pos now s1 db
        | None, FixNow =>
            (showNotification
               "Location access denied. Please enable location services for safety features."
               "error" s1, db)
        | None, FixHourly => (s1, db)
        end
      else (s, db)
  | TimerTick i =>
      let b := browser s in
      if existsb (Nat.eqb i) (timers b) then
        (set_browser (mkBrowser (storage b) (watches b) (timers b) (FixHourly :: pending b)
                        (next_id b) (has_geolocation b)) s, db)
      else (s, db)
  end.

(** A sequence of timed events. *)
Fixpoint run_session (evs : list (Event * Z)) (s : Session) (db : Store) : Session * Store :=
  match evs with
  | [] => (s, db)
  | (ev, now) :: rest => let '(s', db') := handle ev now s db in run_session rest s' db'
  end.

(** The sessions a browser reaches from a first visit (empty storage), with
    any store and any events. *)
Inductive session_reachable : Session -> Prop :=
| sr_first_visit n geo :
    (0 < n)%nat -> session_reachable (page_load (mkBrowser None [] [] [] n geo))
| sr_event s db ev now :
    session_reachable s -> session_reachable (fst (handle ev now s db)).
End Handlers.

(** A first visit to the page in a browser with geolocation, and the
    session after Ana logs in on the test server. *)
Definition demo_browser : Browser := mkBrowser None [] [] [] 1 true.

Definition demo_logged_in : Session :=
  fst (handle test_serve (fun _ => "0") None None (Login "ana@example.com" "hunter2") jan7_1000
         (page_load demo_browser) ana_store).

(** A position reported in Times Square. *)
Definition demo_position : Position := mkPosition (40758 # 1000) (- (73985 # 1000)) 10.

(** [this.currentEmployee.id] does not throw: an employee is logged in. *)
Definition logged_in (s : Session) : bool :=
  match currentEmployee (client s) with JNull | JUndefined => false | _ => true end.

(** The handles the session and the browser agree on: the object is
    tracking exactly when it holds a watch and a timer, and those are active
    ids the browser handed out (positive, below [next_id]). *)
Definition tracking_wf (s : Session) : Prop :=
  let b := browser s in
  (0 < next_id b)%nat /\
  (isTracking s = true <-> locationWatchId s <> None) /\
  (locationWatchId s = None <-> autoLocationInterval s = None) /\
  (isTracking s = true -> has_geolocation b = true) /\
  (forall w, locationWatchId s = Some w -> In w (watches b)) /\
  (forall i, autoLocationInterval s = Some i -> In i (timers b)) /\
  (forall w, In w (watches b) -> 0 < w < next_id b)%nat /\
  (forall i, In i (timers b) -> 0 < i < next_id b)%nat.

(** [localStorage] holds the employee the object holds. *)
Definition storage_wf (s : Session) : Prop :=
  match storage (browser s) with
  | Some e => currentEmployee (client s) = e
  | None => currentEmployee (client s) = JNull
  end.

Definition session_wf (s : Session) : Prop := tracking_wf s /\ storage_wf s.

(** What [tracking_wf] and [storage_wf] read. *)
Definition track_view (s : Session) :=
  (isTracking s, locationWatchId s, autoLocationInterval s, watches (browser s), timers (browser s),
   next_id (browser s), has_geolocation (browser s)).

Definition storage_view (s : Session) := (storage (browser s), currentEmployee (client s)).

(** ** Lemmas *)

Lemma tracking_wf_view s s' : track_view s' = track_view s -> tracking_wf s -> tracking_wf s'.
Proof.
  unfold track_view, tracking_wf. intro H. injection H as Ht Hw Hi Hws Hts Hn Hg.
  rewrite Ht, Hw, Hi, Hws, Hts, Hn, Hg. exact (fun x => x).
Qed.

Lemma storage_wf_view s s' : storage_view s' = storage_view s -> storage_wf s -> storage_wf s'.
Proof. unfold storage_view, storage_wf. intro H. injection H as Hs He. rewrite Hs, He. exact (fun x => x). Qed.

Lemma session_wf_view s s' :
  track_view s' = track_view s -> storage_view s' = storage_view s -> session_wf s -> session_wf s'.
Proof. intros H1 H2 [Ht Hs]. split; [exact (tracking_wf_view _ _ H1 Ht) | exact (storage_wf_view _ _ H2 Hs)]. Qed.

Lemma remove_nat_In n x l : In x (remove_nat n l) -> In x l.
Proof.
  induction l as [|m r IH]; simpl; [tauto|].
  destruct (Nat.eqb m n); simpl; intuition.
Qed.

Lemma remove_nat_head n l : remove_nat n (n :: l) = l.
Proof. simpl. rewrite Nat.eqb_refl. reflexivity. Qed.

Lemma start_tracking_wf s : tracking_wf s -> tracking_wf (startLocationTracking s).
Proof.
  unfold startLocationTracking. destruct (has_geolocation (browser s)) eqn:G; simpl.
  - intros (Hn & _ & _ & _ & _ & _ & Hws & Hts). unfold tracking_wf; simpl.
    refine (conj _ (conj _ (conj _ (conj _ (conj _ (conj _ (conj _ _))))))).
    + lia.
    + split; intros _; [discriminate | reflexivity].
    + split; discriminate.
    + intros _. reflexivity.
    + intros w H. injection H as <-. left. reflexivity.
    + intros i H. injection H as <-. left. reflexivity.
    + intros w [<-|Hw]; [lia|]. specialize (Hws w Hw). lia.
    + intros i [<-|Hi]; [lia|]. specialize (Hts i Hi). lia.
  - apply tracking_wf_view. reflexivity.
Qed.

Lemma stop_tracking_wf s : tracking_wf s -> tracking_wf (stopLocationTracking s).
Proof.
  intros (Hn & Ht & Hwi & Hg & Hw & Hi & Hws & Hts).
  unfold stopLocationTracking, tracking_wf; simpl.
  destruct (locationWatchId s) as [w|] eqn:EW, (autoLocationInterval s) as [i|] eqn:EI;
    try (exfalso; destruct Hwi as [H1 H2];
         first [discriminate (H2 eq_refl) | discriminate (H1 eq_refl)]).
  - assert (Ew : Nat.eqb w 0 = false) by (apply Nat.eqb_neq; specialize (Hws w (Hw w eq_refl)); lia).
    assert (Ei : Nat.eqb i 0 = false) by (apply Nat.eqb_neq; specialize (Hts i (Hi i eq_refl)); lia).
    rewrite Ew, Ei.
    refine (conj Hn (conj _ (conj _ (conj _ (conj _ (conj _ (conj _ _))))))); try discriminate.
    + split; [discriminate | intro H; exfalso; apply H; reflexivity].
    + split; reflexivity.
    + intros x Hx. apply Hws, (remove_nat_In w), Hx.
    + intros x Hx. apply Hts, (remove_nat_In i), Hx.
  - refine (conj Hn (conj _ (conj _ (conj _ (conj _ (conj _ (conj Hws Hts))))))); try discriminate.
    + split; [discriminate | intro H; exfalso; apply H; reflexivity].
    + split; reflexivity.
Qed.

Lemma start_tracking_storage s : storage_view (startLocationTracking s) = storage_view s.
Proof. unfold startLocationTracking. destruct (has_geolocation (browser s)); reflexivity. Qed.

Lemma fetch_wire srv r db : json_wire (snd (snd (fetch srv r db))) = snd (snd (fetch srv r db)).
Proof. unfold fetch. destruct (srv r db). apply json_wire_idem. Qed.

Lemma updateLocation_views srv ip ua p now s db :
  track_view (fst (updateLocation srv ip ua p now s db)) = track_view s /\
  storage_view (fst (updateLocation srv ip ua p now s db)) = storage_view s.
Proof. unfold updateLocation. simpl. destruct (currentEmployee (client s)); split; reflexivity. Qed.

Lemma updateLocation_wf srv ip ua p now s db :
  session_wf s -> session_wf (fst (updateLocation srv ip ua p now s db)).
Proof. destruct (updateLocation_views srv ip ua p now s db) as [H1 H2]. apply session_wf_view; assumption. Qed.

Lemma start_session_wf s : session_wf s -> session_wf (startLocationTracking s).
Proof.
  intros [Ht Hs]. split; [apply start_tracking_wf, Ht|].
  apply (storage_wf_view s); [apply start_tracking_storage | exact Hs].
Qed.

Lemma handle_wf srv nts ip ua ev now s db :
  session_wf s -> session_wf (fst (handle srv nts ip ua ev now s db)).
Proof.
  intros Hwf. destruct ev as [email password| | | |id|w p|k p|i]; simpl.
  - unfold handleLogin. pose proof (fetch_wire srv (login_req ip ua email password now) db) as Hb.
    destruct (fetch srv (login_req ip ua email password now) db) as [db' [ok body]]. simpl in Hb.
    destruct ok; simpl; apply start_session_wf || (revert Hwf; apply session_wf_view; reflexivity).
    split; [apply (tracking_wf_view s); [reflexivity | exact (proj1 Hwf)]|].
    unfold storage_wf; simpl. symmetry. exact Hb.
  - destruct Hwf as [Ht _]. split; [|reflexivity].
    apply (tracking_wf_view (stopLocationTracking
             (set_browser (set_storage None (browser (set_client (set_employee JNull (client s)) s)))
                (set_client (set_employee JNull (client s)) s)))); [reflexivity|].
    apply stop_tracking_wf. revert Ht. apply tracking_wf_view. reflexivity.
  - destruct Hwf as [(Hn & _) Hs]. unfold page_load. unfold storage_wf in Hs.
    destruct (storage (browser s)) as [e|] eqn:E;
      (split; [unfold tracking_wf; simpl; repeat split; simpl; intuition (try discriminate; try lia) |
               unfold storage_wf; simpl; reflexivity]).
  - apply start_session_wf, Hwf.
  - revert Hwf. apply session_wf_view; reflexivity.
  - destruct (existsb (Nat.eqb w) (watches (browser s))); [apply updateLocation_wf, Hwf | exact Hwf].
  - destruct (existsb (FixKind_eqb k) (pending (browser s))); [|exact Hwf].
    assert (Hwf' : session_wf (set_browser (mkBrowser (storage (browser s)) (watches (browser s))
              (timers (browser s)) (remove_kind k (pending (browser s))) (next_id (browser s))
              (has_geolocation (browser s))) s)) by (revert Hwf; apply session_wf_view; reflexivity).
    destruct p as [pos|]; [apply updateLocation_wf, Hwf'|].
    destruct k; [revert Hwf'; apply session_wf_view; reflexivity | exact Hwf'].
  - destruct (existsb (Nat.eqb i) (timers (browser s))); [|exact Hwf].
    revert Hwf. apply session_wf_view; reflexivity.
Qed.

(** Pressing the tracking button while tracking, then logging out: the
    store is untouched and the object forgets both handles, but only the
    new watch and timer are cleared. *)
Lemma restart_logout_state srv nts ip ua s db now1 now2 :
  tracking_wf s -> isTracking s = true ->
  let '(s', db') := run_session srv nts ip ua [(StartTracking, now1); (Logout, now2)] s db in
  db' = db /\ isTracking s' = false /\ locationWatchId s' = None /\ autoLocationInterval s' = None /\
  watches (browser s') = watches (browser s) /\ timers (browser s') = timers (browser s) /\
  currentEmployee (client s') = JNull /\ safetyStatus s' = status_inactive.
Proof.
  intros (Hn & _ & _ & Hg & _) Ht. specialize (Hg Ht).
  simpl. unfold logout, startLocationTracking. rewrite Hg. simpl.
  unfold stopLocationTracking. simpl.
  replace (Nat.eqb (next_id (browser s)) 0) with false by (symmetry; apply Nat.eqb_neq; lia).
  rewrite !Nat.eqb_refl. repeat split; reflexivity.
Qed.

(** C24. Every session a browser reaches from its first visit, whatever the
    events and the server's answers, keeps the tracking handles and the
    storage consistent: the object tracks exactly when it holds a watch and
    a timer, those are active ids the browser handed out, and
    [localStorage] holds the employee the object holds. *)
Theorem session_reachable_wf srv nts ip ua s : session_reachable srv nts ip ua s -> session_wf s.
Proof.
  induction 1 as [n geo Hn|s db ev now _ IH]; [|apply handle_wf, IH].
  split; [unfold tracking_wf; simpl; intuition (try discriminate; try lia) | reflexivity].
Qed.

(** C25. Location tracking leaks: while tracking (after a login, which
    starts it), pressing the tracking button starts a second watch and timer
    over the handles of the first; logging out then clears only the second.
    The session says tracking is off, while the first watch and the first
    hourly timer stay active in the browser. *)
Theorem restart_then_logout_leaks srv nts ip ua s db now1 now2 :
  session_reachable srv nts ip ua s -> isTracking s = true ->
  let s' := fst (run_session srv nts ip ua [(StartTracking, now1); (Logout, now2)] s db) in
  isTracking s' = false /\ locationWatchId s' = None /\
  (exists w, locationWatchId s = Some w /\ In w (watches (browser s'))) /\
  (exists i, autoLocationInterval s = Some i /\ In i (timers (browser s'))).
Proof.
  intros Hr Ht. destruct (session_reachable_wf _ _ _ _ _ Hr) as [Hwf _].
  pose proof (restart_logout_state srv nts ip ua s db now1 now2 Hwf Ht) as H.
  destruct (run_session _ _ _ _ _ s db) as [s' db']. simpl.
  destruct H as (_ & Ht' & Hw' & _ & Hws & Hts & _).
  destruct Hwf as (_ & Hti & Hwi & _ & Hw & Hi & _).
  destruct (locationWatchId s) as [w|] eqn:EW; [|exfalso; apply (proj1 Hti Ht); reflexivity].
  destruct (autoLocationInterval s) as [i|] eqn:EI; [|exfalso; pose proof (proj2 Hwi eq_refl); discriminate].
  repeat split; try assumption.
  - exists w. rewrite Hws. split; [reflexivity | apply Hw; reflexivity].
  - exists i. rewrite Hts. split; [reflexivity | apply Hi; reflexivity].
Qed.

(** C26. The leaked watch keeps reporting after the logout: its next
    position sets the safety status back to "Active, Location shared" while
    no employee is logged in and tracking is off, and the request it tries
    fails on [this.currentEmployee.id] before reaching the server. *)
Theorem leaked_watch_reports_after_logout srv nts ip ua s db now1 now2 now3 p :
  session_reachable srv nts ip ua s -> isTracking s = true ->
  let '(s1, db1) := run_session srv nts ip ua [(StartTracking, now1); (Logout, now2)] s db in
  exists w, locationWatchId s = Some w /\
  let '(s2, db2) := handle srv nts ip ua (WatchFix w p) now3 s1 db1 in
  safetyStatus s2 = status_shared /\ isTracking s2 = false /\ db2 = db1 /\
  currentEmployee (client s2) = JNull.
Proof.
  intros Hr Ht. destruct (session_reachable_wf _ _ _ _ _ Hr) as [Hwf _].
  pose proof (restart_logout_state srv nts ip ua s db now1 now2 Hwf Ht) as H.
  destruct (run_session _ _ _ _ _ s db) as [s1 db1].
  destruct H as (_ & Ht1 & _ & _ & Hws & _ & He & _).
  destruct Hwf as (_ & Hti & _ & _ & Hw & _).
  destruct (locationWatchId s) as [w|] eqn:EW; [|exfalso; apply (proj1 Hti Ht); reflexivity].
  exists w. split; [reflexivity|].
  assert (Hin : existsb (Nat.eqb w) (watches (browser s1)) = true).
  { apply existsb_exists. exists w. rewrite Hws. split; [apply Hw; reflexivity | apply Nat.eqb_refl]. }
  simpl. rewrite Hin. unfold updateLocation. simpl. rewrite He. repeat split; assumption.
Qed.

(** C29. A reload gives the employee back but not the tracking:
    [checkAuth] reads the employee from [localStorage], and
    [JSON.parse(JSON.stringify(e))] is [e] for what came over the wire, so
    the page shows the same employee's dashboard; but it never calls
    [startLocationTracking], so the new page tracks nothing. *)
Theorem reload_restores_employee srv nts ip ua s db now :
  session_reachable srv nts ip ua s ->
  let s' := fst (handle srv nts ip ua Reload now s db) in
  currentEmployee (client s') = currentEmployee (client s) /\
  screen s' = match storage (browser s) with Some _ => "dashboard" | None => "loginScreen" end /\
  isTracking s' = false /\ watches (browser s') = [] /\ timers (browser s') = [].
Proof.
  intro Hr. destruct (session_reachable_wf _ _ _ _ _ Hr) as [_ Hs]. unfold storage_wf in Hs.
  simpl. unfold page_load. destruct (storage (browser s)); simpl; rewrite Hs; repeat split.
Qed.

Lemma start_tracking_client s : client (startLocationTracking s) = client s.
Proof. unfold startLocationTracking. destruct (has_geolocation (browser s)); reflexivity. Qed.

Lemma start_tracking_screen s : screen (startLocationTracking s) = screen s.
Proof. unfold startLocationTracking. destruct (has_geolocation (browser s)); reflexivity. Qed.

Lemma fetch_store srv r db : fst (fetch srv r db) = fst (srv r db).
Proof. unfold fetch. destruct (srv r db). reflexivity. Qed.

(** Only a login, a logout and a reload change the employee. *)
Lemma handle_keeps_employee srv nts ip ua ev now s db :
  match ev with Login _ _ | Logout | Reload => False | _ => True end ->
  currentEmployee (client (fst (handle srv nts ip ua ev now s db))) = currentEmployee (client s).
Proof.
  destruct ev as [| | | |id|w p|k p|i]; intros []; simpl.
  - rewrite start_tracking_client. reflexivity.
  - reflexivity.
  - destruct (existsb _ _); [|reflexivity].
    unfold updateLocation. simpl. destruct (currentEmployee (client s)) eqn:E; simpl; congruence.
  - destruct (existsb _ _); [|reflexivity].
    destruct p as [pos|]; [|destruct k; reflexivity].
    unfold updateLocation. simpl. destruct (currentEmployee (client s)) eqn:E; simpl; congruence.
  - destruct (existsb _ _); reflexivity.
Qed.

(** ** Tracking against the server of [src/server.js] *)

Section Tracking.
Context `{ML : MathLib}.
Variables (tza : Z) (tld : Z -> string) (nts : Q -> string).
Variable other : string -> json -> option string -> bool.
Variable rnd : Request -> Randomness.
Variables (ip ua : option string).

(** [POST /api/location] with the body [updateLocation] sends for an
    employee without [id]: the [employee_id] is dropped by the wire, and the
    fix is stored without one. *)
Lemma serve_anonymous_fix c lat lng acc now db :
  jget (currentEmployee c) "id" = JUndefined ->
  id_taken (oid_of_N (next_oid db)) (map loc_id (locations db)) = false ->
  locations (fst (serve tza tld nts other rnd (location_req ip ua c lat lng acc now) db)) =
  (locations db ++ [mkLocation (oid_of_N (next_oid db)) None (NNum lat) (NNum lng) (Some acc) None (Some now)])%list.
Proof.
  intros Hid Hfree. unfold location_req, client_request. rewrite Hid.
  unfold serve, handler. cbn -[log_request oid_of_N run_route].
  unfold run_route, post_location, create_location, mbind, mfresh, mlift, mret, insert_location,
    fresh_oid.
  cbn -[log_request oid_of_N]. unfold id_taken in Hfree. rewrite Hfree. cbn -[log_request oid_of_N].
  rewrite log_request_locations. reflexivity.
Qed.

(** With the server of [src/server.js], the employee a session holds never
    has an [id]: it is a login answer, or [null]. *)
Lemma reachable_no_id s :
  session_reachable (serve tza tld nts other rnd) nts ip ua s ->
  jget (currentEmployee (client s)) "id" = JUndefined.
Proof.
  intro Hr. induction Hr as [n geo Hn|s db ev now Hr IH]; [reflexivity|].
  destruct (session_reachable_wf _ _ _ _ _ Hr) as [_ Hs].
  destruct ev as [email password| | | |id|w p|k p|i];
    try (rewrite handle_keeps_employee; [exact IH | exact I]).
  - simpl. unfold handleLogin, fetch.
    destruct (serve tza tld nts other rnd (login_req ip ua email password now) db) as [db' resp] eqn:E.
    destruct (response_ok resp); [|exact IH]. simpl. rewrite start_tracking_client. simpl.
    replace resp with (snd (serve tza tld nts other rnd (login_req ip ua email password now) db))
      by (rewrite E; reflexivity).
    apply login_answer_no_id; reflexivity.
  - reflexivity.
  - simpl. unfold page_load, storage_wf in *. destruct (storage (browser s)); simpl; [rewrite <- Hs|]; assumption || reflexivity.
Qed.

(** C27. Tracking makes progress, anonymously: in a session where an
    employee is logged in and the hourly timer is set, each tick of the
    timer whose position request is answered stores one more fix on the
    server, and the page says the location is shared. The fix has no
    [employee_id] (the session's employee has no [id]), so no mileage,
    timesheet or report of an employee ever counts it. The hypothesis on
    the fresh id stands for MongoDB's unique ObjectIds. *)
Theorem hourly_tick_logs_fix s db i now1 now2 p :
  session_reachable (serve tza tld nts other rnd) nts ip ua s ->
  autoLocationInterval s = Some i -> logged_in s = true ->
  id_taken (oid_of_N (next_oid db)) (map loc_id (locations db)) = false ->
  let '(s', db') := run_session (serve tza tld nts other rnd) nts ip ua
                      [(TimerTick i, now1); (CurrentFix FixHourly (Some p), now2)] s db in
  locations db' = (locations db ++ [mkLocation (oid_of_N (next_oid db)) None
                     (NNum (pos_lat p)) (NNum (pos_lng p)) (Some (pos_accuracy p)) None (Some now2)])%list /\
  safetyStatus s' = status_shared.
Proof.
  intros Hr Hi Hl Hfree.
  destruct (session_reachable_wf _ _ _ _ _ Hr) as [(_ & _ & _ & _ & _ & Hin & _) _].
  assert (Ht : existsb (Nat.eqb i) (timers (browser s)) = true)
    by (apply existsb_exists; exists i; split; [apply Hin, Hi | apply Nat.eqb_refl]).
  pose proof (reachable_no_id s Hr) as Hid.
  simpl. rewrite Ht. simpl. unfold updateLocation. simpl. unfold logged_in in Hl.
  destruct (currentEmployee (client s)) eqn:E; try discriminate;
    (split; [rewrite fetch_store; apply serve_anonymous_fix; [simpl; rewrite E; exact Hid | exact Hfree] | reflexivity]).
Qed.
End Tracking.

(** ** Witnesses *)

Lemma demo_logged_in_reachable : session_reachable test_serve (fun _ => "0") None None demo_logged_in.
Proof. unfold demo_logged_in, demo_browser. apply sr_event, sr_first_visit. lia. Qed.

Lemma demo_logged_in_tracking : isTracking demo_logged_in = true.
Proof. vm_compute. reflexivity. Qed.

Lemma session_reachable_wf_witness : session_wf demo_logged_in.
Proof. exact (session_reachable_wf _ _ _ _ _ demo_logged_in_reachable). Defined.

Lemma restart_then_logout_leaks_witness :
  let s' := fst (run_session test_serve (fun _ => "0") None None
                   [(StartTracking, jan7_1005); (Logout, jan7_1010)] demo_logged_in ana_store) in
  isTracking s' = false /\ locationWatchId s' = None /\
  (exists w, locationWatchId demo_logged_in = Some w /\ In w (watches (browser s'))) /\
  (exists i, autoLocationInterval demo_logged_in = Some i /\ In i (timers (browser s'))).
Proof.
  exact (restart_then_logout_leaks _ _ _ _ _ ana_store jan7_1005 jan7_1010
           demo_logged_in_reachable demo_logged_in_tracking).
Defined.

Lemma leaked_watch_reports_after_logout_witness :
  let '(s1, db1) := run_session test_serve (fun _ => "0") None None
                      [(StartTracking, jan7_1005); (Logout, jan7_1010)] demo_logged_in ana_store in
  exists w, locationWatchId demo_logged_in = Some w /\
  let '(s2, db2) := handle test_serve (fun _ => "0") None None
                      (WatchFix w demo_position) jan7_1010 s1 db1 in
  safetyStatus s2 = status_shared /\ isTracking s2 = false /\ db2 = db1 /\
  currentEmployee (client s2) = JNull.
Proof.
  exact (leaked_watch_reports_after_logout _ _ _ _ _ ana_store jan7_1005 jan7_1010 jan7_1010 _
           demo_logged_in_reachable demo_logged_in_tracking).
Defined.

Lemma reload_restores_employee_witness :
  let s' := fst (handle test_serve (fun _ => "0") None None Reload jan7_1005 demo_logged_in ana_store) in
  currentEmployee (client s') = currentEmployee (client demo_logged_in) /\
  screen s' = match storage (browser demo_logged_in) with Some _ => "dashboard" | None => "loginScreen" end /\
  isTracking s' = false /\ watches (browser s') = [] /\ timers (browser s') = [].
Proof. exact (reload_restores_employee _ _ _ _ _ ana_store jan7_1005 demo_logged_in_reachable). Defined.

Lemma hourly_tick_logs_fix_witness :
  autoLocationInterval demo_logged_in = Some 2%nat /\ logged_in demo_logged_in = true /\
  let '(s', db') := run_session test_serve (fun _ => "0") None None
                      [(TimerTick 2, jan7_1005); (CurrentFix FixHourly (Some demo_position), jan7_1010)]
                      demo_logged_in ana_store in
  locations db' = (locations ana_store ++ [mkLocation (oid_of_N (next_oid ana_store)) None
                     (NNum (pos_lat demo_position)) (NNum (pos_lng demo_position))
                     (Some (pos_accuracy demo_position)) None (Some jan7_1010)])%list /\
  safetyStatus s' = status_shared.
Proof.
  assert (Hi : autoLocationInterval demo_logged_in = Some 2%nat) by (vm_compute; reflexivity).
  assert (Hl : logged_in demo_logged_in = true) by (vm_compute; reflexivity).
  split; [exact Hi|]. split; [exact Hl|].
  exact (hourly_tick_logs_fix (ML := TestMath) 0 (fun _ => "") (fun _ => "0") (fun _ _ _ => false)
           (fun _ => no_jitter) None None demo_logged_in ana_store 2 jan7_1005 jan7_1010 demo_position
           demo_logged_in_reachable Hi Hl eq_refl).
Defined.
