(* ===== verification/Safety.v ===== *)
(** * Safety: the emergency alert of [src/app.js] against the server

    [triggerEmergency(type)] (lines 485-495) records the emergency type and
    opens the modal; [sendEmergencyAlert()] (lines 497-535) refuses a
    message that [trim()] empties, posts the employee, the type, the
    message and the last position to [POST /api/emergency], and on
    [response.ok] shows the alert notice and dials the primary contact with
    [callNumber('+1234567890')] (line 525, [callNumber] at lines 537-539). The server stores the
    emergency, its own log, and the middleware's log. A [fetch] that
    rejects ends in the [catch], which asks the user to call directly and
    dials nobody. The theorems follow an alert through both sides. *)

From Stdlib Require Import QArith ZArith Lia List String Ascii Bool.
From S2P Require Import Prelude JsValue Dates GeoDistance Store Http Documents Csv Routes.
From S2P Require Import Priority Middleware Server Client Session.
Import ListNotations.
Local Open Scope list_scope.
Local Open Scope string_scope.

(** The code points [String.prototype.trim] removes (ECMA-262
    WhiteSpace and LineTerminator), on the UTF-8 bytes of the input's
    value: tab, line feed, vertical tab, form feed, carriage return and
    space in one byte; U+00A0 in two; U+1680, U+2000 to U+200A, U+2028,
    U+2029, U+202F, U+205F, U+3000 and U+FEFF in three. *)
Definition ascii_space (a : N) : bool := ((9 <=? a) && (a <=? 13))%N || (a =? 32)%N.

Definition utf8_space2 (a b : N) : bool := (a =? 194)%N && (b =? 160)%N.

Definition utf8_space3 (a b c : N) : bool :=
  ((a =? 225) && (b =? 154) && (c =? 128) ||
   (a =? 226) && (b =? 128) && ((128 <=? c) && (c <=? 138) || (c =? 168) || (c =? 169) || (c =? 175)) ||
   (a =? 226) && (b =? 129) && (c =? 159) ||
   (a =? 227) && (b =? 128) && (c =? 128) ||
   (a =? 239) && (b =? 187) && (c =? 191))%N.

(** [trimStart]: the value without the code points it starts with that
    are one of those. A byte that does not start one ends the scan. *)
Fixpoint trim_start (l : list ascii) : list ascii :=
  match l with
  | [] => []
  | a :: r =>
      if ascii_space (N_of_ascii a) then trim_start r else
      match r with
      | b :: r2 =>
          if utf8_space2 (N_of_ascii a) (N_of_ascii b) then trim_start r2 else
          match r2 with
          | c :: r3 => if utf8_space3 (N_of_ascii a) (N_of_ascii b) (N_of_ascii c) then trim_start r3 else l
          | [] => l
          end
      | [] => l
      end
  end.

(** [!message.trim()]: the value is white space only, so [trim()] leaves
    the empty string, which is falsy. *)
Definition blank (s : string) : bool :=
  match trim_start (list_ascii_of_string s) with [] => true | _ => false end.

(** The notice of line 520, byte for byte (its emoji is stored as
    mojibake in the source). *)
Definition alert_sent_msg : string :=
  bytes [239; 163; 191; 195; 188; 195; 182; 194; 174]%nat " EMERGENCY ALERT SENT! Help is on the way!".

(** [callNumber(phone)]: [window.open(`tel:${phone}`, '_self')], the
    address the page opens. *)
Definition callNumber (phone : string) : string := "tel:" ++ phone.

(** [this.callNumber('+1234567890')] after an alert is sent. *)
Definition primary_call : string := callNumber "+1234567890".

(** [triggerEmergency(type)]: [this.currentEmergencyType = type]; the
    modal and its title are markup. *)
Definition triggerEmergency (type : string) (s : Session) : Session :=
  let c := client s in set_client (mkClient (currentEmployee c) (lastLocation c) (JStr type)) s.

Section Alert.
Variable net : Net.
Variable number_to_string : Q -> string.
Variables (ip user_agent : option string).

(** [sendEmergencyAlert()] with the text of the message field: the session,
    the number dialled if any, and the store. Only an answer that is not
    [ok] is parsed, and [error.error] throws on a [null] one; a rejected
    [fetch] lands in the [catch], which dials nothing. *)
Definition sendEmergencyAlert (message : string) (now : Z) (s : Session) (db : Store)
  : Session * option string * Store :=
  if blank message then (showNotification "Please describe the emergency" "error" s, None, db)
  else
    let '(db', a) := fetch_net net (emergency_req ip user_agent (client s) message now) db in
    let '(s', dial) :=
      catch (let* r := a in
             if fst r then Ok (showNotification alert_sent_msg "success" s, Some primary_call)
             else
               let* err := prop (snd r) "error" in
               Ok (showNotification (if truthy err then js_string number_to_string err else "Error sending alert")
                     "error" s, None))
        (fun _ => (showNotification "Network error - try calling directly" "error" s, None)) in
    (s', dial, db').
End Alert.

(** ** The states an alert is sent from *)

(** What the client object holds after a login and a position: an
    employee document without [id] and with a name or [null], an
    emergency type or [null], and no position or the
    [{ lat, lng, accuracy }] that [updateLocation] stores. *)
Definition alert_ready (c : Client) : bool :=
  match jget (currentEmployee c) "id" with JUndefined => true | _ => false end &&
  match jget (currentEmployee c) "name" with JStr _ | JNull => true | _ => false end &&
  match currentEmergencyType c with JStr _ | JNull => true | _ => false end &&
  match lastLocation c with
  | JUndefined | JNull => true
  | JObj [("lat", JNum _); ("lng", JNum _); ("accuracy", JNum _)] => true
  | _ => false
  end.

(** The three ObjectIds the alert takes (the emergency's and the two
    logs') are free in their collections. *)
Definition next_ids_free (db : Store) : bool :=
  let n := next_oid db in
  negb (id_taken (oid_of_N n) (map em_id (emergencies db))) &&
  negb (id_taken (oid_of_N (N.succ n)) (map log_id (logs db))) &&
  negb (id_taken (oid_of_N (N.succ (N.succ n))) (map log_id (logs db) ++ [oid_of_N (N.succ n)])).

(** ** Lemmas *)

(** A message of no-break spaces is refused like an empty one. *)
Example blank_nbsp : blank (bytes [194; 160; 194; 160]%nat " ") = true.
Proof. reflexivity. Qed.

Lemma alert_ready_cases c :
  alert_ready c = true ->
  jget (currentEmployee c) "id" = JUndefined /\
  (jget (currentEmployee c) "name" = JNull \/ exists x, jget (currentEmployee c) "name" = JStr x) /\
  (currentEmergencyType c = JNull \/ exists t, currentEmergencyType c = JStr t) /\
  (lastLocation c = JUndefined \/ lastLocation c = JNull \/
   exists a b acc, lastLocation c = JObj [("lat", JNum a); ("lng", JNum b); ("accuracy", JNum acc)]).
Proof.
  unfold alert_ready. destruct c as [emp loc ty]; simpl.
  destruct (jget emp "id"); try discriminate. destruct (jget emp "name"); try discriminate;
  destruct ty; try discriminate; intro H;
  (split; [reflexivity|]); (split; [first [left; reflexivity | right; eexists; reflexivity]|]);
  (split; [first [left; reflexivity | right; eexists; reflexivity]|]);
  repeat match type of H with
  | context [match ?x with _ => _ end] => destruct x; try discriminate H
  end;
  first [left; reflexivity | right; left; reflexivity | right; right; do 3 eexists; reflexivity].
Qed.

Lemma next_ids_free_spec db :
  next_ids_free db = true ->
  id_taken (oid_of_N (next_oid db)) (map em_id (emergencies db)) = false /\
  id_taken (oid_of_N (N.succ (next_oid db))) (map log_id (logs db)) = false /\
  id_taken (oid_of_N (N.succ (N.succ (next_oid db))))
    (map log_id (logs db) ++ [oid_of_N (N.succ (next_oid db))]) = false.
Proof. unfold next_ids_free. rewrite !andb_true_iff, !negb_true_iff. tauto. Qed.

(** ** The alert end to end *)

Section AlertLaws.
Context `{ML : MathLib}.
Variables (tza : Z) (toLocaleDateString : Z -> string) (number_to_string : Q -> string).
Variable other_op : string -> json -> option string -> bool.
Variable rnd : Request -> Randomness.
Variables (ip user_agent : option string).

(** C37. An alert reaches the server and the phone: from a client whose
    employee has no [id] (the login answer, see [Session.reachable_no_id]),
    with an emergency type and any last position, a message that [trim()]
    does not empty is stored as one more emergency, without
    [employee_id], with two more logs of action [emergency_triggered] (the
    route's and the middleware's); the page shows the alert notice and
    dials [tel:+1234567890]. The hypothesis on the next ids stands for
    MongoDB's unique ObjectIds. *)
Theorem emergency_alert_delivered (db : Store) (s : Session) (msg : string) (now : Z) :
  blank msg = false -> alert_ready (client s) = true -> next_ids_free db = true ->
  let '(s', dial, db') := sendEmergencyAlert (reliable (serve tza toLocaleDateString number_to_string other_op rnd))
                            number_to_string ip user_agent msg now s db in
  dial = Some primary_call /\ notice s' = Some (alert_sent_msg, "success") /\
  exists m l1 l2, emergencies db' = (emergencies db ++ [m])%list /\ message m = Some msg /\
                  em_employee_id m = None /\ logs db' = (logs db ++ [l1; l2])%list /\
                  action_type l1 = Some "emergency_triggered" /\ action_type l2 = Some "emergency_triggered".
Proof.
  intros Hb Hr Hf. unfold sendEmergencyAlert. rewrite Hb.
  destruct (next_ids_free_spec _ Hf) as (H0 & H1 & H2).
  destruct (alert_ready_cases _ Hr) as (Hid & Hn & Ht & Hl).
  rewrite fetch_net_reliable. unfold fetch, emergency_req, client_request. rewrite Hid.
  destruct Hn as [Hn|[x Hn]]; rewrite Hn; destruct Ht as [Ht|[t Ht]]; rewrite Ht;
  destruct Hl as [Hl|[Hl|(a & b & acc & Hl)]]; rewrite Hl.
  all: destruct ip, user_agent; unfold serve, handler; cbn -[oid_of_N id_taken log_request].
  all: unfold run_route, post_emergency, create_emergency, create_log, mbind, mfresh, mlift, mret, fresh_oid;
       cbn -[oid_of_N id_taken log_request].
  all: unfold insert_emergency; cbn -[oid_of_N id_taken log_request]; rewrite H0;
       cbn -[oid_of_N id_taken log_request].
  all: unfold insert_log at 1; cbn -[oid_of_N id_taken log_request]; rewrite H1;
       cbn -[oid_of_N id_taken log_request].
  all: unfold log_request, is_logged; cbn -[oid_of_N id_taken create_log].
  all: unfold create_log, mbind, mfresh, mlift, fresh_oid, mcatch, mret; cbn -[oid_of_N id_taken].
  all: unfold insert_log; cbn -[oid_of_N id_taken]; rewrite map_app; cbn -[oid_of_N id_taken]; rewrite H2;
       cbn -[oid_of_N id_taken].
  all: split; [reflexivity|]; split; [reflexivity|]; do 3 eexists;
       split; [reflexivity|]; split; [reflexivity|]; split; [reflexivity|];
       split; [rewrite <- app_assoc; reflexivity | split; reflexivity].
Qed.
End AlertLaws.

(** ** Witnesses *)

(** Ana, logged in on the test server, reports a medical emergency. *)
Lemma emergency_alert_delivered_witness :
  let '(s', dial, db') :=
    sendEmergencyAlert (reliable test_serve) (fun _ => "0") None None "Fell from the ladder" jan7_1000
      (triggerEmergency "medical" demo_logged_in) ana_store in
  dial = Some primary_call /\ notice s' = Some (alert_sent_msg, "success") /\
  exists m l1 l2, emergencies db' = (emergencies ana_store ++ [m])%list /\
                  message m = Some "Fell from the ladder" /\
                  em_employee_id m = None /\ logs db' = (logs ana_store ++ [l1; l2])%list /\
                  action_type l1 = Some "emergency_triggered" /\ action_type l2 = Some "emergency_triggered".
Proof.
  apply (emergency_alert_delivered (ML := TestMath) 0 (fun _ => "") (fun _ => "0") (fun _ _ _ => false)
           (fun _ => no_jitter) None None); vm_compute; reflexivity.
Defined.
