(* ===== verification/ExportView.v ===== *)
(** * ExportView: the download buttons of [displayExportResults] in [src/app.js]

    [displayExportResults(files)] (lines 716-749) writes, for each of the
    three CSV texts, a button whose [onclick] attribute is the source
    [tracker.downloadCSV('<text>', '<file>')], with the text passed through
    [escapeCSV] (lines 751-753), which turns [']  into [\'] and a line feed
    into [\n]. The page reads the attribute twice: the HTML tokenizer ends a
    double-quoted attribute value at the next double quote ([html_attr_value]), and
    the JavaScript engine reads the single-quoted string literals of the
    handler ([read_sq], ECMA-262 12.9.4: escapes, no raw line terminator).
    [parse_download_call] is what a click runs: the two arguments of
    [downloadCSV], or [None] when the handler is not that call;
    [click_download] runs [downloadCSV] (lines 755-766) on them. Character
    references of HTML are not decoded; the theorems only read attribute
    values without [&]. *)

From Stdlib Require Import QArith ZArith Lia List String Ascii Bool.
From S2P Require Import Prelude JsValue Dates Store Csv.
Import ListNotations.
Local Open Scope list_scope.
Local Open Scope string_scope.

Definition backslash : ascii := ascii_of_nat 92.
Definition cr : ascii := ascii_of_nat 13.
Definition squote : ascii := ascii_of_nat 39.
Definition amp : ascii := ascii_of_nat 38.

(** [s.replace(/c/g, rep)] for a one-character pattern. *)
Fixpoint replace_char (c : ascii) (rep : string) (s : string) : string :=
  match s with
  | EmptyString => EmptyString
  | String d r => if Ascii.eqb d c then rep ++ replace_char c rep r else String d (replace_char c rep r)
  end.

(** [escapeCSV(text)]: [text.replace(/'/g, "\\'").replace(/\n/g, '\\n')] *)
Definition escapeCSV (text : string) : string :=
  replace_char newline (String backslash "n") (replace_char squote (String backslash (String squote "")) text).

(** The onclick source of the download button of lines 727, 735 and 743. *)
Definition download_onclick (csv filename : string) : string :=
  "tracker.downloadCSV('" ++ escapeCSV csv ++ "', '" ++ filename ++ "')".

(** The attribute value the HTML tokenizer reads from a double-quoted
    [onclick]: up to the next double quote. *)
Fixpoint html_attr_value (src : string) : string :=
  match src with
  | EmptyString => EmptyString
  | String c r => if Ascii.eqb c dquote then EmptyString else String c (html_attr_value r)
  end.

(** The value of [\d] in a string literal: [None] for the escapes the
    handler would need digits after ([\x], [\u], [\0] to [\9]), which
    [escapeCSV] never writes. A line continuation has the empty value. *)
Definition escape_value (d : ascii) : option string :=
  if Ascii.eqb d "n" then Some (String newline "")
  else if Ascii.eqb d "t" then Some (String (ascii_of_nat 9) "")
  else if Ascii.eqb d "r" then Some (String cr "")
  else if Ascii.eqb d "b" then Some (String (ascii_of_nat 8) "")
  else if Ascii.eqb d "f" then Some (String (ascii_of_nat 12) "")
  else if Ascii.eqb d "v" then Some (String (ascii_of_nat 11) "")
  else if Ascii.eqb d newline || Ascii.eqb d cr then Some ""
  else if Ascii.eqb d "x" || Ascii.eqb d "u" ||
          (Nat.leb 48 (nat_of_ascii d) && Nat.leb (nat_of_ascii d) 57) then None
  else Some (String d "").

(** The body of a single-quoted literal, after its opening quote: its value
    and the source after the closing quote. *)
Fixpoint read_sq (s : string) : option (string * string) :=
  match s with
  | EmptyString => None
  | String c r =>
      if Ascii.eqb c squote then Some (EmptyString, r)
      else if Ascii.eqb c backslash then
        match r with
        | EmptyString => None
        | String d r' =>
            match escape_value d, read_sq r' with
            | Some v, Some (x, rest) => Some (v ++ x, rest)
            | _, _ => None
            end
        end
      else if Ascii.eqb c newline || Ascii.eqb c cr then None
      else match read_sq r with
           | Some (x, rest) => Some (String c x, rest)
           | None => None
           end
  end.

Fixpoint strip_prefix (p s : string) : option string :=
  match p, s with
  | EmptyString, _ => Some s
  | String c p', String d s' => if Ascii.eqb c d then strip_prefix p' s' else None
  | String _ _, EmptyString => None
  end.

(** What a click on the button runs: [downloadCSV(data, filename)]. *)
Definition parse_download_call (h : string) : option (string * string) :=
  match strip_prefix "tracker.downloadCSV('" h with
  | Some r =>
      match read_sq r with
      | Some (data, r1) =>
          match strip_prefix ", '" r1 with
          | Some r2 =>
              match read_sq r2 with
              | Some (fname, r3) => if String.eqb r3 ")" then Some (data, fname) else None
              | None => None
              end
          | None => None
          end
      | None => None
      end
  | None => None
  end.

(** The file [downloadCSV] hands to the browser. *)
Record Download : Type := mkDownload { dl_name : string; dl_type : string; dl_data : string }.

(** [downloadCSV(csvData, filename)] (lines 755-766): a [text/csv] Blob
    saved under the file name through a temporary anchor, then the notice
    [Downloaded: <file>]. *)
Definition downloadCSV (csvData filename : string) : Download * (string * string) :=
  (mkDownload filename "text/csv" csvData, ("Downloaded: " ++ filename, "success")).

(** A click on a download button: the handler runs when its source is the
    call, and does nothing otherwise (a [SyntaxError] is reported to the
    console). *)
Definition click_download (src : string) : option (Download * (string * string)) :=
  match parse_download_call (html_attr_value src) with
  | Some (data, fname) => Some (downloadCSV data fname)
  | None => None
  end.

(** The characters the three readings treat specially. *)
Definition plain_char (c : ascii) : bool :=
  negb (Ascii.eqb c dquote || Ascii.eqb c amp || Ascii.eqb c backslash || Ascii.eqb c cr).

Fixpoint all_chars (p : ascii -> bool) (s : string) : bool :=
  match s with
  | EmptyString => true
  | String c r => p c && all_chars p r
  end.

(** One character of [escapeCSV]. *)
Definition escape_char (c : ascii) : string :=
  if Ascii.eqb c squote then String backslash (String squote "")
  else if Ascii.eqb c newline then String backslash "n"
  else String c "".

(** A file name the handler can carry as it is. *)
Definition name_char (c : ascii) : bool :=
  plain_char c && negb (Ascii.eqb c squote) && negb (Ascii.eqb c newline).

(** ** Lemmas *)

Lemma replace_char_app c rep a b :
  replace_char c rep (a ++ b) = replace_char c rep a ++ replace_char c rep b.
Proof.
  induction a as [|d a IH]; [reflexivity|]. simpl.
  destruct (Ascii.eqb d c); rewrite IH; [apply string_app_assoc|reflexivity].
Qed.

Lemma escapeCSV_cons c r : escapeCSV (String c r) = escape_char c ++ escapeCSV r.
Proof.
  unfold escapeCSV, escape_char. cbn [replace_char].
  destruct (Ascii.eqb c squote) eqn:E1.
  - rewrite replace_char_app. reflexivity.
  - cbn [replace_char]. destruct (Ascii.eqb c newline); reflexivity.
Qed.

Lemma all_chars_app p a b : all_chars p (a ++ b) = all_chars p a && all_chars p b.
Proof. induction a as [|c a IH]; simpl; [reflexivity|]. rewrite IH. apply andb_assoc. Qed.

Lemma html_attr_value_app a b :
  all_chars (fun c => negb (Ascii.eqb c dquote)) a = true -> html_attr_value (a ++ b) = a ++ html_attr_value b.
Proof.
  induction a as [|c a IH]; simpl; [reflexivity|]. intro H. apply andb_prop in H as [Hc Ha].
  apply negb_true_iff in Hc. rewrite Hc, IH by exact Ha. reflexivity.
Qed.

Lemma strip_prefix_app p s : strip_prefix p (p ++ s) = Some s.
Proof. induction p as [|c p IH]; simpl; [reflexivity|]. rewrite Ascii.eqb_refl. exact IH. Qed.

(** [escapeCSV] writes no double quote where the text has none. *)
Lemma escapeCSV_no_dquote s :
  all_chars plain_char s = true -> all_chars (fun c => negb (Ascii.eqb c dquote)) (escapeCSV s) = true.
Proof.
  induction s as [|c r IH]; [reflexivity|]. simpl. intro H. apply andb_prop in H as [Hc Hr].
  rewrite escapeCSV_cons, all_chars_app, IH by exact Hr. rewrite andb_true_r.
  unfold plain_char in Hc. unfold escape_char.
  destruct (Ascii.eqb c squote), (Ascii.eqb c newline); simpl; try reflexivity.
  destruct (Ascii.eqb c dquote); [discriminate | reflexivity].
Qed.

(** Reading back what [escapeCSV] wrote, up to the closing quote. *)
Lemma read_sq_escapeCSV s rest :
  all_chars plain_char s = true -> read_sq (escapeCSV s ++ String squote rest) = Some (s, rest).
Proof.
  induction s as [|c r IH]; intro H; [reflexivity|].
  simpl in H. apply andb_prop in H as [Hc Hr]. specialize (IH Hr).
  rewrite escapeCSV_cons, <- string_app_assoc. unfold escape_char.
  destruct (Ascii.eqb c squote) eqn:Eq; [|destruct (Ascii.eqb c newline) eqn:En].
  - apply Ascii.eqb_eq in Eq. subst c. simpl. rewrite IH. reflexivity.
  - apply Ascii.eqb_eq in En. subst c. simpl. rewrite IH. reflexivity.
  - unfold plain_char in Hc. simpl.
    destruct (Ascii.eqb c dquote), (Ascii.eqb c amp), (Ascii.eqb c backslash) eqn:Eb,
      (Ascii.eqb c cr) eqn:Ec; try discriminate.
    simpl. rewrite ?Eq, ?En, ?Eb, ?Ec. simpl. rewrite IH. reflexivity.
Qed.

Lemma escapeCSV_name s : all_chars name_char s = true -> escapeCSV s = s.
Proof.
  induction s as [|c r IH]; intro H; [reflexivity|]. simpl in H. apply andb_prop in H as [Hc Hr].
  rewrite escapeCSV_cons, IH by exact Hr. unfold name_char in Hc. unfold escape_char.
  destruct (Ascii.eqb c squote), (Ascii.eqb c newline); rewrite ?andb_false_r in Hc; try discriminate.
  reflexivity.
Qed.

Lemma name_plain s : all_chars name_char s = true -> all_chars plain_char s = true.
Proof.
  induction s as [|c r IH]; intro H; [reflexivity|]. simpl in *. apply andb_prop in H as [Hc Hr].
  unfold name_char in Hc. apply andb_prop in Hc as [Hc _]. apply andb_prop in Hc as [Hc _].
  rewrite Hc, IH; trivial.
Qed.

Lemma html_attr_value_id s :
  all_chars (fun c => negb (Ascii.eqb c dquote)) s = true -> html_attr_value s = s.
Proof. intro H. rewrite <- (string_app_nil_r s), html_attr_value_app by exact H. reflexivity. Qed.

Lemma plain_no_dquote s : all_chars plain_char s = true -> all_chars (fun c => negb (Ascii.eqb c dquote)) s = true.
Proof.
  induction s as [|c r IH]; intro H; [reflexivity|]. simpl in *. apply andb_prop in H as [Hc Hr].
  rewrite IH by exact Hr. unfold plain_char in Hc. destruct (Ascii.eqb c dquote); [discriminate|reflexivity].
Qed.

Lemma concat_head sep a l : exists t, concat sep (a :: l) = a ++ t.
Proof. destruct l as [|b l]; [exists ""; symmetry; apply string_app_nil_r | eexists; reflexivity]. Qed.

(** Every CSV of a collection with fields opens with the quote of its
    first header. *)
Lemma generateCsv_dquote nts rows type :
  csv_fields type <> [] -> exists t, generateCsv nts rows type = String dquote t.
Proof.
  intro H. unfold generateCsv, csv_parse, csv_header.
  destruct (csv_fields type) as [|f fs]; [contradiction|].
  destruct (concat_head (String newline "") (concat "," (map quoted (f :: fs)))
              (map (csv_row nts (f :: fs)) rows)) as [t2 E2].
  destruct (concat_head "," (quoted f) (map quoted fs)) as [t1 E1].
  rewrite E2. change (map quoted (f :: fs)) with (quoted f :: map quoted fs). rewrite E1.
  eexists. reflexivity.
Qed.

(** The download handler carries a text back unchanged when the text
    has no double quote, ampersand, backslash or carriage return: the
    attribute is the whole source, and reading its two string literals gives
    the text and the file name, [escapeCSV]'s escapes undone. *)
Theorem download_call_roundtrip csv fname :
  all_chars plain_char csv = true -> all_chars name_char fname = true ->
  parse_download_call (html_attr_value (download_onclick csv fname)) = Some (csv, fname).
Proof.
  intros Hc Hf. pose proof (name_plain _ Hf) as Hp.
  unfold download_onclick. rewrite html_attr_value_id.
  - unfold parse_download_call. rewrite strip_prefix_app.
    change ("', '" ++ fname ++ "')") with (String squote (", '" ++ fname ++ "')")).
    rewrite read_sq_escapeCSV by exact Hc. rewrite strip_prefix_app.
    rewrite <- (escapeCSV_name fname Hf) at 1. change "')" with (String squote ")").
    rewrite read_sq_escapeCSV by exact Hp. reflexivity.
  - rewrite !all_chars_app, (escapeCSV_no_dquote csv Hc), (plain_no_dquote fname Hp). reflexivity.
Qed.

(** The attribute of a button of an exported CSV ends right after the
    opening quote of the call. *)
Lemma export_attr_cut nts rows type fname :
  csv_fields type <> [] ->
  html_attr_value (download_onclick (generateCsv nts rows type) fname) = "tracker.downloadCSV('".
Proof.
  intro H. destruct (generateCsv_dquote nts rows type H) as [t E].
  unfold download_onclick. rewrite E, escapeCSV_cons, html_attr_value_app by reflexivity.
  apply string_app_nil_r.
Qed.

(** A click downloads the text it was written with, under its name, when
    the text and the name have nothing the readings treat specially. *)
Lemma click_download_roundtrip csv fname :
  all_chars plain_char csv = true -> all_chars name_char fname = true ->
  click_download (download_onclick csv fname) =
    Some (mkDownload fname "text/csv" csv, ("Downloaded: " ++ fname, "success")).
Proof.
  intros Hc Hf. unfold click_download. rewrite download_call_roundtrip by assumption. reflexivity.
Qed.

(** A click on the button of any CSV the server exports downloads nothing
    and shows no notice. *)
Lemma export_click_nothing nts rows type fname :
  csv_fields type <> [] -> click_download (download_onclick (generateCsv nts rows type) fname) = None.
Proof. intro H. unfold click_download. rewrite (export_attr_cut nts rows type fname H). reflexivity. Qed.

(** C30. The download buttons never download: every CSV the server exports
    opens with the double quote of its first header, which ends the
    [onclick] attribute right after [tracker.downloadCSV(']; the handler is
    an unterminated string literal and a click runs nothing. *)
Theorem export_download_broken nts rows type fname :
  csv_fields type <> [] ->
  html_attr_value (download_onclick (generateCsv nts rows type) fname) = "tracker.downloadCSV('" /\
  parse_download_call (html_attr_value (download_onclick (generateCsv nts rows type) fname)) = None.
Proof.
  intro H. pose proof (export_attr_cut nts rows type fname H) as Ha.
  split; [exact Ha|]. rewrite Ha. reflexivity.
Qed.

(** ** Witnesses *)

Lemma download_call_roundtrip_witness :
  parse_download_call (html_attr_value (download_onclick
    ("id,title" ++ String newline "7,Fix Bob's sink") "tasks.csv")) =
  Some ("id,title" ++ String newline "7,Fix Bob's sink", "tasks.csv").
Proof. apply download_call_roundtrip; reflexivity. Defined.

Lemma export_download_broken_witness :
  html_attr_value (download_onclick (generateCsv (fun _ => "0") [] "tasks") "tasks.csv") =
    "tracker.downloadCSV('" /\
  parse_download_call (html_attr_value (download_onclick (generateCsv (fun _ => "0") [] "tasks")
                                          "tasks.csv")) = None.
Proof. apply export_download_broken. discriminate. Defined.
