(* ===== verification/Dashboard.v ===== *)
(** * Dashboard: the figures the client of [src/app.js] computes and shows

    [updateDashboardMetrics] (lines 168-194) fills six figures of the page
    in order, with one [try] around all of them: the month's reimbursement
    ([calculateCurrentEarnings]), the hours saved ([calculateTimeSaved]),
    the number of completed tasks (from [loadTasksData], lines 238-241), the
    completion rate ([calculatePerformance], lines 219-226, which loads the
    tasks a second time), and the two banners. A figure the code does not
    reach keeps the text of the markup ([None] here). The tasks are the
    parsed answer of [GET /api/tasks/:id]: [tasks.filter] throws a
    [TypeError] when that answer is not an array.

    The smaller views: the priority label of [displayTasks] and
    [displayPriorityTasks], [calculateRouteSavings] (lines 378-386) and the
    tab dispatch of [switchTab] (lines 807-833). *)

From Stdlib Require Import QArith Qround ZArith Lia Lqa List String Ascii Bool.
From S2P Require Import Prelude JsValue Dates GeoDistance Store Http Documents Csv Routes.
From S2P Require Import Priority Middleware Server Client.
Import ListNotations.
Local Open Scope list_scope.
Local Open Scope string_scope.

(** The six figures; [None] is the markup's own text. *)
Record Metrics : Type := mkMetrics {
  earningsMetric : option string;
  timeSavedMetric : option string;
  tasksCompletedMetric : option string;
  performanceMetric : option string;
  mileageDisplay : option string;
  timeSavedDisplay : option string
}.

Definition markup_metrics : Metrics := mkMetrics None None None None None None.

(** [t.status === 'completed'] *)
Definition is_completed_json (t : json) : bool :=
  match jget t "status" with JStr s => String.eqb s "completed" | _ => false end.

(** [tasks.filter(t => t.status === 'completed').length] *)
Definition completed_count (tasks : json) : result nat :=
  match tasks with
  | JArr ts => Ok (List.length (filter is_completed_json ts))
  | _ => Throw "tasks.filter is not a function"
  end.

(** [Math.round((completed / tasks.length) * 100)] *)
Definition performance_percent (completed total : nat) : Z :=
  round_half_up (inject_Z (Z.of_nat completed) / inject_Z (Z.of_nat total) * 100).

(** An integer as [String(n)] writes it. *)
Definition int_string (n : Z) : string := toFixed (inject_Z n) 0.

(** [calculatePerformance()] on the parsed tasks: [tasks.length === 0] is
    false for an object, whose [filter] then throws. *)
Definition calculatePerformance (tasks : json) : result string :=
  match tasks with
  | JArr [] => Ok "0%"
  | JArr ts =>
      match completed_count tasks with
      | Ok c => Ok (int_string (performance_percent c (List.length ts)) ++ "%")
      | Throw m => Throw m
      end
  | _ => Throw "tasks.filter is not a function"
  end.

(** The priority label of [displayPriorityTasks] (line 365); the class of
    [displayTasks] (line 257) follows the same test. *)
Definition priority_label (p : json) : string :=
  match p with
  | JNum q => if Qeq_bool q 3 then "High" else if Qeq_bool q 2 then "Medium" else "Low"
  | _ => "Low"
  end.

(** [calculateRouteSavings(tasks)]: the two texts it writes. *)
Definition calculateRouteSavings (n : nat) : string * string :=
  (toFixed (inject_Z (Z.of_nat n) * (25 # 2)) 0 ++ " min",
   "$" ++ toFixed (inject_Z (Z.of_nat n) * (235 # 100)) 2).

(** What [switchTab(tabName)] loads after showing the tab. *)
Inductive TabLoad : Type := LoadAIPriority | LoadMetrics | LoadNothing.

Definition switchTab (tabName : string) : TabLoad :=
  if String.eqb tabName "ai-priority" then LoadAIPriority
  else if String.eqb tabName "dashboard-tab" then LoadMetrics
  else LoadNothing.

Section Metrics.
(** The server, the browser's [Number.prototype.toString], its time zone
    offset, and the client's address and [User-Agent]. *)
Variable srv : Request -> Store -> Store * Response.
Variable number_to_string : Q -> string.
Variable client_tza : Z.
Variables (ip user_agent : option string).

(** [loadTasksData()]: [GET /api/tasks/${this.currentEmployee.id}], parsed. *)
Definition loadTasksData (c : Client) (now : Z) (db : Store) : Store * json :=
  let r := client_request ip user_agent "GET" (employee_path number_to_string "tasks" c) (JObj []) (JObj []) now in
  let '(db', (_, body)) := fetch srv r db in (db', body).

(** [updateDashboardMetrics()]: the figures in the order the code writes
    them, up to the first throw. *)
Definition updateDashboardMetrics (c : Client) (now : Z) (db : Store) : Store * Metrics :=
  let '(db1, (_, d1)) := fetch srv (earnings_req number_to_string ip user_agent client_tza c now) db in
  let earnings := earnings_display number_to_string d1 in
  let '(db2, (_, d2)) := fetch srv (time_saved_req number_to_string ip user_agent c now) db1 in
  let timeSaved := time_saved_display number_to_string d2 in
  let m2 := mkMetrics (Some earnings) (Some timeSaved) None None None None in
  let '(db3, tasks) := loadTasksData c now db2 in
  match completed_count tasks with
  | Throw _ => (db3, m2)
  | Ok n =>
      let m3 := mkMetrics (Some earnings) (Some timeSaved) (Some (int_string (Z.of_nat n))) None None None in
      let '(db4, tasks') := loadTasksData c now db3 in
      match calculatePerformance tasks' with
      | Throw _ => (db4, m3)
      | Ok perf =>
          (db4, mkMetrics (Some earnings) (Some timeSaved) (Some (int_string (Z.of_nat n))) (Some perf)
                  (Some earnings) (Some (timeSaved ++ " saved")))
      end
  end.
End Metrics.

(** ** Lemmas *)

Lemma round_half_up_bounds x : 0 <= x -> x <= 100 -> (0 <= round_half_up x <= 100)%Z.
Proof.
  intros H0 H1. unfold round_half_up. split.
  - change 0%Z with (Qfloor 0). apply Qfloor_resp_le. lra.
  - pose proof (Qfloor_le (x + (1 # 2))) as Hf.
    destruct (Z.le_gt_cases (Qfloor (x + (1 # 2))) 100) as [|Hgt]; [assumption|].
    exfalso. assert (H101 : inject_Z 101 <= inject_Z (Qfloor (x + (1 # 2)))) by (rewrite <- Zle_Qle; lia).
    unfold inject_Z in H101 at 1. lra.
Qed.

Lemma ratio_percent_bounds (c n : nat) :
  (c <= n)%nat -> (0 < n)%nat ->
  0 <= inject_Z (Z.of_nat c) / inject_Z (Z.of_nat n) * 100 /\
  inject_Z (Z.of_nat c) / inject_Z (Z.of_nat n) * 100 <= 100.
Proof.
  intros Hc Hn.
  assert (Hn' : 0 < inject_Z (Z.of_nat n)) by (change 0 with (inject_Z 0); rewrite <- Zlt_Qlt; lia).
  assert (Hc0 : 0 <= inject_Z (Z.of_nat c)) by (change 0 with (inject_Z 0); rewrite <- Zle_Qle; lia).
  assert (Hcn : inject_Z (Z.of_nat c) <= inject_Z (Z.of_nat n)) by (rewrite <- Zle_Qle; lia).
  assert (H1 : 0 <= inject_Z (Z.of_nat c) / inject_Z (Z.of_nat n))
    by (apply Qle_shift_div_l; [exact Hn' | lra]).
  assert (H2 : inject_Z (Z.of_nat c) / inject_Z (Z.of_nat n) <= 1)
    by (apply Qle_shift_div_r; [exact Hn' | lra]).
  set (r := inject_Z (Z.of_nat c) / inject_Z (Z.of_nat n)) in *. split; lra.
Qed.

(** C32. The completion rate is a percentage: for a non-empty array of
    tasks, [calculatePerformance] shows [Math.round(100 c / n) + '%'] for
    the [c] completed tasks among [n], a whole number from 0 to 100. *)
Theorem performance_in_range (ts : list json) :
  ts <> [] ->
  exists k, calculatePerformance (JArr ts) =
            Ok (int_string k ++ "%") /\
            k = performance_percent (List.length (filter is_completed_json ts)) (List.length ts) /\
            (0 <= k <= 100)%Z.
Proof.
  intro Hne. destruct ts as [|t ts']; [contradiction|].
  eexists. split; [reflexivity|]. split; [reflexivity|].
  destruct (ratio_percent_bounds (List.length (filter is_completed_json (t :: ts'))) (List.length (t :: ts')))
    as [H0 H1]; [apply filter_length_le | simpl; lia |].
  apply round_half_up_bounds; assumption.
Qed.

Section AfterLogin.
Context `{ML : MathLib}.
Variables (tza : Z) (toLocaleDateString : Z -> string) (number_to_string : Q -> string).
Variable other_op : string -> json -> option string -> bool.
Variable rnd : Request -> Randomness.
Variables (ip user_agent : option string).

(** C21. After any accepted login, the dashboard never shows the employee's
    figures: every request names the employee [undefined]. The earnings
    request fails and shows the fallback [$0.00]; the time-savings request
    fails and shows [undefined hours] (the fallback ['0 hours'] of
    [x + ' hours' || '0 hours'] is unreachable); the tasks request answers
    an error object, whose [filter] throws, so the completed count, the
    completion rate and the two banners keep the markup's text. *)
Theorem dashboard_metrics_after_login (db : Store) (email password : string) (client_tza now1 now2 : Z)
    (c : Client) :
  let srv := serve tza toLocaleDateString number_to_string other_op rnd in
  let '(db1, (ok, body)) := fetch srv (login_req ip user_agent email password now1) db in
  ok = true ->
  snd (updateDashboardMetrics srv number_to_string client_tza ip user_agent (after_login ok body c) now2 db1) =
  mkMetrics (Some "$0.00") (Some "undefined hours") None None None None.
Proof.
  intro srv. unfold fetch at 1.
  destruct (srv (login_req ip user_agent email password now1) db) as [db1 resp] eqn:E1.
  intro Hok. unfold after_login. rewrite Hok.
  assert (Hid : jget (json_wire (res_body resp)) "id" = JUndefined).
  { replace resp with (snd (srv (login_req ip user_agent email password now1) db)) by (rewrite E1; reflexivity).
    apply login_answer_no_id; reflexivity. }
  unfold updateDashboardMetrics, loadTasksData, earnings_req, time_saved_req, employee_path, client_request.
  simpl currentEmployee. rewrite Hid.
  destruct (month_bounds client_tza now2) as [first last].
  unfold srv, fetch, serve, handler. simpl. reflexivity.
Qed.
End AfterLogin.

(** ** Witnesses *)

Lemma performance_in_range_witness :
  let ts := [JObj [("status", JStr "completed")]; JObj [("status", JStr "pending")];
             JObj [("status", JStr "in_progress")]] in
  exists k, calculatePerformance (JArr ts) = Ok (int_string k ++ "%") /\
            k = performance_percent (List.length (filter is_completed_json ts)) (List.length ts) /\
            (0 <= k <= 100)%Z.
Proof. apply performance_in_range. discriminate. Defined.

Lemma dashboard_metrics_after_login_witness :
  let srv := test_serve in
  let '(db1, (ok, body)) := fetch srv (login_req None None "ana@example.com" "hunter2" jan7_1000) ana_store in
  ok = true /\
  snd (updateDashboardMetrics srv (fun _ => "0") 0 None None (after_login ok body fresh_client) jan7_1005 db1) =
  mkMetrics (Some "$0.00") (Some "undefined hours") None None None None.
Proof.
  pose proof (dashboard_metrics_after_login (ML := TestMath) 0 (fun _ => "") (fun _ => "0")
                (fun _ _ _ => false) (fun _ => no_jitter) None None ana_store
                "ana@example.com" "hunter2" 0 jan7_1000 jan7_1005 fresh_client) as H.
  unfold test_serve. vm_compute in H |- *. split; [reflexivity | apply H; reflexivity].
Defined.
