(* ===== verification/Tasks.v ===== *)
(** * Tasks: the task list and the progress form of [src/app.js]

    [loadTasks()] (lines 228-236) reads [GET /api/tasks/:id] with
    [loadTasksData] and hands the answer to [displayTasks(tasks)] (lines
    243-279). That function filters the answer by the status the
    [#taskFilter] select names, then writes either the empty-list message
    or one card per task. It throws a [TypeError] on an answer that is not
    an array, and the [catch] of [loadTasks] then shows
    'Error loading tasks'.

    A card's button runs [openTaskModal(task._id)] (lines 287-290), which
    stores the id in the progress form. [updateProgress(e)] (lines 298-334)
    posts the form to [POST /api/task-progress]; on [response.ok] it shows
    its notice, then reloads the list and the dashboard's figures. The
    hours field is read with [parseFloat] (ECMA-262, 21.1.2.12).

    [loadTasks] and [updateDashboardMetrics] run without [await], so their
    answers arrive after [updateProgress] returns. They are modelled in the
    order the code starts them. Both only send GET requests, which write
    nothing, and only [loadTasks] touches the notification. *)

From Stdlib Require Import QArith Qround ZArith Lia Lqa List String Ascii Bool.
From S2P Require Import Prelude JsValue Dates GeoDistance Store Http Documents Csv Routes.
From S2P Require Import Priority Middleware Server Client Session Dashboard Safety.
Import ListNotations.
Local Open Scope list_scope.
Local Open Scope string_scope.

(** ** [parseFloat] *)

(** A JavaScript number as [parseFloat] can return it. *)
Inductive JsNum : Type := NumQ (q : Q) | NumNaN | NumInf (neg : bool).

(** The longest prefix of decimal digits, and what follows it. *)
Fixpoint span_digits (cs : list ascii) : list ascii * list ascii :=
  match cs with
  | c :: r =>
      match digit c with
      | Some _ => let '(ds, rest) := span_digits r in (c :: ds, rest)
      | None => ([], cs)
      end
  | [] => ([], [])
  end.

Definition digits_Z (ds : list ascii) : Z :=
  match digits_value 0 ds with Some n => n | None => 0%Z end.

(** An ExponentPart: [e] or [E], a sign, digits. Without a digit it is not
    part of the literal, and the exponent is [0]. *)
Definition exponent_part (cs : list ascii) : Z :=
  match cs with
  | e :: r =>
      if Ascii.eqb e "e" || Ascii.eqb e "E" then
        let '(sg, r') := match r with
                         | "+"%char :: r' => (1%Z, r')
                         | "-"%char :: r' => ((-1)%Z, r')
                         | _ => (1%Z, r)
                         end in
        (sg * digits_Z (fst (span_digits r')))%Z
      else 0%Z
  | [] => 0%Z
  end.

Fixpoint prefixb (p cs : list ascii) : bool :=
  match p, cs with
  | [], _ => true
  | a :: p', c :: cs' => Ascii.eqb a c && prefixb p' cs'
  | _ :: _, [] => false
  end.

(** The longest prefix that is a StrUnsignedDecimalLiteral: [Infinity],
    or digits with an optional fraction and exponent, with at least one
    digit before the exponent. *)
Definition unsigned_decimal (cs : list ascii) : JsNum :=
  if prefixb (list_ascii_of_string "Infinity") cs then NumInf false else
  let '(ip, r) := span_digits cs in
  let '(fp, r2) := match r with
                   | "."%char :: r1 => span_digits r1
                   | _ => ([], r)
                   end in
  match ip, fp with
  | [], [] => NumNaN
  | _, _ => NumQ (inject_Z (digits_Z (ip ++ fp)) * 10 ^ (exponent_part r2 - Z.of_nat (List.length fp)))
  end.

(** [parseFloat(string)]: the leading white space that [trim] also
    removes is skipped, then a sign and the longest decimal prefix. *)
Definition parseFloat (s : string) : JsNum :=
  let cs := trim_start (list_ascii_of_string s) in
  match cs with
  | "-"%char :: r =>
      match unsigned_decimal r with
      | NumQ q => NumQ (- q)
      | NumInf b => NumInf (negb b)
      | NumNaN => NumNaN
      end
  | "+"%char :: r => unsigned_decimal r
  | _ => unsigned_decimal cs
  end.


(** ** The progress form *)



(** [addTask(e)]: the task form only says where tasks are created. *)
Definition addTask (s : Session) : Session :=
  showNotification "Task creation available in manager mode" "info" s.

(** ** The task list *)

(** What one card of [displayTasks] shows, field by field of its template. *)
Record TaskCard : Type := mkTaskCard {
  card_priority : string;          (** [task-priority-...] *)
  card_status_class : string;      (** [status-...] *)
  card_title : string;
  card_customer : string;
  card_phone : string;
  card_address : string;
  card_due : string;
  card_estimated : string;
  card_status : string;
  card_description : option string;
  card_task_id : string            (** the argument of [tracker.openTaskModal('...')] *)
}.

(** [#tasksList]: the markup's content, the empty-list message, or cards. *)
Inductive TaskList : Type := TasksMarkup | NoTasks | Cards (cs : list TaskCard).

(** [task.priority === 3 ? 'high' : task.priority === 2 ? 'medium' : 'low'] *)
Definition priority_class (p : json) : string :=
  match p with
  | JNum q => if Qeq_bool q 3 then "high" else if Qeq_bool q 2 then "medium" else "low"
  | _ => "low"
  end.

(** [s.replace(a, b)] with a one-character string: the first occurrence only. *)
Fixpoint replace_first (a b : ascii) (s : string) : string :=
  match s with
  | EmptyString => EmptyString
  | String c r => if Ascii.eqb c a then String b r else String c (replace_first a b r)
  end.

(** [toUpperCase()] on the ASCII letters; the statuses the form offers are
    ASCII, and other bytes are left as they are. *)
Definition upper (c : ascii) : ascii :=
  let n := nat_of_ascii c in
  if (97 <=? n)%nat && (n <=? 122)%nat then ascii_of_nat (n - 32) else c.

Definition toUpperCase (s : string) : string :=
  string_of_list_ascii (map upper (list_ascii_of_string s)).

(** [new Date(v).toLocaleDateString()]: an Invalid Date prints as such. *)
Definition locale_date (toLocaleDateString : Z -> string) (t : option Z) : string :=
  match t with Some d => toLocaleDateString d | None => "Invalid Date" end.

(** [v.length === 0] for a value that is neither an array nor [null] nor
    [undefined]: a string's length, or an object's [length] property. *)
Definition js_length_zero (v : json) : bool :=
  match v with
  | JStr s => String.eqb s ""
  | JObj _ => match jget v "length" with JNum q => Qeq_bool q 0 | _ => false end
  | _ => false
  end.

(** [task.status === filter] *)
Definition status_is (f : string) (st : json) : bool :=
  match st with JStr s => String.eqb s f | _ => false end.

Section TaskList.
(** The browser's [Number.prototype.toString] and
    [Date.prototype.toLocaleDateString]. *)
Variable number_to_string : Q -> string.
Variable toLocaleDateString : Z -> string.

(** The card of a task whose [status] is the string [s]. *)
Definition task_card (t : json) (s : string) : TaskCard :=
  let v k := jget t k in
  mkTaskCard ("task-priority-" ++ priority_class (v "priority"))
    ("status-" ++ replace_first "_" "-" s)
    (js_string number_to_string (v "title"))
    (js_string number_to_string (v "customer_name"))
    (if truthy (v "customer_phone") then js_string number_to_string (v "customer_phone") else "N/A")
    (js_string number_to_string (v "address"))
    (locale_date toLocaleDateString (newDate (v "due_date")))
    (if truthy (v "estimated_hours") then js_string number_to_string (v "estimated_hours") else "N/A")
    (toUpperCase (replace_first "_" " " s))
    (if truthy (v "description") then Some (js_string number_to_string (v "description")) else None)
    (js_string number_to_string (v "_id")).

(** One step of the [forEach]: [task.priority], then
    [task.status.replace(...)], which throws unless the status is a string. *)
Definition card_of (t : json) : result TaskCard :=
  let* _ := prop t "priority" in
  let* st := prop t "status" in
  match st with
  | JStr s => Ok (task_card t s)
  | JNull => Throw "Cannot read properties of null (reading 'replace')"
  | JUndefined => Throw "Cannot read properties of undefined (reading 'replace')"
  | _ => Throw "task.status.replace is not a function"
  end.

(** [filteredTasks.forEach(...)]: the cards appended before a throw stay. *)
Fixpoint append_cards (ts : list json) : list TaskCard * option string :=
  match ts with
  | [] => ([], None)
  | t :: r =>
      match card_of t with
      | Ok c => let '(cs, e) := append_cards r in (c :: cs, e)
      | Throw m => ([], Some m)
      end
  end.

(** [tasks.filter(task => task.status === filter)] *)
Fixpoint filter_status (f : string) (ts : list json) : result (list json) :=
  match ts with
  | [] => Ok []
  | t :: r =>
      let* st := prop t "status" in
      let* rest := filter_status f r in
      Ok (if status_is f st then t :: rest else rest)
  end.

(** [displayTasks(tasks)] with the select's value [filter]: the list it
    leaves, and the error it throws. *)
Definition displayTasks (filter : string) (tasks : json) (prev : TaskList) : TaskList * option string :=
  let filtered := if String.eqb filter "all" then Ok tasks
                  else match tasks with
                       | JArr ts => let* l := filter_status filter ts in Ok (JArr l)
                       | _ => Throw "tasks.filter is not a function"
                       end in
  match filtered with
  | Throw m => (prev, Some m)
  | Ok (JArr []) => (NoTasks, None)
  | Ok (JArr ts) => let '(cs, e) := append_cards ts in (Cards cs, e)
  | Ok JNull => (prev, Some "Cannot read properties of null (reading 'length')")
  | Ok JUndefined => (prev, Some "Cannot read properties of undefined (reading 'length')")
  | Ok v => if js_length_zero v then (NoTasks, None)
            else (Cards [], Some "filteredTasks.forEach is not a function")
  end.
End TaskList.

Section Loading.
(** The server, the browser's [toString] and [toLocaleDateString], its time
    zone offset, and the client's address and [User-Agent]. *)
Variable srv : Request -> Store -> Store * Response.
Variable number_to_string : Q -> string.
Variable toLocaleDateString : Z -> string.
Variable client_tza : Z.
Variables (ip user_agent : option string).


End Loading.

(** A task a card can be built from: not [null] or [undefined], with a
    string status. Every task the server answers is one, unless an update
    set its status to [null]. *)
Definition card_ready (t : json) : bool :=
  match t with
  | JNull | JUndefined => false
  | _ => match jget t "status" with JStr _ => true | _ => false end
  end.

Definition status_str (t : json) : string :=
  match jget t "status" with JStr s => s | _ => "" end.




(** The status classes the stylesheet the page adds defines (lines
    890-892). *)
Definition styled_status_classes : list string :=
  ["status-pending"; "status-in-progress"; "status-completed"].

(** ** Lemmas *)

(** What [parseFloat] reads of a few fields. *)
Example parseFloat_examples :
  parseFloat " 2.5h" = NumQ (25 # 10) /\ parseFloat "-.5e1" = NumQ (-5) /\
  parseFloat "1e" = NumQ 1 /\ parseFloat "Infinityx" = NumInf false /\
  parseFloat "-Infinity" = NumInf true /\ parseFloat "." = NumNaN /\ parseFloat "" = NumNaN.
Proof. vm_compute. repeat split; reflexivity. Qed.

(** Each status of the specification gets a card whose badge class the
    stylesheet defines and whose text is the status in capitals with a
    space. *)
Lemma task_status_styled number_to_string toLocaleDateString t s :
  In s ["pending"; "in_progress"; "completed"] ->
  In (card_status_class (task_card number_to_string toLocaleDateString t s)) styled_status_classes /\
  card_status (task_card number_to_string toLocaleDateString t s) =
    match s with "in_progress" => "IN PROGRESS" | _ => toUpperCase s end.
Proof. simpl. intros [<-|[<-|[<-|[]]]]; simpl; auto. Qed.

(** [replace] with a string pattern changes the first underscore only: a
    status with two gets a class the stylesheet does not define. *)
Example status_two_underscores :
  forall nts tld t, card_status_class (task_card nts tld t "in_progress_late") = "status-in-progress_late" /\
                    ~ In "status-in-progress_late" styled_status_classes.
Proof. intros. split; [reflexivity | simpl; intuition discriminate]. Qed.

Section TaskListLaws.
Variable number_to_string : Q -> string.
Variable toLocaleDateString : Z -> string.

Lemma card_of_ready t :
  card_ready t = true -> card_of number_to_string toLocaleDateString t =
                         Ok (task_card number_to_string toLocaleDateString t (status_str t)).
Proof.
  unfold card_ready, card_of, status_str, prop. intro H.
  destruct t; try discriminate H; cbn -[jget];
    match type of H with context [jget ?x "status"] => destruct (jget x "status") end;
    try discriminate H; reflexivity.
Qed.

Lemma append_cards_ready ts :
  forallb card_ready ts = true ->
  append_cards number_to_string toLocaleDateString ts =
    (map (fun t => task_card number_to_string toLocaleDateString t (status_str t)) ts, None).
Proof.
  induction ts as [|t r IH]; simpl; [reflexivity|].
  intro H. apply andb_true_iff in H as [Ht Hr].
  rewrite (card_of_ready t Ht), (IH Hr). reflexivity.
Qed.

Lemma filter_status_ready f ts :
  forallb card_ready ts = true ->
  filter_status f ts = Ok (filter (fun t => status_is f (jget t "status")) ts).
Proof.
  induction ts as [|t r IH]; simpl; [reflexivity|].
  intro H. apply andb_true_iff in H as [Ht Hr]. rewrite (IH Hr).
  destruct t; try discriminate Ht; reflexivity.
Qed.

Lemma forallb_filter_keep {A} (p q : A -> bool) l :
  forallb p l = true -> forallb p (filter q l) = true.
Proof.
  rewrite !forallb_forall. intros H x Hx. apply filter_In in Hx. apply H, Hx.
Qed.

(** The list an array of tasks gives, and no error. *)
Lemma displayTasks_array filter ts prev :
  forallb card_ready ts = true ->
  let shown := if String.eqb filter "all" then ts
               else List.filter (fun t => status_is filter (jget t "status")) ts in
  displayTasks number_to_string toLocaleDateString filter (JArr ts) prev =
    (match shown with
     | [] => NoTasks
     | _ => Cards (map (fun t => task_card number_to_string toLocaleDateString t (status_str t)) shown)
     end, None).
Proof.
  intros H shown. unfold displayTasks, shown.
  destruct (String.eqb filter "all").
  - destruct ts as [|t r]; [reflexivity|]. rewrite append_cards_ready by exact H. reflexivity.
  - rewrite filter_status_ready by exact H. simpl.
    pose proof (forallb_filter_keep card_ready (fun t => status_is filter (jget t "status")) ts H) as Hf.
    destruct (List.filter _ ts) as [|t r]; [reflexivity|].
    rewrite append_cards_ready by exact Hf. reflexivity.
Qed.

End TaskListLaws.





Section ProgressLaws.
Context `{ML : MathLib}.
Variables (tza : Z) (toLocaleDateString : Z -> string) (number_to_string : Q -> string).
Variable other_op : string -> json -> option string -> bool.
Variable rnd : Request -> Randomness.
Variables (ip user_agent : option string).




End ProgressLaws.

(** ** Witnesses *)

