(* ===== verification/Contacts.v ===== *)
(** * Contacts: the emergency contacts of [src/app.js] and their Call buttons

    [loadEmergencyContacts()] (lines 459-467) reads
    [GET /api/emergency-contacts]. Its [catch] only writes to the console.
    [displayEmergencyContacts(contacts)] (lines 469-483) writes one card
    per contact with [contacts.map(...).join('')]: the name, the role, the
    phone, and a Call button whose [onclick] attribute holds the source
    [tracker.callNumber('${contact.phone}')]. A click runs that source, and
    [callNumber(phone)] opens [tel:] followed by the phone.

    What a button dials is the phone read back through the HTML attribute
    and the JavaScript string literal, with the readers of [ExportView].
    The theorems show that each card dials the phone it shows, and that
    the first of the server's contacts is the number [sendEmergencyAlert]
    dials. *)

From Stdlib Require Import QArith ZArith Lia List String Ascii Bool.
From S2P Require Import Prelude JsValue Dates GeoDistance Store Http Documents Csv Routes.
From S2P Require Import Priority Middleware Server Client Session Safety ExportView Dashboard Tasks.
Import ListNotations.
Local Open Scope list_scope.
Local Open Scope string_scope.

(** What one contact card shows. *)
Record ContactCard : Type := mkContactCard {
  contact_name : string;
  contact_role : string;
  contact_phone : string;
  call_onclick : string      (** the source of the button's [onclick] attribute *)
}.

Section ContactList.
Variable number_to_string : Q -> string.

(** The template of one card: [contact.name], [contact.role] and
    [contact.phone], in that order. *)
Definition contact_card (c : json) : result ContactCard :=
  let* name := prop c "name" in
  let* role := prop c "role" in
  let* phone := prop c "phone" in
  let ph := js_string number_to_string phone in
  Ok (mkContactCard (js_string number_to_string name) (js_string number_to_string role) ph
        ("tracker.callNumber('" ++ ph ++ "')")).

Fixpoint contact_cards (cs : list json) : result (list ContactCard) :=
  match cs with
  | [] => Ok []
  | c :: r => let* card := contact_card c in let* rest := contact_cards r in Ok (card :: rest)
  end.

(** [displayEmergencyContacts(contacts)]: the cards, or the [TypeError] of
    [contacts.map] on a value that is not an array. *)
Definition displayEmergencyContacts (contacts : json) : result (list ContactCard) :=
  match contacts with
  | JArr cs => contact_cards cs
  | JNull => Throw "Cannot read properties of null (reading 'map')"
  | JUndefined => Throw "Cannot read properties of undefined (reading 'map')"
  | _ => Throw "contacts.map is not a function"
  end.
End ContactList.

(** [#emergencyContactsList]: the markup's content, or the cards written. *)
Definition ContactsView : Type := option (list ContactCard).

Section Loading.
Variable srv : Request -> Store -> Store * Response.
Variable number_to_string : Q -> string.
Variables (ip user_agent : option string).

(** [loadEmergencyContacts()]: on a throw the list stays as it was. *)
Definition loadEmergencyContacts (now : Z) (view : ContactsView) (db : Store) : ContactsView * Store :=
  let r := client_request ip user_agent "GET" "/api/emergency-contacts" (JObj []) (JObj []) now in
  let '(db', (_, contacts)) := fetch srv r db in
  match displayEmergencyContacts number_to_string contacts with
  | Ok cards => (Some cards, db')
  | Throw _ => (view, db')
  end.
End Loading.

(** What a click on a Call button runs: [callNumber] with the literal the
    attribute holds. *)
Definition parse_call (h : string) : option string :=
  match strip_prefix "tracker.callNumber('" h with
  | Some r =>
      match read_sq r with
      | Some (phone, r1) => if String.eqb r1 ")" then Some phone else None
      | None => None
      end
  | None => None
  end.

(** The address a card's button opens. *)
Definition dialled (card : ContactCard) : option string :=
  option_map callNumber (parse_call (html_attr_value (call_onclick card))).

(** ** Lemmas *)

(** The [onclick] of a card names [callNumber] with the phone the card shows. *)
Lemma contact_card_onclick number_to_string c card :
  contact_card number_to_string c = Ok card ->
  call_onclick card = "tracker.callNumber('" ++ contact_phone card ++ "')".
Proof.
  unfold contact_card. destruct (prop c "name"), (prop c "role"), (prop c "phone");
    intro H; inversion H; reflexivity.
Qed.

(** A Call button carries its phone back when the phone has no character
    the attribute or the literal reads specially: no double quote, single
    quote, ampersand, backslash or line break. *)
Lemma call_button_roundtrip number_to_string c card :
  contact_card number_to_string c = Ok card -> all_chars name_char (contact_phone card) = true ->
  dialled card = Some (callNumber (contact_phone card)).
Proof.
  intros H Hf. unfold dialled. rewrite (contact_card_onclick _ _ _ H).
  set (ph := contact_phone card) in *. pose proof (name_plain _ Hf) as Hp.
  rewrite html_attr_value_id.
  - unfold parse_call. rewrite strip_prefix_app.
    rewrite <- (escapeCSV_name ph Hf) at 1. change "')" with (String squote ")").
    rewrite read_sq_escapeCSV by exact Hp. reflexivity.
  - rewrite !all_chars_app, (plain_no_dquote ph Hp). reflexivity.
Qed.

(** A phone written with a quote ends the literal early: the button dials
    nothing. *)
Example call_button_quote :
  forall nts, dialled (mkContactCard "Pat" "Lead" "0'1" ("tracker.callNumber('" ++ "0'1" ++ "')")) = None /\
              contact_card nts (Routes.contact "Pat" "0'1" "Lead") =
                Ok (mkContactCard "Pat" "Lead" "0'1" ("tracker.callNumber('" ++ "0'1" ++ "')")).
Proof. intro. split; reflexivity. Qed.

Section ContactsLaws.
Context `{ML : MathLib}.
Variables (tza : Z) (toLocaleDateString : Z -> string) (number_to_string : Q -> string).
Variable other_op : string -> json -> option string -> bool.
Variable rnd : Request -> Randomness.
Variables (ip user_agent : option string).

(** The contacts tab dials what it shows: against the server of
    [src/server.js], on every store, [loadEmergencyContacts] writes the
    four contacts of [GET /api/emergency-contacts] and changes nothing;
    every card's Call button opens [tel:] with the phone the card shows;
    and the first card, the primary safety contact, dials the number
    [sendEmergencyAlert] dials after an alert. *)
Theorem contacts_dial_shown (db : Store) (now : Z) (view : ContactsView) :
  let '(view', db') := loadEmergencyContacts (serve tza toLocaleDateString number_to_string other_op rnd)
                         number_to_string ip user_agent now view db in
  db' = db /\
  exists cards, view' = Some cards /\
    map contact_name cards = ["Safety Manager"; "Medical Emergency"; "Team Lead"; "HR Department"] /\
    Forall (fun card => dialled card = Some (callNumber (contact_phone card))) cards /\
    option_map dialled (hd_error cards) = Some (Some primary_call).
Proof.
  unfold loadEmergencyContacts, fetch.
  serve_get.
  cbn -[dialled]. split; [reflexivity|]. eexists. split; [reflexivity|].
  split; [reflexivity|]. split; [repeat constructor | reflexivity].
Qed.
End ContactsLaws.
