(* ===== verification/SmartRoutes.v ===== *)
(** * SmartRoutes: the AI-priority tab of [src/app.js]

    [loadAIPriority()] (lines 336-346) reads
    [GET /api/prioritized-tasks/${this.currentEmployee.id}]. It hands the
    answer to [displayPriorityTasks(tasks)] (lines 348-376), then to
    [calculateRouteSavings(tasks)] (lines 378-385); its [catch] shows
    'Error loading smart routes'.

    [displayPriorityTasks] writes the empty-list message, or a header and
    one card per task: its rank [index + 1], its title, address, due date,
    priority label and [task.ai_score?.toFixed(1) || 'N/A']. Cards written
    before a throw stay, as in [Tasks.displayTasks].

    The theorems compose the view with [Priority.rank_tasks]: an answer of
    the route shows its tasks ranked 1, 2, ... in the route's order, each
    with its score to one decimal. For the sessions the page reaches (no
    [id]), the tab shows the header alone and the error notice. *)

From Stdlib Require Import QArith ZArith Lia List String Ascii Bool.
From S2P Require Import Prelude JsValue Dates GeoDistance Store Http Documents Csv Routes.
From S2P Require Import Priority Middleware Server Client Session Dashboard Safety Tasks.
Import ListNotations.
Local Open Scope list_scope.
Local Open Scope string_scope.

(** What one card of the ranked list shows. *)
Record RouteCard : Type := mkRouteCard {
  route_rank : nat;
  route_title : string;
  route_address : string;
  route_due : string;
  route_priority : string;
  route_score : string
}.

(** [#priorityList]: the markup's content, the empty-list message, or the
    header and the cards. *)
Inductive RouteView : Type := RoutesMarkup | NoRoutes | RouteList (cards : list RouteCard).

(** [task.ai_score?.toFixed(1) || 'N/A']: [null] and [undefined] give
    ['N/A'], a number its one-decimal text (never empty), anything else
    throws. *)
Definition score_text (v : json) : result string :=
  match v with
  | JNull | JUndefined => Ok "N/A"
  | JNum q => Ok (toFixed q 1)
  | _ => Throw "task.ai_score?.toFixed is not a function"
  end.

Section RouteList.
Variable number_to_string : Q -> string.
Variable toLocaleDateString : Z -> string.

(** The card of the task at [index]: the template reads [title],
    [address], [due_date], [priority] and [ai_score], in that order. *)
Definition route_card (index : nat) (t : json) : result RouteCard :=
  let* title := prop t "title" in
  let* addr := prop t "address" in
  let* due := prop t "due_date" in
  let* p := prop t "priority" in
  let* sc := prop t "ai_score" in
  let* score := score_text sc in
  Ok (mkRouteCard (S index) (js_string number_to_string title) (js_string number_to_string addr)
        (locale_date toLocaleDateString (newDate due)) (priority_label p) score).

(** [tasks.forEach((task, index) => ...)] from [index] on. *)
Fixpoint route_cards (index : nat) (ts : list json) : list RouteCard * option string :=
  match ts with
  | [] => ([], None)
  | t :: r =>
      match route_card index t with
      | Ok c => let '(cs, e) := route_cards (S index) r in (c :: cs, e)
      | Throw m => ([], Some m)
      end
  end.

(** [displayPriorityTasks(tasks)]: the list it leaves, and what it throws. *)
Definition displayPriorityTasks (tasks : json) (prev : RouteView) : RouteView * option string :=
  match tasks with
  | JNull => (prev, Some "Cannot read properties of null (reading 'length')")
  | JUndefined => (prev, Some "Cannot read properties of undefined (reading 'length')")
  | JArr [] => (NoRoutes, None)
  | JArr ts => let '(cs, e) := route_cards 0 ts in (RouteList cs, e)
  | v => if js_length_zero v then (NoRoutes, None)
         else (RouteList [], Some "tasks.forEach is not a function")
  end.
End RouteList.

(** [tasks.length] where [displayPriorityTasks] did not throw. *)
Definition tasks_length (tasks : json) : nat :=
  match tasks with JArr ts => List.length ts | _ => 0 end.

Section Loading.
Variable srv : Request -> Store -> Store * Response.
Variable number_to_string : Q -> string.
Variable toLocaleDateString : Z -> string.
Variables (ip user_agent : option string).

(** [loadAIPriority()]: the session, the list, the two route-savings texts
    when [calculateRouteSavings] writes them, and the store. *)
Definition loadAIPriority (now : Z) (s : Session) (view : RouteView) (db : Store)
  : Session * RouteView * option (string * string) * Store :=
  let r := client_request ip user_agent "GET" (employee_path number_to_string "prioritized-tasks" (client s))
             (JObj []) (JObj []) now in
  let '(db', (_, tasks)) := fetch srv r db in
  match displayPriorityTasks number_to_string toLocaleDateString tasks view with
  | (view', None) => (s, view', Some (calculateRouteSavings (tasks_length tasks)), db')
  | (view', Some _) => (showNotification "Error loading smart routes" "error" s, view', None, db')
  end.
End Loading.

(** Two pending tasks of one employee: an undated one and one of high
    priority due on 11 January. *)
Definition routes_store : Store :=
  mkStore [] [pending_task "000000000000000000000001" (Some 3%Q) (Some jan11_ms);
              pending_task "000000000000000000000002" (Some 1%Q) None] [] [] [] 3.

(** ** Lemmas *)

(** A document of the ranked answer is an object with distinct keys. *)
Lemma ranked_json_obj now p :
  exists fs, ranked_json now p = JObj fs /\ NoDup (map fst fs) /\
             jget (JObj fs) "title" = opt_str (title (fst p)) /\
             jget (JObj fs) "ai_score" = JNum (snd p).
Proof.
  eexists. split; [reflexivity|]. split; [|split; reflexivity].
  repeat (constructor; [simpl; intuition discriminate|]). constructor.
Qed.

(** The wire keeps the ranked array's documents in order. *)
Lemma wire_ranked now r :
  json_wire (JArr (map (ranked_json now) r)) = JArr (map (fun p => json_wire (ranked_json now p)) r).
Proof.
  cbn [json_wire]. f_equal. rewrite map_map. apply map_ext. intro p.
  destruct (ranked_json_obj now p) as (fs & Hfs & _). rewrite Hfs. reflexivity.
Qed.

Section RankedView.
Variable number_to_string : Q -> string.
Variable toLocaleDateString : Z -> string.
Variable now : Z.

(** The card of a ranked document: its rank, its title and its score to
    one decimal. *)
Lemma route_card_ranked i p :
  exists c, route_card number_to_string toLocaleDateString i (json_wire (ranked_json now p)) = Ok c /\
            route_rank c = S i /\ route_score c = toFixed (snd p) 1 /\
            route_title c = js_string number_to_string (opt_str (title (fst p))).
Proof.
  destruct (ranked_json_obj now p) as (fs & Hfs & Hnd & Ht & Hs). rewrite Hfs.
  unfold route_card, prop.
  assert (Hw : exists fs', json_wire (JObj fs) = JObj fs') by (eexists; reflexivity).
  destruct Hw as [fs' Hw]. rewrite Hw. cbn [bind].
  rewrite <- Hw, !jget_wire, Ht, Hs by exact Hnd. cbn.
  eexists. split; [reflexivity|]. split; [reflexivity|]. split; [reflexivity|].
  destruct (title (fst p)); reflexivity.
Qed.

Lemma route_cards_ranked i r :
  exists cs,
    route_cards number_to_string toLocaleDateString i (map (fun p => json_wire (ranked_json now p)) r) =
      (cs, None) /\
    map route_rank cs = seq (S i) (List.length r) /\
    map route_score cs = map (fun p => toFixed (snd p) 1) r /\
    map route_title cs = map (fun p => js_string number_to_string (opt_str (title (fst p)))) r.
Proof.
  revert i. induction r as [|p r IH]; intro i; [exists []; repeat split|].
  destruct (route_card_ranked i p) as (c & Hc & Hr & Hs & Ht).
  destruct (IH (S i)) as (cs & Hcs & Hrs & Hss & Hts).
  exists (c :: cs). cbn [map route_cards]. rewrite Hc, Hcs. cbn [List.length seq map].
  rewrite Hr, Hs, Ht, Hrs, Hss, Hts. repeat split.
Qed.
End RankedView.

(** The smart-routes list shows the route's ranking: for an employee id
    that casts, the answer of [GET /api/prioritized-tasks/:employee_id]
    is displayed as its tasks numbered 1, 2, ... in the route's order,
    each with its [ai_score] to one decimal and its title, without error;
    an empty ranking shows the empty-list message. *)
Theorem priority_route_view number_to_string toLocaleDateString rnd now emp db prev :
  cast_oid emp = Some emp ->
  let r := rank_tasks rnd now emp db in
  exists cs,
    displayPriorityTasks number_to_string toLocaleDateString
      (json_wire (res_body (snd (prioritized_route rnd now db emp)))) prev =
      (match r with [] => NoRoutes | _ => RouteList cs end, None) /\
    map route_rank cs = seq 1 (List.length r) /\
    map route_score cs = map (fun p => toFixed (snd p) 1) r /\
    map route_title cs = map (fun p => js_string number_to_string (opt_str (title (fst p)))) r.
Proof.
  intros Hid r. unfold prioritized_route, run_route, get_prioritized, mbind, mlift, mget, mret, new_object_id.
  rewrite Hid. cbn [snd res_body res_json]. fold r. rewrite wire_ranked.
  destruct (route_cards_ranked number_to_string toLocaleDateString now 0 r) as (cs & Hcs & Hrest).
  exists cs. split; [|exact Hrest].
  unfold displayPriorityTasks. destruct r as [|p r']; [reflexivity|].
  cbn [map] in Hcs |- *. rewrite Hcs. reflexivity.
Qed.

Section Anonymous.
Context `{ML : MathLib}.
Variables (tza : Z) (toLocaleDateString : Z -> string) (number_to_string : Q -> string).
Variable other_op : string -> json -> option string -> bool.
Variable rnd : Request -> Randomness.
Variables (ip user_agent : option string).

(** For a session whose employee has no [id] (every session the page
    reaches), the tab asks for [/api/prioritized-tasks/undefined]; the
    server refuses the id, [forEach] throws on its error object after the
    header is written, the notice says 'Error loading smart routes', and
    the route-savings figures are not written. *)
Theorem smart_routes_anonymous now (s : Session) view db :
  jget (currentEmployee (client s)) "id" = JUndefined ->
  loadAIPriority (serve tza toLocaleDateString number_to_string other_op rnd) number_to_string
    toLocaleDateString ip user_agent now s view db =
  (showNotification "Error loading smart routes" "error" s, RouteList [], None, db).
Proof.
  intro Hid. unfold loadAIPriority, fetch, employee_path, client_request. rewrite Hid.
  serve_get. reflexivity.
Qed.
End Anonymous.

(** ** Witnesses *)

Lemma priority_route_view_witness :
  let r := rank_tasks no_jitter jan1_ms "65a1b2c3d4e5f60718293a4b" routes_store in
  exists cs,
    displayPriorityTasks (fun _ => "0") (fun _ => "")
      (json_wire (res_body (snd (prioritized_route no_jitter jan1_ms routes_store "65a1b2c3d4e5f60718293a4b"))))
      RoutesMarkup =
      (match r with [] => NoRoutes | _ => RouteList cs end, None) /\
    map route_rank cs = seq 1 (List.length r) /\
    map route_score cs = map (fun p => toFixed (snd p) 1) r /\
    map route_title cs = map (fun p => js_string (fun _ => "0") (opt_str (title (fst p)))) r.
Proof. apply priority_route_view. reflexivity. Defined.
