(* ===== verification/Pwa.v ===== *)
(** * Pwa: the service worker and the installation prompt of [src/app.js]

    After the class, the script registers [/sw.js] on the window's [load]
    when [navigator.serviceWorker] exists (lines 899-910). It logs one of
    two lines when the registration settles.

    It also handles [beforeinstallprompt] (lines 913-931): [e.preventDefault()]
    keeps the browser from offering installation itself, and ten seconds
    later a banner with an Install button is appended. The button removes
    the banner and calls [tracker.installPWA()] (lines 934-941). That
    function prompts only through [window.deferredPrompt], which no line of
    the code ever assigns.

    The state is what these handlers change: the saved prompt, whether the
    browser may still show its own install offer, the banners, the pending
    timeouts, the pending registration and prompt answer, the number of
    [prompt()] calls, and the console. [pwa_reachable] is the set of states
    a page reaches, as a step relation. *)

From Stdlib Require Import List String Lia.
From S2P Require Import Prelude.
Import ListNotations.
Local Open Scope string_scope.

(** The events the handlers answer. *)
Inductive PwaEvent : Type :=
| Load                         (** the window's [load] *)
| SwSettled (ok : bool)        (** [register('/sw.js')] fulfils or rejects *)
| BeforeInstallPrompt          (** the browser offers installation *)
| PromptTimer                  (** a [setTimeout(..., 10000)] fires *)
| InstallClick                 (** the Install button of a banner *)
| ChoiceSettled (outcome : string). (** [deferredPrompt.userChoice] settles *)

Record PwaState : Type := mkPwa {
  sw_supported : bool;          (** ['serviceWorker' in navigator] *)
  deferredPrompt : option nat;  (** [window.deferredPrompt]: a saved offer *)
  browser_offer : bool;         (** the browser may still show its own offer *)
  banners : nat;                (** install banners in the body *)
  prompt_timers : nat;          (** pending ten-second timeouts *)
  sw_pending : bool;            (** a registration not settled yet *)
  choice_pending : bool;        (** an [await userChoice] not settled yet *)
  native_prompts : nat;         (** calls of [deferredPrompt.prompt()] *)
  console : list string
}.

(** The page after the script ran: the listeners are set, nothing else. *)
Definition pwa_init (sw : bool) : PwaState := mkPwa sw None true 0 0 false false 0 [].

Definition pwa_log (msg : string) (st : PwaState) : PwaState :=
  mkPwa (sw_supported st) (deferredPrompt st) (browser_offer st) (banners st) (prompt_timers st)
    (sw_pending st) (choice_pending st) (native_prompts st) (console st ++ [msg]).

(** [tracker.installPWA()]: with a saved offer, prompt and wait for the
    answer; without one, nothing. *)
Definition installPWA (st : PwaState) : PwaState :=
  match deferredPrompt st with
  | Some e => mkPwa (sw_supported st) (Some e) (browser_offer st) (banners st) (prompt_timers st)
                (sw_pending st) true (S (native_prompts st)) (console st)
  | None => st
  end.

(** One event. A timeout, a button or a settlement that is not pending
    does not happen, and leaves the state. *)
Definition pwa_step (ev : PwaEvent) (st : PwaState) : PwaState :=
  match ev with
  | Load =>
      if sw_supported st then
        mkPwa (sw_supported st) (deferredPrompt st) (browser_offer st) (banners st) (prompt_timers st)
          true (choice_pending st) (native_prompts st) (console st)
      else st
  | SwSettled ok =>
      if sw_pending st then
        let st' := mkPwa (sw_supported st) (deferredPrompt st) (browser_offer st) (banners st)
                     (prompt_timers st) false (choice_pending st) (native_prompts st) (console st) in
        pwa_log (if ok then "FieldForce Pro PWA registered" else "PWA registration failed: ") st'
      else st
  | BeforeInstallPrompt =>
      mkPwa (sw_supported st) (deferredPrompt st) false (banners st) (S (prompt_timers st))
        (sw_pending st) (choice_pending st) (native_prompts st) (console st)
  | PromptTimer =>
      match prompt_timers st with
      | O => st
      | S k => mkPwa (sw_supported st) (deferredPrompt st) (browser_offer st) (S (banners st)) k
                 (sw_pending st) (choice_pending st) (native_prompts st) (console st)
      end
  | InstallClick =>
      match banners st with
      | O => st
      | S k => installPWA (mkPwa (sw_supported st) (deferredPrompt st) (browser_offer st) k
                             (prompt_timers st) (sw_pending st) (choice_pending st)
                             (native_prompts st) (console st))
      end
  | ChoiceSettled outcome =>
      if choice_pending st then
        pwa_log ("User response: " ++ outcome)
          (mkPwa (sw_supported st) None (browser_offer st) (banners st) (prompt_timers st)
             (sw_pending st) false (native_prompts st) (console st))
      else st
  end.

Definition pwa_run (evs : list PwaEvent) (st : PwaState) : PwaState := fold_left (fun s e => pwa_step e s) evs st.

(** The states a page reaches. *)
Inductive pwa_reachable : PwaState -> Prop :=
| pwa_start sw : pwa_reachable (pwa_init sw)
| pwa_next ev st : pwa_reachable st -> pwa_reachable (pwa_step ev st).

(** What holds in every reachable state: no offer was ever saved, so no
    [prompt()] ran and no answer is awaited. *)
Definition pwa_inv (st : PwaState) : Prop :=
  deferredPrompt st = None /\ native_prompts st = 0 /\ choice_pending st = false.

(** ** Lemmas *)

Lemma pwa_inv_step ev st : pwa_inv st -> pwa_inv (pwa_step ev st).
Proof.
  intros (Hd & Hn & Hc). unfold pwa_inv.
  destruct ev; simpl;
    repeat match goal with
    | |- context [if ?b then _ else _] => destruct b eqn:?
    | |- context [match ?n with O => _ | S _ => _ end] => destruct n
    end; unfold installPWA; simpl; rewrite ?Hd; simpl; intuition congruence.
Qed.

(** The offer is off once the browser made it, whatever follows. *)
Lemma browser_offer_step ev st : browser_offer st = false -> browser_offer (pwa_step ev st) = false.
Proof.
  intro H. destruct ev; simpl;
    repeat match goal with
    | |- context [if ?b then _ else _] => destruct b
    | |- context [match ?n with O => _ | S _ => _ end] => destruct n
    | |- context [match deferredPrompt ?s with _ => _ end] => destruct (deferredPrompt s)
    end; unfold installPWA; simpl; try destruct (deferredPrompt _); simpl; auto.
Qed.

Lemma pwa_run_reachable evs st : pwa_reachable st -> pwa_reachable (pwa_run evs st).
Proof.
  revert st. induction evs as [|ev evs IH]; intros st H; [exact H|]. apply IH. constructor. exact H.
Qed.

Lemma browser_offer_run evs st : browser_offer st = false -> browser_offer (pwa_run evs st) = false.
Proof.
  revert st. induction evs as [|ev evs IH]; intros st H; [exact H|]. apply IH, browser_offer_step, H.
Qed.

(** Every reachable state satisfies the invariant (rule induction). *)
Lemma pwa_reachable_inv st : pwa_reachable st -> pwa_inv st.
Proof.
  induction 1 as [sw|ev st _ IH]; [repeat split | apply pwa_inv_step, IH].
Qed.

(** C13. The page can never be installed through its own prompt: after any
    sequence of events from the page's start, [installPWA] has never
    called [prompt()] and no offer is saved; once the browser has offered
    installation, [preventDefault] has also taken its own offer away. The
    Install button only removes its banner. *)
Theorem install_never_prompts (sw : bool) (pre post : list PwaEvent) :
  let st := pwa_run (pre ++ BeforeInstallPrompt :: post) (pwa_init sw) in
  native_prompts st = 0 /\ deferredPrompt st = None /\ browser_offer st = false.
Proof.
  intro st.
  destruct (pwa_reachable_inv st (pwa_run_reachable _ _ (pwa_start sw))) as (Hd & Hn & _).
  split; [exact Hn|]. split; [exact Hd|].
  unfold st, pwa_run. rewrite fold_left_app. cbn [fold_left]. apply browser_offer_run. reflexivity.
Qed.

(** The banner does appear: ten seconds after the offer a banner is in the
    page, and its button removes it without a prompt. *)
Example install_banner_only :
  let st1 := pwa_run [Load; SwSettled true; BeforeInstallPrompt; PromptTimer] (pwa_init true) in
  let st2 := pwa_step InstallClick st1 in
  banners st1 = 1 /\ banners st2 = 0 /\ native_prompts st2 = 0 /\
  console st2 = ["FieldForce Pro PWA registered"].
Proof. repeat split. Qed.
