(* ===== verification/Forms.v ===== *)
(** * Forms: the default dates and the registration form of [src/app.js]

    [init] (lines 12-17) runs [setDefaultDates] (lines 58-74) on every page
    load. It fills the two benefit forms with the first and last day of the
    current month, as [calculateCurrentEarnings] computes them
    ([Client.month_bounds]), and the report form with a week: it moves
    [today] with [setDate(getDate() - getDay() + 1)], then moves the result
    with [setDate(getDate() - getDay() + 7)]. Every field is
    [toISOString().split('T')[0]], the UTC date of a local instant.
    [getDate], [getDay] and [setDate] work in local time (ECMA-262,
    21.4.4.2, 21.4.4.3 and 21.4.4.20) with the host's fixed offset [tza].

    [handleRegister] (lines 106-135) posts the registration form and shows
    the login screen when the answer is [ok]. The theorems of this file
    follow a registration through the server to the next login. *)

From Stdlib Require Import QArith ZArith Lia List String Ascii Bool.
From S2P Require Import Prelude JsValue Dates GeoDistance Store Http Documents Csv Routes.
From S2P Require Import Priority Middleware Server Client Session.
Import ListNotations.
Local Open Scope list_scope.
Local Open Scope string_scope.

(** ** Local calendar fields of a [Date] *)

(** [d.getDate()]: the day of the month in local time. *)
Definition getDate (tza t : Z) : Z :=
  let '(_, _, d) := civil_from_days (Day (LocalTime tza t)) in d.

(** [d.getDay()]: the day of the week in local time, 0 for Sunday. *)
Definition getDay (tza t : Z) : Z := WeekDay (LocalTime tza t).

(** [d.setDate(date)]: the same local month and time of day, the given day
    of the month (which [MakeDay] carries into the months around); NaN
    beyond the time range. *)
Definition setDate (tza t date : Z) : option Z :=
  let lt := LocalTime tza t in
  let '(y, m, _) := civil_from_days (Day lt) in
  TimeClip (UTC tza (MakeDate (MakeDay y (m - 1) date) (lt mod msPerDay))).

(** [s.split(c)[0]]: the text before the first [c]. *)
Fixpoint before_char (c : ascii) (s : string) : string :=
  match s with
  | EmptyString => EmptyString
  | String a r => if Ascii.eqb a c then EmptyString else String a (before_char c r)
  end.

(** [d.toISOString().split('T')[0]] *)
Definition iso_date (t : Z) : string := before_char "T" (toISOString t).

(** ** [setDefaultDates()] *)

(** Lines 59-66: the month's first and last day in the two benefit forms. *)
Definition month_fields (tza today : Z) : list (string * string) :=
  let '(firstDay, lastDay) := month_bounds tza today in
  [("mileageStartDate", iso_date firstDay); ("mileageEndDate", iso_date lastDay);
   ("timesheetStartDate", iso_date firstDay); ("timesheetEndDate", iso_date lastDay)].

(** The whole method: the input values it writes, in order. A NaN date
    makes [toISOString] throw a [RangeError], which ends the method. *)
Definition setDefaultDates (tza today : Z) : list (string * string) :=
  month_fields tza today ++
  match setDate tza today (getDate tza today - getDay tza today + 1) with
  | None => []
  | Some weekStart =>
      match setDate tza weekStart (getDate tza weekStart - getDay tza weekStart + 7) with
      | None => [("weekStart", iso_date weekStart)]
      | Some weekEnd => [("weekStart", iso_date weekStart); ("weekEnd", iso_date weekEnd)]
      end
  end.

(** ** [handleRegister(e)] *)

Section RegisterForm.
(** The server, the browser's [Number.prototype.toString], and the client's
    address and [User-Agent]. *)
Variable srv : Request -> Store -> Store * Response.
Variable number_to_string : Q -> string.
Variables (ip user_agent : option string).

(** Lines 106-135: the form's three values posted to [/api/register]; on
    [response.ok] a notice and the login screen, otherwise the server's
    [error] or ['Registration failed']. *)
Definition handleRegister (name email password : string) (now : Z) (s : Session) (db : Store)
  : Session * Store :=
  let '(db', (ok, body)) := fetch srv (register_req ip user_agent name email password now) db in
  if ok then (showScreen "loginScreen" (showNotification "Account created! Please login." "success" s), db')
  else
    let err := jget body "error" in
    (showNotification (if truthy err then js_string number_to_string err else "Registration failed")
       "error" s, db').
End RegisterForm.

(** ** Lemmas *)

Local Open Scope Z_scope.

Lemma days_from_civil_day y m d d' : days_from_civil y m d' = days_from_civil y m d + d' - d.
Proof. unfold days_from_civil. lia. Qed.

(** [setDate] moves a date by whole days within the time range. *)
Lemma setDate_shift tza t date :
  Z.abs (t + (date - getDate tza t) * msPerDay) <= 8640000000000000 ->
  setDate tza t date = Some (t + (date - getDate tza t) * msPerDay).
Proof.
  unfold setDate, getDate. pose proof (civil_from_days_spec (Day (LocalTime tza t))) as Hc.
  destruct (civil_from_days (Day (LocalTime tza t))) as [[y m] d]. destruct Hc as (Hm & Hd & Hdays).
  intro H. rewrite MakeDay_civil, (days_from_civil_day y m d date), Hdays by lia.
  rewrite <- TimeClip_in_range by exact H. f_equal.
  unfold UTC, MakeDate, Day, LocalTime in *. unfold msPerDay in *.
  pose proof (Z.div_mod (t + tza) 86400000 ltac:(lia)). lia.
Qed.

Lemma getDay_range tza t : 0 <= getDay tza t < 7.
Proof. unfold getDay, WeekDay. apply Z.mod_pos_bound. lia. Qed.

Lemma getDay_shift tza t k : getDay tza (t + k * msPerDay) = (getDay tza t + k) mod 7.
Proof.
  unfold getDay, WeekDay, LocalTime, Day.
  replace (t + k * msPerDay + tza) with (t + tza + k * msPerDay) by ring.
  rewrite Z.div_add by (unfold msPerDay; lia). rewrite Zplus_mod_idemp_l. f_equal. ring.
Qed.

(** The two moves of the week: to the Monday [1 - getDay()] days away,
    then six days on. *)
Lemma default_week_moves tza today :
  Z.abs today <= 8639999000000000 ->
  let ws := today + (1 - getDay tza today) * msPerDay in
  setDate tza today (getDate tza today - getDay tza today + 1) = Some ws /\
  getDay tza ws = 1 /\
  setDate tza ws (getDate tza ws - getDay tza ws + 7) = Some (ws + 6 * msPerDay).
Proof.
  intros H ws. pose proof (getDay_range tza today) as Hr.
  assert (Hws : getDay tza ws = 1).
  { unfold ws. rewrite getDay_shift. replace (getDay tza today + (1 - getDay tza today)) with 1 by ring.
    reflexivity. }
  split; [|split; [exact Hws|]].
  - rewrite setDate_shift; unfold ws, msPerDay in *; f_equal; lia.
  - rewrite setDate_shift; rewrite Hws; unfold ws, msPerDay in *; [f_equal; lia | lia].
Qed.

Lemma before_char_app c a b :
  (forall x, In x (list_ascii_of_string a) -> x <> c) ->
  before_char c (a ++ b) = (a ++ before_char c b)%string.
Proof.
  induction a as [|x a IH]; intro H; simpl; [reflexivity|].
  destruct (Ascii.eqb_spec x c) as [E|_]; [exfalso; apply (H x); [left; reflexivity | exact E]|].
  f_equal. apply IH. intros z Hz. apply H. right. exact Hz.
Qed.

Lemma digits_value_no_T acc cs v : digits_value acc cs = Some v -> forall x, In x cs -> x <> "T"%char.
Proof.
  revert acc. induction cs as [|c cs IH]; intros acc Hv x Hx; [destruct Hx|]. simpl in Hv.
  destruct (digit c) eqn:Ec; [|discriminate]. destruct Hx as [<-|Hx]; [|exact (IH _ Hv x Hx)].
  intros ->. vm_compute in Ec. discriminate.
Qed.

Lemma pad_no_T w n :
  (1 <= w)%nat -> 0 <= n < 10 ^ Z.of_nat w -> forall x, In x (list_ascii_of_string (pad w n)) -> x <> "T"%char.
Proof. intros Hw Hn. destruct (pad_spec w n Hw Hn) as [_ Hv]. exact (digits_value_no_T _ _ _ Hv). Qed.

Lemma dash_no_T : forall x, In x (list_ascii_of_string "-") -> x <> "T"%char.
Proof. intros x [<-|[]]. discriminate. Qed.

(** [toISOString().split('T')[0]] is the UTC date of the instant. *)
Lemma iso_date_day t :
  (let '(y, _, _) := civil_from_days (Day t) in 0 <= y <= 9999) ->
  iso_date t = date_string (Day t).
Proof.
  pose proof (civil_from_days_spec (Day t)) as Hc.
  unfold iso_date, toISOString, date_string. destruct (civil_from_days (Day t)) as [[y m] d].
  destruct Hc as (Hm & Hd & _). intro Hy.
  rewrite !before_char_app by first [apply dash_no_T | apply pad_no_T; [lia | simpl; lia]].
  simpl. rewrite ?string_app_nil_r. reflexivity.
Qed.

(** The first day of the month as an instant: local midnight, [tza] before
    the UTC midnight of that date. *)
Lemma month_first_day tza today :
  - msPerDay < tza < msPerDay ->
  let '(y, m, _) := civil_from_days (Day (LocalTime tza today)) in
  Day (fst (month_bounds tza today)) = MakeDay y (m - 1) 1 - (if 0 <? tza then 1 else 0).
Proof.
  intro Htza. unfold month_bounds.
  destruct (civil_from_days (Day (LocalTime tza today))) as [[y m] d]. simpl fst.
  unfold UTC, MakeDate, Day, msPerDay in *.
  destruct (0 <? tza) eqn:E; [apply Z.ltb_lt in E | apply Z.ltb_ge in E].
  - symmetry. apply (Z.div_unique_pos _ _ _ (86400000 - tza)); lia.
  - symmetry. apply (Z.div_unique_pos _ _ _ (- tza)); lia.
Qed.

(** C34. The report form's default week runs from a Monday to the Sunday
    six days later, in local time: the week that holds [today] when
    [today] is Monday to Saturday, and the week after it when [today] is a
    Sunday, since [getDate() - getDay() + 1] counts Sunday as day 0. The
    two fields are the UTC dates of those two instants. *)
Theorem setDefaultDates_week (tza today : Z) :
  Z.abs today <= 8639999000000000 ->
  let ws := today + (1 - getDay tza today) * msPerDay in
  setDefaultDates tza today =
    (month_fields tza today ++ [("weekStart", iso_date ws); ("weekEnd", iso_date (ws + 6 * msPerDay))])%list /\
  getDay tza ws = 1 /\ getDay tza (ws + 6 * msPerDay) = 0 /\
  (ws <= today <= ws + 6 * msPerDay <-> getDay tza today <> 0).
Proof.
  intros H ws. destruct (default_week_moves tza today H) as (H1 & H2 & H3). fold ws in H1, H2, H3.
  pose proof (getDay_range tza today) as Hr.
  split; [unfold setDefaultDates; rewrite H1, H3; reflexivity|].
  split; [exact H2|]. split.
  - rewrite getDay_shift, H2. reflexivity.
  - unfold ws, msPerDay. split; intro; lia.
Qed.

(** East of UTC the two benefit forms open on the wrong days: the first
    day of the month is local midnight, which [toISOString] writes as the
    previous UTC date, so the start field names the last day of the
    previous month (and the end field the day before the month's last).
    On UTC and west of it the field is the first of the month. *)
Theorem month_start_field (tza today : Z) :
  - msPerDay < tza < msPerDay ->
  (let '(y, _, _) := civil_from_days (Day (fst (month_bounds tza today))) in 0 <= y <= 9999) ->
  let '(y, m, _) := civil_from_days (Day (LocalTime tza today)) in
  hd_error (setDefaultDates tza today) =
    Some ("mileageStartDate", date_string (MakeDay y (m - 1) 1 - (if 0 <? tza then 1 else 0))).
Proof.
  intros Htza Hy. pose proof (month_first_day tza today Htza) as Hd.
  destruct (civil_from_days (Day (LocalTime tza today))) as [[y m] d].
  unfold setDefaultDates, month_fields. destruct (month_bounds tza today) as [first last] eqn:E.
  simpl fst in Hd, Hy. simpl. rewrite (iso_date_day _ Hy), Hd. reflexivity.
Qed.

Lemma find_app_none {A : Type} (f : A -> bool) (l1 l2 : list A) :
  (forall x, In x l1 -> f x = false) -> find f (l1 ++ l2) = find f l2.
Proof. induction l1 as [|a l1 IH]; intro H; simpl; [reflexivity|]. rewrite H by (left; reflexivity). apply IH. intros x Hx. apply H. right. exact Hx. Qed.

Lemma opt_str_eqb_some o s : opt_str_eqb o (Some s) = true -> o = Some s.
Proof. destruct o as [a|]; simpl; [intro H; apply String.eqb_eq in H; congruence | discriminate]. Qed.

Section Register.
Context `{ML : MathLib}.
Variables (tza : Z) (toLocaleDateString : Z -> string) (number_to_string : Q -> string).
Variable other_op : string -> json -> option string -> bool.
Variable rnd : Request -> Randomness.
Variables (ip user_agent : option string).

Lemma register_answer db name email password now :
  let '(db1, resp) := serve tza toLocaleDateString number_to_string other_op rnd
                        (register_req ip user_agent name email password now) db in
  response_ok resp = true ->
  exists fresh,
    employees db1 = (employees db ++
      [mkEmployee fresh (Some name) (Some email) (Some password) (Some "employee") (Some 25%Q)
                  (Some true) (Some now)])%list /\
    ~ In (Some email) (map emp_email (employees db)) /\
    res_body resp = JObj [("id", JStr fresh); ("message", JStr "Employee registered successfully")].
Proof.
  unfold serve, handler, register_req, client_request. cbn -[log_request oid_of_N].
  unfold run_route, register, create_employee, mbind, mfresh, mlift, mret, fresh_oid.
  cbn -[log_request oid_of_N].
  unfold insert_employee. cbn -[log_request oid_of_N id_taken].
  destruct (id_taken _ _); [cbn; discriminate|].
  destruct (existsb _ _) eqn:Em; [cbn; discriminate|].
  intros _. eexists. split; [|split].
  - rewrite log_request_employees. reflexivity.
  - intro Hin. apply (email_taken_false _ _ Em). exact Hin.
  - reflexivity.
Qed.

(** A login with an email that exactly one employee holds, the last one,
    answers that employee when the password matches and the account is
    active. *)
Lemma login_unique_email db pre e email password now :
  employees db = (pre ++ [e])%list -> ~ In (Some email) (map emp_email pre) ->
  emp_email e = Some email -> emp_password e = Some password -> isActive e = Some true ->
  snd (serve tza toLocaleDateString number_to_string other_op rnd (login_req ip user_agent email password now) db) =
    res_json (doc_json (employee_json e)).
Proof.
  intros Hdb Hpre He Hp Ha. rewrite serve_response.
  unfold handler, login_req, client_request. cbn -[login].
  unfold run_route, login, mbind, mlift, mget, mret. cbn. rewrite Hdb, find_app_none.
  - assert (Hf : login_match other_op [CEq (Some email)] [CEq (Some password)] e = true)
      by (unfold login_match, holds_all; simpl; rewrite He, Hp, Ha; simpl; rewrite !String.eqb_refl; reflexivity).
    cbn [find]. rewrite Hf. reflexivity.
  - intros x Hx. unfold login_match, holds_all. simpl.
    destruct (opt_str_eqb (emp_email x) (Some email)) eqn:Ex; [|reflexivity].
    exfalso. apply Hpre. rewrite <- (opt_str_eqb_some _ _ Ex). apply in_map. exact Hx.
Qed.
(** C35. Registration then login, through the two forms: when the
    registration form's page says the account was created, logging in
    with the same email and password opens the dashboard on the employee
    the registration appended to the store (its [_id]), with the name and
    the email of the form. The email index makes the new employee the only
    one with that email, so no earlier account can answer. *)
Theorem register_then_login (db : Store) (s : Session) (name email password : string) (now1 now2 : Z) :
  let srv := serve tza toLocaleDateString number_to_string other_op rnd in
  let '(s1, db1) := handleRegister srv number_to_string ip user_agent name email password now1 s db in
  notice s1 = Some ("Account created! Please login.", "success") ->
  let '(s2, _) := handleLogin srv number_to_string ip user_agent email password now2 s1 db1 in
  screen s2 = "dashboard" /\
  (exists e, employees db1 = (employees db ++ [e])%list /\
             jget (currentEmployee (client s2)) "_id" = JStr (emp_id e)) /\
  jget (currentEmployee (client s2)) "name" = JStr name /\
  jget (currentEmployee (client s2)) "email" = JStr email.
Proof.
  intro srv. pose proof (register_answer db name email password now1) as Hreg.
  unfold handleRegister, handleLogin, fetch, srv in *.
  destruct (serve _ _ _ _ _ (register_req _ _ _ _ _ _) db) as [db1 resp1].
  destruct (response_ok resp1) eqn:Hok; [|intro H; inversion H].
  intros _. destruct (Hreg eq_refl) as (fresh & Hemp & Hnot & Hbody).
  pose proof (login_unique_email db1 _ _ email password now2 Hemp Hnot eq_refl eq_refl eq_refl) as Hlog.
  destruct (serve _ _ _ _ _ (login_req _ _ _ _ _) db1) as [db2 resp2]. simpl in Hlog. subst resp2.
  cbn -[startLocationTracking toISOString]. rewrite start_tracking_screen, start_tracking_client.
  cbn -[toISOString].
  split; [reflexivity|]. split; [eexists; split; [exact Hemp | reflexivity] | split; reflexivity].
Qed.
End Register.

(** ** Examples and witnesses *)

(** Sunday 2024-01-07 at 10:00 UTC, on a UTC host: the report form
    proposes the week of 8 to 14 January, which has not started. *)
Example default_week_on_sunday :
  setDefaultDates 0 jan7_1000 =
    [("mileageStartDate", "2024-01-01"); ("mileageEndDate", "2024-01-31");
     ("timesheetStartDate", "2024-01-01"); ("timesheetEndDate", "2024-01-31");
     ("weekStart", "2024-01-08"); ("weekEnd", "2024-01-14")].
Proof. vm_compute. reflexivity. Qed.

(** The same moment in Central Europe (UTC+1): the benefit forms open on
    31 December and 30 January. *)
Example default_month_east :
  firstn 2 (setDefaultDates 3600000 jan7_1000) =
    [("mileageStartDate", "2023-12-31"); ("mileageEndDate", "2024-01-30")].
Proof. vm_compute. reflexivity. Qed.

Lemma setDefaultDates_week_witness :
  let ws := jan7_1000 + (1 - getDay 0 jan7_1000) * msPerDay in
  setDefaultDates 0 jan7_1000 =
    (month_fields 0 jan7_1000 ++ [("weekStart", iso_date ws); ("weekEnd", iso_date (ws + 6 * msPerDay))])%list /\
  getDay 0 ws = 1 /\ getDay 0 (ws + 6 * msPerDay) = 0 /\
  (ws <= jan7_1000 <= ws + 6 * msPerDay <-> getDay 0 jan7_1000 <> 0).
Proof. apply setDefaultDates_week. unfold jan7_1000. lia. Defined.

Lemma month_start_field_witness :
  let '(y, m, _) := civil_from_days (Day (LocalTime 3600000 jan7_1000)) in
  hd_error (setDefaultDates 3600000 jan7_1000) =
    Some ("mileageStartDate", date_string (MakeDay y (m - 1) 1 - (if 0 <? 3600000 then 1 else 0))).
Proof. apply month_start_field; [unfold msPerDay; lia | vm_compute; split; discriminate]. Defined.

Lemma register_then_login_witness :
  let srv := test_serve in
  let '(s1, db1) := handleRegister srv (fun _ => "0") None None "Bo" "bo@example.com" "s3cret" jan7_1000
                      (page_load demo_browser) ana_store in
  notice s1 = Some ("Account created! Please login.", "success") /\
  let '(s2, _) := handleLogin srv (fun _ => "0") None None "bo@example.com" "s3cret" jan7_1005 s1 db1 in
  screen s2 = "dashboard" /\
  (exists e, employees db1 = (employees ana_store ++ [e])%list /\
             jget (currentEmployee (client s2)) "_id" = JStr (emp_id e)) /\
  jget (currentEmployee (client s2)) "name" = JStr "Bo" /\
  jget (currentEmployee (client s2)) "email" = JStr "bo@example.com".
Proof.
  pose proof (register_then_login (ML := TestMath) 0 (fun _ => "") (fun _ => "0") (fun _ _ _ => false)
                (fun _ => no_jitter) None None ana_store (page_load demo_browser) "Bo" "bo@example.com"
                "s3cret" jan7_1000 jan7_1005) as H.
  unfold test_serve. vm_compute in H |- *. split; [reflexivity | apply H; reflexivity].
Defined.
