(* ===== verification/Reports.v ===== *)
(** * Reports: the report tab of [src/app.js]

    [generateWeeklyReport] (lines 639-660) and [exportData] (lines 693-714)
    read the two week fields, refuse empty ones, fetch
    [GET /api/export/weekly-report] and hand the parsed answer to
    [displayReportResults] (lines 662-691) or [displayExportResults]
    (lines 716-749). Neither looks at [response.ok]: an error answer has no
    [weekly_report] or [files], reading a property of [undefined] throws a
    [TypeError], and the [catch] shows the error notice. The report's
    figures are template-literal conversions of the parsed values; its
    date is [new Date(stats.generated_at).toLocaleString()], the server's
    [toISOString] text parsed back. *)

From Stdlib Require Import QArith ZArith Lia List String Ascii Bool.
From S2P Require Import Prelude JsValue Dates GeoDistance Store Http Documents Mileage Csv WeeklyReport Routes.
From S2P Require Import Priority Middleware Server Client Session Forms.
Import ListNotations.
Local Open Scope list_scope.
Local Open Scope string_scope.

(** The texts [displayReportResults] writes into the page. *)
Record ReportView : Type := mkReportView {
  rv_week_number : string;
  rv_total_employees : string;
  rv_total_tasks : string;
  rv_completed_tasks : string;
  rv_total_mileage : string;
  rv_generated : string
}.

Section ReportTab.
(** The server, the browser's [Number.prototype.toString] and
    [Date.prototype.toLocaleString] (on a time value or NaN), and the
    client's address and [User-Agent]. *)
Variable srv : Request -> Store -> Store * Response.
Variable number_to_string : Q -> string.
Variable toLocaleString : option Z -> string.
Variables (ip user_agent : option string).

Let str (v : json) : string := js_string number_to_string v.

(** [displayReportResults(report)]: [report.weekly_report.week_number]
    throws when [weekly_report] is [undefined] or [null]. *)
Definition displayReportResults (report : json) : result ReportView :=
  let stats := jget report "weekly_report" in
  match stats with
  | JUndefined | JNull => Throw "Cannot read properties of undefined (reading 'week_number')"
  | _ =>
      Ok (mkReportView (str (jget stats "week_number")) (str (jget stats "total_employees"))
            (str (jget stats "total_tasks")) (str (jget stats "completed_tasks"))
            (str (jget stats "total_mileage")) (toLocaleString (newDate (jget stats "generated_at"))))
  end.

(** [if (!weekStart || !weekEnd)] *)
Definition dates_missing (weekStart weekEnd : string) : bool :=
  String.eqb weekStart "" || String.eqb weekEnd "".

(** [generateWeeklyReport()]: the session's notice, the report written into
    the page if any, and the store. *)
Definition generateWeeklyReport (weekStart weekEnd : string) (now : Z) (s : Session) (db : Store)
  : Session * option ReportView * Store :=
  if dates_missing weekStart weekEnd then
    (showNotification "Please select both start and end dates" "error" s, None, db)
  else
    let '(db', (_, report)) := fetch srv (report_req ip user_agent weekStart weekEnd now) db in
    match displayReportResults report with
    | Ok v => (showNotification "Weekly report generated!" "success" s, Some v, db')
    | Throw _ => (showNotification "Error generating report" "error" s, None, db')
    end.

(** [displayExportResults(files)]: each of the three CSV texts is split,
    shown and escaped; anything but a string there throws. *)
Definition displayExportResults (files : json) : result (list nat) :=
  match files with
  | JUndefined | JNull => Throw "Cannot read properties of undefined (reading 'tasks')"
  | _ =>
      if forallb (fun k => match jget files k with JStr _ => true | _ => false end)
           ["tasks"; "locations"; "logs"]
      then Ok (export_counts number_to_string files)
      else Throw "Cannot read properties of undefined (reading 'split')"
  end.

(** [exportData()]: the notice, the record counts shown, and the store. *)
Definition exportData (weekStart weekEnd : string) (now : Z) (s : Session) (db : Store)
  : Session * option (list nat) * Store :=
  if dates_missing weekStart weekEnd then
    (showNotification "Please select both start and end dates" "error" s, None, db)
  else
    let '(db', (_, report)) := fetch srv (report_req ip user_agent weekStart weekEnd now) db in
    match displayExportResults (jget report "files") with
    | Ok counts => (showNotification "Data exported successfully!" "success" s, Some counts, db')
    | Throw _ => (showNotification "Error exporting data" "error" s, None, db')
    end.
End ReportTab.

(** ** Lemmas and theorems *)

Section ReportLaws.
Context `{ML : MathLib}.
Variables (tza : Z) (toLocaleDateString : Z -> string) (number_to_string : Q -> string).
Variable other_op : string -> json -> option string -> bool.
Variable rnd : Request -> Randomness.
Variable toLocaleString : option Z -> string.
Variables (ip user_agent : option string).

Lemma weekly_report_ok db now a b st en :
  report_window tza a b = Some (st, en) ->
  let d := report_data db st en in
  let summary := weekly_summary tza d st en now in
  weekly_report_route tza number_to_string db now a b =
    (db, res_json (JObj [("weekly_report", summary); ("files", report_files number_to_string d summary);
                         ("message", JStr "Weekly report generated successfully")])).
Proof.
  unfold report_window. intro Hw. unfold weekly_report_route, run_route, get_weekly_report.
  destruct (window_dates tza a b) as [[s'|] [e'|]]; try discriminate. injection Hw as <- <-. reflexivity.
Qed.

Lemma serve_report_req ws we now db :
  serve tza toLocaleDateString number_to_string other_op rnd (report_req ip user_agent ws we now) db =
  weekly_report_route tza number_to_string db now (JStr ws) (JStr we).
Proof.
  unfold serve, handler, report_req, client_request. cbn -[weekly_report_route].
  destruct (weekly_report_route _ _ _ _ _ _). reflexivity.
Qed.

(** C31. The report tab shows the server's summary: for two non-empty
    week fields that [new Date] reads, [generateWeeklyReport] receives the
    report of the window [startDate, endDate] and shows its week label,
    the active employees, the window's tasks, the completed ones among
    them and the window's mileage, with the generation time the server's
    [toISOString] text carries back, and says 'Weekly report generated!';
    the store is unchanged. *)
Theorem report_shows_summary (db : Store) (ws we : string) (now : Z) (s : Session) (st en : Z) :
  ws <> "" -> we <> "" ->
  report_window tza (JStr ws) (JStr we) = Some (st, en) ->
  (-719528 <= Day now <= 2932896)%Z ->
  let d := report_data db st en in
  generateWeeklyReport (serve tza toLocaleDateString number_to_string other_op rnd) number_to_string
    toLocaleString ip user_agent ws we now s db =
    (showNotification "Weekly report generated!" "success" s,
     Some (mkReportView (week_number tza st)
             (number_to_string (inject_Z (Z.of_nat (List.length (rd_employees d)))))
             (number_to_string (inject_Z (Z.of_nat (List.length (rd_tasks d)))))
             (number_to_string (inject_Z (Z.of_nat (List.length (filter is_completed (rd_tasks d))))))
             (calculateTotalMileage (rd_locations d))
             (toLocaleString (Some now))),
     db).
Proof.
  intros Hws Hwe Hw Hday d. unfold generateWeeklyReport, dates_missing.
  apply String.eqb_neq in Hws, Hwe. rewrite Hws, Hwe. cbn [orb].
  unfold fetch. rewrite serve_report_req, (weekly_report_ok db now _ _ st en Hw).
  cbn -[toISOString week_number calculateTotalMileage report_files].
  rewrite date_parse_toISOString by (apply civil_year_bounds; exact Hday). reflexivity.
Qed.

Lemma weekly_report_bad_window db now a b :
  report_window tza a b = None ->
  exists m, weekly_report_route tza number_to_string db now a b = (db, res_error 500 m).
Proof.
  unfold report_window. intro Hw. unfold weekly_report_route, run_route, get_weekly_report.
  destruct (window_dates tza a b) as [[s'|] [e'|]]; try discriminate; eexists; reflexivity.
Qed.

(** A week field the server cannot read ends in the error notice: the
    answer is [{ error }] with status 500, which the client parses without
    looking at the status; reading [weekly_report.week_number] throws, and
    the page shows 'Error generating report' and no report. *)
Theorem report_bad_date_error (db : Store) (ws we : string) (now : Z) (s : Session) :
  ws <> "" -> we <> "" -> report_window tza (JStr ws) (JStr we) = None ->
  generateWeeklyReport (serve tza toLocaleDateString number_to_string other_op rnd) number_to_string
    toLocaleString ip user_agent ws we now s db =
    (showNotification "Error generating report" "error" s, None, db).
Proof.
  intros Hws Hwe Hw. unfold generateWeeklyReport, dates_missing.
  apply String.eqb_neq in Hws, Hwe. rewrite Hws, Hwe. cbn [orb].
  destruct (weekly_report_bad_window db now _ _ Hw) as [m Hm].
  unfold fetch. rewrite serve_report_req, Hm. reflexivity.
Qed.
End ReportLaws.

Local Open Scope Z_scope.

(** Day number of an instant moved by whole days. *)
Lemma Day_shift t k : Day (t + k * msPerDay) = Day t + k.
Proof. unfold Day. apply Z.div_add. unfold msPerDay. lia. Qed.

Lemma Day_midnight k : Day (k * msPerDay) = k.
Proof. unfold Day. apply Z.div_mul. unfold msPerDay. lia. Qed.

(** The instant of a day's date field, read back by the server. *)
Lemma iso_date_parse t :
  -719528 <= Day t <= 2932896 -> newDate (JStr (iso_date t)) = Some (Day t * msPerDay).
Proof.
  intro H. pose proof (civil_year_bounds (Day t) H) as Hy.
  simpl. rewrite (iso_date_day t Hy). apply date_string_roundtrip. exact Hy.
Qed.

(** On a host and a browser at UTC, the report form's default week reaches
    the server as the window from a Monday 00:00 to the next Sunday
    23:59:59.999: the week holding [today] from Monday to Saturday, and on
    a Sunday a window that starts after [today], so that nothing recorded
    up to the moment of the report falls into it. *)
Theorem default_week_report_window (today : Z) :
  0 <= today <= 250000000000000 ->
  let start := (Day today + 1 - getDay 0 today) * msPerDay in
  exists weekStart weekEnd,
    setDefaultDates 0 today = (month_fields 0 today ++ [("weekStart", weekStart); ("weekEnd", weekEnd)])%list /\
    report_window 0 (JStr weekStart) (JStr weekEnd) = Some (start, start + 7 * msPerDay - 1) /\
    (getDay 0 today = 0 -> today < start) /\
    (getDay 0 today <> 0 -> start <= today < start + 7 * msPerDay).
Proof.
  intros H start. destruct (default_week_moves 0 today ltac:(lia)) as (H1 & _ & H3).
  pose proof (getDay_range 0 today) as Hr.
  set (ws := today + (1 - getDay 0 today) * msPerDay) in *.
  assert (Hws : Day ws = Day today + 1 - getDay 0 today) by (unfold ws; rewrite Day_shift; ring).
  assert (Hwe : Day (ws + 6 * msPerDay) = Day ws + 6) by apply Day_shift.
  assert (Hd : 0 <= Day today <= 2893519) by (unfold Day, msPerDay; split; [apply Z.div_pos | apply Z.div_le_upper_bound]; lia).
  exists (iso_date ws), (iso_date (ws + 6 * msPerDay)). split.
  - unfold setDefaultDates. rewrite H1, H3. reflexivity.
  - unfold report_window, window_dates. rewrite !iso_date_parse by lia.
    rewrite Hwe, Hws. unfold end_of_day, setHours, LocalTime, UTC, MakeDate, MakeTime.
    rewrite Z.add_0_r, Day_midnight.
    rewrite TimeClip_in_range by (unfold msPerDay; lia).
    unfold start. split; [f_equal; f_equal; unfold msPerDay; lia|].
    unfold getDay, WeekDay, LocalTime in *. rewrite Z.add_0_r in *.
    unfold Day, msPerDay in *. pose proof (Z.div_mod today 86400000 ltac:(lia)).
    pose proof (Z.mod_pos_bound today 86400000 ltac:(lia)). split; intro; nia.
Qed.


(** ** Examples and witnesses *)

(** Sunday 2024-01-07 10:00 UTC: the default week sent to the server is
    the window of 8 to 14 January, which starts after the report. *)
Example default_week_report_on_sunday :
  report_window 0 (JStr "2024-01-08") (JStr "2024-01-14") =
    Some (1704672000000, 1705276799999) /\ jan7_1000 < 1704672000000.
Proof. vm_compute. split; reflexivity. Qed.

Lemma report_shows_summary_witness :
  let d := report_data two_employees_store 1704067200000 1704671999999 in
  generateWeeklyReport (serve (ML := TestMath) 0 (fun _ => "") (fun _ => "0") (fun _ _ _ => false)
                          (fun _ => no_jitter))
    (fun _ => "0") (fun _ => "") None None "2024-01-01" "2024-01-07" jan7_1000 demo_logged_in
    two_employees_store =
    (showNotification "Weekly report generated!" "success" demo_logged_in,
     Some (mkReportView (week_number 0 1704067200000)
             ((fun _ => "0") (inject_Z (Z.of_nat (List.length (rd_employees d)))))
             ((fun _ => "0") (inject_Z (Z.of_nat (List.length (rd_tasks d)))))
             ((fun _ => "0") (inject_Z (Z.of_nat (List.length (filter is_completed (rd_tasks d))))))
             (calculateTotalMileage (ML := TestMath) (rd_locations d))
             ((fun _ => "") (Some jan7_1000))),
     two_employees_store).
Proof.
  apply (report_shows_summary (ML := TestMath));
    [discriminate | discriminate | vm_compute; reflexivity | vm_compute; split; discriminate].
Defined.
