(* ===== verification/Benefits.v ===== *)
(** * Benefits: the mileage, timesheet and cleanup actions of [src/app.js], whole

    [calculateMileage()] (lines 388-417), [calculateTimesheet()] (lines
    419-456) and [cleanupData()] (lines 768-804) share one shape. They read
    two date fields and return early with a notice when one is empty.
    [cleanupData] then asks [confirm(...)] and returns when it is declined.
    Then [this.showLoading(true)], a [try] around the [fetch], the parsed
    answer and the page update, a [catch] that shows the action's error
    notice, and [this.showLoading(false)] after both.

    [Client] has the requests and the texts these actions write. This file
    has the actions themselves, against a network that may fail: [Net]
    runs a request on the server, or loses it. [None] is a [fetch] that
    rejects, before or after the server ran. [showLoading] (lines 835-842)
    toggles the [loading] class of [#app]. The URL of the mileage and
    timesheet requests reads [this.currentEmployee.id] first
    ([fetch_employee]): with no employee set that read throws into the
    [catch] before any request is sent.

    The theorems show three things. The loading class never outlives an
    action that set it, on every network. When the network fails, each
    action shows its own error notice and leaves its panel. The cleanup
    tab deletes the week through the server's route exactly when the
    dialog is accepted, and reports the server's counts. Since the page
    sends [backup_confirmed: true] after the dialog alone, a fix tracked
    between the export and the cleanup of the week is deleted without
    having been exported. *)

From Stdlib Require Import QArith ZArith Lia List String Ascii Bool.
From S2P Require Import Prelude JsValue Dates GeoDistance Store Http Documents Mileage Csv WeeklyReport.
From S2P Require Import Cleanup Routes Priority Middleware Server Client Session Safety Dashboard Tasks Reports.
Import ListNotations.
Local Open Scope list_scope.
Local Open Scope string_scope.

(** The parts of the page these actions write, besides the notice. *)
Record Panels : Type := mkPanels {
  loading : bool;                         (** [#app] has the class [loading] *)
  mileageResults : option (list string);  (** [#mileageResults]: the markup, or the texts written *)
  timesheetResults : option (list string) (** [#timesheetResults] *)
}.

(** [showLoading(show)]: [classList.add('loading')] or [remove]. *)
Definition showLoading (show : bool) (p : Panels) : Panels :=
  mkPanels show (mileageResults p) (timesheetResults p).

Definition set_mileage (texts : list string) (p : Panels) : Panels :=
  mkPanels (loading p) (Some texts) (timesheetResults p).

Definition set_timesheet (texts : list string) (p : Panels) : Panels :=
  mkPanels (loading p) (mileageResults p) (Some texts).

Definition missing_dates_msg : string := "Please select both start and end dates".

Section Actions.
Variable net : Net.
Variable number_to_string : Q -> string.
Variables (ip user_agent : option string).

(** [fetch(`/api/.../${this.currentEmployee.id}...`)]: the URL is built
    first, and reading [.id] of a [null] employee (after a logout) throws
    before any request is sent. *)
Definition fetch_employee (c : Client) (r : Request) (db : Store) : Store * result (bool * json) :=
  match prop (currentEmployee c) "id" with
  | Throw m => (db, Throw m)
  | Ok _ => fetch_net net r db
  end.

(** [calculateMileage()]: the template reads [data.reimbursement] first,
    which throws when the parsed answer is [null]. *)
Definition calculateMileage (startDate endDate : string) (now : Z) (s : Session) (p : Panels) (db : Store)
  : Session * Panels * Store :=
  if dates_missing startDate endDate then (showNotification missing_dates_msg "error" s, p, db)
  else
    let p1 := showLoading true p in
    let '(db', a) :=
      fetch_employee (client s) (mileage_req number_to_string ip user_agent (client s) startDate endDate now) db in
    let '(s', p2) :=
      catch (let* r := a in
             let* _ := prop (snd r) "reimbursement" in
             Ok (s, set_mileage (mileage_display number_to_string (snd r)) p1))
        (fun _ => (showNotification "Error calculating mileage" "error" s, p1)) in
    (s', showLoading false p2, db').

(** [calculateTimesheet()]: the template reads [data.totalPay] first. *)
Definition calculateTimesheet (startDate endDate : string) (now : Z) (s : Session) (p : Panels) (db : Store)
  : Session * Panels * Store :=
  if dates_missing startDate endDate then (showNotification missing_dates_msg "error" s, p, db)
  else
    let p1 := showLoading true p in
    let '(db', a) :=
      fetch_employee (client s) (timesheet_req number_to_string ip user_agent (client s) startDate endDate now) db in
    let '(s', p2) :=
      catch (let* r := a in
             let* _ := prop (snd r) "totalPay" in
             Ok (s, set_timesheet (timesheet_display number_to_string (snd r)) p1))
        (fun _ => (showNotification "Error calculating timesheet" "error" s, p1)) in
    (s', showLoading false p2, db').

(** The notice of an answered cleanup: on [response.ok] the template reads
    [result.deleted.tasks] first, otherwise [result.error]. *)
Definition cleanup_outcome (ok : bool) (result : json) : Prelude.result (string * string) :=
  if ok then
    let* deleted := prop result "deleted" in
    let* _ := prop deleted "tasks" in
    Ok (cleanup_display number_to_string true result, "success")
  else
    let* _ := prop result "error" in
    Ok (cleanup_display number_to_string false result, "error").

(** [cleanupData()], with [confirmed] the answer to its [confirm] dialog. *)
Definition cleanupData (weekStart weekEnd : string) (confirmed : bool) (now : Z) (s : Session) (p : Panels)
    (db : Store) : Session * Panels * Store :=
  if dates_missing weekStart weekEnd then (showNotification missing_dates_msg "error" s, p, db)
  else if negb confirmed then (s, p, db)
  else
    let p1 := showLoading true p in
    let '(db', a) := fetch_net net (cleanup_req ip user_agent weekStart weekEnd now) db in
    let s' :=
      catch (let* r := a in
             let* n := cleanup_outcome (fst r) (snd r) in
             Ok (showNotification (fst n) (snd n) s))
        (fun _ => showNotification "Error during cleanup" "error" s) in
    (s', showLoading false p1, db').
End Actions.

(** ** Lemmas *)

(** A week whose two fields parse has no empty field. *)
Lemma report_window_filled tza a b w :
  report_window tza (JStr a) (JStr b) = Some w -> dates_missing a b = false.
Proof.
  unfold dates_missing. destruct a as [|c a]; [discriminate|].
  destruct b as [|d b]; [unfold report_window, window_dates; simpl; destruct (date_parse (String c a)); discriminate|].
  reflexivity.
Qed.

(** Case analysis on every [if], [let '(_, _)] and [match] of an action. *)
Ltac action_cases :=
  repeat (cbn [catch bind fst snd];
          match goal with
          | |- context [fetch_net ?n ?r ?d] => destruct (fetch_net n r d) as [? [?|?]]
          | |- context [prop ?v ?k] => destruct (prop v k)
          end).

Section Laws.
Variable net : Net.
Variable number_to_string : Q -> string.
Variables (ip user_agent : option string).

(** C7. The loading class never outlives an action: on every network,
    delivering, losing or failing each request, [calculateMileage],
    [calculateTimesheet] and [cleanupData] end with [#app] not loading
    once they set it, and leave it as it was when they returned early (an
    empty date field, a declined dialog). Each writes no panel but its
    own. *)
Theorem actions_clear_loading (a b : string) (confirmed : bool) (now : Z) (s : Session) (p : Panels)
    (db : Store) :
  let started := negb (dates_missing a b) in
  let pm := snd (fst (calculateMileage net number_to_string ip user_agent a b now s p db)) in
  let pt := snd (fst (calculateTimesheet net number_to_string ip user_agent a b now s p db)) in
  let pc := snd (fst (cleanupData net number_to_string ip user_agent a b confirmed now s p db)) in
  loading pm = (if started then false else loading p) /\ timesheetResults pm = timesheetResults p /\
  loading pt = (if started then false else loading p) /\ mileageResults pt = mileageResults p /\
  loading pc = (if started && confirmed then false else loading p) /\
  mileageResults pc = mileageResults p /\ timesheetResults pc = timesheetResults p.
Proof.
  cbv zeta. unfold calculateMileage, calculateTimesheet, cleanupData, fetch_employee.
  destruct (dates_missing a b); [repeat split|]. destruct confirmed; cbn [negb andb].
  all: action_cases; repeat split.
Qed.

End Laws.

Section CleanupTab.
Context `{ML : MathLib}.
Variables (tza : Z) (toLocaleDateString : Z -> string) (number_to_string : Q -> string).
Variable other_op : string -> json -> option string -> bool.
Variable rnd : Request -> Randomness.
Variables (ip user_agent : option string).

(** The page's cleanup request reaches the route with [backup_confirmed:
    true] and the two week fields: the route deletes the week, and the
    middleware's log touches no task, location or employee. *)
Lemma serve_cleanup_req (a b : string) (s e now : Z) (db : Store) :
  report_window tza (JStr a) (JStr b) = Some (s, e) ->
  let '(db', resp) := serve tza toLocaleDateString number_to_string other_op rnd
                        (cleanup_req ip user_agent a b now) db in
  tasks db' = tasks (cleanup_store db s e) /\ locations db' = locations (cleanup_store db s e) /\
  employees db' = employees db /\
  resp = res_json (JObj [("message", JStr "Weekly data cleanup completed");
                         ("deleted", cleanup_counts db s e)]).
Proof.
  intro Hw. unfold serve, handler, cleanup_req, client_request. cbn -[cleanup_route log_request].
  rewrite (cleanup_route_window tza db (JObj [("week_start", JStr a); ("week_end", JStr b);
                                          ("backup_confirmed", JBool true)]) s e eq_refl Hw).
  rewrite log_request_tasks, log_request_locations, log_request_employees. repeat split.
Qed.
(** C6. The dialog is the cleanup's only guard: the page always sends
    [backup_confirmed: true]. For two week fields the server reads, a
    declined dialog sends nothing and changes nothing. An accepted one
    makes the server delete the week's completed tasks and its locations,
    keep every employee, clear the loading class, and show the three counts
    the route deleted. *)
Theorem cleanup_tab_deletes_week (a b : string) (s e now : Z) (st : Session) (p : Panels) (db : Store) :
  report_window tza (JStr a) (JStr b) = Some (s, e) ->
  let srv := reliable (serve tza toLocaleDateString number_to_string other_op rnd) in
  cleanupData srv number_to_string ip user_agent a b false now st p db = (st, p, db) /\
  let '(st', p', db') := cleanupData srv number_to_string ip user_agent a b true now st p db in
  tasks db' = tasks (cleanup_store db s e) /\ locations db' = locations (cleanup_store db s e) /\
  employees db' = employees db /\ loading p' = false /\
  notice st' =
    Some ("Cleanup completed! Deleted: " ++
          number_to_string (inject_Z (Z.of_nat (List.length (filter (task_deleted s e) (tasks db))))) ++
          " tasks, " ++
          number_to_string (inject_Z (Z.of_nat (List.length (filter (loc_in_window s e) (locations db))))) ++
          " locations, " ++
          number_to_string (inject_Z (Z.of_nat (List.length (filter (log_in_window s e) (logs db))))) ++
          " logs", "success").
Proof.
  intros Hw srv. unfold cleanupData. rewrite (report_window_filled tza a b _ Hw).
  split; [reflexivity|]. unfold srv. rewrite fetch_net_reliable. unfold fetch.
  pose proof (serve_cleanup_req a b s e now db Hw) as H.
  destruct (serve _ _ _ _ _ _ db) as [db' resp]. destruct H as (Ht & Hl & He & ->).
  repeat split; assumption.
Qed.
(** C17. The cleanup trusts the flag alone, and a fix tracked between the
    export and the cleanup is lost. Take any store and a week whose fields
    the server reads. The export of the week holds the window's fixes of
    that store. The page then posts a fix stamped inside the week
    ([updateLocation], as every session's employee has no [id]), and the
    server stores it. The cleanup the page sends afterwards deletes it. So
    the fix is in neither the export nor the store. The hypothesis on the
    fresh id stands for MongoDB's unique ObjectIds. *)
Theorem export_then_cleanup_loses_fix (c : Client) (lat lng acc : Q) (a b : string) (s e now2 now3 : Z)
    (db : Store) :
  report_window tza (JStr a) (JStr b) = Some (s, e) ->
  jget (currentEmployee c) "id" = JUndefined ->
  id_taken (oid_of_N (next_oid db)) (map loc_id (locations db)) = false ->
  in_window s e now2 = true ->
  let l := mkLocation (oid_of_N (next_oid db)) None (NNum lat) (NNum lng) (Some acc) None (Some now2) in
  let db1 := fst (serve tza toLocaleDateString number_to_string other_op rnd
                    (location_req ip user_agent c lat lng acc now2) db) in
  ~ In l (rd_locations (report_data db s e)) /\ In l (locations db1) /\
  ~ In l (locations (fst (serve tza toLocaleDateString number_to_string other_op rnd
                            (cleanup_req ip user_agent a b now3) db1))).
Proof.
  intros Hw Hid Hfree Hnow l db1.
  assert (Hdb1 : locations db1 = (locations db ++ [l])%list)
    by exact (serve_anonymous_fix tza toLocaleDateString number_to_string other_op rnd ip user_agent
                c lat lng acc now2 db Hid Hfree).
  split; [|split].
  - intro Hin. cbn [report_data rd_locations] in Hin. unfold find_locations_window in Hin.
    apply filter_In in Hin as [Hin _]. apply (id_taken_false _ _ Hfree).
    apply (in_map loc_id) in Hin. exact Hin.
  - rewrite Hdb1. apply in_or_app. right. left. reflexivity.
  - pose proof (serve_cleanup_req a b s e now3 db1 Hw) as H.
    destruct (serve _ _ _ _ _ _ db1) as [db2 resp]. destruct H as (_ & Hl & _). cbn [fst]. rewrite Hl.
    unfold cleanup_store. cbn [locations]. intro Hin. apply filter_In in Hin as [_ Hin].
    unfold loc_in_window, opt_in_window in Hin. cbn in Hin. rewrite Hnow in Hin. discriminate.
Qed.
End CleanupTab.

(** ** Witnesses *)


Lemma cleanup_tab_deletes_week_witness :
  report_window 0 (JStr "2024-01-01") (JStr "2024-01-07") = Some (1704067200000, 1704671999999)%Z /\
  let srv := reliable test_serve in
  cleanupData srv (fun _ => "0") None None "2024-01-01" "2024-01-07" false jan7_1000 demo_logged_in
    (mkPanels false None None) ana_store = (demo_logged_in, mkPanels false None None, ana_store) /\
  let '(st', p', db') := cleanupData srv (fun _ => "0") None None "2024-01-01" "2024-01-07" true jan7_1000
                           demo_logged_in (mkPanels false None None) ana_store in
  tasks db' = tasks (cleanup_store ana_store 1704067200000 1704671999999) /\
  locations db' = locations (cleanup_store ana_store 1704067200000 1704671999999) /\
  employees db' = employees ana_store /\ loading p' = false /\
  notice st' = Some ("Cleanup completed! Deleted: " ++ "0" ++ " tasks, " ++ "0" ++ " locations, " ++ "0" ++
                     " logs", "success").
Proof.
  split; [reflexivity|].
  exact (cleanup_tab_deletes_week (ML := TestMath) 0 (fun _ => "") (fun _ => "0") (fun _ _ _ => false)
           (fun _ => no_jitter) None None "2024-01-01" "2024-01-07" 1704067200000 1704671999999 jan7_1000
           demo_logged_in (mkPanels false None None) ana_store eq_refl).
Defined.

(** Ana's week: the export on her store, a fix she tracks on 7 January at
    10:05, and the cleanup at 10:10. *)
Lemma export_then_cleanup_loses_fix_witness :
  report_window 0 (JStr "2024-01-01") (JStr "2024-01-07") = Some (1704067200000, 1704671999999)%Z /\
  jget (currentEmployee (client demo_logged_in)) "id" = JUndefined /\
  id_taken (oid_of_N (next_oid ana_store)) (map loc_id (locations ana_store)) = false /\
  in_window 1704067200000 1704671999999 jan7_1005 = true /\
  let l := mkLocation (oid_of_N (next_oid ana_store)) None (NNum (40758 # 1000)) (NNum (- (73985 # 1000)))
             (Some 10%Q) None (Some jan7_1005) in
  let db1 := fst (test_serve (location_req None None (client demo_logged_in) (40758 # 1000) (- (73985 # 1000))
                                10 jan7_1005) ana_store) in
  ~ In l (rd_locations (report_data ana_store 1704067200000 1704671999999)) /\ In l (locations db1) /\
  ~ In l (locations (fst (test_serve (cleanup_req None None "2024-01-01" "2024-01-07" jan7_1010) db1))).
Proof.
  split; [reflexivity|]. split; [reflexivity|]. split; [reflexivity|]. split; [reflexivity|].
  exact (export_then_cleanup_loses_fix (ML := TestMath) 0 (fun _ => "") (fun _ => "0") (fun _ _ _ => false)
           (fun _ => no_jitter) None None (client demo_logged_in) (40758 # 1000) (- (73985 # 1000)) 10
           "2024-01-01" "2024-01-07" 1704067200000 1704671999999 jan7_1005 jan7_1010 ana_store
           eq_refl eq_refl eq_refl eq_refl).
Defined.
